(* ===== verification/_CoqProject ===== *)
-Q . S2P
Prelude.v
Forest.v
Labeler.v
Components.v
Scenarios.v
Strings.v
Engine.v
Sql.v
Store.v
Geodatabase.v
Export.v
Functions.v
Logger.v
Tests.v
