(* ===== verification/Prelude.v ===== *)
(** * mygeodb: a verification development

    The repository is a small Python package around a spatial SQLite
    database.  It has three modules and a test suite:

    - [src/graph.py], class [connectedComponentsLabeler]: the connected
      components of a table of edges, by a forest of parent pointers
      with path compression.  The specification of the repository is
      about this class.
    - [src/geodatabase.py], class [Geodatabase]: thirty-two methods that
      send statements to SQLite with the SpatiaLite extension, load and
      export tables through pandas, and run the labeller on a table.
    - [src/functions.py]: [download], [unzip] and [getLogger].
    - [src/testGeodatabase.py]: the unit tests of [Geodatabase], one
      [unittest.TestCase] with a fixture and twenty-two tests.

    The methods of [Geodatabase] meet the database only through the
    texts they send and the frames they get back; the tests meet it
    through the methods and through texts of their own.  The
    development follows that: the methods and the tests are programs
    over an interface ([Engine]), their theorems are proved against the
    interface, and one reference engine ([Store.v]) discharges it and
    runs the tests.

    ** The files

    - [Prelude.v] (this file): how Python is modelled.  Exceptions are
      values of [error]; a method is a [prog S A], a function from the
      state to a result and the state it leaves, so that an exception
      keeps the writes made before it.  Loops ([for_], [for_collect]),
      lists and dictionaries with the errors of Python ([getitem],
      [setitem], [dict_getitem], [list_remove]), and the predicates on
      methods with their laws: [preserves part m] (a part of the state
      is left as found), [unchanged m], [reads part m] (result and
      effect on the part depend on the part alone), [hoare P m Q] (a
      method under a precondition, with its rule of sequence) and
      [keeps P part m] (the part is left as found when it meets [P]).
      Graphs of edges and connectivity ([edge_rel], [connected],
      [same_graph]).  The hint database [py] and the tactics
      [preserves_tac], [run_bind] and [prog_inv] do the routine steps of
      every file.
    - [Forest.v]: parent-pointer forests as mathematics: the root of a
      node ([root_of], executable as [rep]), well-formedness, depth,
      flatness, the number of trees.  Nothing of Python; it is what the
      methods of the labeller are proved against.
    - [Labeler.v]: [connectedComponentIdentifier], [link] and
      [simplifyForest] of [src/graph.py], on the state [self.forest],
      with the reference definitions [compress], [union] and [flatten].
      Theorems: each method computes its reference and keeps the forest
      well formed; find fails with [RecursionError] exactly when the
      stack is shorter than the path; a link lowers the number of trees
      by one or by nothing; flattening is idempotent.
    - [Components.v]: the constructor [__init__] (numbering of the keys
      through the class attributes [hash2seq] and [seq2hash], initial
      forest, one link per row) and [getConnectedCompontents] with the
      table it returns.  The class attributes are one store shared by
      all instances, as in the source.  The order in which Python
      enumerates a set is a parameter, the class [PySet].  The keys are
      of any type with a decidable equality: a key equals itself, which
      NaN does not (see [frame_edges] below).  Theorems: the
      constructor establishes the invariants of the structure; the
      table is a labelling of the connected components of the edges
      ([is_labelling]); the computation returns when the stack holds as
      many frames as there are keys; the partition depends on the
      undirected graph only; instances do not interfere, although the
      shared dictionaries are never cleared; [RecursionError] is the
      only exception.
    - [Scenarios.v]: the scenarios of the specification, evaluated.
      The chain of 1000 nodes is labelled with 1000 frames or more for
      the recursive method and raises [RecursionError] with fewer, the
      default limit of CPython included.
    - [Strings.v]: the string methods the code calls ([upper], [lower],
      [ljust], [replace], [join], [split_on], [strip], [format] with
      named fields) and [int] of a string ([int_of_string]), on ASCII.
    - [Engine.v]: what the code sees of SQLite, SpatiaLite and pandas.
      Values, rows and frames; the statements the class sends as the
      type [statement] with their text [sql], in which the names of
      tables and columns stand unquoted as the f-strings of the source
      put them; the class [Engine], the interface of the connection.
      Its two laws hold for names that are identifiers and no
      keywords ([is_name]): a
      statement that only reads ([reads_only]) leaves the database as
      it was, and a table written with [replace] is what a select of all
      its rows returns.  A database is [tidy] when the names it lists
      are identifiers.  The world of a method is the database, the
      operating system (files, read-only paths, the log, the standard
      output; [file_system] is the part the files make up) and the
      class attributes of the labeller.  The operations of pandas and
      of the standard library that the code calls are here as well:
      the cast [astype_int], the index of a frame ([set_index],
      [indexed_frame]), the edges of a frame ([frame_edges]), files and
      archives ([write_file], [write_zip], [extractall]).
    - [Sql.v]: the texts read back.  A lexer that is one machine
      stepping over the characters ([next], [scan], [lex]), the syntax
      of the statements that the class and the tests send ([command]),
      a parser by recursive descent ([parse], [parse_script]), and
      [meaning], the statement that each text of the class is meant to
      be.  Theorem: the text of a statement parses to its meaning when
      the names in it are identifiers; a name that is none changes the
      statement.
    - [Store.v]: the reference engine, an instance of [Engine] that
      interprets: relations with their declared types and primary key,
      [CREATE TABLE], [INSERT], [UPDATE], [DROP TABLE], [ATTACH], and
      [SELECT] with [WHERE], [GROUP BY] and [LIMIT], the counting
      functions, [sqlite_master] and [pragma_table_info], the listing
      that [getListOfTables] asks for ([list_of_tables]), the table
      [geometry_columns] with the functions of SpatiaLite that keep it
      ([RecoverGeometryColumn], [CreateSpatialIndex], [dropTable],
      [ImportSHP]), and the reader of csv.  A geometry is its text with
      its SRID; which texts are valid and what [MakeValid] makes of an
      invalid one is data of the store ([repairs]).  A store may hold
      fixed answers by text, which go before computation.  Both laws
      are proved, and [tidyb] decides tidiness.
    - [Geodatabase.v]: every method of [Geodatabase] except the two
      exports, one definition each under the name of the method, for
      any engine.  Theorems, all against the interface: the describing
      methods change nothing when names are identifiers and the
      database is tidy; [checksForTable], the spatial indexes,
      [correctGeometry], [recoverGeometry] and [dropTable] on each of
      their branches; [tableExists] answers by the spelling of the
      name; [reproject] and [executeScript] on their error paths;
      [loadCsv] on a file that cannot be read, and what it leaves in
      the table;
      [findConnectedComponents] returns a labelling of the components of
      the edges it read and leaves it in the output table, it returns
      whenever the labeller has stack enough, and it raises [KeyError]
      on a frame with NaN.
    - [Export.v]: [toCsv] and [toSas]: the csv text, the zip archive
      and the SAS program, each as a function of what the engine
      answers.
    - [Functions.v]: [download] and [unzip] on the files of the
      operating system, with the server as a parameter.  Theorems:
      [download] in each outcome of the request, and what it leaves of
      the destination.
    - [Logger.v]: [getLogger]: the root logger with its level and its
      handlers, and what a record becomes once they are configured.
      Theorems: one call makes every record of level [INFO] or above
      appear once on the standard output and once in the log file, and
      a record of level [DEBUG] nowhere; [n] calls make a record appear
      [n] times.
    - [Tests.v]: [src/testGeodatabase.py]: the assertions of [unittest],
      the fixture ([setUp], [tearDown]), the twenty-two tests under
      their names, and the runner ([run_test], [unittest_main]).
      Theorem: [test_executeScript] ends with [FileNotFoundError] on
      every engine.  Examples, evaluated on the reference engine: the
      outcome of every test, and what some tests do not see.

    ** How Python is modelled

    - A list is a [list]; [l[i]] is [getitem] and [l[i] = v] is
      [setitem], both raising [IndexError] out of range (only indices
      that are not negative occur in the code).  A [dict] is a [gmap],
      or an association list where the order of insertion is observed
      ([Export.v]); [d[k]] is [dict_getitem], raising [KeyError].
    - An optional argument is an [option]; [not s] for a string or
      [None] is [not_given].  A value read from the database is a
      [value]: NULL, an integer or a text; comparing it with a number
      or calling a string method on it raises as Python does.
    - A frame of pandas is a [table], the names of its columns and its
      rows.  A frame read with [index_col] is an [indexed_frame]: the
      index apart from the columns that are left.  For the frames of
      [getListOfTables] and [getListOfColumns], whose index the code
      reads by name only, the index is kept as the column of its name.
      [astype(int)] converts: an integer stays, a text is read as
      [int] reads it, a missing value raises.  pandas holds a column of
      integers with a value missing as floating point numbers, the
      missing value being NaN: [numeric] says which columns those are,
      and NaN is the [Null] of such a column.
    - [extractall] of an archive writes the members one after the
      other below the directory, a member named with [..] included,
      skips the directories, and fails where a file cannot be written,
      the members before it staying extracted.
    - An f-string is a concatenation.  The texts of the statements and
      of the exceptions, which the source spreads over several lines,
      are written with one space for each run of white space; the texts
      of the csv files and of the script of the tests are kept to the
      character.
    - [logging.info] and its siblings append a record to the log of the
      operating system; [print] appends to the standard output.  The
      levels are the five of the library.
    - An assertion of [unittest] that fails raises [AssertionError];
      the runner reports [ok], [FAIL] or [ERROR] with the exception.

    ** Bounds and fuel

    - The stack of Python is the argument [depth] of the recursive
      method [connectedComponentIdentifier]: the number of frames it
      may still use.  Running out is [RecursionError], and every
      theorem of success says which depth is enough: more than the
      depth of the node for one call, the number of distinct keys for
      the whole computation ([connectedComponents_total]).  The tests
      run with the default limit of CPython, 1000.
    - The reference functions [rep], [path] and [depth] of [Forest.v]
      recurse on a fuel equal to the length of the forest, which bounds
      every path of a well-formed forest.
    - The lexer is structural on the text.  The parser recurses on a
      fuel of three times the number of tokens and three more
      ([steps]), the grammar of expressions having three levels.  That
      this is enough for the texts of the class, whatever the names, is
      part of the theorem on [meaning], and for the texts of the tests
      it is seen when they run; a text for which it were not would be
      refused, as a text outside the grammar is.
    - Integers are unbounded, as in Python and as the integers of
      SQLite are not (64 bits): no count of the code comes near.
      Indices are [nat].

    ** What is not modelled

    - SQLite, SpatiaLite and pandas themselves: they are libraries that
      the sources call.  The reference engine follows their
      documentation for the statements that occur; it has no
      transactions ([commit] does nothing), no floating point or binary
      values, no joins but the one of the listing of the tables, and it
      does not compute with coordinates:
      [st_within] and [st_transform], which [pointInPolygon] and
      [reproject] send, are statements of the interface that the store
      refuses.  A literal of SQL ends at the next quote (no doubled
      quotes).
    - Of the logging library, what [getLogger] does not use: other
      loggers than the root, filters, the handler of last resort.  The
      methods of [Geodatabase] record what is logged; [Logger.v] says
      where a record is printed.
    - Strings beyond ASCII, conversions and format specifications of
      [str.format], negative indices.
    - Directories, binary content and partial writes of files; the
      shapefile that [gdf.to_file] writes is the frame it holds.
    - Floating point numbers other than NaN.  A frame of edges with NaN
      raises before the labeller runs: in Python the constructor has
      by then written the keys of the frame into the class attributes,
      and a [RecursionError] of an earlier row would go first; the
      model leaves the attributes as they were and raises [KeyError].
      The example of the docstring of [getListOfTables], which shows
      counts as floating point numbers, is not what the code returns
      for a frame with rows, and is not modelled.

    ** What is left to do

    Of the loading methods only [loadCsv] has theorems of its own;
    [loadEmbeddedCsv], [loadShp], [pointInPolygon], the success path of
    [reproject], the constructor of [Geodatabase], [getTableHead],
    [getGeometriesMetadata] and [unzip] are defined, run in the tests
    or in examples, and have no general theorem beyond the frame
    lemmas: each is one call of a library on what the engine answers.
    The examples evaluated on the reference engine ([Tests.v], the end
    of [Geodatabase.v]) illustrate the findings and are no theorems
    about every engine. *)

From stdpp Require Import base option list gmap relations strings.

(** ** Exceptions and results *)

(** The exception classes that the modelled code raises itself or lets
    through.  [Exception msg] is [raise Exception(msg)]; [OperationalError]
    stands for whatever the SQLite engine raises when it rejects a
    statement; [ConnectionError] for a failure of the HTTP library;
    [BadZipFile] is raised by [zipfile] for a file that is no archive. *)
Inductive error : Type :=
| IndexError
| KeyError
| RecursionError
| ValueError
| TypeError
| AttributeError
| FileNotFoundError
| PermissionError
| OperationalError
| ConnectionError
| BadZipFile
| AssertionError
| Exception (msg : string).

Inductive result (A : Type) : Type :=
| Ok (a : A)
| Raise (e : error).
Arguments Ok {A} a.
Arguments Raise {A} e.

#[export] Instance error_eq_dec : EqDecision error.
Proof. solve_decision. Defined.

#[export] Instance result_eq_dec {A} `{EqDecision A} : EqDecision (result A).
Proof. solve_decision. Defined.

#[export] Instance result_ret : MRet result := @Ok.

#[export] Instance result_bind : MBind result :=
  fun A B f r => match r with Ok a => f a | Raise e => Raise e end.

#[export] Instance result_fmap : FMap result :=
  fun A B f r => match r with Ok a => Ok (f a) | Raise e => Raise e end.

Definition is_Ok {A} (r : result A) : Prop := exists a, r = Ok a.

#[export] Instance is_Ok_dec {A} (r : result A) : Decision (is_Ok r).
Proof.
  refine (match r with Ok a => left _ | Raise e => right _ end);
    unfold is_Ok; [eauto | intros [? ?]; discriminate].
Defined.

(** ** Methods: state and exceptions *)

(** A method returns normally or raises, and in both cases leaves a
    state behind: an exception does not undo the writes made before it. *)
Definition prog (S A : Type) : Type := S -> result A * S.

#[export] Instance prog_ret {S} : MRet (prog S) :=
  fun A a s => (Ok a, s).

#[export] Instance prog_bind {S} : MBind (prog S) :=
  fun A B f m s =>
    match m s with
    | (Ok a, s') => f a s'
    | (Raise e, s') => (Raise e, s')
    end.

Definition raise {S A} (e : error) : prog S A := fun s => (Raise e, s).
Definition get_state {S} : prog S S := fun s => (Ok s, s).
Definition put_state {S} (s : S) : prog S unit := fun _ => (Ok tt, s).
Definition modify_state {S} (g : S -> S) : prog S unit := fun s => (Ok tt, g s).
Definition lift_result {S A} (r : result A) : prog S A := fun s => (r, s).

(** [for x in l: body(x)]: the list is evaluated once, before the loop;
    an exception in the body leaves the loop. *)
Fixpoint for_ {S A} (l : list A) (body : A -> prog S unit) : prog S unit :=
  match l with
  | [] => mret tt
  | x :: l' => body x ≫= fun _ => for_ l' body
  end.

(** [for x in l: out[x] = body(x)]: a loop that stores one result per
    element. *)
Fixpoint for_collect {S A B} (l : list A) (body : A -> prog S B)
  : prog S (list B) :=
  match l with
  | [] => mret []
  | x :: l' => y ← body x; ys ← for_collect l' body; mret (y :: ys)
  end.

(** A method that leaves a part of the state as it found it, whether it
    returns or raises. *)
Definition preserves {S A T} (part : S -> T) (m : prog S A) : Prop :=
  forall s, part (m s).2 = part s.

(** A method that leaves the whole state as it found it. *)
Definition unchanged {S A} (m : prog S A) : Prop := preserves (fun s => s) m.

(** A method under a precondition, after the Hoare state monad: from a
    state that meets [P], the state at the start, the result and the
    state at the end meet [Q].  The result may be an exception: the
    triple speaks of every run. *)
Definition hoare {S A} (P : S -> Prop) (m : prog S A)
    (Q : S -> result A -> S -> Prop) : Prop :=
  forall s, P s -> Q s (m s).1 (m s).2.

(** A method that leaves a part of the state as it found it whenever
    that part meets [P]. *)
Definition keeps {S A T} (P : T -> Prop) (part : S -> T) (m : prog S A)
  : Prop :=
  hoare (fun s => P (part s)) m (fun s _ s' => part s' = part s).

(** A method that reads one part of the state only: what it returns,
    and what it makes of that part, are determined by the part. *)
Definition reads {S A T} (part : S -> T) (m : prog S A) : Prop :=
  forall s s', part s = part s' ->
    (m s).1 = (m s').1 /\ part (m s).2 = part (m s').2.

(** ** Python containers *)

Definition getitem {A} (l : list A) (i : nat) : result A :=
  match l !! i with Some x => Ok x | None => Raise IndexError end.

Definition setitem {A} (l : list A) (i : nat) (v : A) : result (list A) :=
  if decide (i < length l) then Ok (<[i:=v]> l) else Raise IndexError.

Definition dict_getitem `{Countable K} {V} (d : gmap K V) (k : K) : result V :=
  match d !! k with Some v => Ok v | None => Raise KeyError end.

(** [l.remove(x)]: the first occurrence is removed; [ValueError] when
    there is none. *)
Fixpoint list_remove `{EqDecision A} (x : A) (l : list A) : result (list A) :=
  match l with
  | [] => Raise ValueError
  | y :: l' => if decide (y = x) then Ok l' else cons y <$> list_remove x l'
  end.

(** ** Relations *)

(** A relation with one more pair. *)
Definition with_edge {A} (R : relation A) (a b : A) : relation A :=
  fun x y => R x y \/ (x = a /\ y = b).

(** The pairs of a list, as a relation. *)
Definition edge_rel {A} (edges : list (A * A)) : relation A :=
  fun x y => (x, y) ∈ edges.

(** Connectivity in the undirected graph of a list of edges. *)
Definition connected {A} (edges : list (A * A)) : relation A :=
  rtsc (edge_rel edges).

(** The nodes of a list of edges. *)
Definition endpoints {A} (edges : list (A * A)) : list A := edges.*1 ++ edges.*2.

(** Every node of [edges] is a node of [edges'], and every edge of
    [edges] between two distinct nodes is an edge of [edges'] in one
    direction or the other. *)
Definition edge_incl `{EqDecision A} (edges edges' : list (A * A)) : Prop :=
  Forall (fun e => (e.1 = e.2 \/ e ∈ edges' \/ (e.2, e.1) ∈ edges') /\
                   e.1 ∈ endpoints edges' /\ e.2 ∈ endpoints edges') edges.

(** Two edge lists describe the same undirected graph. *)
Definition same_graph `{EqDecision A} (edges edges' : list (A * A)) : Prop :=
  edge_incl edges edges' /\ edge_incl edges' edges.

#[export] Instance edge_incl_dec `{EqDecision A} (edges edges' : list (A * A)) :
  Decision (edge_incl edges edges').
Proof. unfold edge_incl. apply _. Defined.

#[export] Instance same_graph_dec `{EqDecision A} (edges edges' : list (A * A)) :
  Decision (same_graph edges edges').
Proof. unfold same_graph. apply _. Defined.

(** ** Notation *)

Declare Scope py_scope.
Delimit Scope py_scope with py.
Notation "'when' c 'then' m" := (if decide c then m else mret tt)
  (at level 10, c at level 99, m at level 200) : py_scope.

(** ** Shared lemmas *)

Section results.
Context {A B : Type}.

Lemma bind_Ok (f : A -> result B) (r : result A) (b : B) :
  r ≫= f = Ok b <-> exists a, r = Ok a /\ f a = Ok b.
Proof.
  destruct r as [a|e]; simpl; split; eauto.
  - intros (a' & [= <-] & ?). done.
  - done.
  - intros (a' & [=] & _).
Qed.

Lemma bind_Raise (f : A -> result B) (r : result A) (e : error) :
  r ≫= f = Raise e <-> r = Raise e \/ exists a, r = Ok a /\ f a = Raise e.
Proof.
  destruct r as [a|e']; simpl; split.
  - eauto.
  - intros [[=] | (a' & [= <-] & ?)]. done.
  - intros [= ->]. by left.
  - intros [[= ->] | (a' & [=] & _)]. done.
Qed.

Lemma getitem_Ok (l : list A) i x : getitem l i = Ok x <-> l !! i = Some x.
Proof. unfold getitem. destruct (l !! i); split; congruence. Qed.

Lemma getitem_Raise (l : list A) i e :
  getitem l i = Raise e <-> e = IndexError /\ length l <= i.
Proof.
  unfold getitem. destruct (l !! i) eqn:E.
  - apply lookup_lt_Some in E. split; [done | lia].
  - apply lookup_ge_None in E. split; [intros [= <-]; done | intros [-> _]; done].
Qed.

Lemma setitem_Ok (l l' : list A) i v :
  setitem l i v = Ok l' <-> i < length l /\ l' = <[i:=v]> l.
Proof. unfold setitem. case_decide; split; [intros [= <-]; done | intros [_ ->]; done | done | tauto]. Qed.

Lemma setitem_in_range (l : list A) i v :
  i < length l -> setitem l i v = Ok (<[i:=v]> l).
Proof. intros. unfold setitem. by rewrite decide_True. Qed.

End results.

Section progs.
Context {S A B : Type}.

Lemma prog_bind_Ok (f : A -> prog S B) (m : prog S A) s b s2 :
  (m ≫= f) s = (Ok b, s2) <-> exists a s1, m s = (Ok a, s1) /\ f a s1 = (Ok b, s2).
Proof.
  unfold mbind, prog_bind. destruct (m s) as [[a|e'] s1]; split.
  - eauto.
  - intros (a' & s' & [= <- <-] & ?). done.
  - done.
  - intros (a' & s' & [=] & _).
Qed.

Lemma prog_bind_Raise (f : A -> prog S B) (m : prog S A) s e s2 :
  (m ≫= f) s = (Raise e, s2) <->
  m s = (Raise e, s2) \/ exists a s1, m s = (Ok a, s1) /\ f a s1 = (Raise e, s2).
Proof.
  unfold mbind, prog_bind. destruct (m s) as [[a|e'] s1]; split.
  - eauto.
  - intros [[=] | (a' & s' & [= <- <-] & ?)]. done.
  - intros [= -> ->]. by left.
  - intros [[= -> ->] | (a' & s' & [=] & _)]. done.
Qed.

Lemma prog_bind_run (f : A -> prog S B) (m : prog S A) s a s1 :
  m s = (Ok a, s1) -> (m ≫= f) s = f a s1.
Proof. unfold mbind, prog_bind. by intros ->. Qed.

Lemma mret_bind (f : A -> prog S B) a s : (mret a ≫= f) s = f a s.
Proof. done. Qed.

Lemma raise_bind (f : A -> prog S B) e s : (raise e ≫= f) s = (Raise e, s).
Proof. done. Qed.

Lemma lift_result_bind (f : A -> prog S B) r s :
  (lift_result r ≫= f) s =
  match r with Ok a => f a s | Raise e => (Raise e, s) end.
Proof. by destruct r. Qed.

Lemma prog_bind_assoc {C} (m : prog S A) (f : A -> prog S B)
    (g : B -> prog S C) s :
  ((m ≫= f) ≫= g) s = (m ≫= fun a => f a ≫= g) s.
Proof. unfold mbind, prog_bind. by destruct (m s) as [[a|e] s1]. Qed.

Lemma prog_bind_run_Raise (f : A -> prog S B) (m : prog S A) s e s1 :
  m s = (Raise e, s1) -> (m ≫= f) s = (Raise e, s1).
Proof. unfold mbind, prog_bind. by intros ->. Qed.

End progs.

Section loops.
Context {S A : Type}.

Lemma for_ext (l : list A) (body body' : A -> prog S unit) s :
  (forall x s1, x ∈ l -> body x s1 = body' x s1) ->
  for_ l body s = for_ l body' s.
Proof.
  revert s. induction l as [|x l IH]; intros s Hext; simpl; [done |].
  unfold mbind, prog_bind. rewrite <- Hext by (by left).
  destruct (body x s) as [[[]|e] s1]; [|done].
  apply IH. intros y t Hy. apply Hext. by right.
Qed.

Lemma for_app (l k : list A) (body : A -> prog S unit) s :
  for_ (l ++ k) body s =
  match for_ l body s with
  | (Ok _, s1) => for_ k body s1
  | (Raise e, s1) => (Raise e, s1)
  end.
Proof.
  revert s. induction l as [|x l IH]; intros s; simpl; [done |].
  unfold mbind, prog_bind. destruct (body x s) as [[[]|e] s1]; [apply IH | done].
Qed.

(** Loop invariant rule, with the invariant indexed by the elements
    already processed. *)
Lemma for_invariant_from (I : list A -> S -> Prop) (pre l : list A)
    (body : A -> prog S unit) s s' :
  (forall pre' x post s1 s2, pre ++ l = pre' ++ x :: post ->
     I pre' s1 -> body x s1 = (Ok tt, s2) -> I (pre' ++ [x]) s2) ->
  I pre s -> for_ l body s = (Ok tt, s') -> I (pre ++ l) s'.
Proof.
  revert pre s. induction l as [|x l IH]; intros pre s Hbody Hs; simpl.
  { intros [= <-]. by rewrite app_nil_r. }
  intros ([] & s1 & H1 & H2)%prog_bind_Ok.
  replace (pre ++ x :: l) with ((pre ++ [x]) ++ l) by (by rewrite <- app_assoc).
  apply (IH (pre ++ [x]) s1); [| |done].
  - intros pre' y post t1 t2 Heq. apply (Hbody pre' y post). by rewrite <- Heq, <- app_assoc.
  - by apply (Hbody pre x l s).
Qed.

Lemma for_invariant_prefix (I : list A -> S -> Prop) (l : list A)
    (body : A -> prog S unit) s s' :
  (forall pre x post s1 s2, l = pre ++ x :: post ->
     I pre s1 -> body x s1 = (Ok tt, s2) -> I (pre ++ [x]) s2) ->
  I [] s -> for_ l body s = (Ok tt, s') -> I l s'.
Proof. apply (for_invariant_from I [] l). Qed.

(** Loop invariant rule: an invariant kept by every iteration that
    returns holds when the loop returns. *)
Lemma for_invariant (I : S -> Prop) (l : list A) (body : A -> prog S unit) s s' :
  (forall x s1 s2, x ∈ l -> I s1 -> body x s1 = (Ok tt, s2) -> I s2) ->
  I s -> for_ l body s = (Ok tt, s') -> I s'.
Proof.
  intros Hbody. apply (for_invariant_prefix (fun _ => I)).
  intros pre x post s1 s2 ->. apply Hbody. apply elem_of_app. right. by left.
Qed.

(** Progress rule: if every iteration returns from a state satisfying
    the invariant, so does the loop. *)
Lemma for_total (I : S -> Prop) (l : list A) (body : A -> prog S unit) s :
  (forall x s1, x ∈ l -> I s1 -> exists s2, body x s1 = (Ok tt, s2) /\ I s2) ->
  I s -> exists s', for_ l body s = (Ok tt, s') /\ I s'.
Proof.
  revert s. induction l as [|x l IH]; intros s Hbody Hs; simpl.
  { by exists s. }
  destruct (Hbody x s) as (s1 & H1 & Hs1); [by left | done |].
  destruct (IH s1) as (s' & H' & Hs'); [|done|].
  - intros y t1 Hy. apply Hbody. by right.
  - exists s'. split; [|done]. by rewrite (prog_bind_run _ _ _ _ _ H1).
Qed.

(** A loop that raises does so in one of its iterations, entered in a
    state that satisfies the invariant. *)
Lemma for_Raise_inv (I : S -> Prop) (l : list A) (body : A -> prog S unit) s e s' :
  (forall x s1 s2, x ∈ l -> I s1 -> body x s1 = (Ok tt, s2) -> I s2) ->
  I s -> for_ l body s = (Raise e, s') ->
  exists x s1, x ∈ l /\ I s1 /\ body x s1 = (Raise e, s').
Proof.
  revert s. induction l as [|x l IH]; intros s Hbody Hs; simpl; [done |].
  intros [Hx | ([] & s1 & H1 & H2)]%prog_bind_Raise.
  - exists x, s. split; [by left | done].
  - destruct (IH s1) as (y & t & Hy & Ht & Hraise); [| |done|].
    + intros y t1 t2 Hy. apply Hbody. by right.
    + eapply Hbody; [by left | done | done].
    + exists y, t. split; [by right | done].
Qed.

(** A loop that returns still returns, with the same state, when its
    body is replaced by one that returns wherever the first did. *)
Lemma for_Ok_impl (l : list A) (body body' : A -> prog S unit) s s' :
  (forall x s1 s2, x ∈ l -> body x s1 = (Ok tt, s2) -> body' x s1 = (Ok tt, s2)) ->
  for_ l body s = (Ok tt, s') -> for_ l body' s = (Ok tt, s').
Proof.
  revert s. induction l as [|x l IH]; intros s Himpl; simpl; [done |].
  intros ([] & s1 & H1 & H2)%prog_bind_Ok.
  rewrite (prog_bind_run _ _ _ _ _ (Himpl x s s1 ltac:(by left) H1)).
  apply IH; [|done]. intros y t1 t2 Hy. apply Himpl. by right.
Qed.

End loops.

Section frames.
Context {S T : Type} (part : S -> T).

Lemma preserves_ret {A} (a : A) : preserves part (mret a : prog S A).
Proof. by intros s. Qed.

Lemma preserves_raise {A} e : preserves part (raise e : prog S A).
Proof. by intros s. Qed.

Lemma preserves_lift_result {A} (r : result A) :
  preserves part (lift_result r : prog S A).
Proof. by intros s. Qed.

Lemma preserves_get_state : preserves part (get_state : prog S S).
Proof. by intros s. Qed.

Lemma preserves_bind {A B} (m : prog S A) (f : A -> prog S B) :
  preserves part m -> (forall a, preserves part (f a)) ->
  preserves part (m ≫= f).
Proof.
  intros Hm Hf s. unfold mbind, prog_bind. specialize (Hm s).
  destruct (m s) as [[a|e] s1]; simpl in *; [|done].
  by rewrite Hf.
Qed.

Lemma preserves_if {A} (b : bool) (m m' : prog S A) :
  preserves part m -> preserves part m' ->
  preserves part (if b then m else m').
Proof. by destruct b. Qed.

Lemma preserves_for {A} (l : list A) (body : A -> prog S unit) :
  (forall x, preserves part (body x)) -> preserves part (for_ l body).
Proof.
  intros Hb. induction l as [|x l IH]; simpl.
  - apply preserves_ret.
  - by apply preserves_bind.
Qed.

Lemma preserves_for_collect {A B} (l : list A) (body : A -> prog S B) :
  (forall x, preserves part (body x)) -> preserves part (for_collect l body).
Proof.
  intros Hb. induction l as [|x l IH]; simpl.
  - apply preserves_ret.
  - apply preserves_bind; [done|]. intros y.
    apply preserves_bind; [done|]. intros ys. apply preserves_ret.
Qed.

Lemma preserves_compose {A U} (g : T -> U) (m : prog S A) :
  preserves part m -> preserves (fun s => g (part s)) m.
Proof. intros Hm s. by rewrite (Hm s). Qed.

End frames.

Section keeping.
Context {S T : Type} (P : T -> Prop) (part : S -> T).

(** The rule of sequence: the second step runs from what the first
    leaves, and only when the first returned. *)
Lemma hoare_bind {A B} (P1 : S -> Prop) (m : prog S A) (f : A -> prog S B)
    (Q1 : S -> result A -> S -> Prop) (Q : S -> result B -> S -> Prop) :
  hoare P1 m Q1 ->
  (forall s e s1, Q1 s (Raise e) s1 -> Q s (Raise e) s1) ->
  (forall s a s1, Q1 s (Ok a) s1 ->
     hoare (fun s' => s' = s1) (f a) (fun _ r s2 => Q s r s2)) ->
  hoare P1 (m ≫= f) Q.
Proof.
  intros Hm He Hf s Hs. specialize (Hm s Hs). unfold mbind, prog_bind.
  destruct (m s) as [[a|e] s1]; simpl in *; [|by apply He].
  by apply (Hf s a s1 Hm s1).
Qed.

Lemma keeps_preserves {A} (m : prog S A) : preserves part m -> keeps P part m.
Proof. intros Hm s _. apply Hm. Qed.

(** A step whose result is known to meet [R] whenever it runs from a
    part that meets [P], followed by steps that keep the part for such
    a result. *)
Lemma keeps_bind_with {A B} (R : A -> Prop) (m : prog S A)
    (f : A -> prog S B) :
  keeps P part m ->
  (forall s a, P (part s) -> (m s).1 = Ok a -> R a) ->
  (forall a, R a -> keeps P part (f a)) ->
  keeps P part (m ≫= f).
Proof.
  intros Hm HR Hf.
  apply (hoare_bind _ m f
           (fun s r s1 => part s1 = part s /\ P (part s) /\
                          forall a, r = Ok a -> R a)).
  - intros s Hs. split_and!; [by apply Hm | done | intros a; by apply HR].
  - by intros s e s1 [? _].
  - intros s a s1 (Heq & Hs & Ha) ? ->.
    rewrite (Hf a (Ha a eq_refl) s1); [done | by rewrite Heq].
Qed.

Lemma keeps_whole {A} (m : prog S A) :
  keeps (fun s => P (part s)) (fun s => s) m -> keeps P part m.
Proof. intros Hm s Hs. by rewrite (Hm s Hs). Qed.

Lemma keeps_bind {A B} (m : prog S A) (f : A -> prog S B) :
  keeps P part m -> (forall a, keeps P part (f a)) -> keeps P part (m ≫= f).
Proof. intros Hm Hf. by apply (keeps_bind_with (fun _ => True)). Qed.

Lemma keeps_if {A} (b : bool) (m m' : prog S A) :
  keeps P part m -> keeps P part m' -> keeps P part (if b then m else m').
Proof. by destruct b. Qed.

(** A loop whose body keeps the part for every element of the list. *)
Lemma keeps_for_collect {A B} (l : list A) (body : A -> prog S B) :
  Forall (fun x => keeps P part (body x)) l ->
  keeps P part (for_collect l body).
Proof.
  induction 1 as [|x l Hx _ IH]; simpl.
  - by apply keeps_preserves.
  - apply keeps_bind; [done|]. intros y.
    apply keeps_bind; [done|]. intros ys. by apply keeps_preserves.
Qed.

End keeping.

Section reading.
Context {S T : Type} (part : S -> T).

Lemma reads_ret {A} (a : A) : reads part (mret a : prog S A).
Proof. by intros s s' Hs. Qed.

Lemma reads_raise {A} e : reads part (raise e : prog S A).
Proof. by intros s s' Hs. Qed.

Lemma reads_lift_result {A} (r : result A) :
  reads part (lift_result r : prog S A).
Proof. by intros s s' Hs. Qed.

Lemma reads_bind {A B} (m : prog S A) (f : A -> prog S B) :
  reads part m -> (forall a, reads part (f a)) -> reads part (m ≫= f).
Proof.
  intros Hm Hf s s' Hs. unfold mbind, prog_bind.
  destruct (Hm s s' Hs) as [Hr Hp].
  destruct (m s) as [[a|e] s1], (m s') as [[a'|e'] s1']; simplify_eq/=;
    [by apply Hf | done].
Qed.

Lemma reads_if {A} (b : bool) (m m' : prog S A) :
  reads part m -> reads part m' -> reads part (if b then m else m').
Proof. by destruct b. Qed.

Lemma reads_for {A} (l : list A) (body : A -> prog S unit) :
  (forall x, reads part (body x)) -> reads part (for_ l body).
Proof.
  intros Hb. induction l as [|x l IH]; simpl.
  - apply reads_ret.
  - by apply reads_bind.
Qed.

Lemma reads_for_collect {A B} (l : list A) (body : A -> prog S B) :
  (forall x, reads part (body x)) -> reads part (for_collect l body).
Proof.
  intros Hb. induction l as [|x l IH]; simpl.
  - apply reads_ret.
  - apply reads_bind; [done|]. intros y.
    apply reads_bind; [done|]. intros ys. apply reads_ret.
Qed.

(** A query in the middle of a method: it changes nothing and reads the
    part only, so what it answered in one state it answers in any state
    with the same part. *)
Lemma query_bind_at {A B} (m : prog S A) (f : A -> prog S B) s s' r :
  (m s').2 = s' -> reads part m -> part s = part s' -> (m s).1 = r ->
  (m ≫= f) s' = match r with Ok a => f a s' | Raise e => (Raise e, s') end.
Proof.
  intros Hu Hr Hs <-. destruct (Hr s s' Hs) as [-> _].
  unfold mbind, prog_bind.
  destruct (m s') as [[a|e] s1]; simpl in *; by subst s1.
Qed.

Lemma query_bind {A B} (m : prog S A) (f : A -> prog S B) s s' r :
  unchanged m -> reads part m -> part s = part s' -> (m s).1 = r ->
  (m ≫= f) s' = match r with Ok a => f a s' | Raise e => (Raise e, s') end.
Proof. intros Hu. apply query_bind_at, Hu. Qed.

End reading.

Section unchanged.
Context {S : Type}.

Lemma unchanged_ret {A} (a : A) : unchanged (mret a : prog S A).
Proof. apply preserves_ret. Qed.

Lemma unchanged_raise {A} e : unchanged (raise e : prog S A).
Proof. apply preserves_raise. Qed.

Lemma unchanged_lift_result {A} (r : result A) :
  unchanged (lift_result r : prog S A).
Proof. apply preserves_lift_result. Qed.

Lemma unchanged_bind {A B} (m : prog S A) (f : A -> prog S B) :
  unchanged m -> (forall a, unchanged (f a)) -> unchanged (m ≫= f).
Proof. apply preserves_bind. Qed.

Lemma unchanged_if {A} (b : bool) (m m' : prog S A) :
  unchanged m -> unchanged m' -> unchanged (if b then m else m').
Proof. apply preserves_if. Qed.

Lemma unchanged_for_collect {A B} (l : list A) (body : A -> prog S B) :
  (forall x, unchanged (body x)) -> unchanged (for_collect l body).
Proof. apply preserves_for_collect. Qed.

(** A method that changes nothing preserves every part of the state,
    and its run is known from its result. *)
Lemma unchanged_preserves {A T} (part : S -> T) (m : prog S A) :
  unchanged m -> preserves part m.
Proof. intros Hm s. by rewrite (Hm s). Qed.

Lemma unchanged_run {A} (m : prog S A) s r :
  unchanged m -> (m s).1 = r -> m s = (r, s).
Proof.
  intros Hm <-. specialize (Hm s). simpl in Hm.
  destruct (m s) as [r s']. simpl in *. by subst s'.
Qed.

End unchanged.

Section removal.
Context `{EqDecision A}.

Lemma list_remove_Ok (x : A) l l' :
  list_remove x l = Ok l' -> x ∈ l /\ forall y, y ∈ l' -> y ∈ l.
Proof.
  revert l'. induction l as [|y l IH]; intros l'; simpl; [done|].
  case_decide as Hy.
  - intros [= <-]. subst y. split; [left | by right].
  - destruct (list_remove x l) as [l0|] eqn:Hl; simpl; [|done].
    intros [= <-]. destruct (IH _ eq_refl) as [Hx Hin].
    split; [by right|]. intros z [->|Hz]%elem_of_cons; [left | right; auto].
Qed.

Lemma list_remove_not_elem (x : A) l :
  x ∉ l -> list_remove x l = Raise ValueError.
Proof.
  induction l as [|y l IH]; simpl; [done|].
  intros [Hy Hx]%not_elem_of_cons. rewrite decide_False by done.
  by rewrite IH.
Qed.

Lemma list_remove_Raise (x : A) l e :
  list_remove x l = Raise e <-> (x ∉ l) /\ e = ValueError.
Proof.
  split; [|intros [Hx ->]; by apply list_remove_not_elem].
  induction l as [|y l IH]; simpl.
  - intros [= <-]. split; [apply not_elem_of_nil | done].
  - case_decide as Hy; [done|].
    destruct (list_remove x l) as [l0|e0]; simpl; [done|].
    intros [= <-]. destruct (IH eq_refl) as [Hx ->].
    split; [|done]. apply not_elem_of_cons. split; [congruence | done].
Qed.

End removal.

Section lists.
Context {A : Type}.

Lemma filter_ext_in (P Q : A -> Prop)
    `{!forall x, Decision (P x)} `{!forall x, Decision (Q x)} (l : list A) :
  (forall x, x ∈ l -> P x <-> Q x) -> filter P l = filter Q l.
Proof.
  induction l as [|x l IH]; intros Hl; [done |].
  rewrite !filter_cons, IH by (intros; apply Hl; by right).
  destruct (decide (P x)) as [HP | HP].
  - by rewrite decide_True by (apply Hl; [by left | done]).
  - by rewrite decide_False by (rewrite <- Hl; [done | by left]).
Qed.

(** Removing one element that satisfies a predicate from the filter
    shortens it by one. *)
Lemma filter_length_remove (P Q : A -> Prop)
    `{!forall x, Decision (P x)} `{!forall x, Decision (Q x)} (l : list A) a :
  NoDup l -> a ∈ l -> P a -> (forall x, Q x <-> P x /\ x <> a) ->
  length (filter P l) = S (length (filter Q l)).
Proof.
  intros Hnd Ha HPa HQ. induction Hnd as [|x l Hx Hnd IH]; [by apply elem_of_nil in Ha |].
  rewrite !filter_cons. apply elem_of_cons in Ha as [<- | Ha].
  - rewrite decide_True by done. rewrite decide_False by (rewrite HQ; tauto).
    simpl. f_equal. f_equal. apply filter_ext_in.
    intros y Hy. rewrite HQ. split; [intros ?; split; [done | by intros ->] | tauto].
  - assert (x <> a) by (by intros ->).
    destruct (decide (P x)) as [HPx | HPx].
    + rewrite decide_True by (rewrite HQ; tauto). simpl. f_equal. by apply IH.
    + rewrite decide_False by (rewrite HQ; tauto). by apply IH.
Qed.

End lists.

(** A loop that stores one result for each element returns as many
    results as there are elements. *)
Lemma for_collect_length {S A B} (l : list A) (body : A -> prog S B) s ys s' :
  for_collect l body s = (Ok ys, s') -> length ys = length l.
Proof.
  revert s ys s'. induction l as [|x l IH]; intros s ys s'; simpl.
  { by intros [= <- _]. }
  intros (y & s1 & _ & (k & s2 & Hk & [= <- _])%prog_bind_Ok)%prog_bind_Ok.
  simpl. f_equal. by eapply IH.
Qed.

(** [mapM]: one fallible step for each element of a list, the first
    exception ending it. *)
Lemma mapM_cons {A B} (f : A -> result B) x l :
  mapM f (x :: l) = (y ← f x; k ← mapM f l; Ok (y :: k)).
Proof. reflexivity. Qed.

Lemma mapM_length {A B} (f : A -> result B) (l : list A) ys :
  mapM f l = Ok ys -> length ys = length l.
Proof.
  revert ys. induction l as [|x l IH]; intros ys; [by intros [= <-]|].
  rewrite mapM_cons. destruct (f x) as [y|]; [|done]. simpl.
  destruct (mapM f l) as [k|]; [|done]. simpl. intros [= <-]. simpl.
  by rewrite (IH k).
Qed.

Lemma mapM_zip_with_l {A B C} (f : A -> result B) (g : A -> C -> A)
    (l : list A) (k : list C) :
  length l <= length k -> (forall x z, f (g x z) = f x) ->
  mapM f (zip_with g l k) = mapM f l.
Proof.
  intros Hlen Hfg. revert k Hlen.
  induction l as [|x l IH]; intros [|z k] Hlen; simpl in Hlen; [done..|lia|].
  cbn [zip_with]. rewrite !(mapM_cons f), Hfg, IH; [done | lia].
Qed.

Section closures.
Context {A : Type}.
Implicit Types (R : relation A).

Lemma rtsc_subrel R R' x y :
  (forall u v, R u v -> R' u v) -> rtsc R x y -> rtsc R' x y.
Proof. intros HR. apply (rtsc_congruence id R'). exact HR. Qed.

Lemma rtsc_ext R R' x y :
  (forall u v, R u v <-> R' u v) -> rtsc R x y <-> rtsc R' x y.
Proof. intros HR. split; apply rtsc_subrel; intros u v; apply HR. Qed.

Lemma rtsc_empty R x y : (forall u v, ~ R u v) -> rtsc R x y <-> x = y.
Proof.
  intros HR. split; [|by intros ->].
  induction 1 as [|x w y [Hxw | Hwx] _ IH]; [done | by apply HR in Hxw | by apply HR in Hwx].
Qed.

(** Adding one edge joins the classes of its ends and nothing else. *)
Lemma rtsc_with_edge R a b x y :
  rtsc (with_edge R a b) x y <->
  rtsc R x y \/ (rtsc R x a /\ rtsc R b y) \/ (rtsc R x b /\ rtsc R a y).
Proof.
  split.
  - induction 1 as [|x w y Hstep _ IH]; [by left |].
    assert (rtsc R x w \/ (x = a /\ w = b) \/ (x = b /\ w = a)) as Hxw.
    { destruct Hstep as [[? | ?] | [? | [-> ->]]];
        [left; by apply rtsc_lr | tauto | left; by apply rtsc_rl | tauto]. }
    destruct Hxw as [Hxw | [[-> ->] | [-> ->]]].
    + destruct IH as [? | [[? ?] | [? ?]]];
        [left | right; left; split | right; right; split]; try done; by etrans.
    + destruct IH as [? | [[? ?] | [? ?]]];
        [right; left; by split | left | left; done].
      etrans; [|done]. by symmetry.
    + destruct IH as [? | [[? ?] | [? ?]]];
        [right; right; by split | left; done | left].
      etrans; [|done]. by symmetry.
  - assert (forall u v, rtsc R u v -> rtsc (with_edge R a b) u v) as Hsub.
    { intros u v. apply rtsc_subrel. by left. }
    assert (rtsc (with_edge R a b) a b) as Hab by (apply rtsc_lr; by right).
    intros [? | [[? ?] | [? ?]]]; [by apply Hsub | |].
    + etrans; [by apply Hsub |]. etrans; [exact Hab | by apply Hsub].
    + etrans; [by apply Hsub |]. etrans; [symmetry; exact Hab | by apply Hsub].
Qed.

Lemma elem_of_endpoints (edges : list (A * A)) k :
  k ∈ endpoints edges <-> exists e, e ∈ edges /\ (k = e.1 \/ k = e.2).
Proof.
  unfold endpoints. rewrite elem_of_app, !list_elem_of_fmap. split.
  - intros [(e & -> & He) | (e & -> & He)]; exists e; tauto.
  - intros (e & He & [-> | ->]); [left | right]; by exists e.
Qed.

Section graphs.
Context `{!EqDecision A}.
Implicit Types (edges : list (A * A)).

Lemma edge_incl_endpoints edges edges' k :
  edge_incl edges edges' -> k ∈ endpoints edges -> k ∈ endpoints edges'.
Proof.
  unfold edge_incl. rewrite Forall_forall.
  intros Hincl (e & He & Hk)%elem_of_endpoints.
  destruct (Hincl e He) as (_ & H1 & H2). by destruct Hk as [-> | ->].
Qed.

(** Connectivity depends only on the nodes and on the undirected edges
    between distinct nodes: order, direction, repetition and self-loops
    do not matter. *)
Lemma edge_incl_connected edges edges' x y :
  edge_incl edges edges' -> connected edges x y -> connected edges' x y.
Proof.
  unfold edge_incl, connected. rewrite Forall_forall. intros Hincl.
  assert (forall u v, (u, v) ∈ edges -> rtsc (edge_rel edges') u v) as Hedge.
  { intros u v Huv. destruct (Hincl _ Huv) as ([Heq | [Hin | Hin]] & _); simpl in *.
    - by subst.
    - by apply rtsc_lr.
    - by apply rtsc_rl. }
  induction 1 as [|x w y Hstep _ IH]; [done |].
  etrans; [|exact IH]. destruct Hstep as [Hxw | Hwx]; [by apply Hedge |].
  symmetry. by apply Hedge.
Qed.

Lemma same_graph_connected edges edges' x y :
  same_graph edges edges' -> connected edges x y <-> connected edges' x y.
Proof. intros [H1 H2]. split; by apply edge_incl_connected. Qed.

Lemma same_graph_endpoints edges edges' k :
  same_graph edges edges' -> k ∈ endpoints edges <-> k ∈ endpoints edges'.
Proof. intros [H1 H2]. split; by apply edge_incl_endpoints. Qed.

Lemma edge_incl_refl edges : edge_incl edges edges.
Proof.
  apply Forall_forall. intros e He. split_and!.
  - right. by left.
  - apply elem_of_endpoints. exists e. tauto.
  - apply elem_of_endpoints. exists e. tauto.
Qed.

Lemma edge_incl_Permutation edges edges' :
  edges ≡ₚ edges' -> edge_incl edges edges'.
Proof.
  intros Hp. apply Forall_forall. intros e He. rewrite Hp in He. split_and!.
  - right. by left.
  - apply elem_of_endpoints. exists e. tauto.
  - apply elem_of_endpoints. exists e. tauto.
Qed.

Lemma Permutation_same_graph edges edges' :
  edges ≡ₚ edges' -> same_graph edges edges'.
Proof. intros Hp. split; by apply edge_incl_Permutation. Qed.

Lemma edge_incl_trans edges edges' edges'' :
  edge_incl edges edges' -> edge_incl edges' edges'' -> edge_incl edges edges''.
Proof.
  intros H1 H2. apply Forall_forall. intros [a b] He.
  pose proof (proj1 (Forall_forall _ _) H1 _ He) as (Hab & Ha & Hb).
  pose proof (proj1 (Forall_forall _ _) H2) as H2'. simpl in *.
  split_and!; [| by eapply edge_incl_endpoints | by eapply edge_incl_endpoints].
  destruct Hab as [? | [Hin | Hin]]; [by left | |];
    destruct (H2' _ Hin) as (? & _); simpl in *; intuition.
Qed.

(** Describing the same graph is an equivalence, and connectivity and
    the set of nodes are invariant under it: a statement about a graph
    may be rewritten along [same_graph]. *)
#[export] Instance edge_incl_preorder : PreOrder (edge_incl (A:=A)).
Proof. split; [exact edge_incl_refl | exact edge_incl_trans]. Qed.

#[export] Instance same_graph_equivalence : Equivalence (same_graph (A:=A)).
Proof.
  split.
  - intros edges. by split.
  - intros edges edges' [? ?]. by split.
  - intros edges edges' edges'' [? ?] [? ?]. split; by etrans.
Qed.

#[export] Instance connected_proper :
  Proper (same_graph ==> eq ==> eq ==> iff) (connected (A:=A)).
Proof. intros edges edges' Hs x ? <- y ? <-. by apply same_graph_connected. Qed.

#[export] Instance endpoints_proper :
  Proper (same_graph ==> eq ==> iff) (fun edges k => k ∈ endpoints (A:=A) edges).
Proof. intros edges edges' Hs k ? <-. by apply same_graph_endpoints. Qed.

End graphs.

Lemma edge_rel_snoc (edges : list (A * A)) a b x y :
  edge_rel (edges ++ [(a, b)]) x y <-> with_edge (edge_rel edges) a b x y.
Proof.
  unfold edge_rel, with_edge. rewrite elem_of_app, list_elem_of_singleton.
  by rewrite pair_equal_spec.
Qed.

End closures.

(** ** Automation *)

Create HintDb py discriminated.
Create Rewrite HintDb py.
#[export] Hint Rewrite @length_insert : py.
#[export] Hint Rewrite @prog_bind_assoc @mret_bind @raise_bind
  @lift_result_bind : py.
#[export] Hint Resolve lookup_lt_Some : py.
#[export] Hint Resolve preserves_ret preserves_raise preserves_lift_result
  preserves_get_state preserves_bind preserves_if preserves_for
  preserves_for_collect unchanged_ret unchanged_raise unchanged_lift_result
  reads_ret reads_raise reads_lift_result : py.
#[export] Hint Extern 5 (preserves _ _) => apply unchanged_preserves : py.
#[export] Hint Resolve keeps_if : py.
#[export] Hint Extern 6 (keeps _ _ _) => apply keeps_preserves : py.

(** [prog_inv H] takes apart a hypothesis saying that a sequence of
    binds returned normally. *)
(** Proves that a program composed of binds, conditionals and loops
    preserves a part of the state, from the hints for its primitives. *)
Ltac preserves_tac :=
  repeat first
    [ progress intros
    | solve [eauto with py]
    | match goal with
      | |- unchanged (_ ≫= _) => apply unchanged_bind
      | |- unchanged (for_collect _ _) => apply unchanged_for_collect
      | |- unchanged (if _ then _ else _) => apply unchanged_if
      | |- unchanged (match ?x with _ => _ end) => destruct x
      | |- reads _ (_ ≫= _) => apply reads_bind
      | |- reads _ (for_ _ _) => apply reads_for
      | |- reads _ (for_collect _ _) => apply reads_for_collect
      | |- reads _ (if _ then _ else _) => apply reads_if
      | |- reads _ (match ?x with _ => _ end) => destruct x
      | |- keeps _ _ (_ ≫= _) => apply keeps_bind
      | |- keeps _ _ (if _ then _ else _) => apply keeps_if
      | |- keeps _ _ (match ?x with _ => _ end) => destruct x
      | |- preserves _ (_ ≫= _) => apply preserves_bind
      | |- preserves _ (for_ _ _) => apply preserves_for
      | |- preserves _ (for_collect _ _) => apply preserves_for_collect
      | |- preserves _ (if _ then _ else _) => apply preserves_if
      | |- preserves _ (match ?x with _ => _ end) => destruct x
      end ].

(** Runs the first step of a sequence: one goal for the step returning
    (its result and state are named by the equation [H]), and the goal
    for the step raising is closed when the claim holds for it. *)
Ltac run_bind H :=
  match goal with
  | |- context [(?m ≫= ?f) ?s] =>
      destruct (m s) as [[?|?] ?] eqn:H;
      [ rewrite (prog_bind_run f m s _ _ H)
      | rewrite (prog_bind_run_Raise f m s _ _ H) ]
  end.

Ltac prog_inv H :=
  repeat first
    [ apply prog_bind_Ok in H; destruct H as (? & ? & ? & H)
    | apply bind_Ok in H; destruct H as (? & ? & H) ].
