(* ===== verification/Forest.v ===== *)
(** Parent-pointer forests: the abstract specification of the
    disjoint-set structure kept in [connectedComponentsLabeler.forest]
    ([src/graph.py]).

    A forest is a list [f] of indices; [f !! x = Some x] makes [x] a
    root.  [root_at f x r d] says that following parents from [x] reaches
    the root [r] after [d] steps.  [rep] is the executable reference
    (follow parents, change nothing); the Python methods of [Labeler.v]
    are proved against it. *)

From stdpp Require Import base option list.
From S2P Require Import Prelude.

Implicit Types (f : list nat) (x y p r s d n : nat).

(** ** Roots and depth *)

Inductive root_at (f : list nat) : nat -> nat -> nat -> Prop :=
| root_here x :
    f !! x = Some x -> root_at f x x 0
| root_up x p r d :
    f !! x = Some p -> p <> x -> root_at f p r d -> root_at f x r (S d).

Definition root_of f x r : Prop := exists d, root_at f x r d.

Definition is_root f r : Prop := f !! r = Some r.

(** Every index has a root: parents are in range and there is no cycle
    other than the self-loops of roots. *)
Definition wf_forest f : Prop := forall x, x < length f -> exists r, root_of f x r.

(** Two indices are in the same tree. *)
Definition same f x y : Prop := exists r, root_of f x r /\ root_of f y r.

(** The forest in which every entry names its root directly. *)
Definition flat f : Prop := forall x p, f !! x = Some p -> is_root f p.

(** ** Executable reference *)

Fixpoint rep_fuel n f x : option nat :=
  match n with
  | 0 => None
  | S n' =>
      match f !! x with
      | None => None
      | Some p => if decide (p = x) then Some x else rep_fuel n' f p
      end
  end.

Definition rep f x : option nat := rep_fuel (length f) f x.

Fixpoint depth_fuel n f x : option nat :=
  match n with
  | 0 => None
  | S n' =>
      match f !! x with
      | None => None
      | Some p => if decide (p = x) then Some 0 else S <$> depth_fuel n' f p
      end
  end.

Definition depth f x : option nat := depth_fuel (length f) f x.

Definition wf_forestb f : bool :=
  forallb (fun x => bool_decide (is_Some (rep f x))) (seq 0 (length f)).

Definition roots f : list nat :=
  filter (fun x => f !! x = Some x) (seq 0 (length f)).

Definition count_roots f : nat := length (roots f).

(** Where the root [s] of a node goes when the root [ra] is attached
    under the root [rb]. *)
Definition moved (ra rb s : nat) : nat := if decide (s = ra) then rb else s.

(** ** Basic facts about [root_at] *)

Lemma root_at_fun f x r d r' d' :
  root_at f x r d -> root_at f x r' d' -> r = r' /\ d = d'.
Proof.
  intros H. revert r' d'.
  induction H as [x Hx | x p r d Hx Hne _ IH]; intros r' d' H'.
  - inversion H'; subst; [done | congruence].
  - inversion H' as [? Hx' | ? p' ? d'' Hx' ? Hp']; subst; [congruence |].
    assert (p' = p) as -> by congruence.
    destruct (IH _ _ Hp') as [-> ->]. done.
Qed.

Lemma root_of_fun f x r r' : root_of f x r -> root_of f x r' -> r = r'.
Proof. intros [d H] [d' H']. by destruct (root_at_fun _ _ _ _ _ _ H H'). Qed.

Lemma root_at_is_root f x r d : root_at f x r d -> is_root f r.
Proof. induction 1; auto. Qed.

Lemma root_of_is_root f x r : root_of f x r -> is_root f r.
Proof. intros [d H]. eauto using root_at_is_root. Qed.

Lemma is_root_root_of f r : is_root f r -> root_of f r r.
Proof. intros H. exists 0. by constructor. Qed.

Lemma root_of_root f r s : is_root f r -> root_of f r s -> s = r.
Proof. intros Hr Hs. eapply root_of_fun; eauto using is_root_root_of. Qed.

Lemma root_at_lt f x r d : root_at f x r d -> x < length f.
Proof. destruct 1; eauto using lookup_lt_Some. Qed.

Lemma root_of_lt f x r : root_of f x r -> x < length f.
Proof. intros [d H]. eauto using root_at_lt. Qed.

Lemma is_root_lt f r : is_root f r -> r < length f.
Proof. apply lookup_lt_Some. Qed.

Lemma root_of_root_lt f x r : root_of f x r -> r < length f.
Proof. eauto using is_root_lt, root_of_is_root. Qed.

(** The entries of a well-formed forest are indices of the forest. *)
Lemma wf_forest_lookup_lt f x p : wf_forest f -> f !! x = Some p -> p < length f.
Proof.
  intros Hwf Hx. destruct (Hwf x (lookup_lt_Some _ _ _ Hx)) as (r & d & Hr).
  inversion Hr; simplify_eq; eauto using lookup_lt_Some, root_at_lt.
Qed.

Lemma root_of_parent f x p r :
  f !! x = Some p -> root_of f p r -> root_of f x r.
Proof.
  intros Hx [d Hp]. destruct (decide (p = x)) as [-> | Hne]; [by exists d |].
  exists (S d). by econstructor.
Qed.

Lemma root_of_parent_inv f x p r :
  f !! x = Some p -> root_of f x r -> root_of f p r.
Proof.
  intros Hx [d H]. inversion H; subst.
  - assert (p = r) as -> by congruence. by apply is_root_root_of.
  - assert (p = p0) as -> by congruence. by eexists.
Qed.

#[export] Hint Resolve root_of_is_root is_root_root_of root_of_lt root_of_root_lt
  is_root_lt : py.

(** ** Updating one parent pointer

    Both Python writes to the forest are instances of these two lemmas:
    path compression redirects a node to its own root; a union redirects
    a root to another root. *)

Section compress.
Context (f : list nat) (x r : nat) (Hx : root_of f x r).

Lemma compress_lookup_root : <[x:=r]> f !! r = Some r.
Proof.
  destruct (decide (x = r)) as [-> | Hne].
  - apply list_lookup_insert_eq. eauto with py.
  - rewrite list_lookup_insert_ne by done. exact (root_of_is_root _ _ _ Hx).
Qed.

Lemma compress_lookup_x : <[x:=r]> f !! x = Some r.
Proof. apply list_lookup_insert_eq. eauto with py. Qed.

Lemma root_of_compress_1 y s : root_of f y s -> root_of (<[x:=r]> f) y s.
Proof.
  intros [d H]. induction H as [y Hy | y p s d Hy Hne Hp IH].
  - apply is_root_root_of. unfold is_root.
    destruct (decide (x = y)) as [<- | Hxy].
    + rewrite compress_lookup_x. f_equal. exact (root_of_root f x r Hy Hx).
    + by rewrite list_lookup_insert_ne.
  - destruct (decide (x = y)) as [<- | Hxy].
    + assert (s = r) as ->.
      { eapply root_of_fun; [|apply Hx]. exists (S d). by econstructor. }
      eapply root_of_parent; [apply compress_lookup_x |].
      apply is_root_root_of, compress_lookup_root.
    + eapply root_of_parent; [|apply IH]. by rewrite list_lookup_insert_ne.
Qed.

Lemma root_of_compress_2 y s : root_of (<[x:=r]> f) y s -> root_of f y s.
Proof.
  intros [d H]. induction H as [y Hy | y p s d Hy Hne Hp IH].
  - destruct (decide (x = y)) as [<- | Hxy].
    + rewrite compress_lookup_x in Hy. by injection Hy as ->.
    + rewrite list_lookup_insert_ne in Hy by done. by apply is_root_root_of.
  - destruct (decide (x = y)) as [<- | Hxy].
    + rewrite compress_lookup_x in Hy. injection Hy as <-.
      by rewrite (root_of_root f r s (root_of_is_root _ _ _ Hx) IH).
    + rewrite list_lookup_insert_ne in Hy by done. by eapply root_of_parent.
Qed.

Lemma root_of_compress y s : root_of (<[x:=r]> f) y s <-> root_of f y s.
Proof. split; [apply root_of_compress_2 | apply root_of_compress_1]. Qed.

End compress.

Section attach.
Context (f : list nat) (ra rb : nat).
Context (Ha : is_root f ra) (Hb : is_root f rb) (Hab : ra <> rb).

Lemma attach_lookup_ne y : y <> ra -> <[ra:=rb]> f !! y = f !! y.
Proof. intros. by rewrite list_lookup_insert_ne. Qed.

Lemma attach_lookup_ra : <[ra:=rb]> f !! ra = Some rb.
Proof. apply list_lookup_insert_eq. eauto with py. Qed.

Lemma attach_is_root_rb : is_root (<[ra:=rb]> f) rb.
Proof. unfold is_root. by rewrite attach_lookup_ne. Qed.

Lemma root_of_attach_ra : root_of (<[ra:=rb]> f) ra rb.
Proof.
  eapply root_of_parent; [apply attach_lookup_ra |].
  apply is_root_root_of, attach_is_root_rb.
Qed.

Lemma root_of_attach_1 y s :
  root_of f y s -> root_of (<[ra:=rb]> f) y (moved ra rb s).
Proof.
  intros [d H]. induction H as [y Hy | y p s d Hy Hne Hp IH].
  - unfold moved. case_decide as Hy'; [subst; apply root_of_attach_ra |].
    apply is_root_root_of. unfold is_root. by rewrite attach_lookup_ne.
  - assert (y <> ra) by (intros ->; unfold is_root in Ha; congruence).
    eapply root_of_parent; [|apply IH]. by rewrite attach_lookup_ne.
Qed.

Lemma root_of_attach_2 y s :
  y < length f -> wf_forest f ->
  root_of (<[ra:=rb]> f) y s -> exists s0, root_of f y s0 /\ s = moved ra rb s0.
Proof.
  intros Hy Hwf H. destruct (Hwf y Hy) as [s0 Hs0]. exists s0. split; [done |].
  eapply root_of_fun; [apply H |]. by apply root_of_attach_1.
Qed.

End attach.

(** ** Depth is bounded by the size of the forest *)

Lemma root_at_path f x r d :
  root_at f x r d ->
  exists l, length l = S d /\ NoDup l /\
    forall y, y ∈ l -> exists dy, dy <= d /\ root_at f y r dy.
Proof.
  induction 1 as [x Hx | x p r d Hx Hne Hp (l & Hl & Hnd & Hall)].
  - exists [x]. split_and!; [done | apply NoDup_singleton |].
    intros y ->%list_elem_of_singleton. exists 0. split; [lia | by constructor].
  - assert (root_at f x r (S d)) as Hx' by (by econstructor).
    exists (x :: l). split_and!.
    + simpl. lia.
    + constructor; [|done]. intros (dy & Hle & Hy)%Hall.
      destruct (root_at_fun _ _ _ _ _ _ Hy Hx') as [_ ->]. lia.
    + intros y [-> | Hy]%elem_of_cons; [by exists (S d) |].
      destruct (Hall y Hy) as (dy & ? & ?). exists dy. split; [lia | done].
Qed.

Lemma root_at_depth_lt f x r d : root_at f x r d -> d < length f.
Proof.
  intros (l & Hl & Hnd & Hall)%root_at_path.
  assert (length l <= length (seq 0 (length f))) as Hle.
  { apply submseteq_length, NoDup_submseteq; [done |].
    intros y (dy & _ & Hy)%Hall. apply elem_of_seq.
    split; [lia | simpl; eauto using root_at_lt]. }
  rewrite length_seq in Hle. lia.
Qed.

(** ** The executable reference agrees with the relation *)

Lemma rep_fuel_Some n f x r :
  rep_fuel n f x = Some r <-> exists d, d < n /\ root_at f x r d.
Proof.
  revert x. induction n as [|n IH]; intros x; simpl.
  { split; [done | intros (d & ? & _); lia]. }
  destruct (f !! x) as [p|] eqn:Hx.
  - case_decide as Hp.
    + subst p. split.
      * intros [= <-]. exists 0. split; [lia | by constructor].
      * intros (d & _ & H). f_equal. symmetry.
        eapply root_of_root; [apply Hx | by exists d].
    + rewrite IH. split.
      * intros (d & ? & H). exists (S d). split; [lia | by econstructor].
      * intros (d & Hd & H). inversion H as [|? p' ? d' Hx' ? Hp']; subst; [congruence |].
        assert (p' = p) as -> by congruence. exists d'. split; [lia | done].
  - split; [done | intros (d & _ & H)].
    apply root_at_lt, lookup_lt_is_Some in H. rewrite Hx in H. by destruct H.
Qed.

Lemma rep_Some f x r : rep f x = Some r <-> root_of f x r.
Proof.
  unfold rep. rewrite rep_fuel_Some. split; [intros (d & _ & H); by exists d |].
  intros [d H]. exists d. eauto using root_at_depth_lt.
Qed.

Lemma depth_fuel_Some n f x d :
  depth_fuel n f x = Some d <-> d < n /\ exists r, root_at f x r d.
Proof.
  revert x d. induction n as [|n IH]; intros x d; simpl.
  { split; [done | intros [? _]; lia]. }
  destruct (f !! x) as [p|] eqn:Hx.
  - case_decide as Hp.
    + subst p. split.
      * intros [= <-]. split; [lia |]. exists x. by constructor.
      * intros (_ & r & H). f_equal.
        assert (root_at f x x 0) as H0 by (by constructor).
        by destruct (root_at_fun _ _ _ _ _ _ H0 H).
    + rewrite fmap_Some. split.
      * intros (d' & (? & r & H)%IH & ->). split; [lia |]. exists r. by econstructor.
      * intros (Hd & r & H). inversion H as [|? p' ? d' Hx' ? Hp']; subst; [congruence |].
        assert (p' = p) as -> by congruence.
        exists d'. split; [|done]. apply IH. split; [lia | by exists r].
  - split; [done | intros (_ & r & H)].
    apply root_at_lt, lookup_lt_is_Some in H. rewrite Hx in H. by destruct H.
Qed.

Lemma depth_Some f x d : depth f x = Some d <-> exists r, root_at f x r d.
Proof.
  unfold depth. rewrite depth_fuel_Some. split; [tauto |].
  intros [r H]. split; [|by exists r]. eauto using root_at_depth_lt.
Qed.

Lemma wf_forestb_spec f : wf_forestb f = true <-> wf_forest f.
Proof.
  unfold wf_forestb, wf_forest. rewrite forallb_forall. split.
  - intros H x Hx. specialize (H x). rewrite bool_decide_eq_true in H.
    destruct H as [r Hr]; [apply in_seq; lia |]. exists r. by apply rep_Some.
  - intros H x [_ Hx]%in_seq. apply bool_decide_eq_true.
    destruct (H x) as [r Hr]; [lia |]. exists r. by apply rep_Some.
Qed.

(** ** "Same tree" is an equivalence on the indices of a well-formed forest *)

Lemma same_refl f x : wf_forest f -> x < length f -> same f x x.
Proof. intros Hwf Hx. destruct (Hwf x Hx) as [r Hr]. by exists r. Qed.

Lemma same_sym f x y : same f x y -> same f y x.
Proof. intros (r & ? & ?). by exists r. Qed.

Lemma same_sym_iff f x y : same f x y <-> same f y x.
Proof. split; apply same_sym. Qed.

Lemma same_trans f x y z : same f x y -> same f y z -> same f x z.
Proof.
  intros (r & Hx & Hy) (r' & Hy' & Hz).
  rewrite <- (root_of_fun _ _ _ _ Hy Hy') in Hz. by exists r.
Qed.

Lemma same_root_of f x y r : root_of f x r -> (same f x y <-> root_of f y r).
Proof.
  intros Hx. split; [|intros; by exists r].
  intros (r' & Hx' & Hy). by rewrite (root_of_fun _ _ _ _ Hx Hx').
Qed.

Lemma same_rep f x y :
  wf_forest f -> x < length f -> y < length f ->
  same f x y <-> rep f x = rep f y.
Proof.
  intros Hwf Hx Hy. destruct (Hwf x Hx) as [r Hr], (Hwf y Hy) as [s Hs].
  rewrite (proj2 (rep_Some f x r) Hr), (proj2 (rep_Some f y s) Hs).
  rewrite (same_root_of f x y r Hr). split.
  - intros Hy'. by rewrite (root_of_fun _ _ _ _ Hs Hy').
  - by intros [= ->].
Qed.

(** ** The initial forest: every index its own root *)

Lemma identity_is_root n x : x < n -> is_root (seq 0 n) x.
Proof. intros. unfold is_root. by rewrite lookup_seq_lt. Qed.

Lemma identity_wf n : wf_forest (seq 0 n).
Proof.
  intros x Hx. rewrite length_seq in Hx. exists x.
  by apply is_root_root_of, identity_is_root.
Qed.

Lemma identity_root_of n x r : root_of (seq 0 n) x r <-> x < n /\ r = x.
Proof.
  split.
  - intros H. pose proof (root_of_lt _ _ _ H) as Hx. rewrite length_seq in Hx.
    split; [done |]. eapply root_of_root; [by apply identity_is_root | done].
  - intros [Hx ->]. by apply is_root_root_of, identity_is_root.
Qed.

(** ** Counting trees *)

Lemma elem_of_roots f x : x ∈ roots f <-> is_root f x.
Proof.
  unfold roots. rewrite list_elem_of_filter, elem_of_seq. split; [tauto |].
  intros H. split; [done |]. pose proof (is_root_lt _ _ H). lia.
Qed.

(** Two forests with the same root relation have the same roots. *)
Lemma roots_equiv f f' :
  length f' = length f ->
  (forall y s, root_of f' y s <-> root_of f y s) -> roots f' = roots f.
Proof.
  intros Hlen Heq. unfold roots. rewrite Hlen. apply filter_ext_in. intros x _.
  split; intros H.
  - by eapply root_of_is_root, Heq, is_root_root_of.
  - by eapply root_of_is_root, Heq, is_root_root_of.
Qed.

(** Attaching a root under another root removes exactly one tree. *)
Lemma count_roots_attach f ra rb :
  is_root f ra -> is_root f rb -> ra <> rb ->
  count_roots f = S (count_roots (<[ra:=rb]> f)).
Proof.
  intros Ha Hb Hab. unfold count_roots, roots. rewrite length_insert.
  apply (filter_length_remove _ _ _ ra).
  - apply NoDup_seq.
  - apply elem_of_seq. pose proof (is_root_lt _ _ Ha). lia.
  - done.
  - intros x. destruct (decide (x = ra)) as [-> | Hx].
    + rewrite attach_lookup_ra by done. split; [intros [= ?]; done | tauto].
    + rewrite attach_lookup_ne by done. tauto.
Qed.

(** ** How a union changes "same tree" *)

Lemma same_moved f f' a b ra rb :
  wf_forest f -> root_of f a ra -> root_of f b rb ->
  (forall y s, root_of f y s -> root_of f' y (moved ra rb s)) ->
  forall y z, y < length f -> z < length f ->
    same f' y z <->
    same f y z \/ (same f y a /\ same f b z) \/ (same f y b /\ same f a z).
Proof.
  intros Hwf Ha Hb Hmove y z Hy Hz.
  destruct (Hwf y Hy) as [sy Hsy], (Hwf z Hz) as [sz Hsz].
  rewrite (same_root_of f' y z _ (Hmove _ _ Hsy)).
  rewrite (same_root_of f y z _ Hsy), (same_sym_iff f y a), (same_sym_iff f y b).
  rewrite (same_root_of f a y _ Ha), (same_root_of f b z _ Hb).
  rewrite (same_root_of f b y _ Hb), (same_root_of f a z _ Ha).
  assert (forall s, root_of f' z s <-> s = moved ra rb sz) as ->.
  { intros s. split; [intros ?; eapply root_of_fun; eauto | intros ->; eauto]. }
  assert (forall s, root_of f y s <-> s = sy) as Ey.
  { intros s. split; [intros ?; eapply root_of_fun; eauto | by intros ->]. }
  assert (forall s, root_of f z s <-> s = sz) as Ez.
  { intros s. split; [intros ?; eapply root_of_fun; eauto | by intros ->]. }
  rewrite !Ey, !Ez. unfold moved. repeat case_decide; intuition congruence.
Qed.
