(* ===== verification/Labeler.v ===== *)
(** The methods of [connectedComponentsLabeler] ([src/graph.py]) that
    work on the forest: [connectedComponentIdentifier] (find with path
    compression), [link] (union) and [simplifyForest] (the flattening
    pass).  They read and write [self.forest] only, so their state is the
    forest.  [depth] is the number of stack frames the recursive method
    may still use when it is entered. *)

From stdpp Require Import base option list.
From S2P Require Import Prelude Forest.

Implicit Types (forest f : list nat) (node x y p r s d depth : nat).

(** [self.forest[i]] and [self.forest[i] = v] *)
Definition forest_get (i : nat) : prog (list nat) nat :=
  fun forest => (getitem forest i, forest).

Definition forest_set (i v : nat) : prog (list nat) unit :=
  fun forest =>
    match setitem forest i v with
    | Ok forest' => (Ok tt, forest')
    | Raise e => (Raise e, forest)
    end.

Fixpoint connectedComponentIdentifier (depth : nat) (node : nat) : prog (list nat) nat :=
  match depth with
  | 0 => raise RecursionError
  | S depth' =>
      p ← forest_get node;
      if decide (p <> node) then
        r ← connectedComponentIdentifier depth' p;
        forest_set node r;;
        mret r
      else
        mret node
  end.

Definition link (depth : nat) (nodeA nodeB : nat) : prog (list nat) unit :=
  ccA ← connectedComponentIdentifier depth nodeA;
  ccB ← connectedComponentIdentifier depth nodeB;
  (when ccA <> ccB then forest_set ccA ccB)%py.

(** The body of the loop of [simplifyForest]:
    [self.forest[i] = self.connectedComponentIdentifier(i)]. *)
Definition simplify_body (depth i : nat) : prog (list nat) unit :=
  r ← connectedComponentIdentifier depth i; forest_set i r.

Definition simplifyForest (depth : nat) : prog (list nat) unit :=
  forest ← get_state;
  for_ (seq 0 (length forest)) (simplify_body depth).

(** ** Reference definitions: what the methods compute *)

(** The nodes from [x] up to its root, [x] first. *)
Fixpoint path_fuel n f x : list nat :=
  match n with
  | 0 => []
  | S n' =>
      match f !! x with
      | None => []
      | Some p => if decide (p = x) then [x] else x :: path_fuel n' f p
      end
  end.

Definition path f x : list nat := path_fuel (length f) f x.

(** Path compression as one update: every node of the path is pointed
    at the root. *)
Definition compress f x : list nat :=
  match rep f x with
  | Some r => foldr (fun y g => <[y:=r]> g) f (path f x)
  | None => f
  end.

(** Union as one update, after both paths are compressed. *)
Definition union f a b : list nat :=
  let f1 := compress f a in
  let f2 := compress f1 b in
  match rep f a, rep f b with
  | Some ra, Some rb => if decide (ra <> rb) then <[ra:=rb]> f2 else f2
  | _, _ => f2
  end.

(** The flat forest: every index mapped to its root. *)
Definition flatten f : list nat :=
  (fun x => default x (rep f x)) <$> seq 0 (length f).

(** The loop invariant: the root relation of the start is kept, and every
    index already visited names its root directly. *)
Definition simplify_inv f (done_ : list nat) (g : list nat) : Prop :=
  length g = length f /\
  (forall y s, root_of g y s <-> root_of f y s) /\
  (forall i, i ∈ done_ -> exists r, root_of f i r /\ g !! i = Some r).

(** ** A concrete forest

    Two trees: [0 -> 1 -> 2] with root [2], and [3 -> 4] with root [4]. *)
Definition example_forest : list nat := [1; 2; 2; 4; 4].

(** ** One step of the recursive method *)

Lemma forest_get_Ok i f v f' :
  forest_get i f = (Ok v, f') <-> f !! i = Some v /\ f' = f.
Proof.
  unfold forest_get. rewrite pair_equal_spec, getitem_Ok. split; intros [? ?]; by subst.
Qed.

Lemma forest_set_Ok i v f u f' :
  forest_set i v f = (Ok u, f') <-> i < length f /\ f' = <[i:=v]> f.
Proof.
  unfold forest_set, setitem. destruct u. case_decide; split.
  - by intros [= <-].
  - by intros [_ ->].
  - done.
  - tauto.
Qed.

Lemma forest_set_in_range i v f :
  i < length f -> forest_set i v f = (Ok tt, <[i:=v]> f).
Proof. intros. unfold forest_set. by rewrite setitem_in_range. Qed.

Lemma cci_step depth node f :
  connectedComponentIdentifier (S depth) node f =
  match f !! node with
  | None => (Raise IndexError, f)
  | Some p =>
      if decide (p <> node) then
        match connectedComponentIdentifier depth p f with
        | (Ok r, f1) =>
            match setitem f1 node r with
            | Ok f' => (Ok r, f')
            | Raise e => (Raise e, f1)
            end
        | (Raise e, f1) => (Raise e, f1)
        end
      else (Ok node, f)
  end.
Proof.
  simpl. unfold mbind, prog_bind, forest_get, getitem.
  destruct (f !! node) as [p|]; [|done].
  case_decide; [|done].
  destruct (connectedComponentIdentifier depth p f) as [[r|e] f1]; [|done].
  unfold forest_set. by destruct (setitem f1 node r).
Qed.

Lemma cci_zero node f :
  connectedComponentIdentifier 0 node f = (Raise RecursionError, f).
Proof. done. Qed.

#[global] Arguments connectedComponentIdentifier : simpl never.

(** ** [connectedComponentIdentifier]: find with path compression *)

Section find.

Lemma cci_spec depth node f r f' :
  connectedComponentIdentifier depth node f = (Ok r, f') ->
  root_of f node r /\ length f' = length f /\ f' !! node = Some r /\
  forall y s, root_of f' y s <-> root_of f y s.
Proof.
  revert node f r f'. induction depth as [|depth IH]; intros node f r f'.
  { by rewrite cci_zero. }
  rewrite cci_step. destruct (f !! node) as [p|] eqn:Hp; [|done].
  case_decide as Hne.
  - destruct (connectedComponentIdentifier depth p f) as [[r1|] f1] eqn:Hrec; [|done].
    destruct (IH _ _ _ _ Hrec) as (Hr & Hlen & Hp1 & Heq).
    unfold setitem. case_decide as Hlt; [|done]. intros [= <- <-].
    assert (root_of f1 node r1) as Hnode1.
    { apply Heq. by eapply root_of_parent. }
    split_and!; [by eapply root_of_parent | by rewrite length_insert
                | by apply list_lookup_insert_eq |].
    intros y s. rewrite root_of_compress by done. apply Heq.
  - subst p. intros [= <- <-].
    split_and!; [by apply is_root_root_of | done | done | done].
Qed.

Lemma cci_total depth node f r d :
  root_at f node r d -> d < depth ->
  exists f', connectedComponentIdentifier depth node f = (Ok r, f').
Proof.
  intros H. revert depth.
  induction H as [x Hx | x p r d Hx Hne Hp IH]; intros [|depth] Hd; try lia.
  - exists f. rewrite cci_step, Hx. by rewrite decide_False by (intros ?; done).
  - destruct (IH depth) as [f1 Hrec]; [lia |].
    exists (<[x:=r]> f1). rewrite cci_step, Hx, decide_True, Hrec by done.
    apply cci_spec in Hrec as (_ & Hlen & _).
    rewrite setitem_in_range; [done |]. rewrite Hlen. eauto using lookup_lt_Some.
Qed.

Lemma cci_overflow depth node f r d :
  root_at f node r d -> depth <= d ->
  connectedComponentIdentifier depth node f = (Raise RecursionError, f).
Proof.
  intros H. revert depth.
  induction H as [x Hx | x p r d Hx Hne Hp IH]; intros [|depth] Hd;
    try apply cci_zero; try lia.
  rewrite cci_step, Hx, decide_True, IH by (done || lia). done.
Qed.

Lemma cci_out_of_range depth node f :
  length f <= node ->
  connectedComponentIdentifier (S depth) node f = (Raise IndexError, f).
Proof. intros H. by rewrite cci_step, (lookup_ge_None_2 f node H). Qed.

End find.

(** ** The path that a call compresses *)

Section paths.

Lemma path_fuel_indep f x r d n m :
  root_at f x r d -> d < n -> d < m -> path_fuel n f x = path_fuel m f x.
Proof.
  intros H. revert n m.
  induction H as [x Hx | x p r d Hx Hne Hp IH]; intros [|n] [|m] Hn Hm;
    try lia; simpl; rewrite Hx.
  - by rewrite !decide_True.
  - rewrite !decide_False by done. f_equal. apply IH; lia.
Qed.

Lemma path_root f x : is_root f x -> path f x = [x].
Proof.
  intros Hx. unfold path. pose proof (is_root_lt _ _ Hx).
  destruct (length f); [lia |]. simpl. rewrite Hx. by rewrite decide_True.
Qed.

Lemma path_step f x p r :
  f !! x = Some p -> p <> x -> root_of f p r -> path f x = x :: path f p.
Proof.
  intros Hx Hne [d Hp]. unfold path.
  assert (root_at f x r (S d)) as Hx' by (by econstructor).
  apply root_at_depth_lt in Hx'.
  destruct (length f) as [|n] eqn:Hn; [lia |].
  rewrite (path_fuel_indep f p r d (S n) n) by (done || lia).
  simpl. by rewrite Hx, decide_False.
Qed.

Lemma elem_of_path_self f x r : root_of f x r -> x ∈ path f x.
Proof.
  intros [d H]. destruct H as [x Hx | x p r d Hx Hne Hp].
  - rewrite path_root by done. by left.
  - erewrite path_step by (done || by eexists). by left.
Qed.

Lemma elem_of_path_root f x r : root_of f x r -> r ∈ path f x.
Proof.
  intros [d H]. induction H as [x Hx | x p r d Hx Hne Hp IH].
  - rewrite path_root by done. by left.
  - erewrite path_step by (done || by eexists). by right.
Qed.

End paths.

(** ** Path compression as a single update *)

Section compression.

Lemma compress_root f x : is_root f x -> compress f x = f.
Proof.
  intros Hx. unfold compress.
  rewrite (proj2 (rep_Some f x x)) by (by apply is_root_root_of).
  rewrite path_root by done. simpl. by apply list_insert_id.
Qed.

Lemma compress_step f x p r :
  f !! x = Some p -> p <> x -> root_of f p r ->
  compress f x = <[x:=r]> (compress f p).
Proof.
  intros Hx Hne Hp. unfold compress.
  rewrite (proj2 (rep_Some f x r)) by (by eapply root_of_parent).
  rewrite (proj2 (rep_Some f p r)) by done.
  by erewrite path_step.
Qed.

(** The recursive method computes exactly [compress] and [rep]. *)
Lemma cci_compress depth node f r f' :
  connectedComponentIdentifier depth node f = (Ok r, f') ->
  rep f node = Some r /\ f' = compress f node.
Proof.
  revert node f r f'. induction depth as [|depth IH]; intros node f r f'.
  { by rewrite cci_zero. }
  rewrite cci_step. destruct (f !! node) as [p|] eqn:Hp; [|done].
  case_decide as Hne.
  - destruct (connectedComponentIdentifier depth p f) as [[r1|] f1] eqn:Hrec; [|done].
    destruct (IH _ _ _ _ Hrec) as [Hr ->]. apply rep_Some in Hr.
    unfold setitem. case_decide as Hlt; [|done]. intros [= <- <-].
    split; [by eapply rep_Some, root_of_parent |].
    by rewrite (compress_step f node p r1 Hp Hne Hr).
  - subst p. intros [= <- <-].
    split; [by apply rep_Some, is_root_root_of | by rewrite compress_root].
Qed.

(** An entry that already names its root is left alone. *)
Lemma cci_keeps_direct depth node f r f' y s :
  connectedComponentIdentifier depth node f = (Ok r, f') ->
  root_of f y s -> f !! y = Some s -> f' !! y = Some s.
Proof.
  revert node f r f'. induction depth as [|depth IH]; intros node f r f'.
  { by rewrite cci_zero. }
  rewrite cci_step. destruct (f !! node) as [p|] eqn:Hp; [|done].
  case_decide as Hne; [|by intros [= <- <-]].
  destruct (connectedComponentIdentifier depth p f) as [[r1|] f1] eqn:Hrec; [|done].
  unfold setitem. case_decide as Hlt; [|done]. intros [= <- <-] Hs Hy.
  destruct (decide (node = y)) as [-> | Hny].
  - rewrite list_lookup_insert_eq by done. f_equal.
    apply cci_spec in Hrec as (Hr & _). rewrite Hy in Hp. injection Hp as <-.
    by rewrite (root_of_root f s r1 (root_of_is_root _ _ _ Hs) Hr).
  - rewrite list_lookup_insert_ne by done. by eapply IH.
Qed.

End compression.

(** ** [link]: union *)

Section union.

Lemma link_inv depth a b f u f' :
  link depth a b f = (Ok u, f') ->
  exists ra rb f1 f2,
    connectedComponentIdentifier depth a f = (Ok ra, f1) /\
    connectedComponentIdentifier depth b f1 = (Ok rb, f2) /\
    f' = if decide (ra <> rb) then <[ra:=rb]> f2 else f2.
Proof.
  unfold link. intros (ra & f1 & Ha & (rb & f2 & Hb & H)%prog_bind_Ok)%prog_bind_Ok.
  exists ra, rb, f1, f2. split_and!; [done | done |].
  case_decide; [by apply forest_set_Ok in H as [_ ->] | by injection H as <-].
Qed.

(** Roots after a [link]: the root of [a] is attached under the root of
    [b]; every other root stays. *)
Lemma link_spec depth a b f u f' :
  link depth a b f = (Ok u, f') ->
  exists ra rb,
    root_of f a ra /\ root_of f b rb /\ length f' = length f /\
    forall y s, root_of f y s -> root_of f' y (moved ra rb s).
Proof.
  intros (ra & rb & f1 & f2 & Ha & Hb & ->)%link_inv.
  apply cci_spec in Ha as (Ha & Hlen1 & _ & Heq1).
  apply cci_spec in Hb as (Hb & Hlen2 & _ & Heq2).
  apply Heq1 in Hb. exists ra, rb. split_and!; [done | done | |].
  - case_decide; rewrite ?length_insert; congruence.
  - intros y s Hs. apply Heq1, Heq2 in Hs. case_decide as Hne.
    + apply root_of_attach_1; [| |done |done].
      * by eapply root_of_is_root, Heq2, Heq1.
      * by eapply root_of_is_root, Heq2, Heq1.
    + unfold moved. case_decide; by subst.
Qed.

Lemma link_wf depth a b f u f' :
  link depth a b f = (Ok u, f') -> wf_forest f -> wf_forest f'.
Proof.
  intros (ra & rb & _ & _ & Hlen & Hmove)%link_spec Hwf y Hy.
  rewrite Hlen in Hy. destruct (Hwf y Hy) as [s Hs]. eauto.
Qed.

Lemma link_total depth a b f :
  wf_forest f -> a < length f -> b < length f -> length f <= depth ->
  exists f', link depth a b f = (Ok tt, f').
Proof.
  intros Hwf Ha Hb Hd.
  destruct (Hwf a Ha) as (ra & da & Hra).
  destruct (cci_total depth a f ra da Hra) as [f1 H1].
  { apply root_at_depth_lt in Hra. lia. }
  pose proof (cci_spec _ _ _ _ _ H1) as (_ & Hlen1 & _ & Heq1).
  destruct (Hwf b Hb) as (rb & Hrb). apply Heq1 in Hrb as [db Hrb].
  destruct (cci_total depth b f1 rb db Hrb) as [f2 H2].
  { apply root_at_depth_lt in Hrb. lia. }
  pose proof (cci_spec _ _ _ _ _ H2) as (_ & Hlen2 & _ & Heq2).
  exists (if decide (ra <> rb) then <[ra:=rb]> f2 else f2).
  unfold link, mbind, prog_bind. rewrite H1, H2. case_decide; [|done].
  rewrite forest_set_in_range; [done |].
  rewrite Hlen2, Hlen1. eauto using root_at_is_root, is_root_lt.
Qed.

End union.

Section union_properties.

(** After [link a b], two indices are in the same tree exactly when they
    were before, or when the new edge joins their trees. *)
Lemma link_same depth a b f u f' y z :
  link depth a b f = (Ok u, f') -> wf_forest f ->
  y < length f -> z < length f ->
  same f' y z <->
  same f y z \/ (same f y a /\ same f b z) \/ (same f y b /\ same f a z).
Proof.
  intros (ra & rb & Ha & Hb & _ & Hmove)%link_spec Hwf Hy Hz.
  by eapply same_moved.
Qed.

(** The optimised method against the reference: one [link] is [union]. *)
Lemma link_union depth a b f u f' :
  link depth a b f = (Ok u, f') -> f' = union f a b.
Proof.
  intros (ra & rb & f1 & f2 & Ha & Hb & ->)%link_inv.
  pose proof (cci_spec _ _ _ _ _ Ha) as (_ & _ & _ & Heq1).
  apply cci_compress in Ha as [Hra ->]. apply cci_compress in Hb as [Hrb ->].
  unfold union. rewrite Hra.
  apply rep_Some, Heq1, rep_Some in Hrb. by rewrite Hrb.
Qed.

(** Merge monotonicity: a [link] leaves the number of trees unchanged
    when its arguments are already joined, and lowers it by one
    otherwise. *)
Lemma link_count_roots depth a b f u f' :
  link depth a b f = (Ok u, f') ->
  (same f a b /\ count_roots f' = count_roots f) \/
  (~ same f a b /\ count_roots f = S (count_roots f')).
Proof.
  intros (ra & rb & f1 & f2 & Ha & Hb & ->)%link_inv.
  apply cci_spec in Ha as (Ha & Hlen1 & _ & Heq1).
  apply cci_spec in Hb as (Hb & Hlen2 & _ & Heq2).
  assert (roots f2 = roots f) as Hroots.
  { apply roots_equiv; [congruence |]. intros y s. by rewrite Heq2, Heq1. }
  apply Heq1 in Hb.
  rewrite (same_root_of f a b ra Ha). case_decide as Hne.
  - right. split; [intros Hb'; by destruct (Hne (root_of_fun _ _ _ _ Hb' Hb)) |].
    unfold count_roots at 1. rewrite <- Hroots. apply count_roots_attach; [| |done].
    + by eapply root_of_is_root, Heq2, Heq1.
    + by eapply root_of_is_root, Heq2, Heq1.
  - left. subst rb. split; [done |].
    unfold count_roots. by rewrite Hroots.
Qed.

End union_properties.

(** ** [simplifyForest]: the flattening pass *)

Section flattening.

Lemma simplify_body_inv depth i f u f' :
  simplify_body depth i f = (Ok u, f') ->
  exists r, connectedComponentIdentifier depth i f = (Ok r, f').
Proof.
  unfold simplify_body. intros (r & f1 & Hr & [_ ->]%forest_set_Ok)%prog_bind_Ok.
  exists r. rewrite Hr. f_equal. symmetry. apply list_insert_id.
  by apply cci_spec in Hr as (_ & _ & ? & _).
Qed.

Lemma simplify_body_keeps depth f pre i g u g' :
  simplify_inv f pre g -> simplify_body depth i g = (Ok u, g') ->
  simplify_inv f (pre ++ [i]) g'.
Proof.
  intros (Hlen & Heq & Hdone) [r Hr]%simplify_body_inv.
  pose proof (cci_spec _ _ _ _ _ Hr) as (Hi & Hlen' & Hir & Heq').
  split_and!; [congruence | intros y s; by rewrite Heq', Heq |].
  intros j [Hj | ->%list_elem_of_singleton]%elem_of_app.
  - destruct (Hdone j Hj) as (s & Hs & Hjs). exists s. split; [done |].
    eapply cci_keeps_direct; [done | by apply Heq | done].
  - exists r. split; [by apply Heq | done].
Qed.

Lemma simplifyForest_inv depth f u f' :
  simplifyForest depth f = (Ok u, f') ->
  simplify_inv f (seq 0 (length f)) f'.
Proof.
  unfold simplifyForest, mbind, prog_bind, get_state. destruct u. intros Hloop.
  eapply (for_invariant_prefix (simplify_inv f)); [| |exact Hloop].
  - intros pre i post g g' _. apply simplify_body_keeps.
  - split_and!; [done | done | by intros i ?%elem_of_nil].
Qed.

(** The optimised pass against the reference: the result is [flatten]. *)
Lemma simplifyForest_flatten depth f u f' :
  simplifyForest depth f = (Ok u, f') -> f' = flatten f.
Proof.
  intros (Hlen & _ & Hdone)%simplifyForest_inv. apply list_eq. intros i.
  unfold flatten. rewrite list_lookup_fmap.
  destruct (decide (i < length f)) as [Hi | Hi].
  - rewrite lookup_seq_lt by done. simpl.
    destruct (Hdone i) as (r & Hr & ->); [apply elem_of_seq; lia |].
    by rewrite (proj2 (rep_Some f i r) Hr).
  - rewrite lookup_seq_ge by lia. apply lookup_ge_None. lia.
Qed.

Lemma simplifyForest_total depth f :
  wf_forest f -> length f <= depth ->
  exists f', simplifyForest depth f = (Ok tt, f').
Proof.
  intros Hwf Hd. unfold simplifyForest, mbind, prog_bind, get_state.
  destruct (for_total (fun g => length g = length f /\ wf_forest g)
              (seq 0 (length f)) (simplify_body depth) f) as (f' & H & _);
    [| done | by exists f'].
  intros i g [_ Hi]%elem_of_seq [Hlen Hg]. simpl in Hi.
  destruct (Hg i) as (r & d & Hr); [lia |].
  destruct (cci_total depth i g r d Hr) as [g' Hg'].
  { apply root_at_depth_lt in Hr. lia. }
  pose proof (cci_spec _ _ _ _ _ Hg') as (_ & Hlen' & Hir & Heq).
  exists g'. split.
  - unfold simplify_body. rewrite (prog_bind_run _ _ _ _ _ Hg').
    rewrite forest_set_in_range by lia. by rewrite list_insert_id.
  - split; [congruence |]. intros y Hy. rewrite Hlen' in Hy.
    destruct (Hg y Hy) as [s Hs]. exists s. by apply Heq.
Qed.

End flattening.

(** ** The flat forest *)

Section flat_forest.

Lemma length_flatten f : length (flatten f) = length f.
Proof. unfold flatten. by rewrite length_fmap, length_seq. Qed.

Lemma flatten_lookup f i r :
  wf_forest f -> flatten f !! i = Some r <-> root_of f i r.
Proof.
  intros Hwf. unfold flatten. rewrite list_lookup_fmap.
  destruct (decide (i < length f)) as [Hi | Hi].
  - rewrite lookup_seq_lt by done. simpl. destruct (Hwf i Hi) as [s Hs].
    rewrite (proj2 (rep_Some f i s) Hs). simpl. split.
    + by intros [= <-].
    + intros Hr. by rewrite (root_of_fun _ _ _ _ Hr Hs).
  - rewrite lookup_seq_ge by lia. split; [done |].
    intros ?%root_of_lt. lia.
Qed.

(** Two indices carry the same label exactly when they are in the same
    tree. *)
Lemma flatten_same f i j :
  wf_forest f -> i < length f -> j < length f ->
  flatten f !! i = flatten f !! j <-> same f i j.
Proof.
  intros Hwf Hi Hj. destruct (Hwf i Hi) as [r Hr].
  rewrite (proj2 (flatten_lookup f i r Hwf) Hr), (same_root_of f i j r Hr).
  rewrite <- (flatten_lookup f j r Hwf). split; by intros ->.
Qed.

Lemma flatten_root_of f y s :
  wf_forest f -> root_of (flatten f) y s <-> root_of f y s.
Proof.
  intros Hwf.
  assert (forall x r, root_of f x r -> root_of (flatten f) x r) as Hfwd.
  { intros x r Hr. eapply root_of_parent; [by apply flatten_lookup |].
    apply is_root_root_of, flatten_lookup; [done |].
    by apply is_root_root_of, (root_of_is_root f x). }
  split; [|apply Hfwd]. intros Hs.
  pose proof (root_of_lt _ _ _ Hs) as Hy. rewrite length_flatten in Hy.
  destruct (Hwf y Hy) as [r Hr].
  by rewrite (root_of_fun _ _ _ _ Hs (Hfwd _ _ Hr)).
Qed.

Lemma flatten_wf f : wf_forest f -> wf_forest (flatten f).
Proof.
  intros Hwf y Hy. rewrite length_flatten in Hy. destruct (Hwf y Hy) as [r Hr].
  exists r. by apply flatten_root_of.
Qed.

Lemma flatten_flat f : wf_forest f -> flat (flatten f).
Proof.
  intros Hwf x p Hx%flatten_lookup; [|done].
  apply flatten_lookup; [done |]. by apply is_root_root_of, (root_of_is_root f x).
Qed.

Lemma flatten_idem f : wf_forest f -> flatten (flatten f) = flatten f.
Proof.
  intros Hwf. apply list_eq. intros i.
  destruct (flatten f !! i) as [r|] eqn:Hi.
  - apply flatten_lookup; [by apply flatten_wf |].
    by apply flatten_root_of, flatten_lookup.
  - apply lookup_ge_None. apply lookup_ge_None in Hi. by rewrite length_flatten.
Qed.

(** A second pass returns the same forest. *)
Lemma simplifyForest_idem depth f u f' u' f'' :
  wf_forest f ->
  simplifyForest depth f = (Ok u, f') ->
  simplifyForest depth f' = (Ok u', f'') -> f'' = f'.
Proof.
  intros Hwf ->%simplifyForest_flatten ->%simplifyForest_flatten.
  by apply flatten_idem.
Qed.

(** On a flat forest one frame is enough. *)
Lemma cci_flat f x p :
  flat f -> f !! x = Some p ->
  connectedComponentIdentifier 2 x f = (Ok p, f).
Proof.
  intros Hflat Hx. pose proof (Hflat x p Hx) as Hp. unfold is_root in Hp.
  rewrite cci_step, Hx. case_decide as Hne; [|by subst].
  rewrite cci_step, Hp. rewrite decide_False by (intros ?; done).
  rewrite setitem_in_range by eauto using lookup_lt_Some.
  by rewrite list_insert_id.
Qed.

End flat_forest.

(** ** The stack budget

    What the methods need of the call stack, exactly: a call returns when
    the budget exceeds the depth of the node, and otherwise raises
    [RecursionError] and leaves the forest as it was. *)

Section budget.

Lemma cci_Ok_iff depth node f r f' :
  connectedComponentIdentifier depth node f = (Ok r, f') <->
  (exists d, root_at f node r d /\ d < depth) /\ f' = compress f node.
Proof.
  split.
  - intros Hrun. pose proof (cci_spec _ _ _ _ _ Hrun) as ([d Hd] & _).
    apply cci_compress in Hrun as Hc. destruct Hc as [_ ->]. split; [|done].
    exists d. split; [done |]. destruct (decide (d < depth)); [done |].
    rewrite (cci_overflow depth node f r d) in Hrun by (done || lia). done.
  - intros [(d & Hd & Hlt) ->].
    destruct (cci_total depth node f r d Hd Hlt) as [f' Hrun].
    by destruct (cci_compress _ _ _ _ _ Hrun) as [_ <-].
Qed.

(** A larger budget changes nothing. *)
Lemma cci_mono depth depth' node f r f' :
  connectedComponentIdentifier depth node f = (Ok r, f') -> depth <= depth' ->
  connectedComponentIdentifier depth' node f = (Ok r, f').
Proof.
  rewrite !cci_Ok_iff. intros [(d & Hd & Hlt) ->] Hle.
  split; [|done]. exists d. split; [done | lia].
Qed.

(** On a well-formed forest the only exception is [RecursionError], and
    it leaves the forest unchanged. *)
Lemma cci_Raise depth node f e f' :
  wf_forest f -> node < length f ->
  connectedComponentIdentifier depth node f = (Raise e, f') ->
  e = RecursionError /\ f' = f.
Proof.
  intros Hwf Hnode Hrun. destruct (Hwf node Hnode) as (r & d & Hd).
  destruct (decide (d < depth)) as [Hlt | Hge].
  - destruct (cci_total depth node f r d Hd Hlt) as [f1 H1]. congruence.
  - rewrite (cci_overflow depth node f r d) in Hrun by (done || lia).
    by injection Hrun as <- <-.
Qed.

Lemma link_mono depth depth' a b f u f' :
  link depth a b f = (Ok u, f') -> depth <= depth' ->
  link depth' a b f = (Ok u, f').
Proof.
  unfold link. intros (ra & f1 & Ha & (rb & f2 & Hb & Hset)%prog_bind_Ok)%prog_bind_Ok Hle.
  rewrite (prog_bind_run _ _ _ _ _ (cci_mono _ _ _ _ _ _ Ha Hle)).
  by rewrite (prog_bind_run _ _ _ _ _ (cci_mono _ _ _ _ _ _ Hb Hle)).
Qed.

(** A [link] that raises has compressed at most the path of its first
    argument: the trees are the same as before. *)
Lemma link_Raise depth a b f e f' :
  wf_forest f -> a < length f -> b < length f ->
  link depth a b f = (Raise e, f') ->
  e = RecursionError /\ length f' = length f /\
  forall y s, root_of f' y s <-> root_of f y s.
Proof.
  intros Hwf Ha Hb. unfold link.
  intros [H1 | (ra & f1 & H1 & H2)]%prog_bind_Raise.
  { apply cci_Raise in H1 as [-> ->]; done. }
  pose proof (cci_spec _ _ _ _ _ H1) as (Hra & Hlen1 & _ & Heq1).
  assert (wf_forest f1) as Hwf1.
  { intros y Hy. rewrite Hlen1 in Hy. destruct (Hwf y Hy) as [s Hs].
    exists s. by apply Heq1. }
  apply prog_bind_Raise in H2 as [H2 | (rb & f2 & H2 & H3)].
  { apply cci_Raise in H2 as [-> ->]; [done | done | lia]. }
  pose proof (cci_spec _ _ _ _ _ H2) as (Hrb & Hlen2 & _ & Heq2).
  case_decide; [|done]. unfold forest_set in H3.
  rewrite setitem_in_range in H3; [done |].
  rewrite Hlen2, Hlen1. eauto with py.
Qed.

Lemma simplify_body_mono depth depth' i f u f' :
  simplify_body depth i f = (Ok u, f') -> depth <= depth' ->
  simplify_body depth' i f = (Ok u, f').
Proof.
  unfold simplify_body. intros (r & f1 & Hr & Hset)%prog_bind_Ok Hle.
  by rewrite (prog_bind_run _ _ _ _ _ (cci_mono _ _ _ _ _ _ Hr Hle)).
Qed.

Lemma simplifyForest_mono depth depth' f u f' :
  simplifyForest depth f = (Ok u, f') -> depth <= depth' ->
  simplifyForest depth' f = (Ok u, f').
Proof.
  unfold simplifyForest, mbind, prog_bind, get_state. destruct u. intros Hrun Hle.
  eapply for_Ok_impl; [|exact Hrun].
  intros i g g' _ Hi. by eapply simplify_body_mono.
Qed.

Lemma simplify_body_Raise depth i f e f' :
  wf_forest f -> i < length f ->
  simplify_body depth i f = (Raise e, f') -> e = RecursionError /\ f' = f.
Proof.
  intros Hwf Hi. unfold simplify_body.
  intros [H1 | (r & f1 & H1 & H2)]%prog_bind_Raise; [by eapply cci_Raise |].
  apply cci_spec in H1 as (_ & Hlen & _). unfold forest_set in H2.
  rewrite setitem_in_range in H2 by lia. done.
Qed.

Lemma simplifyForest_Raise depth f e f' :
  wf_forest f -> simplifyForest depth f = (Raise e, f') -> e = RecursionError.
Proof.
  intros Hwf. unfold simplifyForest, mbind, prog_bind, get_state. intros Hrun.
  apply (for_Raise_inv (fun g => length g = length f /\ wf_forest g)) in Hrun
    as (i & g & [_ Hi]%elem_of_seq & [Hlen Hg] & Hraise); [| |done].
  - apply simplify_body_Raise in Hraise as [-> _]; [done | done | simpl in Hi; lia].
  - intros i g g' _ [Hlen Hg] [r Hr]%simplify_body_inv.
    apply cci_spec in Hr as (_ & Hlen' & _ & Heq). split; [congruence |].
    intros y Hy. rewrite Hlen' in Hy. destruct (Hg y Hy) as [s Hs].
    exists s. by apply Heq.
Qed.

End budget.

(** ** The contracts of the three methods *)

Section contracts.

(** C3: [connectedComponentIdentifier] on a well-formed forest, on every
    branch: it returns the root that the reference [rep] finds and leaves
    the compressed forest when the stack budget exceeds the depth of the
    node; otherwise it raises [RecursionError] and leaves the forest
    untouched. *)
Theorem connectedComponentIdentifier_correct depth node f :
  wf_forest f -> node < length f ->
  exists r d, rep f node = Some r /\ Forest.depth f node = Some d /\
    connectedComponentIdentifier depth node f =
      if decide (d < depth) then (Ok r, compress f node)
      else (Raise RecursionError, f).
Proof.
  intros Hwf Hnode. destruct (Hwf node Hnode) as (r & d & Hd).
  exists r, d. split_and!; [apply rep_Some; by exists d | apply depth_Some; by exists r |].
  case_decide as Hlt.
  - apply cci_Ok_iff. split; [by exists d | done].
  - apply (cci_overflow depth node f r d Hd). lia.
Qed.

(** C4: [link] is union: it keeps the forest well formed and of the same
    length, and afterwards two indices are in one tree exactly when they
    were before or when the new edge joins their trees. *)
Theorem link_correct depth a b f f' :
  wf_forest f -> link depth a b f = (Ok tt, f') ->
  f' = union f a b /\ wf_forest f' /\ length f' = length f /\
  forall y z, y < length f -> z < length f ->
    same f' y z <->
    same f y z \/ (same f y a /\ same f b z) \/ (same f y b /\ same f a z).
Proof.
  intros Hwf Hlink. split_and!.
  - by eapply link_union.
  - by eapply link_wf.
  - by apply link_spec in Hlink as (_ & _ & _ & _ & ? & _).
  - intros y z Hy Hz. by eapply link_same.
Qed.

(** C30: merge monotonicity: a [link] of two indices of one tree leaves
    the number of trees unchanged; a [link] of two trees lowers it by
    exactly one. *)
Theorem link_merge_monotone depth a b f f' :
  link depth a b f = (Ok tt, f') ->
  count_roots f' = if decide (rep f a = rep f b) then count_roots f
                   else count_roots f - 1.
Proof.
  intros Hlink. pose proof (link_spec _ _ _ _ _ _ Hlink) as (ra & rb & Ha & Hb & _).
  rewrite (proj2 (rep_Some f a ra) Ha), (proj2 (rep_Some f b rb) Hb).
  destruct (link_count_roots _ _ _ _ _ _ Hlink) as [[Hsame ->] | [Hnot ->]].
  - apply (same_root_of f a b ra Ha) in Hsame.
    by rewrite (root_of_fun _ _ _ _ Hsame Hb), decide_True.
  - rewrite decide_False; [lia |]. intros [= ->]. apply Hnot. by exists rb.
Qed.

(** C7: [simplifyForest] writes into every entry the root of its index:
    the result is the reference [flatten], a flat forest with the same
    trees. *)
Theorem simplifyForest_correct depth f f' :
  wf_forest f -> simplifyForest depth f = (Ok tt, f') ->
  f' = flatten f /\ flat f' /\ length f' = length f /\
  forall i r, f' !! i = Some r <-> rep f i = Some r.
Proof.
  intros Hwf ->%simplifyForest_flatten.
  split_and!; [done | by apply flatten_flat | apply length_flatten |].
  intros i r. by rewrite flatten_lookup, rep_Some.
Qed.

(** C36: idempotence: once the forest has been flattened, a further
    [simplifyForest] returns, whatever budget of at least two frames it is
    given, and changes nothing. *)
Theorem simplifyForest_idempotent depth depth' f f' :
  wf_forest f -> simplifyForest depth f = (Ok tt, f') -> 2 <= depth' ->
  simplifyForest depth' f' = (Ok tt, f').
Proof.
  intros Hwf ->%simplifyForest_flatten Hd.
  apply (simplifyForest_mono 2); [|done].
  pose proof (flatten_flat f Hwf) as Hflat.
  unfold simplifyForest, mbind, prog_bind, get_state.
  destruct (for_total (fun g => g = flatten f) (seq 0 (length (flatten f)))
              (simplify_body 2) (flatten f)) as (g & Hg & ->); [|done|done].
  intros i g [_ Hi]%elem_of_seq ->. simpl in Hi.
  destruct (lookup_lt_is_Some_2 (flatten f) i Hi) as [p Hp].
  exists (flatten f). split; [|done]. unfold simplify_body.
  rewrite (prog_bind_run _ _ _ _ _ (cci_flat _ _ _ Hflat Hp)).
  rewrite forest_set_in_range by done. by rewrite list_insert_id.
Qed.

End contracts.

(** ** The contracts at a concrete forest *)

Section concrete.

Lemma example_forest_wf : wf_forest example_forest.
Proof. by apply wf_forestb_spec. Qed.

Lemma example_link : link 3 0 3 example_forest = (Ok tt, [2; 2; 4; 4; 4]).
Proof. reflexivity. Qed.

Lemma example_simplify : simplifyForest 3 example_forest = (Ok tt, [2; 2; 2; 4; 4]).
Proof. reflexivity. Qed.

Lemma connectedComponentIdentifier_correct_witness :
  exists r d, rep example_forest 0 = Some r /\ Forest.depth example_forest 0 = Some d /\
    connectedComponentIdentifier 2 0 example_forest =
      if decide (d < 2) then (Ok r, compress example_forest 0)
      else (Raise RecursionError, example_forest).
Proof.
  apply connectedComponentIdentifier_correct; [apply example_forest_wf | simpl; lia].
Defined.

Lemma link_correct_witness :
  [2; 2; 4; 4; 4] = union example_forest 0 3 /\ wf_forest [2; 2; 4; 4; 4] /\
  length [2; 2; 4; 4; 4] = length example_forest /\
  forall y z, y < length example_forest -> z < length example_forest ->
    same [2; 2; 4; 4; 4] y z <->
    same example_forest y z \/
    (same example_forest y 0 /\ same example_forest 3 z) \/
    (same example_forest y 3 /\ same example_forest 0 z).
Proof.
  apply (link_correct 3 0 3 example_forest); [apply example_forest_wf | apply example_link].
Defined.

Lemma link_merge_monotone_witness :
  count_roots [2; 2; 4; 4; 4] =
  if decide (rep example_forest 0 = rep example_forest 3)
  then count_roots example_forest else count_roots example_forest - 1.
Proof. apply (link_merge_monotone 3 0 3). apply example_link. Defined.

Lemma simplifyForest_correct_witness :
  [2; 2; 2; 4; 4] = flatten example_forest /\ flat [2; 2; 2; 4; 4] /\
  length [2; 2; 2; 4; 4] = length example_forest /\
  forall i r, [2; 2; 2; 4; 4] !! i = Some r <-> rep example_forest i = Some r.
Proof.
  apply (simplifyForest_correct 3); [apply example_forest_wf | apply example_simplify].
Defined.

Lemma simplifyForest_idempotent_witness :
  simplifyForest 2 [2; 2; 2; 4; 4] = (Ok tt, [2; 2; 2; 4; 4]).
Proof.
  apply (simplifyForest_idempotent 3 2 example_forest);
    [apply example_forest_wf | apply example_simplify | lia].
Defined.

End concrete.
