(* ===== verification/Components.v ===== *)
(** The class [connectedComponentsLabeler] ([src/graph.py]) as a whole:
    its class attributes (shared by all instances), the attributes of an
    instance, the constructor [__init__], which numbers the keys and
    ingests the edges, and [getConnectedCompontents], which flattens the
    forest and returns the table of labels.

    The constructor enumerates a Python [set]; the order of that
    enumeration is not fixed by the language, so it is a parameter here:
    the class [PySet] states what the code may rely on, and the theorems
    hold for every instance.

    The keys are of any type with a decidable equality and a
    countable encoding, as the keys of a [dict] are hashable: a key
    equals itself.  The NaN of pandas does not, and a frame that holds
    one does not reach this class here ([frame_edges] in [Engine.v]).

    The specification is graph connectivity: [connected edges] is the
    equivalence closure of the edge list ([Prelude.v]). *)

From stdpp Require Import base option list gmap relations.
From S2P Require Import Prelude Forest Labeler.

(** ** The interface of Python's [set] that the constructor uses *)

(** [set_union_list xs ys] is [[h for h in set(xs).union(ys)]]: the
    elements of both lists, each once, in some order. *)
Class PySet (K : Type) := {
  set_union_list : list K -> list K -> list K;
  set_union_list_NoDup xs ys : NoDup (set_union_list xs ys);
  set_union_list_elem xs ys k : k ∈ set_union_list xs ys <-> k ∈ xs \/ k ∈ ys
}.

(** Two enumeration orders, to run the model: the order of first
    occurrence from the right, and the order of a [gset]. *)
Definition last_seen_order `{EqDecision K} (xs ys : list K) : list K :=
  remove_dups (xs ++ ys).

Definition gset_order `{Countable K} (xs ys : list K) : list K :=
  elements (list_to_set (C := gset K) xs ∪ list_to_set ys).

#[export] Program Instance last_seen_PySet `{EqDecision K} : PySet K :=
  {| set_union_list := last_seen_order |}.
Next Obligation. intros. apply NoDup_remove_dups. Qed.
Next Obligation.
  intros. unfold last_seen_order. by rewrite elem_of_remove_dups, elem_of_app.
Qed.

Program Definition gset_PySet `{Countable K} : PySet K :=
  {| set_union_list := gset_order |}.
Next Obligation. intros. apply NoDup_elements. Qed.
Next Obligation.
  intros. unfold gset_order.
  by rewrite elem_of_elements, elem_of_union, !elem_of_list_to_set.
Qed.

(** ** The class *)

Section labeler.
Context `{Countable K} `{!PySet K}.

(** Class attributes [hash2seq] and [seq2hash]: the constructor writes
    into them with item assignment, so all instances share them. *)
Record class_attrs : Type := ClassAttrs {
  hash2seq : gmap K nat;
  seq2hash : gmap nat K
}.

(** Attributes the constructor binds on the instance. *)
Record labeler : Type := Labeler {
  edges : list (K * K);
  hashes : list K;
  numberOfNodes : nat;
  forest : list nat
}.

(** The result table: columns ['id'] and ['cc']. *)
Record DataFrame : Type := mkDataFrame {
  id : list K;
  cc : list nat
}.

(** [pd.DataFrame({'id': ids, 'cc': ccs})]: columns of different lengths
    are refused. *)
Definition pd_DataFrame (ids : list K) (ccs : list nat) : result DataFrame :=
  if decide (length ids = length ccs) then Ok (mkDataFrame ids ccs)
  else Raise ValueError.

(** The rows of a table. *)
Definition rows (df : DataFrame) : list (K * nat) := zip (id df) (cc df).

(** One iteration of the numbering loop. *)
Definition register_one (c : class_attrs) (hs : K * nat) : class_attrs :=
  ClassAttrs (<[hs.1 := hs.2]> (hash2seq c)) (<[hs.2 := hs.1]> (seq2hash c)).

(** [for (hash, seq) in zip(self.hashes, range(len(self.hashes)))] *)
Definition register (hashes : list K) : prog class_attrs unit :=
  modify_state (fun c => foldl register_one c (zip hashes (seq 0 (length hashes)))).

(** One iteration of the ingestion loop:
    [self.link(self.hash2seq[row.a], self.hash2seq[row.b])]. *)
Definition ingest_row (depth : nat) (h2s : gmap K nat) (row : K * K) :
    prog (list nat) unit :=
  a ← lift_result (dict_getitem h2s row.1);
  b ← lift_result (dict_getitem h2s row.2);
  link depth a b.

Definition ingest (depth : nat) (h2s : gmap K nat) (edges : list (K * K)) :
    prog (list nat) unit :=
  for_ edges (ingest_row depth h2s).

(** [[h for h in set(self.edges["a"]).union(self.edges["b"])]]: the
    keys are compared with the equality of [K], under which a key
    equals itself. *)
Definition keys_of (edges : list (K * K)) : list K :=
  set_union_list (edges.*1) (edges.*2).

(** The constructor.  Its state is the class; it returns the instance.
    When ingestion raises, the class attributes keep what the numbering
    loop wrote. *)
Definition __init__ (depth : nat) (edges : list (K * K)) : prog class_attrs labeler :=
  let hashes := keys_of edges in
  register hashes;;
  cls ← get_state;
  let numberOfNodes := length hashes in
  let forest := seq 0 numberOfNodes in
  match ingest depth (hash2seq cls) edges forest with
  | (Ok _, forest') => mret (Labeler edges hashes numberOfNodes forest')
  | (Raise e, _) => raise e
  end.

Definition getConnectedCompontents (depth : nat) : prog labeler DataFrame :=
  fun self =>
    match simplifyForest depth (forest self) with
    | (Ok _, forest') =>
        let self' := Labeler (edges self) (hashes self) (numberOfNodes self) forest' in
        (pd_DataFrame (hashes self') (forest self'), self')
    | (Raise e, forest') =>
        (Raise e, Labeler (edges self) (hashes self) (numberOfNodes self) forest')
    end.

(** [connectedComponentsLabeler(edges).getConnectedCompontents()], as
    [Geodatabase.findConnectedComponents] calls it. *)
Definition connectedComponents (depth : nat) (edges : list (K * K)) :
    prog class_attrs DataFrame :=
  self ← __init__ depth edges;
  lift_result (getConnectedCompontents depth self).1.

(** ** Queries on the result table *)

(** The label of a key: the ['cc'] entry of its row. *)
Definition labelOf (df : DataFrame) (k : K) : option nat :=
  (fun ir => ir.2.2) <$> list_find (fun row => row.1 = k) (rows df).

(** The number of distinct labels ([COUNT(DISTINCT cc)]). *)
Definition countOfComponents (df : DataFrame) : nat :=
  length (remove_dups (cc df)).

(** The number of rows with a given label. *)
Definition componentSizeOf (df : DataFrame) (label : nat) : nat :=
  length (filter (fun c => c = label) (cc df)).

(** ** Specification-level definitions *)

(** The edges as pairs of indices, through the numbering [h2s]. *)
Definition index_rel (h2s : gmap K nat) (edges : list (K * K)) : relation nat :=
  fun i j => exists a b, (a, b) ∈ edges /\ h2s !! a = Some i /\ h2s !! b = Some j.

(** Every endpoint of an edge has a number below [n]. *)
Definition indexed (n : nat) (h2s : gmap K nat) (edges : list (K * K)) : Prop :=
  forall a b, (a, b) ∈ edges ->
    exists ia ib, h2s !! a = Some ia /\ h2s !! b = Some ib /\ ia < n /\ ib < n.

(** The invariant of the ingestion loop: the forest is well formed and
    its trees are the connected components of the edges seen so far. *)
Definition ingest_inv (n : nat) (h2s : gmap K nat) (seen : list (K * K))
    (g : list nat) : Prop :=
  length g = n /\ wf_forest g /\
  forall y z, y < n -> z < n -> same g y z <-> rtsc (index_rel h2s seen) y z.

(** The contract of the class: a table that labels the connected
    components of an edge list.  Its keys are the endpoints of the
    edges, each once; every row has a label; two keys carry the same
    label exactly when a chain of edges joins them. *)
Definition is_labelling (edges : list (K * K)) (df : DataFrame) : Prop :=
  NoDup (id df) /\
  length (cc df) = length (id df) /\
  (forall k, k ∈ id df <-> exists e, e ∈ edges /\ (k = e.1 \/ k = e.2)) /\
  (forall k1 k2, k1 ∈ id df -> k2 ∈ id df ->
     labelOf df k1 = labelOf df k2 <-> connected edges k1 k2).

(** Two tables describe the same partition of their keys. *)
Definition same_partition (df df' : DataFrame) : Prop :=
  (forall k, k ∈ id df <-> k ∈ id df') /\
  (forall k1 k2, k1 ∈ id df -> k2 ∈ id df ->
     labelOf df k1 = labelOf df k2 <-> labelOf df' k1 = labelOf df' k2).

(** [hashes] and the two dictionaries number the keys consistently. *)
Definition numbering (hashes : list K) (c : class_attrs) : Prop :=
  (forall i k, hashes !! i = Some k -> hash2seq c !! k = Some i) /\
  (forall i, i < length hashes -> seq2hash c !! i = hashes !! i).

End labeler.

Arguments class_attrs K {_ _}.
Arguments labeler K : clear implicits.
Arguments DataFrame K : clear implicits.

(** ** Concrete inputs *)

(** The edge list of the repository's test: two components,
    [{1,2,3,4,5}] and [{6,7}]. *)
Definition test_edges : list (nat * nat) := [(1, 2); (1, 4); (2, 3); (2, 5); (6, 7)].

Definition no_attrs : class_attrs nat := ClassAttrs ∅ ∅.

Definition test_table : DataFrame nat :=
  mkDataFrame [1; 6; 2; 4; 3; 5; 7] [5; 6; 5; 5; 5; 5; 6].

(** The same graph with the edges in another order, one edge twice, one
    edge reversed and a self-loop. *)
Definition test_edges_shuffled : list (nat * nat) :=
  [(6, 7); (5, 2); (1, 2); (2, 3); (1, 4); (3, 3); (1, 2)].

Definition test_table_shuffled : DataFrame nat :=
  mkDataFrame [6; 5; 1; 7; 4; 3; 2] [3; 4; 4; 3; 4; 4; 4].

(** The class attributes after the run on [test_edges]. *)
Definition test_attrs : class_attrs nat :=
  (connectedComponents 7 test_edges no_attrs).2.

Definition test_attrs_shuffled : class_attrs nat :=
  (connectedComponents 9 test_edges_shuffled no_attrs).2.


(** ** The numbering loop *)

Section numbering.
Context `{Countable K}.
Implicit Types (c : class_attrs K) (l : list K).

Lemma register_from_other l j c k :
  k ∉ l -> hash2seq (foldl register_one c (zip l (seq j (length l)))) !! k = hash2seq c !! k.
Proof.
  revert j c. induction l as [|x l IH]; intros j c Hk; [done |].
  apply not_elem_of_cons in Hk as [Hkx Hk]. simpl. rewrite IH by done.
  simpl. by rewrite lookup_insert_ne.
Qed.

Lemma register_from_in l j c i k :
  NoDup l -> l !! i = Some k ->
  hash2seq (foldl register_one c (zip l (seq j (length l)))) !! k = Some (j + i).
Proof.
  revert j c i. induction l as [|x l IH]; intros j c i Hnd Hi; [done |].
  apply NoDup_cons in Hnd as [Hx Hnd]. destruct i as [|i]; simpl in *.
  - injection Hi as ->. rewrite register_from_other by done. simpl.
    rewrite lookup_insert_eq. f_equal. lia.
  - rewrite (IH (S j) _ i) by done. f_equal. lia.
Qed.

Lemma register_from_seq2hash l j c n :
  seq2hash (foldl register_one c (zip l (seq j (length l)))) !! n =
  if decide (j <= n < j + length l) then l !! (n - j) else seq2hash c !! n.
Proof.
  revert j c. induction l as [|x l IH]; intros j c; simpl.
  { case_decide; [lia | done]. }
  rewrite IH. simpl. repeat case_decide; try lia.
  - replace (n - j) with (S (n - S j)) by lia. reflexivity.
  - assert (n = j) as -> by lia. rewrite lookup_insert_eq.
    replace (j - j) with 0 by lia. reflexivity.
  - rewrite lookup_insert_ne by lia. done.
Qed.

(** After the loop the dictionaries number [hashes]; what they held for
    other keys and other indices is still there. *)
Lemma register_spec l c :
  NoDup l ->
  exists c', register l c = (Ok tt, c') /\ numbering l c' /\
    (forall k, k ∉ l -> hash2seq c' !! k = hash2seq c !! k) /\
    (forall i, length l <= i -> seq2hash c' !! i = seq2hash c !! i).
Proof.
  intros Hnd. eexists. split; [done |]. split_and!.
  - split.
    + intros i k Hi. by rewrite (register_from_in l 0 c i k).
    + intros i Hi. rewrite register_from_seq2hash, decide_True by lia.
      by replace (i - 0) with i by lia.
  - intros k Hk. by apply register_from_other.
  - intros i Hi. by rewrite register_from_seq2hash, decide_False by lia.
Qed.

End numbering.

(** ** The ingestion loop *)

Section ingestion.
Context `{Countable K}.
Implicit Types (h2s : gmap K nat) (g f : list nat) (row : K * K).

Lemma ingest_row_inv depth h2s row f u f' :
  ingest_row depth h2s row f = (Ok u, f') ->
  exists ia ib, h2s !! row.1 = Some ia /\ h2s !! row.2 = Some ib /\
    link depth ia ib f = (Ok u, f').
Proof.
  unfold ingest_row, lift_result, dict_getitem, mbind, prog_bind.
  destruct (h2s !! row.1) as [ia|]; [|done].
  destruct (h2s !! row.2) as [ib|]; [|done]. eauto.
Qed.

Lemma ingest_row_run depth h2s row f ia ib :
  h2s !! row.1 = Some ia -> h2s !! row.2 = Some ib ->
  ingest_row depth h2s row f = link depth ia ib f.
Proof.
  intros Ha Hb. unfold ingest_row, lift_result, dict_getitem, mbind, prog_bind.
  by rewrite Ha, Hb.
Qed.

Lemma index_rel_snoc h2s seen a b ia ib i j :
  h2s !! a = Some ia -> h2s !! b = Some ib ->
  index_rel h2s (seen ++ [(a, b)]) i j <-> with_edge (index_rel h2s seen) ia ib i j.
Proof.
  intros Ha Hb. unfold index_rel, with_edge. split.
  - intros (a' & b' & [Hin | [= -> ->]%list_elem_of_singleton]%elem_of_app & Hi & Hj).
    + left. eauto.
    + right. split; congruence.
  - intros [(a' & b' & Hin & Hi & Hj) | [-> ->]].
    + exists a', b'. rewrite elem_of_app. eauto.
    + exists a, b. rewrite elem_of_app, list_elem_of_singleton. eauto.
Qed.

Lemma ingest_inv_init n h2s : ingest_inv n h2s [] (seq 0 n).
Proof.
  split_and!; [apply length_seq | apply identity_wf |]. intros y z Hy Hz.
  rewrite rtsc_empty.
  - unfold same. setoid_rewrite identity_root_of. split.
    + intros (r & [_ ->] & [_ ?]). done.
    + intros ->. exists z. done.
  - intros u v (a & b & Hin & _). by apply elem_of_nil in Hin.
Qed.

Lemma ingest_inv_step depth n h2s seen a b post g u g' :
  indexed n h2s (seen ++ (a, b) :: post) ->
  ingest_inv n h2s seen g ->
  ingest_row depth h2s (a, b) g = (Ok u, g') ->
  ingest_inv n h2s (seen ++ [(a, b)]) g'.
Proof.
  intros Hidx (Hlen & Hwf & Hsame) (ia & ib & Ha & Hb & Hlink)%ingest_row_inv.
  simpl in Ha, Hb.
  destruct (Hidx a b) as (ia' & ib' & Ha' & Hb' & Hia & Hib).
  { apply elem_of_app. right. by left. }
  assert (ia' = ia) as -> by congruence. assert (ib' = ib) as -> by congruence.
  pose proof (link_spec _ _ _ _ _ _ Hlink) as (_ & _ & _ & _ & Hlen' & _).
  split_and!; [congruence | by eapply link_wf |]. intros y z Hy Hz.
  rewrite (link_same _ _ _ _ _ _ _ _ Hlink Hwf) by lia.
  rewrite (rtsc_ext _ _ _ _ (fun i j => index_rel_snoc h2s seen a b ia ib i j Ha Hb)).
  rewrite rtsc_with_edge. by rewrite !Hsame.
Qed.

(** When ingestion returns, the trees are the connected components of
    the whole edge list. *)
Lemma ingest_spec depth n h2s edges u g :
  indexed n h2s edges ->
  ingest depth h2s edges (seq 0 n) = (Ok u, g) ->
  ingest_inv n h2s edges g.
Proof.
  intros Hidx Hrun. destruct u.
  eapply (for_invariant_prefix (ingest_inv n h2s)); [| |exact Hrun].
  - intros pre [a b] post g1 g2 ->. by apply (ingest_inv_step depth n h2s pre a b post).
  - apply ingest_inv_init.
Qed.

(** Ingestion returns whenever the stack budget is at least the number
    of nodes. *)
Lemma ingest_total depth n h2s edges :
  indexed n h2s edges -> n <= depth ->
  exists g, ingest depth h2s edges (seq 0 n) = (Ok tt, g).
Proof.
  intros Hidx Hd.
  destruct (for_total (fun g => length g = n /\ wf_forest g) edges
              (ingest_row depth h2s) (seq 0 n)) as (g & Hg & _);
    [| split; [apply length_seq | apply identity_wf] | by exists g].
  intros [a b] g Hin [Hlen Hwf].
  destruct (Hidx a b Hin) as (ia & ib & Ha & Hb & Hia & Hib).
  rewrite (ingest_row_run _ _ _ _ ia ib) by done.
  destruct (link_total depth ia ib g) as [g' Hg']; [done | lia | lia | lia |].
  exists g'. split; [done |].
  pose proof (link_spec _ _ _ _ _ _ Hg') as (_ & _ & _ & _ & Hlen' & _).
  split; [congruence | by eapply link_wf].
Qed.

End ingestion.

(** ** From indices back to keys *)

Section keys.
Context `{Countable K}.
Implicit Types (hs : list K) (c : class_attrs K) (edges : list (K * K)).

Lemma endpoints_elem edges a b :
  (a, b) ∈ edges -> a ∈ edges.*1 /\ b ∈ edges.*2.
Proof.
  intros Hin. split; apply list_elem_of_fmap; by exists (a, b).
Qed.

Lemma numbering_indexed hs c edges :
  numbering hs c ->
  (forall a b, (a, b) ∈ edges -> a ∈ hs /\ b ∈ hs) ->
  indexed (length hs) (hash2seq c) edges.
Proof.
  intros [Hh2s _] Hends a b [Ha Hb]%Hends.
  apply list_elem_of_lookup in Ha as [ia Ha], Hb as [ib Hb].
  exists ia, ib. split_and!; [by apply Hh2s | by apply Hh2s | |];
    by eapply lookup_lt_Some.
Qed.

Lemma numbering_indexed_length hs c edges depth u g :
  (forall a b, (a, b) ∈ edges -> a ∈ hs /\ b ∈ hs) ->
  ingest depth (hash2seq c) edges (seq 0 (length hs)) = (Ok u, g) ->
  length hs = length g.
Proof.
  intros Hends Hrun. destruct u. symmetry.
  eapply (for_invariant (fun g => length g = length hs)); [| |exact Hrun].
  - intros row g1 g2 _ Hlen (ia & ib & _ & _ & Hlink)%ingest_row_inv.
    apply link_spec in Hlink as (_ & _ & _ & _ & Hlen' & _). congruence.
  - apply length_seq.
Qed.

(** Connectivity of indices is connectivity of the keys they number. *)
Lemma index_rel_connected hs c edges i j ki kj :
  numbering hs c -> NoDup hs ->
  (forall a b, (a, b) ∈ edges -> a ∈ hs /\ b ∈ hs) ->
  hs !! i = Some ki -> hs !! j = Some kj ->
  rtsc (index_rel (hash2seq c) edges) i j <-> connected edges ki kj.
Proof.
  intros [Hh2s _] Hnd Hends Hi Hj. unfold connected. split.
  - intros Hij.
    pose (key := fun n => default ki (hs !! n)).
    replace ki with (key i) by (unfold key; by rewrite Hi).
    replace kj with (key j) by (unfold key; by rewrite Hj).
    eapply rtsc_congruence; [|exact Hij].
    intros u v (a & b & Hin & Hu & Hv). unfold edge_rel, key.
    destruct (Hends a b Hin) as [[ia Ha]%list_elem_of_lookup [ib Hb]%list_elem_of_lookup].
    rewrite (Hh2s _ _ Ha) in Hu. rewrite (Hh2s _ _ Hb) in Hv.
    injection Hu as <-. injection Hv as <-. by rewrite Ha, Hb.
  - intros Hij.
    pose (idx := fun k => default 0 (hash2seq c !! k)).
    replace i with (idx ki) by (unfold idx; by rewrite (Hh2s _ _ Hi)).
    replace j with (idx kj) by (unfold idx; by rewrite (Hh2s _ _ Hj)).
    eapply rtsc_congruence; [|exact Hij].
    intros a b Hin. exists a, b. unfold idx.
    destruct (Hends a b Hin) as [[ia Ha]%list_elem_of_lookup [ib Hb]%list_elem_of_lookup].
    by rewrite (Hh2s _ _ Ha), (Hh2s _ _ Hb).
Qed.

End keys.

(** ** The result table *)

Section table.
Context `{Countable K}.
Implicit Types (df : DataFrame K).

Lemma pd_DataFrame_Ok (ids : list K) ccs df :
  pd_DataFrame ids ccs = Ok df <->
  length ids = length ccs /\ df = mkDataFrame ids ccs.
Proof.
  unfold pd_DataFrame. case_decide; split; [by intros [= <-] | by intros [_ ->] | done | tauto].
Qed.

(** With distinct keys, the label of the key of row [i] is the ['cc']
    entry of row [i]. *)
Lemma labelOf_lookup df i k :
  NoDup (id df) -> length (id df) = length (cc df) ->
  id df !! i = Some k -> labelOf df k = cc df !! i.
Proof.
  intros Hnd Hlen Hi. unfold labelOf, rows.
  destruct (lookup_lt_is_Some_2 (cc df) i) as [c Hc].
  { rewrite <- Hlen. eauto using lookup_lt_Some. }
  rewrite Hc.
  assert (list_find (fun row => row.1 = k) (zip (id df) (cc df)) = Some (i, (k, c))) as ->;
    [|done].
  apply list_find_Some. split_and!; [|done|].
  - apply lookup_zip_with_Some. eauto.
  - intros j [k' c'] (? & ? & [= <- <-] & Hj & _)%lookup_zip_with_Some Hlt. simpl.
    intros ->. pose proof (NoDup_lookup _ _ _ _ Hnd Hi Hj). lia.
Qed.

Lemma labelOf_None df k : k ∉ id df -> labelOf df k = None.
Proof.
  intros Hk. unfold labelOf. rewrite fmap_None. apply list_find_None.
  apply Forall_forall. intros [k' c] Hin Heq. simpl in Heq. subst k'.
  apply Hk. unfold rows in Hin. apply elem_of_zip_l in Hin. done.
Qed.

End table.

(** ** The constructor and the output *)

Section class.
Context `{Countable K} `{!PySet K}.
Implicit Types (cls : class_attrs K) (self : labeler K) (df : DataFrame K)
  (edges : list (K * K)).

Lemma keys_of_NoDup edges : NoDup (keys_of edges).
Proof. apply set_union_list_NoDup. Qed.

Lemma keys_of_endpoints edges a b :
  (a, b) ∈ edges -> a ∈ keys_of edges /\ b ∈ keys_of edges.
Proof.
  intros [Ha Hb]%endpoints_elem. unfold keys_of. rewrite !set_union_list_elem. tauto.
Qed.

Lemma init_inv depth edges cls self cls' :
  __init__ depth edges cls = (Ok self, cls') ->
  exists u g,
    register (keys_of edges) cls = (Ok tt, cls') /\
    ingest depth (hash2seq cls') edges (seq 0 (length (keys_of edges))) = (Ok u, g) /\
    self = Labeler edges (keys_of edges) (length (keys_of edges)) g.
Proof.
  unfold __init__.
  intros ([] & c1 & Hreg & Hrest)%prog_bind_Ok.
  apply prog_bind_Ok in Hrest as (c2 & c3 & [= <- <-] & Hrest).
  destruct (ingest _ _ _ _) as [[u|e] g] eqn:Hing; [|done].
  injection Hrest as <- <-. eauto.
Qed.

Lemma init_run depth edges cls c u g :
  register (keys_of edges) cls = (Ok tt, c) ->
  ingest depth (hash2seq c) edges (seq 0 (length (keys_of edges))) = (Ok u, g) ->
  __init__ depth edges cls =
    (Ok (Labeler edges (keys_of edges) (length (keys_of edges)) g), c).
Proof.
  intros [= <-] Hing. unfold __init__, register, modify_state, mbind, prog_bind, get_state.
  by rewrite Hing.
Qed.

(** What a constructed instance satisfies. *)
Lemma init_spec depth edges cls self cls' :
  __init__ depth edges cls = (Ok self, cls') ->
  hashes self = keys_of edges /\
  numbering (keys_of edges) cls' /\
  ingest_inv (length (keys_of edges)) (hash2seq cls') edges (forest self).
Proof.
  intros (u & g & Hreg & Hing & ->)%init_inv.
  destruct (register_spec (keys_of edges) cls (keys_of_NoDup edges))
    as (c & Hc & Hnum & _).
  rewrite Hreg in Hc. injection Hc as <-.
  split_and!; [done | done |].
  eapply ingest_spec; [|done].
  apply numbering_indexed; [done | apply keys_of_endpoints].
Qed.

Lemma getConnectedCompontents_inv depth self df self' :
  getConnectedCompontents depth self = (Ok df, self') ->
  length (hashes self) = length (forest self) /\
  df = mkDataFrame (hashes self) (flatten (forest self)) /\
  self' = Labeler (edges self) (hashes self) (numberOfNodes self) (flatten (forest self)) /\
  simplifyForest depth (forest self) = (Ok tt, flatten (forest self)).
Proof.
  unfold getConnectedCompontents.
  destruct (simplifyForest depth (forest self)) as [[[]|e] g] eqn:Hs; [|done].
  apply simplifyForest_flatten in Hs as Hg. subst g. simpl.
  intros [= [Hlen ->]%pd_DataFrame_Ok <-]. rewrite length_flatten in Hlen. done.
Qed.

Lemma getConnectedCompontents_run depth self u g :
  simplifyForest depth (forest self) = (Ok u, g) ->
  length (hashes self) = length (forest self) ->
  (getConnectedCompontents depth self).1 = Ok (mkDataFrame (hashes self) g).
Proof.
  intros Hs Hlen. unfold getConnectedCompontents. rewrite Hs. simpl.
  unfold pd_DataFrame. rewrite decide_True; [done |].
  apply simplifyForest_flatten in Hs as ->. by rewrite length_flatten.
Qed.

Lemma connectedComponents_inv depth edges cls df cls' :
  connectedComponents depth edges cls = (Ok df, cls') ->
  exists self, __init__ depth edges cls = (Ok self, cls') /\
    df = mkDataFrame (hashes self) (flatten (forest self)) /\
    simplifyForest depth (forest self) = (Ok tt, flatten (forest self)).
Proof.
  unfold connectedComponents. intros (self & c & Hinit & Hget)%prog_bind_Ok.
  unfold lift_result in Hget. injection Hget as Hget <-.
  destruct (getConnectedCompontents depth self) as [r self'] eqn:Hg.
  simpl in Hget. subst r.
  apply getConnectedCompontents_inv in Hg as (_ & -> & _ & Hs). eauto.
Qed.

End class.

(** ** Correctness of the labelling *)

Section correctness.
Context `{Countable K} `{!PySet K}.
Implicit Types (cls : class_attrs K) (self : labeler K) (df : DataFrame K)
  (edges : list (K * K)).

(** The shape of the table: one row per key that occurs in an edge, no
    key twice, one label per row. *)
Lemma connectedComponents_shape depth edges cls df cls' :
  connectedComponents depth edges cls = (Ok df, cls') ->
  id df = keys_of edges /\ length (cc df) = length (id df) /\
  exists g, cc df = flatten g /\ ingest_inv (length (keys_of edges)) (hash2seq cls') edges g /\
    numbering (keys_of edges) cls'.
Proof.
  intros (self & (Hh & Hnum & Hinv)%init_spec & -> & _)%connectedComponents_inv.
  simpl. rewrite Hh. split_and!; [done | |].
  - rewrite length_flatten. by destruct Hinv as [-> _].
  - by exists (forest self).
Qed.

Lemma table_partition depth edges cls df cls' k1 k2 :
  connectedComponents depth edges cls = (Ok df, cls') ->
  k1 ∈ id df -> k2 ∈ id df ->
  labelOf df k1 = labelOf df k2 <-> connected edges k1 k2.
Proof.
  intros (Hid & Hlen & g & Hcc & (Hg & Hwf & Hsame) & Hnum)%connectedComponents_shape.
  intros [i Hi]%list_elem_of_lookup [j Hj]%list_elem_of_lookup.
  assert (NoDup (id df)) as Hnd by (rewrite Hid; apply keys_of_NoDup).
  rewrite (labelOf_lookup df i k1), (labelOf_lookup df j k2) by done.
  rewrite Hid in Hi, Hj.
  pose proof (lookup_lt_Some _ _ _ Hi). pose proof (lookup_lt_Some _ _ _ Hj).
  rewrite Hcc, flatten_same, Hsame by (done || lia).
  by apply index_rel_connected with (hs := keys_of edges);
    [| apply keys_of_NoDup | apply keys_of_endpoints | |].
Qed.

Lemma keys_of_elem edges k : k ∈ keys_of edges <-> k ∈ endpoints edges.
Proof. unfold keys_of, endpoints. by rewrite set_union_list_elem, elem_of_app. Qed.

(** The table of a run is a labelling of the edge list. *)
Lemma run_is_labelling depth edges cls df cls' :
  connectedComponents depth edges cls = (Ok df, cls') -> is_labelling edges df.
Proof.
  intros Hrun.
  pose proof (connectedComponents_shape _ _ _ _ _ Hrun) as (Hid & Hlen & _).
  split_and!; [rewrite Hid; apply keys_of_NoDup | done | |].
  - intros k. by rewrite Hid, keys_of_elem, elem_of_endpoints.
  - intros k1 k2. by apply (table_partition depth edges cls df cls').
Qed.

(** Tables are compared by the partition they describe.  Being a
    labelling is invariant under a change of the edge list that keeps
    the graph, and two labellings of one graph describe one partition:
    these carry the theorems on the order of the edges. *)
#[export] Instance same_partition_equivalence :
  Equivalence (same_partition (K:=K)).
Proof.
  split.
  - by intros df.
  - intros df df' [Hk Hl]. split; [by intros k; rewrite Hk|].
    intros k1 k2 ?%Hk ?%Hk. by rewrite Hl.
  - intros df df' df'' [Hk Hl] [Hk' Hl']. split; [by intros k; rewrite Hk|].
    intros k1 k2 H1 H2. rewrite Hl by done. apply Hl'; by apply Hk.
Qed.

#[export] Instance is_labelling_proper :
  Proper (same_graph ==> eq ==> iff) (is_labelling (K:=K)).
Proof.
  assert (forall edges edges' df, same_graph edges edges' ->
            is_labelling edges df -> is_labelling edges' df) as Himp.
  { intros edges edges' df Hs (Hnd & Hlen & Hkeys & Hlab). split_and!; [done..| |].
    - intros k. by rewrite Hkeys, <- !elem_of_endpoints, (same_graph_endpoints _ _ _ Hs).
    - intros k1 k2 H1 H2. by rewrite Hlab, Hs. }
  intros edges edges' Hs df ? <-. split; apply Himp; [done | by symmetry].
Qed.

Lemma labellings_same_partition edges df df' :
  is_labelling edges df -> is_labelling edges df' -> same_partition df df'.
Proof.
  intros (_ & _ & Hk & Hl) (_ & _ & Hk' & Hl'). split.
  - intros k. by rewrite Hk, Hk'.
  - intros k1 k2 H1 H2. rewrite Hl by done. symmetry. apply Hl'; apply Hk', Hk; done.
Qed.

(** With a stack budget of at least the number of distinct keys the
    whole computation returns. *)
Lemma connectedComponents_returns depth edges cls :
  length (keys_of edges) <= depth ->
  exists df cls', connectedComponents depth edges cls = (Ok df, cls').
Proof.
  intros Hd. set (hs := keys_of edges) in *.
  destruct (register_spec hs cls (keys_of_NoDup edges)) as (c & Hreg & Hnum & _).
  assert (indexed (length hs) (hash2seq c) edges) as Hidx.
  { apply numbering_indexed; [done | apply keys_of_endpoints]. }
  destruct (ingest_total depth (length hs) (hash2seq c) edges Hidx Hd) as [g Hg].
  pose proof (ingest_spec _ _ _ _ _ _ Hidx Hg) as (Hlen & Hwf & _).
  destruct (simplifyForest_total depth g Hwf) as [g' Hg']; [lia |].
  exists (mkDataFrame hs g'), c. subst hs. unfold connectedComponents.
  rewrite (prog_bind_run _ _ _ _ _ (init_run _ _ _ _ _ _ Hreg Hg)).
  unfold lift_result.
  by rewrite (getConnectedCompontents_run depth (Labeler edges _ _ g) tt g').
Qed.

(** C1: whenever the computation returns, the table it returns is a
    labelling of the connected components of the edge list: one row per
    key that occurs in an edge, equal labels exactly for keys joined by
    a chain of edges; and every label is the index of a row that carries
    that index as its own label, the representative of the class. *)
Theorem connectedComponents_correct depth edges cls df cls' :
  connectedComponents depth edges cls = (Ok df, cls') ->
  is_labelling edges df /\ flat (cc df).
Proof.
  intros Hrun. split; [by eapply run_is_labelling|].
  destruct (connectedComponents_shape _ _ _ _ _ Hrun)
    as (_ & _ & g & -> & (_ & Hwf & _) & _).
  by apply flatten_flat.
Qed.

(** C2: with a stack budget of at least the number of distinct keys the
    whole computation returns a table, raising nothing, and the table
    is a labelling of the components of the edge list. *)
Theorem connectedComponents_total depth edges cls :
  length (keys_of edges) <= depth ->
  exists df cls', connectedComponents depth edges cls = (Ok df, cls') /\
    is_labelling edges df.
Proof.
  intros (df & cls' & Hrun)%(connectedComponents_returns depth edges cls).
  exists df, cls'. split; [done|]. by eapply run_is_labelling.
Qed.

(** C6: the partition depends only on the undirected graph: permuting
    the edges, reversing or repeating an edge, or adding a self-loop on a
    known key changes no class, whatever the two stack budgets and the
    earlier contents of the class attributes. *)
Theorem connectedComponents_order_invariant
    depth depth' edges edges' cls1 cls2 df df' c1 c2 :
  same_graph edges edges' ->
  connectedComponents depth edges cls1 = (Ok df, c1) ->
  connectedComponents depth' edges' cls2 = (Ok df', c2) ->
  same_partition df df'.
Proof.
  intros Hsame Hrun%run_is_labelling Hrun'%run_is_labelling.
  rewrite <- Hsame in Hrun'. by eapply labellings_same_partition.
Qed.

Lemma ingest_ext depth (h2s h2s' : gmap K nat) edges f :
  (forall a b, (a, b) ∈ edges -> h2s !! a = h2s' !! a /\ h2s !! b = h2s' !! b) ->
  ingest depth h2s edges f = ingest depth h2s' edges f.
Proof.
  intros Hagree. apply for_ext. intros [a b] g Hin.
  destruct (Hagree a b Hin) as [Ha Hb].
  unfold ingest_row, lift_result, dict_getitem, mbind, prog_bind. simpl.
  by rewrite Ha, Hb.
Qed.

(** The class attributes after the constructor: what the numbering loop
    wrote, whether or not ingestion raised. *)
Lemma connectedComponents_class depth edges cls :
  (connectedComponents depth edges cls).2 =
  foldl register_one cls (zip (keys_of edges) (seq 0 (length (keys_of edges)))).
Proof.
  unfold connectedComponents, __init__, register, modify_state, mbind, prog_bind,
    get_state, lift_result.
  by destruct (ingest _ _ _ _) as [[u|e] g].
Qed.

Lemma connectedComponents_result depth edges cls :
  (connectedComponents depth edges cls).1 =
  match ingest depth (hash2seq (connectedComponents depth edges cls).2) edges
          (seq 0 (length (keys_of edges))) with
  | (Ok _, g) =>
      (getConnectedCompontents depth
         (Labeler edges (keys_of edges) (length (keys_of edges)) g)).1
  | (Raise e, _) => Raise e
  end.
Proof.
  rewrite connectedComponents_class.
  unfold connectedComponents, __init__, register, modify_state, mbind, prog_bind,
    get_state, lift_result.
  by destruct (ingest _ _ _ _) as [[u|e] g].
Qed.

Lemma ingest_mono depth depth' (h2s : gmap K nat) edges f u f' :
  ingest depth h2s edges f = (Ok u, f') -> depth <= depth' ->
  ingest depth' h2s edges f = (Ok u, f').
Proof.
  destruct u. intros Hrun Hle. eapply for_Ok_impl; [|exact Hrun].
  intros row g g' _ (ia & ib & Ha & Hb & Hlink)%ingest_row_inv.
  rewrite (ingest_row_run _ _ _ _ _ _ Ha Hb). by eapply link_mono.
Qed.

Lemma ingest_Raise depth n (h2s : gmap K nat) edges e g :
  indexed n h2s edges ->
  ingest depth h2s edges (seq 0 n) = (Raise e, g) -> e = RecursionError.
Proof.
  intros Hidx Hrun.
  apply (for_Raise_inv (fun g => length g = n /\ wf_forest g)) in Hrun
    as ([a b] & g1 & Hin & [Hlen Hwf] & Hraise);
    [| | split; [apply length_seq | apply identity_wf]].
  - destruct (Hidx a b Hin) as (ia & ib & Ha & Hb & Hia & Hib).
    rewrite (ingest_row_run _ _ _ _ ia ib) in Hraise by done.
    apply link_Raise in Hraise as [-> _]; [done | done | lia | lia].
  - intros [a b] g1 g2 _ [Hlen Hwf] (ia & ib & _ & _ & Hlink)%ingest_row_inv.
    pose proof (link_spec _ _ _ _ _ _ Hlink) as (_ & _ & _ & _ & Hlen' & _).
    split; [congruence | by eapply link_wf].
Qed.

(** C22: instances do not interfere through the shared class attributes:
    the outcome for an edge list (the table, or the exception) is the
    same whatever the two dictionaries held before the constructor ran. *)
Theorem connectedComponents_independent depth edges cls1 cls2 :
  (connectedComponents depth edges cls1).1 = (connectedComponents depth edges cls2).1.
Proof.
  rewrite !connectedComponents_result, !connectedComponents_class.
  destruct (register_spec (keys_of edges) cls1 (keys_of_NoDup edges))
    as (c1 & [= <-] & [Hn1 _] & _).
  destruct (register_spec (keys_of edges) cls2 (keys_of_NoDup edges))
    as (c2 & [= <-] & [Hn2 _] & _).
  erewrite ingest_ext; [done |]. intros a b [Ha Hb]%keys_of_endpoints.
  apply list_elem_of_lookup in Ha as [ia Ha], Hb as [ib Hb].
  by rewrite (Hn1 _ _ Ha), (Hn2 _ _ Ha), (Hn1 _ _ Hb), (Hn2 _ _ Hb).
Qed.

(** C23: the class attributes are never cleared: an entry that an earlier
    instance wrote for a key which the new edge list does not mention is
    still in [hash2seq] after the new instance has been built and used. *)
Theorem class_attrs_stale depth edges cls k i :
  hash2seq cls !! k = Some i -> k ∉ keys_of edges ->
  hash2seq (connectedComponents depth edges cls).2 !! k = Some i.
Proof.
  intros Hk Hnot. rewrite connectedComponents_class.
  by rewrite register_from_other.
Qed.

(** A larger stack budget changes nothing: a computation that
    returns a table returns the same table, and leaves the same class
    attributes, under every larger budget. *)
Theorem connectedComponents_mono depth depth' edges cls df cls' :
  connectedComponents depth edges cls = (Ok df, cls') -> depth <= depth' ->
  connectedComponents depth' edges cls = (Ok df, cls').
Proof.
  intros (self & (u & g & Hreg & Hing & ->)%init_inv & -> & Hs)%connectedComponents_inv Hle.
  destruct u. unfold connectedComponents.
  rewrite (prog_bind_run _ _ _ _ _
             (init_run _ _ _ _ _ _ Hreg (ingest_mono _ _ _ _ _ _ _ Hing Hle))).
  unfold lift_result. simpl in Hs.
  rewrite (getConnectedCompontents_run depth' (Labeler edges _ _ g) tt (flatten g));
    [done | by eapply simplifyForest_mono |].
  simpl. apply numbering_indexed_length in Hing; [done |].
  apply keys_of_endpoints.
Qed.

(** An exception of the computation is one of the recursive method:
    the lookups of the constructor and the table constructor raise
    none. *)
Lemma connectedComponents_raises depth edges cls e :
  (connectedComponents depth edges cls).1 = Raise e -> e = RecursionError.
Proof.
  intros Hrun.
  destruct (register_spec (keys_of edges) cls (keys_of_NoDup edges))
    as (c & Hreg & Hnum & _).
  assert (c = (connectedComponents depth edges cls).2) as Hc.
  { rewrite connectedComponents_class. by injection Hreg. }
  rewrite connectedComponents_result, <- Hc in Hrun.
  assert (indexed (length (keys_of edges)) (hash2seq c) edges) as Hidx.
  { apply numbering_indexed; [done | apply keys_of_endpoints]. }
  destruct (ingest _ _ _ _) as [[[]|e'] g] eqn:Hing.
  - pose proof (ingest_spec _ _ _ _ _ _ Hidx Hing) as (Hlen & Hwf & _).
    unfold getConnectedCompontents in Hrun. simpl in Hrun.
    destruct (simplifyForest depth g) as [[[]|e''] g'] eqn:Hs; simpl in Hrun.
    + apply simplifyForest_flatten in Hs as ->. unfold pd_DataFrame in Hrun.
      rewrite decide_True in Hrun; [done |]. by rewrite length_flatten.
    + injection Hrun as ->. by eapply simplifyForest_Raise.
  - injection Hrun as ->. by eapply ingest_Raise.
Qed.

(** C31: the only exception the computation can raise is
    [RecursionError]: no key is missing from the dictionary, no index is
    out of range, and the two columns of the table have equal length. *)
Theorem connectedComponents_Raise depth edges cls e cls' :
  connectedComponents depth edges cls = (Raise e, cls') -> e = RecursionError.
Proof.
  intros Hrun. apply (connectedComponents_raises depth edges cls).
  by rewrite Hrun.
Qed.

(** C13: the constructor establishes the invariants of the structure.
    The keys of the instance are the endpoints of the edges, each once;
    the forest has one entry for each key, every entry is the index of
    a key, and following the entries from any index ends at a root;
    the two dictionaries of the class number the keys of the instance
    as the list [hashes] does, each the inverse of the other on
    them. *)
Theorem init_invariant depth edges cls self cls' :
  __init__ depth edges cls = (Ok self, cls') ->
  NoDup (hashes self) /\
  (forall k, k ∈ hashes self <-> k ∈ endpoints edges) /\
  numberOfNodes self = length (hashes self) /\
  length (forest self) = numberOfNodes self /\
  wf_forest (forest self) /\
  (forall i p, forest self !! i = Some p -> p < numberOfNodes self) /\
  (forall i k, hashes self !! i = Some k ->
     hash2seq cls' !! k = Some i /\ seq2hash cls' !! i = Some k).
Proof.
  intros Hinit.
  destruct (init_spec _ _ _ _ _ Hinit) as (Hh & [Hk Hs] & Hlen & Hwf & _).
  apply init_inv in Hinit as (u & g & _ & _ & ->). simpl in *.
  split_and!; [apply keys_of_NoDup | apply keys_of_elem | done..| |].
  - intros i p Hp. rewrite <- Hlen. by eapply wf_forest_lookup_lt.
  - intros i k Hi. split; [by apply Hk|].
    rewrite Hs; [done | by eapply lookup_lt_Some].
Qed.

End correctness.

(** ** Concrete runs *)

Section runs.

Lemma test_run_shuffled :
  connectedComponents 9 test_edges_shuffled no_attrs =
  (Ok test_table_shuffled, test_attrs_shuffled).
Proof. vm_compute. reflexivity. Qed.

Lemma test_run :
  connectedComponents 7 test_edges no_attrs = (Ok test_table, test_attrs).
Proof. vm_compute. reflexivity. Qed.

Lemma connectedComponents_correct_witness :
  is_labelling test_edges test_table /\ flat (cc test_table).
Proof.
  exact (connectedComponents_correct 7 test_edges no_attrs test_table
           test_attrs test_run).
Defined.

Lemma connectedComponents_total_witness :
  exists df cls', connectedComponents 7 test_edges no_attrs = (Ok df, cls') /\
    is_labelling test_edges df.
Proof. apply connectedComponents_total. vm_compute. lia. Defined.

Lemma connectedComponents_order_invariant_witness :
  same_partition test_table test_table_shuffled.
Proof.
  apply (connectedComponents_order_invariant 7 9 test_edges test_edges_shuffled
           no_attrs no_attrs test_table test_table_shuffled test_attrs
           test_attrs_shuffled); [| exact test_run | exact test_run_shuffled].
  apply (bool_decide_unpack _). vm_compute. exact I.
Defined.

Lemma class_attrs_stale_witness :
  hash2seq (connectedComponents 7 [(8, 9)] test_attrs).2 !! 1 = Some 0.
Proof. apply class_attrs_stale; [reflexivity | vm_compute; set_solver]. Defined.

Lemma connectedComponents_mono_witness :
  connectedComponents 1000 test_edges no_attrs = (Ok test_table, test_attrs).
Proof. apply (connectedComponents_mono 7); [exact test_run | lia]. Defined.

Lemma init_invariant_witness :
  let r := __init__ 7 test_edges no_attrs in
  exists self, r.1 = Ok self /\
    wf_forest (forest self) /\
    (forall i k, hashes self !! i = Some k ->
       hash2seq r.2 !! k = Some i /\ seq2hash r.2 !! i = Some k).
Proof.
  destruct (__init__ 7 test_edges no_attrs) as [[self|e] c] eqn:Hrun;
    [|by vm_compute in Hrun].
  exists self. split; [done|].
  destruct (init_invariant _ _ _ _ _ Hrun) as (_ & _ & _ & _ & Hwf & _ & Hn).
  by split.
Defined.

Lemma connectedComponents_Raise_witness :
  (connectedComponents 1 test_edges no_attrs).1 = Raise RecursionError.
Proof.
  destruct (connectedComponents 1 test_edges no_attrs) as [[df|e] c] eqn:Hrun.
  - by vm_compute in Hrun.
  - by rewrite (connectedComponents_Raise _ _ _ _ _ Hrun).
Defined.

End runs.
