(* ===== verification/Scenarios.v ===== *)
(** The scenarios that the specification lists for the labeller, run on
    the model of [src/graph.py], and the stack that a long chain needs.

    Keys are integers ([Z]); the enumeration order of the key set is the
    one of [last_seen_PySet], which lists the keys of a chain in
    increasing order, as CPython does for a set of small integers. *)

From stdpp Require Import base option list gmap.
From S2P Require Import Prelude Forest Labeler Components.

(** ** Inputs *)

(** The chain [(1,2), (2,3), ..., (n-1,n)]: [n] nodes, [n-1] edges. *)
Definition chain (n : nat) : list (Z * Z) :=
  (fun i => (Z.of_nat i, Z.of_nat (S i))) <$> seq 1 (n - 1).

Definition fresh_attrs : class_attrs Z := ClassAttrs ∅ ∅.

(** A run with fresh class attributes: the table or the exception. *)
Definition run (depth : nat) (edges : list (Z * Z)) : result (DataFrame Z) :=
  (connectedComponents depth edges fresh_attrs).1.

(** The summary of a table that the scenarios look at: the number of
    keys, the number of components, and the size of each component in the
    order of its first row. *)
Definition summary (df : DataFrame Z) : nat * nat * list nat :=
  (length (id df), countOfComponents df,
   componentSizeOf df <$> remove_dups (cc df)).

(** The recursion limit of CPython when [sys.setrecursionlimit] has not
    been called. *)
Definition default_recursion_limit : nat := 1000.

(** ** Scenarios *)

Section scenarios.

(** Scenario 1: two components, of sizes five and two. *)
Lemma scenario_two_components :
  summary <$> run 7 [(1, 2); (1, 4); (2, 3); (2, 5); (6, 7)]%Z = Ok (7, 2, [5; 2]).
Proof. vm_compute. reflexivity. Qed.

(** Scenario 2: no edge, no key, no component. *)
Lemma scenario_empty depth : run depth [] = Ok (mkDataFrame [] []).
Proof. reflexivity. Qed.

(** Scenario 3: a single self-loop registers one key, in a component of
    its own. *)
Lemma scenario_self_loop : run 1 [(5, 5)]%Z = Ok (mkDataFrame [5%Z] [0]).
Proof. vm_compute. reflexivity. Qed.

(** Scenario 5: an edge given three times gives the table of the edge
    given once. *)
Lemma scenario_duplicate :
  run 2 [(1, 2); (1, 2); (1, 2)]%Z = run 2 [(1, 2)]%Z.
Proof. vm_compute. reflexivity. Qed.

Lemma chain_1000_at_999 : run 999 (chain 1000) = Raise RecursionError.
Proof. vm_compute. reflexivity. Qed.

Lemma chain_1000_at_1000 : summary <$> run 1000 (chain 1000) = Ok (1000, 1, [1000]).
Proof. vm_compute. reflexivity. Qed.

Lemma run_mono depth depth' edges df :
  run depth edges = Ok df -> depth <= depth' -> run depth' edges = Ok df.
Proof.
  unfold run. destruct (connectedComponents depth edges fresh_attrs) as [r c] eqn:Hrun.
  intros Hr Hle. simpl in Hr. subst r.
  by rewrite (connectedComponents_mono _ _ _ _ _ _ Hrun Hle).
Qed.

Lemma run_Raise depth edges e : run depth edges = Raise e -> e = RecursionError.
Proof.
  unfold run. destruct (connectedComponents depth edges fresh_attrs) as [r c] eqn:Hrun.
  intros Hr. apply (connectedComponents_raises depth edges fresh_attrs).
  by rewrite Hrun.
Qed.

(** From here on a run is not unfolded any more: the facts above are all
    that is used of it. *)
Opaque run.

(** C33: the chain of a thousand nodes (scenario 4) is labelled as one
    component of a thousand keys whenever the recursive method may use
    a thousand frames or more: the table has a thousand rows, one label
    and one component of size one thousand. *)
Theorem chain_1000_stack depth :
  1000 <= depth -> summary <$> run depth (chain 1000) = Ok (1000, 1, [1000]).
Proof.
  intros Hd. pose proof chain_1000_at_1000 as H1000.
  destruct (run 1000 (chain 1000)) as [df|e] eqn:Hrun; [|discriminate H1000].
  by rewrite (run_mono 1000 depth _ df Hrun Hd).
Qed.

(** C11: under CPython's default recursion limit the chain of scenario 4
    cannot be labelled: whatever part of the thousand frames is left to
    the recursive method when [simplifyForest] calls it, the call
    raises [RecursionError]. *)
Theorem chain_1000_default_limit used :
  0 < used -> run (default_recursion_limit - used) (chain 1000) = Raise RecursionError.
Proof.
  intros Hused. unfold default_recursion_limit.
  destruct (run (1000 - used) (chain 1000)) as [df|e] eqn:Hrun.
  - apply (run_mono _ 999) in Hrun; [|lia].
    rewrite chain_1000_at_999 in Hrun. discriminate Hrun.
  - f_equal. by apply (run_Raise (1000 - used) (chain 1000)).
Qed.

Lemma chain_1000_stack_witness :
  summary <$> run 1500 (chain 1000) = Ok (1000, 1, [1000]).
Proof. apply chain_1000_stack. lia. Defined.

Lemma chain_1000_default_limit_witness :
  run (default_recursion_limit - 5) (chain 1000) = Raise RecursionError.
Proof. apply chain_1000_default_limit. lia. Defined.

End scenarios.
