(* ===== verification/Strings.v ===== *)
(** * Strings: the string operations of Python that the package uses

    [str.upper], [str.replace(' ', '')], [sep.join(l)], [str.split],
    [str.strip], the padding of [f'{s:40}'], the decimal rendering of an
    integer inside an f-string, [int] of a string and [str.format] with
    keyword arguments.  A Python [str] is modelled
    as a Rocq [string] of 8-bit characters; only the ASCII letters have a case.
    These are library functions of Python, written out here because the
    behaviour of the methods of [geodatabase.py] depends on them. *)

From Stdlib Require Import Ascii.
From stdpp Require Import base option list strings pretty.
From S2P Require Import Prelude.

#[local] Open Scope string_scope.

(** ** Characters *)

Definition is_lower (c : ascii) : bool :=
  bool_decide (97 <= Ascii.N_of_ascii c <= 122)%N.

Definition upper_ascii (c : ascii) : ascii :=
  if is_lower c then Ascii.ascii_of_N (Ascii.N_of_ascii c - 32) else c.

Definition is_upper (c : ascii) : bool :=
  bool_decide (65 <= Ascii.N_of_ascii c <= 90)%N.

Definition lower_ascii (c : ascii) : ascii :=
  if is_upper c then Ascii.ascii_of_N (Ascii.N_of_ascii c + 32) else c.

(** The end of a line. *)
Definition line_feed : string := String (ascii_of_N 10) EmptyString.

(** ** Strings as lists of characters *)

Fixpoint map_string (f : ascii -> ascii) (s : string) : string :=
  match s with
  | EmptyString => EmptyString
  | String c s' => String (f c) (map_string f s')
  end.

Fixpoint filter_string (p : ascii -> bool) (s : string) : string :=
  match s with
  | EmptyString => EmptyString
  | String c s' => if p c then String c (filter_string p s') else filter_string p s'
  end.

Fixpoint forallb_string (p : ascii -> bool) (s : string) : bool :=
  match s with
  | EmptyString => true
  | String c s' => p c && forallb_string p s'
  end.

Fixpoint spaces (n : nat) : string :=
  match n with 0 => "" | S n' => String " " (spaces n') end.

(** [s.upper()] *)
Definition upper (s : string) : string := map_string upper_ascii s.

(** [s.lower()] *)
Definition lower (s : string) : string := map_string lower_ascii s.

(** [s.rstrip(' ')] *)
Fixpoint rstrip (s : string) : string :=
  match s with
  | EmptyString => EmptyString
  | String c s' =>
      match rstrip s' with
      | EmptyString =>
          if bool_decide (c = " "%char) then EmptyString
          else String c EmptyString
      | r => String c r
      end
  end.

(** [s.replace(c, '')] for a one-character string [c]. *)
Definition remove_char (c : ascii) (s : string) : string :=
  filter_string (fun x => negb (bool_decide (x = c))) s.

(** [f'{s:n}']: a string is left-aligned and padded with spaces to the
    width [n]; a longer string is not cut. *)
Definition ljust (n : nat) (s : string) : string :=
  s +:+ spaces (n - String.length s).

(** [sep.join(l)] *)
Definition join (sep : string) (l : list string) : string :=
  String.concat sep l.

(** [f'{z}'] and [str(z)] for an integer. *)
Definition str_Z (z : Z) : string := pretty z.

(** ** [str.format] with keyword arguments

    The text is scanned once.  [{{] and [}}] stand for a brace; [{name}]
    is replaced by the argument of that name.  A field that is empty or
    starts with a digit is positional and, there being no positional
    argument, raises [IndexError]; a name that is no argument raises
    [KeyError]; a brace that is not closed, or a single closing brace,
    raises [ValueError].  Conversions ([!r]), format specifications
    ([:10]) and attribute or index access inside a field are not
    modelled: the SQL texts of the package use none. *)

Definition starts_with_digit (s : string) : bool :=
  match s with
  | EmptyString => false
  | String c _ => bool_decide (48 <= Ascii.N_of_ascii c <= 57)%N
  end.

Definition field_value (parameters : list (string * string)) (name : string)
  : result string :=
  if bool_decide (name = "") || starts_with_digit name then Raise IndexError
  else match list_find (fun p => p.1 = name) parameters with
       | Some (_, (_, v)) => Ok v
       | None => Raise KeyError
       end.

Fixpoint format_go (parameters : list (string * string))
    (field : option string) (s : string) : result string :=
  match field, s with
  | None, EmptyString => Ok EmptyString
  | None, String "{" (String "{" s') =>
      String "{"%char <$> format_go parameters None s'
  | None, String "{" s' => format_go parameters (Some EmptyString) s'
  | None, String "}" (String "}" s') =>
      String "}"%char <$> format_go parameters None s'
  | None, String "}" _ => Raise ValueError
  | None, String c s' => String c <$> format_go parameters None s'
  | Some _, EmptyString => Raise ValueError
  | Some name, String "}" s' =>
      v ← field_value parameters name;
      String.append v <$> format_go parameters None s'
  | Some name, String c s' =>
      format_go parameters (Some (name +:+ String c EmptyString)) s'
  end.

Definition str_format (s : string) (parameters : list (string * string))
  : result string :=
  format_go parameters None s.

#[global] Arguments str_format : simpl never.

Definition is_brace (c : ascii) : bool :=
  bool_decide (c = "{"%char) || bool_decide (c = "}"%char).

Definition brace_free (s : string) : bool :=
  forallb_string (fun c => negb (is_brace c)) s.

(** ** Reading a text back

    What a reader of the texts built above needs: the rest of a text
    after a known beginning, and the two parts of a text around the
    first occurrence of a separator. *)

Fixpoint strip_prefix (p s : string) : option string :=
  match p, s with
  | EmptyString, _ => Some s
  | String a p', String b s' =>
      if decide (a = b) then strip_prefix p' s' else None
  | _, _ => None
  end.

Fixpoint split_at (sep s : string) : option (string * string) :=
  match strip_prefix sep s with
  | Some rest => Some (EmptyString, rest)
  | None =>
      match s with
      | EmptyString => None
      | String c s' => prod_map (String c) id <$> split_at sep s'
      end
  end.

(** ** Parts and numbers *)

(** [s.split(c)] for a one-character separator. *)
Fixpoint split_on (c : ascii) (s : string) : list string :=
  match s with
  | EmptyString => [EmptyString]
  | String x s' =>
      if decide (x = c) then EmptyString :: split_on c s'
      else match split_on c s' with
           | [] => [String x EmptyString]
           | w :: ws => String x w :: ws
           end
  end.

(** The white space of [str.strip()]: the space and the characters from
    the tabulation to the carriage return. *)
Definition is_whitespace (c : ascii) : bool :=
  let n := N_of_ascii c in ((n =? 32) || (9 <=? n) && (n <=? 13))%N.

Fixpoint strip_left (s : string) : string :=
  match s with
  | String c s' => if is_whitespace c then strip_left s' else s
  | EmptyString => EmptyString
  end.

Fixpoint strip_right (s : string) : string :=
  match s with
  | EmptyString => EmptyString
  | String c s' =>
      match strip_right s' with
      | EmptyString => if is_whitespace c then EmptyString
                       else String c EmptyString
      | r => String c r
      end
  end.

(** [s.strip()] *)
Definition strip (s : string) : string := strip_right (strip_left s).

(** The digits of a decimal literal, with the underscores that Python
    allows between two digits; [after_digit] says whether the character
    before was a digit, as the last one must be. *)
Fixpoint int_digits (s : string) (acc : N) (after_digit : bool) : option N :=
  match s with
  | EmptyString => if after_digit then Some acc else None
  | String c s' =>
      match Ascii.is_nat c with
      | Some n => int_digits s' (10 * acc + N.of_nat n)%N true
      | None =>
          if after_digit && bool_decide (c = "_"%char)
          then int_digits s' acc false
          else None
      end
  end.

(** [int(s)] for a string: white space around it is dropped, a sign may
    stand before the digits; [None] stands for [ValueError]. *)
Definition int_of_string (s : string) : option Z :=
  match strip s with
  | String "-" r => Z.opp ∘ Z.of_N <$> int_digits r 0 false
  | String "+" r => Z.of_N <$> int_digits r 0 false
  | r => Z.of_N <$> int_digits r 0 false
  end.

(** ** Lemmas *)

Lemma upper_ascii_idem c : upper_ascii (upper_ascii c) = upper_ascii c.
Proof. by destruct c as [[] [] [] [] [] [] [] []]. Qed.

Lemma upper_idem s : upper (upper s) = upper s.
Proof.
  induction s as [|c s IH]; [done|].
  unfold upper in *. simpl. by rewrite upper_ascii_idem, IH.
Qed.

Lemma length_map_string f s : String.length (map_string f s) = String.length s.
Proof. induction s; simpl; [done | by f_equal]. Qed.

Lemma length_upper s : String.length (upper s) = String.length s.
Proof. apply length_map_string. Qed.

Lemma length_app_string (s t : string) :
  String.length (s +:+ t) = String.length s + String.length t.
Proof. induction s; simpl; [done | by f_equal]. Qed.

Lemma length_spaces n : String.length (spaces n) = n.
Proof. induction n; simpl; [done | by f_equal]. Qed.

Lemma length_ljust n s : String.length (ljust n s) = n `max` String.length s.
Proof. unfold ljust. rewrite length_app_string, length_spaces. lia. Qed.

Lemma app_string_cons c (s t : string) : String c s +:+ t = String c (s +:+ t).
Proof. reflexivity. Qed.

Lemma app_string_nil_r (s : string) : s +:+ "" = s.
Proof. induction s; [done | rewrite app_string_cons; by f_equal]. Qed.

Lemma ljust_long n s : n <= String.length s -> ljust n s = s.
Proof.
  intros Hn. unfold ljust. replace (n - String.length s) with 0 by lia.
  apply app_string_nil_r.
Qed.

Lemma app_string_assoc (s t u : string) : (s +:+ t) +:+ u = s +:+ t +:+ u.
Proof. induction s; [done | rewrite !app_string_cons; by f_equal]. Qed.

Lemma string_app_inv_length (s1 s2 t1 t2 : string) :
  String.length s1 = String.length s2 ->
  s1 +:+ t1 = s2 +:+ t2 -> s1 = s2 /\ t1 = t2.
Proof.
  revert s2. induction s1 as [|c s1 IH]; intros [|d s2]; simpl; try done.
  rewrite !app_string_cons. intros [= Hl] [= -> Hs]. destruct (IH _ Hl Hs) as [-> ->]. done.
Qed.

Lemma app_string_inv_r (s1 s2 t : string) : s1 +:+ t = s2 +:+ t -> s1 = s2.
Proof.
  intros Heq. apply (string_app_inv_length s1 s2 t t); [|done].
  apply (f_equal String.length) in Heq. rewrite !length_app_string in Heq. lia.
Qed.

Lemma filter_string_id p s : forallb_string p s = true -> filter_string p s = s.
Proof.
  induction s as [|c s IH]; simpl; [done|].
  intros [Hc Hs]%andb_prop. rewrite Hc. f_equal. auto.
Qed.

Lemma filter_string_idem p s :
  filter_string p (filter_string p s) = filter_string p s.
Proof.
  induction s as [|c s IH]; simpl; [done|].
  destruct (p c) eqn:Hc; simpl; [rewrite Hc; congruence | done].
Qed.

Lemma remove_char_idem c s : remove_char c (remove_char c s) = remove_char c s.
Proof. apply filter_string_idem. Qed.

Lemma format_go_brace_free parameters s :
  brace_free s = true -> format_go parameters None s = Ok s.
Proof.
  induction s as [|c s IH]; simpl; [done|].
  intros [Hc Hs]%andb_prop. specialize (IH Hs).
  assert (c <> "{"%char /\ c <> "}"%char) as [H1 H2].
  { unfold is_brace in Hc. apply negb_true_iff, orb_false_iff in Hc.
    destruct Hc as [?%bool_decide_eq_false ?%bool_decide_eq_false]. done. }
  destruct c as [[] [] [] [] [] [] [] []]; try done;
    by (simpl; rewrite IH) || by destruct s; simpl in *; rewrite ?IH.
Qed.

Lemma str_format_brace_free s parameters :
  brace_free s = true -> str_format s parameters = Ok s.
Proof. apply format_go_brace_free. Qed.

Lemma join_nil sep : join sep [] = "".
Proof. done. Qed.

Lemma join_singleton sep s : join sep [s] = s.
Proof. done. Qed.

Lemma join_cons sep s t l : join sep (s :: t :: l) = s +:+ sep +:+ join sep (t :: l).
Proof. done. Qed.

Lemma strip_prefix_app p s : strip_prefix p (p +:+ s) = Some s.
Proof.
  induction p as [|c p IH]; [by destruct s|].
  rewrite app_string_cons. simpl. rewrite decide_True by done. done.
Qed.

Lemma strip_prefix_Some p s r : strip_prefix p s = Some r -> s = p +:+ r.
Proof.
  revert s. induction p as [|c p IH]; intros s; simpl.
  - by intros [= ->].
  - destruct s as [|d s]; [done|]. case_decide; [|done].
    intros Hs. subst d. by rewrite (IH _ Hs).
Qed.

Lemma split_at_Some sep s a b :
  split_at sep s = Some (a, b) -> s = a +:+ sep +:+ b.
Proof.
  revert a. induction s as [|c s IH]; intros a; simpl.
  - destruct (strip_prefix sep "") as [r|] eqn:Hr; [|done].
    intros [= <- <-]. apply strip_prefix_Some in Hr. exact Hr.
  - destruct (strip_prefix sep (String c s)) as [r|] eqn:Hr.
    + intros [= <- <-]. apply strip_prefix_Some in Hr. exact Hr.
    + destruct (split_at sep s) as [[a' b']|]; [|done].
      intros [= <- <-]. simpl. rewrite app_string_cons. by rewrite <- (IH a' eq_refl).
Qed.

Lemma forallb_string_app p s t :
  forallb_string p (s +:+ t) = forallb_string p s && forallb_string p t.
Proof.
  induction s as [|c s IH]; [done|].
  rewrite app_string_cons. simpl. by rewrite IH, andb_assoc.
Qed.

Lemma brace_free_app s t :
  brace_free (s +:+ t) = brace_free s && brace_free t.
Proof. apply forallb_string_app. Qed.
