(* ===== verification/Engine.v ===== *)
(** * Engine: what the Geodatabase class talks to

    The class [Geodatabase] of [src/geodatabase.py] owns nothing but a
    connection to SQLite with the SpatiaLite extension and a default
    SRID.  Every method builds the text of an SQL statement, sends it
    through the connection, and reacts to the answer.  This file fixes
    the vocabulary of that conversation:

    - [value], [row], [table]: what a cursor and a pandas frame hold,
      with the operations of pandas that the class calls on a frame:
      a column by name, the index of a frame read with [index_col]
      ([set_index]), the cast of a column to [int] ([astype_int]), the
      edges that a frame of two columns holds ([frame_edges]);
    - [statement] and [sql]: the statements the class sends, and their
      text (runs of white space in the source are written as one space);
    - [Engine]: the interface of the connection, with the two laws of a
      database that the theorems about the class rely on.  The class
      puts names into its texts without quotes, so the laws speak of
      names that are identifiers ([is_name]) and of databases whose
      tables and columns have such names ([tidy]);
    - [os], [world]: the files, the log, the standard output, the
      attributes of the labeller class and the database, which together
      are the state a method runs in, with the operations of the
      standard library on files and zip archives;
    - the primitive programs ([logging_info], [database_execute], ...)
      that the methods in [Geodatabase.v] are composed of.

    Transactions are not modelled: the connection is taken to write
    through. *)

From Stdlib Require Import Ascii.
From stdpp Require Import base option list gmap strings pretty.
From S2P Require Import Prelude Strings Components.

#[local] Open Scope string_scope.

(** ** Values, rows, tables *)

(** What SQLite hands to Python: [None], an [int] or a [str].  Floating
    point numbers and byte strings are no values here; the one number
    that pandas makes up itself, the NaN of a column of integers with a
    value missing, is [Null] in a column that is [numeric]. *)
Inductive value : Type :=
| Null
| Int (z : Z)
| Text (s : string).

#[export] Instance value_eq_dec : EqDecision value.
Proof. solve_decision. Defined.

#[export] Instance value_countable : Countable value.
Proof.
  refine (inj_countable'
    (fun v => match v with
              | Null => inl ()
              | Int z => inr (inl z)
              | Text s => inr (inr s)
              end)
    (fun x => match x with
              | inl _ => Null
              | inr (inl z) => Int z
              | inr (inr s) => Text s
              end) _).
  by intros [].
Defined.

(** [if v:] *)
Definition truthy (v : value) : bool :=
  match v with
  | Null => false
  | Int z => bool_decide (z <> 0%Z)
  | Text s => bool_decide (s <> "")
  end.

(** [str(v)] *)
Definition str (v : value) : string :=
  match v with
  | Null => "None"
  | Int z => str_Z z
  | Text s => s
  end.

Definition row : Type := list value.

(** The result of a statement and a pandas frame alike: the names of the
    columns and the rows. *)
Record table : Type := Table {
  columns : list string;
  tuples : list row
}.

#[export] Instance table_eq_dec : EqDecision table.
Proof. solve_decision. Defined.

(** [cursor.fetchall()[0]]: [IndexError] when there is no row. *)
Definition fetchall_0 (t : table) : result row := getitem (tuples t) 0.

(** [cursor.fetchone()]: [None] when there is no row. *)
Definition fetchone (t : table) : option row := head (tuples t).

(** [x, = r]: unpacking a tuple of one; [r] may be the [None] of
    [fetchone], which cannot be unpacked. *)
Definition unpack1 (r : option row) : result value :=
  match r with
  | None => Raise TypeError
  | Some [v] => Ok v
  | Some _ => Raise ValueError
  end.

(** [r[0]] for the result [r] of [fetchone]. *)
Definition subscript_0 (r : option row) : result value :=
  match r with
  | None => Raise TypeError
  | Some r => getitem r 0
  end.

(** [frame[name]] and the index of a frame read with [index_col=name]:
    the column of that name; [KeyError] when there is none, [IndexError]
    when a row is too short. *)
Definition column (name : string) (t : table) : result (list value) :=
  match list_find (fun c => c = name) (columns t) with
  | None => Raise KeyError
  | Some (i, _) => mapM (M:=result) (fun r => getitem r i) (tuples t)
  end.

(** A frame with an index: the values of the index, and the frame of
    the other columns. *)
Record indexed_frame : Type := Indexed {
  frame_index : list value;
  frame : table
}.

(** A frame without its column at position [i]. *)
Definition drop_column (i : nat) (t : table) : table :=
  Table (delete i (columns t)) (delete i <$> tuples t).

(** [pd.read_sql(..., index_col=name)]: the column [name] of the result
    becomes the index of the frame and is no column of it from then on;
    [KeyError] when the result has no such column. *)
Definition set_index (name : string) (t : table) : result indexed_frame :=
  match list_find (fun c => c = name) (columns t) with
  | None => Raise KeyError
  | Some (i, _) => vs ← column name t; Ok (Indexed vs (drop_column i t))
  end.

(** The strings of a list of values, as [list(frame.index)] of a frame
    whose index holds names. *)
Definition texts (vs : list value) : list string := str <$> vs.

Definition is_Int (v : value) : bool :=
  match v with Int _ => true | _ => false end.

Definition is_Null (v : value) : bool :=
  match v with Null => true | _ => false end.

Definition is_Text (v : value) : bool :=
  match v with Text _ => true | _ => false end.

(** A column that pandas holds as numbers: it has an integer and no
    text.  A value that is missing is NaN in such a column, and [None]
    in any other. *)
Definition numeric (vs : list value) : bool :=
  existsb is_Int vs && negb (existsb is_Text vs).

(** The cast of one value to [int].  An integer stays; a text is read
    as [int(s)] reads it ([int_of_string]), [ValueError] when it is no
    number.  A missing value cannot be cast: NaN raises [ValueError],
    and [int(None)] raises [TypeError]. *)
Definition astype_value (nan : bool) (v : value) : result value :=
  match v with
  | Int z => Ok (Int z)
  | Text s =>
      match int_of_string s with
      | Some z => Ok (Int z)
      | None => Raise ValueError
      end
  | Null => Raise (if nan then ValueError else TypeError)
  end.

(** The frame with the values [vs] in its column at position [i], row
    by row. *)
Definition set_values (i : nat) (vs : list value) (t : table) : table :=
  Table (columns t) (zip_with (fun r v => <[i := v]> r) (tuples t) vs).

(** [frame.astype({name: int})]: [KeyError] when the frame has no such
    column; otherwise every value of the column is cast, in the order
    of the rows, and the first that cannot be raises. *)
Definition astype_int (name : string) (t : table) : result table :=
  match list_find (fun c => c = name) (columns t) with
  | None => Raise KeyError
  | Some (i, _) =>
      vs ← column name t;
      vs' ← mapM (M:=result) (astype_value (numeric vs)) vs;
      Ok (set_values i vs' t)
  end.

(** [for row in frame.itertuples(): frame.loc[row.Index, name] = v]
    with one [v] for each row: the first assignment creates the column,
    so a frame without rows does not get it. *)
Definition set_column (name : string) (vs : list value) (t : table) : table :=
  match vs with
  | [] => t
  | _ => Table (columns t ++ [name])%list
               (zip_with (fun r v => r ++ [v])%list (tuples t) vs)
  end.

(** [frame.loc[:, [c for c in frame.columns if keep(c)]]], for a frame
    whose column names are distinct. *)
Definition keep_columns (keep : string -> bool) (t : table) : table :=
  let mask := keep <$> columns t in
  Table (filter (fun c => keep c = true) (columns t))
        ((fun r => (filter (fun vb => vb.2 = true) (zip r mask)).*1) <$> tuples t).

(** The frame that [getConnectedCompontents] returns, as a table. *)
Definition frame_of (df : DataFrame value) : table :=
  Table ["id"; "cc"]
        (zip_with (fun k c => [k; Int (Z.of_nat c)]) (id df) (cc df)).

(** A column with NaN: a column of numbers with a value missing. *)
Definition has_nan (vs : list value) : bool :=
  existsb is_Null vs && numeric vs.

(** The edges that the labeller reads from a frame: its columns [a] and
    [b], row by row.  The labeller numbers its keys through a
    dictionary and looks every key of every row up in it
    ([src/graph.py], line 41).  NaN is a key that is found under no
    key, itself included, so that a frame with NaN in [a] or [b] makes
    the constructor raise [KeyError]; it is raised here, before the
    labeller is run.  A [None] in a column of texts is a key as any
    other. *)
Definition frame_edges (t : table) : result (list (value * value)) :=
  a ← column "a" t;
  b ← column "b" t;
  if has_nan a || has_nan b then Raise KeyError else Ok (zip a b).

(** ** Names

    The name of a table or of a column goes into the text of a statement
    as it is, without quotes.  A name that is an identifier, letters,
    digits and underscores after a first letter or underscore, and no
    keyword of SQL, is read by the engine as the name it is.  Any other
    string is read as SQL: an expression, a call, a subquery. *)

Definition is_letter (c : ascii) : bool :=
  let n := N_of_ascii c in
  ((65 <=? n) && (n <=? 90) || (97 <=? n) && (n <=? 122) || (n =? 95))%N.

Definition is_digit (c : ascii) : bool :=
  let n := N_of_ascii c in ((48 <=? n) && (n <=? 57))%N.

Definition is_name_char (c : ascii) : bool := is_letter c || is_digit c.

Definition is_identifier (s : string) : bool :=
  match s with
  | EmptyString => false
  | String c s' => is_letter c && forallb_string is_name_char s'
  end.

(** The keywords of SQLite. *)
Definition keywords : list string :=
  [ "ABORT"; "ACTION"; "ADD"; "AFTER"; "ALL"; "ALTER"; "ALWAYS"; "ANALYZE";
    "AND"; "AS"; "ASC"; "ATTACH"; "AUTOINCREMENT"; "BEFORE"; "BEGIN";
    "BETWEEN"; "BY"; "CASCADE"; "CASE"; "CAST"; "CHECK"; "COLLATE"; "COLUMN";
    "COMMIT"; "CONFLICT"; "CONSTRAINT"; "CREATE"; "CROSS"; "CURRENT";
    "CURRENT_DATE"; "CURRENT_TIME"; "CURRENT_TIMESTAMP"; "DATABASE";
    "DEFAULT"; "DEFERRABLE"; "DEFERRED"; "DELETE"; "DESC"; "DETACH";
    "DISTINCT"; "DO"; "DROP"; "EACH"; "ELSE"; "END"; "ESCAPE"; "EXCEPT";
    "EXCLUDE"; "EXCLUSIVE"; "EXISTS"; "EXPLAIN"; "FAIL"; "FILTER"; "FIRST";
    "FOLLOWING"; "FOR"; "FOREIGN"; "FROM"; "FULL"; "GENERATED"; "GLOB";
    "GROUP"; "GROUPS"; "HAVING"; "IF"; "IGNORE"; "IMMEDIATE"; "IN"; "INDEX";
    "INDEXED"; "INITIALLY"; "INNER"; "INSERT"; "INSTEAD"; "INTERSECT";
    "INTO"; "IS"; "ISNULL"; "JOIN"; "KEY"; "LAST"; "LEFT"; "LIKE"; "LIMIT";
    "MATCH"; "MATERIALIZED"; "NATURAL"; "NO"; "NOT"; "NOTHING"; "NOTNULL";
    "NULL"; "NULLS"; "OF"; "OFFSET"; "ON"; "OR"; "ORDER"; "OTHERS"; "OUTER";
    "OVER"; "PARTITION"; "PLAN"; "PRAGMA"; "PRECEDING"; "PRIMARY"; "QUERY";
    "RAISE"; "RANGE"; "RECURSIVE"; "REFERENCES"; "REGEXP"; "REINDEX";
    "RELEASE"; "RENAME"; "REPLACE"; "RESTRICT"; "RETURNING"; "RIGHT";
    "ROLLBACK"; "ROW"; "ROWS"; "SAVEPOINT"; "SELECT"; "SET"; "TABLE"; "TEMP";
    "TEMPORARY"; "THEN"; "TIES"; "TO"; "TRANSACTION"; "TRIGGER"; "UNBOUNDED";
    "UNION"; "UNIQUE"; "UPDATE"; "USING"; "VACUUM"; "VALUES"; "VIEW";
    "VIRTUAL"; "WHEN"; "WHERE"; "WINDOW"; "WITH"; "WITHOUT" ].

Definition is_name (s : string) : bool :=
  is_identifier s && bool_decide (upper s ∉ keywords).

(** ** The statements of the class *)

(** One constructor for each SQL text in [geodatabase.py], with the
    parts that the method interpolates. *)
Inductive statement : Type :=
| InitSpatialMetaData
| UpdateLayerStatistics
| DropDataLicenses
| Attach (path alias : string)
| CheckShadowedRowid (table : string)
| CheckWithoutRowid (table : string)
| MakeValid (table geometry : string)
| CreateSpatialIndex (table geometry : string)
| DropTable (table : string)
| SelectEdges (a b inputTable : string)
| CountOfErrors (table geometry : string)
| MaxLength (column table : string)
| CountDistinct (column table : string)
| GeometriesMetadata
| TableInfo (table : string)
| ListOfTables
| CountOfRows (table : string)
| Head (table : string)
| InspectGeometry (geometry table : string)
| ImportSHP (shapeFile table encoding : string) (srid : Z)
| PointInPolygon (outputTable points polygons : string)
| RecoverGeometryColumn (table geometry : string) (srid : Z)
    (geomType coordDimension : string)
| RecoverSpatialIndex (table geometry : string)
| Transform (outputTable : string) (columns : list string) (srid : Z)
    (inputTable : string)
| SelectAll (table : string).

(** The double quote, which SQL uses around a name. *)
Definition dq : string := String (ascii_of_N 34) "".

(** The tables of SQLite and SpatiaLite that [getListOfTables] leaves
    out by name. *)
Definition system_tables : list string :=
  [ "ElementaryGeometries"; "geometry_columns"; "geometry_columns_auth";
    "geometry_columns_field_infos"; "geometry_columns_statistics";
    "geometry_columns_time"; "KNN"; "spatial_ref_sys"; "spatial_ref_sys_aux";
    "SpatialIndex"; "spatialite_history"; "sql_statements_log";
    "views_geometry_columns"; "views_geometry_columns_auth";
    "views_geometry_columns_field_infos"; "views_geometry_columns_statistics";
    "virts_geometry_columns"; "virts_geometry_columns_auth";
    "virts_geometry_columns_field_infos"; "virts_geometry_columns_statistics";
    "geom_cols_ref_sys"; "spatial_ref_sys_all"; "vector_layers";
    "vector_layers_auth"; "vector_layers_field_infos";
    "vector_layers_statistics" ].

Definition quoted (s : string) : string := "'" +:+ s +:+ "'".

Definition sql (st : statement) : string :=
  match st with
  | InitSpatialMetaData => "select InitSpatialMetaData(1);"
  | UpdateLayerStatistics => "select UpdateLayerStatistics();"
  | DropDataLicenses => "drop table if exists data_licenses"
  | Attach path alias => "attach '" +:+ path +:+ "' as " +:+ alias
  | CheckShadowedRowid table =>
      "select CheckShadowedRowid('" +:+ table +:+ "')"
  | CheckWithoutRowid table =>
      "select CheckWithoutRowid('" +:+ table +:+ "')"
  | MakeValid table geometry =>
      "update " +:+ table +:+ " SET " +:+ geometry +:+ " = st_makeValid("
        +:+ geometry +:+ ") where ST_IsValid(" +:+ geometry +:+ ") <>1"
  | CreateSpatialIndex table geometry =>
      "select createSpatialIndex( '" +:+ table +:+ "' , '" +:+ geometry
        +:+ "' )"
  | DropTable table => "select dropTable(NULL,'" +:+ table +:+ "')"
  | SelectEdges a b inputTable =>
      "select " +:+ a +:+ " as a, " +:+ b +:+ " as b from " +:+ inputTable
  | CountOfErrors table geometry =>
      "select count(*) from " +:+ table +:+ " where ST_IsValid(" +:+ geometry
        +:+ ",1)<>1"
  | MaxLength column table =>
      "select max(length(" +:+ column +:+ ")) from " +:+ table
  | CountDistinct column table =>
      "select count(distinct " +:+ column +:+ ") from " +:+ table
  | GeometriesMetadata =>
      "select f_table_name, f_geometry_column, geometry_type, "
        +:+ "coord_dimension, srid, spatial_index_enabled "
        +:+ "from geometry_columns"
  | TableInfo table =>
      "select name as tx_column_name, type as cd_column_type, "
        +:+ dq +:+ "notnull" +:+ dq +:+ " as fl_notnull_constraint, "
        +:+ "dflt_value as default_value, pk as fl_primary_key "
        +:+ "from pragma_table_info('" +:+ table +:+ "')"
  | ListOfTables =>
      "select a.type, a.f_table_name, "
        +:+ "count(distinct f_geometry_column) as ms_countOf_geometries, "
        +:+ "coalesce(sum(spatial_index_enabled),0) as ms_countOf_spatial_indexes "
        +:+ "from ( select type, name as f_table_name from sqlite_master "
        +:+ "where type in ('table','view') "
        +:+ "and name NOT LIKE 'sqlite_%' and name NOT LIKE 'idx_%' "
        +:+ "and name NOT IN ( " +:+ join ", " (quoted <$> system_tables)
        +:+ " ) ) a LEFT JOIN geometry_columns b "
        +:+ "on lower(a.f_table_name)=lower(b.f_table_name) group by 1, 2"
  | CountOfRows table => "select count(*) from " +:+ table
  | Head table => "select rowid, * from " +:+ table +:+ " limit 10"
  | InspectGeometry geometry table =>
      "select GeometryType(" +:+ dq +:+ geometry +:+ dq +:+ ") as geomType, "
        +:+ "Srid(" +:+ dq +:+ geometry +:+ dq +:+ ") as srid, "
        +:+ "CoordDimension(" +:+ dq +:+ geometry +:+ dq
        +:+ ") as coordDimension, count(*) as ms_countof_rows from "
        +:+ table +:+ " where " +:+ geometry
        +:+ " is not null group by 1, 2, 3"
  | ImportSHP shapeFile table encoding srid =>
      "select ImportSHP('" +:+ shapeFile +:+ "','" +:+ table +:+ "','"
        +:+ encoding +:+ "'," +:+ str_Z srid +:+ ")"
  | PointInPolygon outputTable points polygons =>
      "create table " +:+ outputTable +:+ " as select pt.rowid as rowid_point, "
        +:+ "pg.rowid as rowid_polygon from " +:+ points +:+ " as pt, "
        +:+ polygons +:+ " as pg where st_within(pt.geometry,pg.geometry) "
        +:+ "and pt.rowid in ( select rowid from spatialIndex "
        +:+ "where f_table_name='DB=" +:+ points
        +:+ "' and search_frame=pg.geometry )"
  | RecoverGeometryColumn table geometry srid geomType coordDimension =>
      "select recoverGeometryColumn( '" +:+ table +:+ "' , '" +:+ geometry
        +:+ "' , " +:+ str_Z srid +:+ " , '" +:+ geomType +:+ "' , '"
        +:+ coordDimension +:+ "' )"
  | RecoverSpatialIndex table geometry =>
      "select recoverSpatialIndex('" +:+ table +:+ "','" +:+ geometry +:+ "')"
  | Transform outputTable columns srid inputTable =>
      "create table " +:+ outputTable +:+ " as select " +:+ join "," columns
        +:+ ",st_transform(geometry," +:+ str_Z srid +:+ ") as geometry from "
        +:+ inputTable
  | SelectAll table => "select * from " +:+ table
  end.

#[global] Arguments sql : simpl never.

(** The names that a statement carries into its text. *)
Definition names (st : statement) : list string :=
  match st with
  | InitSpatialMetaData | UpdateLayerStatistics | DropDataLicenses
  | GeometriesMetadata | ListOfTables => []
  | Attach _ alias => [alias]
  | CheckShadowedRowid table | CheckWithoutRowid table | DropTable table
  | TableInfo table | CountOfRows table | Head table | SelectAll table =>
      [table]
  | MakeValid table geometry | CreateSpatialIndex table geometry
  | CountOfErrors table geometry | RecoverSpatialIndex table geometry
  | RecoverGeometryColumn table geometry _ _ _ => [table; geometry]
  | MaxLength column table | CountDistinct column table => [column; table]
  | InspectGeometry geometry table => [geometry; table]
  | SelectEdges a b inputTable => [a; b; inputTable]
  | ImportSHP _ table _ _ => [table]
  | PointInPolygon outputTable points polygons =>
      [outputTable; points; polygons]
  | Transform outputTable columns _ inputTable =>
      outputTable :: inputTable :: columns
  end.

(** The statements that are queries: plain selects and the two checks
    on the row identifier. *)
Definition reading (st : statement) : bool :=
  match st with
  | CheckShadowedRowid _ | CheckWithoutRowid _ | SelectEdges _ _ _
  | CountOfErrors _ _ | MaxLength _ _ | CountDistinct _ _
  | GeometriesMetadata | TableInfo _ | ListOfTables | CountOfRows _
  | Head _ | InspectGeometry _ _ | SelectAll _ => true
  | _ => false
  end.

(** The statements that only read: the queries whose names are names.
    With a name that is none, the text of a query is whatever the name
    spells: a query on [dropTable(NULL,'t')] as a column drops the
    table. *)
Definition reads_only (st : statement) : bool :=
  reading st && forallb is_name (names st).

(** ** The connection *)

(** [if_exists] of [DataFrame.to_sql]. *)
Inductive if_exists : Type := fail | replace | append.

#[export] Instance if_exists_eq_dec : EqDecision if_exists.
Proof. solve_decision. Defined.

(** The state [DB] is everything behind the connection: the database
    it is open on and the database files it may be opened on.

    - [db_execute] is [connection.execute(text)] followed by reading the
      cursor, and [pd.read_sql(text, connection)];
    - [db_to_sql] is [frame.to_sql(name, connection, index=False,
      if_exists=...)], and [pd_read_csv] is [pd.read_csv] on the text
      of a file, with the parameters handed through;
    - [db_exists], [db_remove], [db_connect], [db_load_extension],
      [db_commit] and [db_close] are [os.path.exists] and [os.remove] on
      the path of a database, [sqlite3.connect], [load_extension],
      [commit] and [close];
    - [db_create] is [sqlite3.connect(path).close()], a second
      connection that leaves a database at its path, and [gpd_to_file]
      is [GeoDataFrame.to_file], which leaves a shape file where the
      engine can read it: the calls with which the tests prepare what
      the class is to find; [db_rmtree] is [shutil.rmtree] as far as
      it concerns such files.

    The laws: a query whose names are names leaves the state as it
    was, and a frame written with [if_exists='replace'] under a name is
    what [select *] from that name then returns. *)
Class Engine (DB : Type) : Type := {
  db_execute : string -> DB -> result table * DB;
  db_executescript : string -> DB -> result unit * DB;
  db_to_sql : string -> table -> if_exists -> DB -> result unit * DB;
  pd_read_csv : string -> list (string * string) -> result table;
  db_exists : string -> DB -> bool;
  db_remove : string -> DB -> DB;
  db_connect : string -> DB -> result unit * DB;
  db_load_extension : string -> DB -> result unit * DB;
  db_commit : DB -> DB;
  db_close : DB -> DB;
  db_create : string -> DB -> DB;
  gpd_to_file : string -> table -> DB -> DB;
  db_rmtree : string -> DB -> DB;
  db_reads_only : forall st d,
    reads_only st = true -> (db_execute (sql st) d).2 = d;
  db_to_sql_replace : forall name t d d',
    is_name name = true ->
    db_to_sql name t replace d = (Ok (), d') ->
    db_execute (sql (SelectAll name)) d' = (Ok t, d')
}.

(** A reply that lists names only, in its column [c]. *)
Definition lists_names (c : string) (r : result table) : Prop :=
  forall t index, r = Ok t -> column c t = Ok index ->
    Forall (fun v => is_name (str v) = true) index.

(** A database whose tables and columns have names that are names: the
    methods that go through the tables or the columns send one query
    for each, with its name in the text. *)
Definition tidy `{Engine DB} (d : DB) : Prop :=
  lists_names "f_table_name" (db_execute (sql ListOfTables) d).1 /\
  forall table, is_name table = true ->
    lists_names "tx_column_name" (db_execute (sql (TableInfo table)) d).1.

(** ** The state of a run *)

(** The levels of [logging], as the library names them. *)
Inductive level : Type := DEBUG | INFO | WARNING | ERROR | CRITICAL.

#[export] Instance level_eq_dec : EqDecision level.
Proof. solve_decision. Defined.

(** What a file holds: a text, or the members of a zip archive by
    name. *)
Inductive content : Type :=
| Plain (text : string)
| Zip (members : list (string * string)).

(** [mode] of [open] and of [to_csv]. *)
Inductive open_mode : Type := mode_w | mode_a.

(** The operating system as far as the package uses it: the files by
    path, the paths that cannot be opened for writing, the records
    handed to [logging], and what [print] wrote. *)
Record os : Type := OS {
  files : gmap string content;
  read_only : gset string;
  logged : list (level * string);
  stdout : list string
}.

Record world (DB : Type) : Type := World {
  database : DB;
  system : os;
  attrs : class_attrs value
}.
Arguments World {DB} _ _ _.
Arguments database {DB} _.
Arguments system {DB} _.
Arguments attrs {DB} _.

(** The part of a world that the files make up. *)
Definition file_system {DB} (w : world DB) : gmap string content * gset string :=
  (files (system w), read_only (system w)).

Definition log_record (l : level) (msg : string) (o : os) : os :=
  OS (files o) (read_only o) (logged o ++ [(l, msg)])%list (stdout o).

(** [logging.info(msg)], [logging.warning(msg)], [logging.error(msg)]:
    the record is handed to the root logger; whether a handler prints it
    is a matter of configuration. *)
Definition logging (l : level) (msg : string) : prog os unit :=
  modify_state (log_record l msg).

(** [print(msg)] *)
Definition print (msg : string) : prog os unit :=
  modify_state
    (fun o => OS (files o) (read_only o) (logged o) (stdout o ++ [msg])%list).

(** [os.path.exists(path)] on a text file. *)
Definition os_path_exists (path : string) : prog os bool :=
  fun o => (Ok (bool_decide (is_Some (files o !! path))), o).

(** [with open(path) as f: f.read()]; an archive is no text, and
    decoding it fails with a [ValueError]. *)
Definition read_file (path : string) : prog os string :=
  fun o => match files o !! path with
           | Some (Plain s) => (Ok s, o)
           | Some (Zip _) => (Raise ValueError, o)
           | None => (Raise FileNotFoundError, o)
           end.

(** [with open(path, 'w') as f: f.write(content)]: the file is created
    or cut to nothing when it is opened, then written. *)
Definition write_file (path content : string) : prog os unit :=
  fun o => if decide (path ∈ read_only o) then (Raise PermissionError, o)
           else (Ok (), OS (<[path := Plain content]> (files o))
                           (read_only o) (logged o) (stdout o)).

(** [shutil.rmtree(directory)]: the files below the directory are no
    more. *)
Definition rmtree (directory : string) : prog os unit :=
  modify_state
    (fun o => OS (filter (fun kv => strip_prefix (directory +:+ "/") kv.1 = None)
                         (files o))
                 (read_only o) (logged o) (stdout o)).

(** Writing one member into the zip archive at [path]: a new archive
    with mode ['w'], one more member of the archive that is there with
    mode ['a']. *)
Definition write_zip (path member text : string) (mode : open_mode)
  : prog os unit :=
  fun o =>
    let put ms := (Ok (), OS (<[path := Zip ms]> (files o)) (read_only o)
                             (logged o) (stdout o)) in
    if decide (path ∈ read_only o) then (Raise PermissionError, o)
    else match mode, files o !! path with
         | mode_a, Some (Zip ms) => put (ms ++ [(member, text)])%list
         | mode_a, Some (Plain _) => (Raise BadZipFile, o)
         | _, _ => put [(member, text)]
         end.

(** [os.path.join(directory, name)] for a relative [name]. *)
Definition os_path_join (directory name : string) : string :=
  directory +:+ "/" +:+ name.

(** [zipfile.ZipFile(path, 'r')]: the members of the archive. *)
Definition zipfile_ZipFile (path : string) : prog os (list (string * string)) :=
  fun o => match files o !! path with
           | Some (Zip members) => (Ok members, o)
           | Some (Plain _) => (Raise BadZipFile, o)
           | None => (Raise FileNotFoundError, o)
           end.

(** Where [extractall] puts a member below the directory: the name of
    the member without the components that are empty, [.] or [..], so
    that no member leaves the directory. *)
Definition member_path (name : string) : string :=
  join "/" (filter (fun c => c ∉ [""; "."; ".."]) (split_on "/"%char name)).

(** A member whose name ends with a slash is a directory. *)
Definition is_dir (name : string) : bool :=
  bool_decide (last (split_on "/"%char name) = Some "").

(** [myzip.extract(member, directory)]: a directory holds no text; any
    other member is written as a file is, at its place below the
    directory. *)
Definition extract (directory : string) (member : string * string)
  : prog os unit :=
  if is_dir member.1 then mret ()
  else write_file (os_path_join directory (member_path member.1)) member.2.

(** [myzip.extractall(directory)]: the members one after the other, in
    the order of the archive; when one cannot be written the members
    before it stay extracted. *)
Definition extractall (directory : string) (members : list (string * string))
  : prog os unit :=
  for_ members (extract directory).

(** The members of the archive at a path before [write_zip] writes
    with [mode]. *)
Definition members_before (mode : open_mode) (f : option content)
  : list (string * string) :=
  match mode, f with
  | mode_a, Some (Zip ms) => ms
  | _, _ => []
  end.

Section world.
Context `{Engine DB}.

Definition on_database {A} (f : DB -> result A * DB) : prog (world DB) A :=
  fun w => let '(r, d) := f (database w) in (r, World d (system w) (attrs w)).

Definition on_system {A} (m : prog os A) : prog (world DB) A :=
  fun w => let '(r, o) := m (system w) in (r, World (database w) o (attrs w)).

Definition on_attrs {A} (m : prog (class_attrs value) A) : prog (world DB) A :=
  fun w => let '(r, c) := m (attrs w) in (r, World (database w) (system w) c).

Definition logging_info (msg : string) : prog (world DB) unit :=
  on_system (logging INFO msg).
Definition logging_warning (msg : string) : prog (world DB) unit :=
  on_system (logging WARNING msg).
Definition logging_error (msg : string) : prog (world DB) unit :=
  on_system (logging ERROR msg).

(** [self.database.execute(text)] and [pd.read_sql(text, self.database)] *)
Definition database_execute (text : string) : prog (world DB) table :=
  on_database (db_execute text).

(** A statement whose one value is taken with [fetchall()[0]] and
    unpacked. *)
Definition scalar_fetchall (st : statement) : prog (world DB) value :=
  t ← database_execute (sql st);
  lift_result (r ← fetchall_0 t; unpack1 (Some r)).

(** A statement whose one value is taken with [fetchone()] and
    unpacked. *)
Definition scalar_fetchone (st : statement) : prog (world DB) value :=
  t ← database_execute (sql st);
  lift_result (unpack1 (fetchone t)).

(** A statement whose first value is taken with [fetchone()[0]]. *)
Definition scalar_subscript (st : statement) : prog (world DB) value :=
  t ← database_execute (sql st);
  lift_result (subscript_0 (fetchone t)).

End world.

(** ** Lemmas *)

Lemma truthy_Int z : truthy (Int z) = bool_decide (z <> 0%Z).
Proof. done. Qed.

Lemma unpack1_Ok r v : unpack1 r = Ok v <-> r = Some [v].
Proof.
  destruct r as [[|x [|y r]]|]; simpl; split; intros Hr; simplify_eq; done.
Qed.

Lemma subscript_0_Ok r v :
  subscript_0 r = Ok v <-> exists r', r = Some (v :: r').
Proof.
  destruct r as [[|x r]|]; unfold subscript_0, getitem; simpl;
    (split; [intros Hr | intros (r' & Hr)]); simplify_eq; eauto.
Qed.

Lemma column_Ok_length name t vs :
  column name t = Ok vs -> length vs = length (tuples t).
Proof.
  unfold column. destruct (list_find _ _) as [[i c]|]; [|done].
  generalize (tuples t). intros rs. revert vs.
  induction rs as [|r rs IH]; intros vs; simpl.
  - by intros [= <-].
  - destruct (getitem r i) as [v|]; simpl; [|done].
    destruct (mapM _ rs) as [vs'|] eqn:Hrs; simpl; [|done].
    intros [= <-]. simpl. f_equal. by apply IH.
Qed.

(** A column that a loop adds at the end of a frame leaves the other
    columns as they were, on the rows that got a value. *)
Lemma column_set_column c name vs t index :
  c <> name -> column c t = Ok index ->
  exists n, column c (set_column name vs t) = Ok (take n index).
Proof.
  intros Hc. unfold column, set_column.
  destruct (list_find _ (columns t)) as [[i c']|] eqn:Hfind; [|done].
  destruct vs as [|v vs]; simpl.
  { rewrite Hfind. intros ->. exists (length index). by rewrite take_ge. }
  rewrite (list_find_app_l _ _ _ _ _ Hfind).
  generalize (v :: vs). clear v vs. intros vs. revert vs index.
  induction (tuples t) as [|r rs IH]; intros vs index; simpl.
  { intros [= <-]. by exists 0. }
  destruct (getitem r i) as [x|] eqn:Hx; simpl; [|done].
  destruct (mapM _ rs) as [xs|] eqn:Hrs; simpl; [|done]. intros [= <-].
  destruct vs as [|v vs]; simpl; [by exists 0|].
  apply getitem_Ok in Hx.
  assert (getitem (r ++ [v])%list i = Ok x) as ->.
  { apply getitem_Ok. rewrite lookup_app_l; [done | by eapply lookup_lt_Some]. }
  simpl. destruct (IH vs xs eq_refl) as [n ->]. by exists (S n).
Qed.

(** With one value for each row the other columns are as they were. *)
Lemma column_set_column_all c name vs t index :
  c <> name -> column c t = Ok index -> length vs = length (tuples t) ->
  column c (set_column name vs t) = Ok index.
Proof.
  intros Hc Hi Hlen.
  destruct (column_set_column c name vs t index Hc Hi) as [n Hn].
  rewrite Hn. f_equal. apply take_ge.
  apply column_Ok_length in Hn, Hi. rewrite length_take in Hn.
  assert (length (tuples (set_column name vs t)) = length (tuples t)) as Ht.
  { unfold set_column. destruct vs; [done|]. simpl tuples.
    rewrite length_zip_with. unfold row in *. lia. }
  unfold row in *. lia.
Qed.

Lemma lists_names_set_column c name vs t index :
  c <> name -> column c t = Ok index ->
  Forall (fun v => is_name (str v) = true) index ->
  lists_names c (Ok (set_column name vs t)).
Proof.
  intros Hc Hi Hn t' index' [= <-] Hi'.
  destruct (column_set_column c name vs t index Hc Hi) as [n Hcol].
  rewrite Hcol in Hi'. injection Hi' as <-. by apply Forall_take.
Qed.

Lemma astype_int_columns name t t' :
  astype_int name t = Ok t' -> columns t' = columns t.
Proof.
  unfold astype_int. destruct (list_find _ _) as [[i c]|]; [|done].
  intros (vs & _ & (vs' & _ & [= <-])%bind_Ok)%bind_Ok. done.
Qed.

(** A cast leaves the other columns as they were. *)
Lemma astype_int_other c name t t' :
  c <> name -> astype_int name t = Ok t' -> column c t' = column c t.
Proof.
  intros Hc. unfold astype_int.
  destruct (list_find _ _) as [[i c0]|] eqn:Hi; [|done].
  apply list_find_Some in Hi as (Hi & -> & _).
  intros (vs & Hvs & (vs' & Hvs' & [= <-])%bind_Ok)%bind_Ok.
  apply column_Ok_length in Hvs. apply mapM_length in Hvs'.
  unfold column. simpl. destruct (list_find _ _) as [[j c']|] eqn:Hj; [|done].
  apply list_find_Some in Hj as (Hj & -> & _).
  assert (i <> j) as Hij by (intros ->; congruence).
  apply mapM_zip_with_l; [by rewrite Hvs', Hvs|]. intros r v. unfold getitem, row.
  by rewrite list_lookup_insert_ne.
Qed.

Lemma lists_names_astype_int c name t t' :
  c <> name -> astype_int name t = Ok t' ->
  lists_names c (Ok t) -> lists_names c (Ok t').
Proof.
  intros Hc Ht Hn t0 index [= <-]. rewrite (astype_int_other c name t) by done.
  by apply Hn.
Qed.

Lemma files_log_record l msg o : files (log_record l msg o) = files o.
Proof. done. Qed.

Lemma read_only_log_record l msg o :
  read_only (log_record l msg o) = read_only o.
Proof. done. Qed.

Lemma write_file_run path text o :
  path ∉ read_only o ->
  write_file path text o =
  (Ok (), OS (<[path := Plain text]> (files o)) (read_only o) (logged o)
             (stdout o)).
Proof. intros Hro. unfold write_file. by rewrite decide_False. Qed.

Lemma write_zip_run path member text mode o :
  path ∉ read_only o ->
  (forall t, files o !! path = Some (Plain t) -> mode = mode_w) ->
  write_zip path member text mode o =
  (Ok (), OS (<[path := Zip (members_before mode (files o !! path)
                             ++ [(member, text)])%list]> (files o))
             (read_only o) (logged o) (stdout o)).
Proof.
  intros Hro Hplain. unfold write_zip. rewrite decide_False by done.
  destruct mode, (files o !! path) as [[t|ms]|] eqn:Hf; simpl; try done.
  by specialize (Hplain _ eq_refl).
Qed.

Section world_lemmas.
Context `{Engine DB}.
Implicit Types w : world DB.

Lemma on_system_database {A} (m : prog os A) :
  preserves (database (DB:=DB)) (on_system m).
Proof. intros w. unfold on_system. by destruct (m (system w)). Qed.

Lemma on_system_attrs {A} (m : prog os A) :
  preserves (attrs (DB:=DB)) (on_system m).
Proof. intros w. unfold on_system. by destruct (m (system w)). Qed.

Lemma on_attrs_database {A} (m : prog (class_attrs value) A) :
  preserves (database (DB:=DB)) (on_attrs m).
Proof. intros w. unfold on_attrs. by destruct (m (attrs w)). Qed.

Lemma on_attrs_system {A} (m : prog (class_attrs value) A) :
  preserves (system (DB:=DB)) (on_attrs m).
Proof. intros w. unfold on_attrs. by destruct (m (attrs w)). Qed.

Lemma on_database_system {A} (f : DB -> result A * DB) :
  preserves (system (DB:=DB)) (on_database f).
Proof. intros w. unfold on_database. by destruct (f (database w)). Qed.

Lemma on_database_attrs {A} (f : DB -> result A * DB) :
  preserves (attrs (DB:=DB)) (on_database f).
Proof. intros w. unfold on_database. by destruct (f (database w)). Qed.

(** What goes to the database, to the log or to the standard output
    leaves the files alone. *)
Lemma on_database_file_system {A} (f : DB -> result A * DB) :
  preserves (file_system (DB:=DB)) (on_database f).
Proof. intros w. unfold on_database. by destruct (f (database w)). Qed.

Lemma on_attrs_file_system {A} (m : prog (class_attrs value) A) :
  preserves (file_system (DB:=DB)) (on_attrs m).
Proof. intros w. unfold on_attrs. by destruct (m (attrs w)). Qed.

Lemma logging_file_system l msg :
  preserves (file_system (DB:=DB)) (on_system (logging l msg)).
Proof. by intros w. Qed.

Lemma print_file_system msg :
  preserves (file_system (DB:=DB)) (on_system (print msg)).
Proof. by intros w. Qed.

Lemma scalar_file_system st :
  preserves (file_system (DB:=DB)) (scalar_fetchall st) /\
  preserves (file_system (DB:=DB)) (scalar_fetchone st) /\
  preserves (file_system (DB:=DB)) (scalar_subscript st).
Proof.
  split_and!; (apply preserves_bind;
    [apply on_database_file_system | intros; apply preserves_lift_result]).
Qed.

Lemma logging_info_database msg : preserves (database (DB:=DB)) (logging_info msg).
Proof. apply on_system_database. Qed.

Lemma logging_warning_database msg : preserves (database (DB:=DB)) (logging_warning msg).
Proof. apply on_system_database. Qed.

Lemma logging_error_database msg : preserves (database (DB:=DB)) (logging_error msg).
Proof. apply on_system_database. Qed.

Lemma logging_info_bind {A} msg (f : unit -> prog (world DB) A) w :
  (logging_info msg ≫= f) w =
  f () (World (database w) (log_record INFO msg (system w)) (attrs w)).
Proof. done. Qed.

Lemma logging_warning_bind {A} msg (f : unit -> prog (world DB) A) w :
  (logging_warning msg ≫= f) w =
  f () (World (database w) (log_record WARNING msg (system w)) (attrs w)).
Proof. done. Qed.

Lemma logging_error_bind {A} msg (f : unit -> prog (world DB) A) w :
  (logging_error msg ≫= f) w =
  f () (World (database w) (log_record ERROR msg (system w)) (attrs w)).
Proof. done. Qed.

Lemma logging_info_run msg w :
  logging_info msg w =
  (Ok (), World (database w) (log_record INFO msg (system w)) (attrs w)).
Proof. done. Qed.

Lemma logging_warning_run msg w :
  logging_warning msg w =
  (Ok (), World (database w) (log_record WARNING msg (system w)) (attrs w)).
Proof. done. Qed.

Lemma logging_error_run msg w :
  logging_error msg w =
  (Ok (), World (database w) (log_record ERROR msg (system w)) (attrs w)).
Proof. done. Qed.

Lemma reads_only_intro st :
  reading st = true -> Forall (fun n => is_name n = true) (names st) ->
  reads_only st = true.
Proof.
  intros Hr Hn. unfold reads_only. rewrite Hr. simpl.
  apply forallb_forall. intros n Hin%list_elem_of_In.
  by apply (proj1 (Forall_forall _ _) Hn).
Qed.

Lemma database_execute_db text w :
  (database_execute text w).1 = (db_execute text (database w)).1.
Proof.
  unfold database_execute, on_database.
  by destruct (db_execute text (database w)).
Qed.

(** A statement that only reads leaves the whole world as it was. *)
Lemma database_execute_reads_only st w :
  reads_only st = true ->
  (database_execute (sql st) w).2 = w.
Proof.
  intros Hst. unfold database_execute, on_database.
  pose proof (db_reads_only st (database w) Hst) as Hd.
  destruct (db_execute (sql st) (database w)) as [r d]. simpl in *.
  subst d. by destruct w.
Qed.

Lemma database_execute_unchanged st :
  reads_only st = true -> unchanged (database_execute (sql st)).
Proof. intros Hst w. by apply database_execute_reads_only. Qed.

Lemma scalar_fetchall_unchanged st :
  reads_only st = true -> unchanged (scalar_fetchall st).
Proof.
  intros Hst. unfold scalar_fetchall.
  apply preserves_bind; [by apply database_execute_unchanged|].
  intros t. apply preserves_lift_result.
Qed.

Lemma scalar_fetchone_unchanged st :
  reads_only st = true -> unchanged (scalar_fetchone st).
Proof.
  intros Hst. unfold scalar_fetchone.
  apply preserves_bind; [by apply database_execute_unchanged|].
  intros t. apply preserves_lift_result.
Qed.

Lemma scalar_subscript_unchanged st :
  reads_only st = true -> unchanged (scalar_subscript st).
Proof.
  intros Hst. unfold scalar_subscript.
  apply preserves_bind; [by apply database_execute_unchanged|].
  intros t. apply preserves_lift_result.
Qed.

(** What a statement returns depends on the database only. *)
Lemma database_execute_result text w w' :
  database w = database w' ->
  (database_execute text w).1 = (database_execute text w').1.
Proof.
  unfold database_execute, on_database. intros ->.
  by destruct (db_execute text (database w')).
Qed.

Lemma database_execute_run text w t d :
  db_execute text (database w) = (Ok t, d) ->
  database_execute text w = (Ok t, World d (system w) (attrs w)).
Proof. unfold database_execute, on_database. by intros ->. Qed.

Lemma database_execute_run_Raise text w e d :
  db_execute text (database w) = (Raise e, d) ->
  database_execute text w = (Raise e, World d (system w) (attrs w)).
Proof. unfold database_execute, on_database. by intros ->. Qed.

(** The three ways of reading one value, as functions of the answer. *)
Lemma scalar_fetchall_result st w :
  (scalar_fetchall st w).1 =
  (db_execute (sql st) (database w)).1 ≫= fun t =>
    fetchall_0 t ≫= fun r => unpack1 (Some r).
Proof.
  unfold scalar_fetchall, database_execute, on_database, mbind at 1, prog_bind.
  by destruct (db_execute _ _) as [[t|e] d].
Qed.

Lemma scalar_fetchone_result st w :
  (scalar_fetchone st w).1 =
  (db_execute (sql st) (database w)).1 ≫= fun t => unpack1 (fetchone t).
Proof.
  unfold scalar_fetchone, database_execute, on_database, mbind at 1, prog_bind.
  by destruct (db_execute _ _) as [[t|e] d].
Qed.

Lemma scalar_subscript_result st w :
  (scalar_subscript st w).1 =
  (db_execute (sql st) (database w)).1 ≫= fun t => subscript_0 (fetchone t).
Proof.
  unfold scalar_subscript, database_execute, on_database, mbind at 1, prog_bind.
  by destruct (db_execute _ _) as [[t|e] d].
Qed.

Lemma on_database_reads {A} (f : DB -> result A * DB) :
  reads database (on_database f).
Proof.
  intros w w' Hw. unfold on_database. rewrite Hw.
  by destruct (f (database w')).
Qed.

Lemma database_execute_reads text : reads database (database_execute text).
Proof. apply on_database_reads. Qed.

Lemma scalar_fetchall_reads st : reads database (scalar_fetchall st).
Proof.
  unfold scalar_fetchall. apply reads_bind; [apply database_execute_reads|].
  intros t. apply reads_lift_result.
Qed.

Lemma scalar_fetchone_reads st : reads database (scalar_fetchone st).
Proof.
  unfold scalar_fetchone. apply reads_bind; [apply database_execute_reads|].
  intros t. apply reads_lift_result.
Qed.

Lemma scalar_subscript_reads st : reads database (scalar_subscript st).
Proof.
  unfold scalar_subscript. apply reads_bind; [apply database_execute_reads|].
  intros t. apply reads_lift_result.
Qed.

Lemma logging_info_reads msg : reads (database (DB:=DB)) (logging_info msg).
Proof. by intros w w' Hw. Qed.

Lemma logging_warning_reads msg :
  reads (database (DB:=DB)) (logging_warning msg).
Proof. by intros w w' Hw. Qed.

Lemma logging_error_reads msg : reads (database (DB:=DB)) (logging_error msg).
Proof. by intros w w' Hw. Qed.

Lemma print_reads msg : reads (database (DB:=DB)) (on_system (print msg)).
Proof. by intros w w' Hw. Qed.

Lemma on_database_inv {A} (f : DB -> result A * DB) w r w' :
  on_database f w = (r, w') ->
  exists d, f (database w) = (r, d) /\ w' = World d (system w) (attrs w).
Proof.
  unfold on_database. destruct (f (database w)) as [r0 d].
  intros [= <- <-]. by exists d.
Qed.

Lemma on_system_inv {A} (m : prog os A) w r w' :
  on_system m w = (r, w') ->
  exists o, m (system w) = (r, o) /\ w' = World (database w) o (attrs w).
Proof.
  unfold on_system. destruct (m (system w)) as [r0 o].
  intros [= <- <-]. by exists o.
Qed.

Lemma on_attrs_inv {A} (m : prog (class_attrs value) A) w r w' :
  on_attrs m w = (r, w') ->
  exists c, m (attrs w) = (r, c) /\ w' = World (database w) (system w) c.
Proof.
  unfold on_attrs. destruct (m (attrs w)) as [r0 c].
  intros [= <- <-]. by exists c.
Qed.

Lemma lift_result_inv {A} (r r' : result A) w w' :
  lift_result r w = (r', w') -> r = r' /\ w' = w.
Proof. by intros [= <- <-]. Qed.

Lemma on_database_run {A} (f : DB -> result A * DB) w r d :
  f (database w) = (r, d) ->
  on_database f w = (r, World d (system w) (attrs w)).
Proof. unfold on_database. by intros ->. Qed.

Lemma on_system_run {A} (m : prog os A) w r o :
  m (system w) = (r, o) ->
  on_system m w = (r, World (database w) o (attrs w)).
Proof. unfold on_system. by intros ->. Qed.

Lemma on_attrs_run {A} (m : prog (class_attrs value) A) w r c :
  m (attrs w) = (r, c) ->
  on_attrs m w = (r, World (database w) (system w) c).
Proof. unfold on_attrs. by intros ->. Qed.

(** Reading a file, as a step of a method. *)
Lemma read_file_missing path w :
  files (system w) !! path = None ->
  on_system (DB:=DB) (read_file path) w = (Raise FileNotFoundError, w).
Proof.
  intros Hf. unfold on_system, read_file. rewrite Hf. by destruct w.
Qed.

Lemma read_file_run path text w :
  files (system w) !! path = Some (Plain text) ->
  on_system (DB:=DB) (read_file path) w = (Ok text, w).
Proof.
  intros Hf. unfold on_system, read_file. rewrite Hf. by destruct w.
Qed.

Lemma write_file_step path text w :
  path ∉ read_only (system w) ->
  on_system (DB:=DB) (write_file path text) w =
  (Ok (), World (database w)
            (OS (<[path := Plain text]> (files (system w)))
                (read_only (system w)) (logged (system w))
                (stdout (system w)))
            (attrs w)).
Proof. intros Hro. by apply on_system_run, write_file_run. Qed.

Lemma world_eta w : World (database w) (system w) (attrs w) = w.
Proof. by destruct w. Qed.

Lemma database_execute_same text w w' :
  database w = database w' ->
  (database_execute text w).1 = (database_execute text w').1 /\
  database (database_execute text w).2 = database (database_execute text w').2.
Proof.
  unfold database_execute, on_database. intros ->.
  by destruct (db_execute text (database w')).
Qed.

Lemma scalar_fetchall_same st w w' :
  database w = database w' ->
  (scalar_fetchall st w).1 = (scalar_fetchall st w').1.
Proof. intros Hd. by rewrite !scalar_fetchall_result, Hd. Qed.

Lemma scalar_fetchone_same st w w' :
  database w = database w' ->
  (scalar_fetchone st w).1 = (scalar_fetchone st w').1.
Proof. intros Hd. by rewrite !scalar_fetchone_result, Hd. Qed.

Lemma scalar_subscript_same st w w' :
  database w = database w' ->
  (scalar_subscript st w).1 = (scalar_subscript st w').1.
Proof. intros Hd. by rewrite !scalar_subscript_result, Hd. Qed.

End world_lemmas.

#[export] Hint Resolve on_system_database on_system_attrs on_attrs_database
  on_attrs_system on_database_system on_database_attrs logging_info_database
  logging_warning_database logging_error_database : py.
#[export] Hint Resolve on_database_reads database_execute_reads
  scalar_fetchall_reads scalar_fetchone_reads scalar_subscript_reads
  logging_info_reads logging_warning_reads logging_error_reads print_reads
  : py.
#[export] Hint Resolve on_database_file_system on_attrs_file_system
  print_file_system : py.
#[export] Hint Extern 1 (preserves file_system (logging_info _)) =>
  apply logging_file_system : py.
#[export] Hint Extern 1 (preserves file_system (logging_warning _)) =>
  apply logging_file_system : py.
#[export] Hint Extern 1 (preserves file_system (logging_error _)) =>
  apply logging_file_system : py.
#[export] Hint Extern 1 (preserves file_system (database_execute _)) =>
  apply on_database_file_system : py.
#[export] Hint Extern 1 (preserves file_system (scalar_fetchall _)) =>
  apply scalar_file_system : py.
#[export] Hint Extern 1 (preserves file_system (scalar_fetchone _)) =>
  apply scalar_file_system : py.
#[export] Hint Extern 1 (preserves file_system (scalar_subscript _)) =>
  apply scalar_file_system : py.
#[export] Hint Rewrite files_log_record read_only_log_record : py.
#[export] Hint Rewrite @logging_info_bind @logging_warning_bind
  @logging_error_bind @logging_info_run @logging_warning_run
  @logging_error_run : py.
(** Proves that a statement only reads from the hypotheses that say its
    names are names. *)
Ltac reads_only_tac :=
  apply reads_only_intro;
    [ reflexivity
    | cbn [names]; repeat (constructor; [assumption|]); constructor ].

#[export] Hint Extern 1 (unchanged (database_execute (sql _))) =>
  apply database_execute_unchanged; reads_only_tac : py.
#[export] Hint Extern 1 (unchanged (scalar_fetchall _)) =>
  apply scalar_fetchall_unchanged; reads_only_tac : py.
#[export] Hint Extern 1 (unchanged (scalar_fetchone _)) =>
  apply scalar_fetchone_unchanged; reads_only_tac : py.
#[export] Hint Extern 1 (unchanged (scalar_subscript _)) =>
  apply scalar_subscript_unchanged; reads_only_tac : py.
#[export] Hint Extern 1 (preserves database (database_execute (sql _))) =>
  apply unchanged_preserves, database_execute_unchanged; reads_only_tac : py.
#[export] Hint Extern 1 (preserves database (scalar_fetchall _)) =>
  apply unchanged_preserves, scalar_fetchall_unchanged; reads_only_tac : py.
#[export] Hint Extern 1 (preserves database (scalar_fetchone _)) =>
  apply unchanged_preserves, scalar_fetchone_unchanged; reads_only_tac : py.
#[export] Hint Extern 1 (preserves database (scalar_subscript _)) =>
  apply unchanged_preserves, scalar_subscript_unchanged; reads_only_tac : py.

(** Takes the first step of a sequence by the equation [H] that says
    how the step runs. *)
Ltac step_with H :=
  match goal with
  | |- context [(?m ≫= ?f) ?s] =>
      first [ rewrite (prog_bind_run f m s _ _ H)
            | rewrite (prog_bind_run_Raise f m s _ _ H) ]
  end.
