(* ===== verification/Sql.v ===== *)
(** * Sql: reading the text of a statement

    The engine of [Store.v] receives what the class and its tests send:
    the text of an SQL statement.  This file reads such a text.

    - [lex] cuts a text into tokens: words, keywords, numbers, literals
      in single quotes, names in double quotes and punctuation; white
      space and comments between [/*] and [*/] separate tokens and are
      dropped.  It is a machine with one state, [mode], that reads one
      character at a time ([next]) and says which tokens end there.
    - [expr], [select] and [command] are the syntax of the statements
      that the store understands, and [parse] reads a command from the
      tokens of a text.

    The grammar is the part of SQL that the texts in [geodatabase.py]
    and [testGeodatabase.py] are written in: [create table], [insert],
    [update], [drop table], [attach], and [select] with expressions,
    aliases, one source, [where], [group by] on positions and [limit].
    The query of [getListOfTables], with its subquery and its join, is
    not in it; the store knows that text as a whole.

    A name that [is_name] accepts is read as the word it is
    ([lex_name]), between quotes as well ([scan_inside]): the text of a
    statement of the class whose names are names reads as the statement
    that was meant. *)

From Stdlib Require Import Ascii.
From stdpp Require Import base option list strings.
From S2P Require Import Prelude Strings Components Engine.

#[local] Open Scope string_scope.

(** ** Tokens *)

Inductive sym : Type :=
| LParen | RParen | Comma | Star | Equal | Less | Greater | Bang | Semicolon
| Dot | Other (c : ascii).

(** The keywords that the grammar uses. *)
Inductive keyword : Type :=
| K_SELECT | K_FROM | K_WHERE | K_GROUP | K_BY | K_LIMIT | K_AS | K_AND
| K_IS | K_NOT | K_NULL | K_DISTINCT | K_CREATE | K_TABLE | K_INSERT | K_INTO
| K_VALUES | K_UPDATE | K_SET | K_DROP | K_IF | K_EXISTS | K_ATTACH
| K_PRIMARY | K_KEY | K_WITHOUT.

Inductive token : Type :=
| Word (s : string)
| Key (k : keyword)
| Num (n : N)
| Str (s : string)
| Quoted (s : string)
| Sym (s : sym)
| Bad.

#[export] Instance sym_eq_dec : EqDecision sym.
Proof. solve_decision. Defined.

#[export] Instance keyword_eq_dec : EqDecision keyword.
Proof. solve_decision. Defined.

#[export] Instance token_eq_dec : EqDecision token.
Proof. solve_decision. Defined.

Definition known_keywords : list (string * keyword) :=
  [ ("SELECT", K_SELECT); ("FROM", K_FROM); ("WHERE", K_WHERE);
    ("GROUP", K_GROUP); ("BY", K_BY); ("LIMIT", K_LIMIT); ("AS", K_AS);
    ("AND", K_AND); ("IS", K_IS); ("NOT", K_NOT); ("NULL", K_NULL);
    ("DISTINCT", K_DISTINCT); ("CREATE", K_CREATE); ("TABLE", K_TABLE);
    ("INSERT", K_INSERT); ("INTO", K_INTO); ("VALUES", K_VALUES);
    ("UPDATE", K_UPDATE); ("SET", K_SET); ("DROP", K_DROP); ("IF", K_IF);
    ("EXISTS", K_EXISTS); ("ATTACH", K_ATTACH); ("PRIMARY", K_PRIMARY);
    ("KEY", K_KEY); ("WITHOUT", K_WITHOUT) ].

Definition assoc {A} (k : string) (l : list (string * A)) : option A :=
  snd <$> find (fun p => bool_decide (p.1 = k)) l.

(** A word is a keyword of the grammar, a keyword of SQL that the
    grammar has no use for, or a name; case does not count. *)
Definition word (s : string) : token :=
  match assoc (upper s) known_keywords with
  | Some k => Key k
  | None => if bool_decide (upper s ∈ keywords) then Bad else Word s
  end.

Definition sym_of (c : ascii) : sym :=
  if bool_decide (c = "("%char) then LParen
  else if bool_decide (c = ")"%char) then RParen
  else if bool_decide (c = ","%char) then Comma
  else if bool_decide (c = "*"%char) then Star
  else if bool_decide (c = "="%char) then Equal
  else if bool_decide (c = "<"%char) then Less
  else if bool_decide (c = ">"%char) then Greater
  else if bool_decide (c = "!"%char) then Bang
  else if bool_decide (c = ";"%char) then Semicolon
  else if bool_decide (c = "."%char) then Dot
  else Other c.

(** ** The lexer *)

Definition is_space (c : ascii) : bool :=
  let n := N_of_ascii c in
  ((n =? 32) || (n =? 9) || (n =? 10) || (n =? 13))%N.

Definition quote : ascii := "'"%char.
Definition double_quote : ascii := ascii_of_N 34.

(** Where the lexer is: between tokens, in a word, a number, a literal
    or a quoted name (with what it has read of it, as the function that
    puts it before the rest), after a slash, or in a comment, where it
    remembers a star.  A literal ends at the next quote: a quote inside
    a literal, which SQL writes twice, is not read. *)
Inductive mode : Type :=
| Outside
| InWord (k : string -> string)
| InNum (n : N)
| InStr (k : string -> string)
| InQuoted (k : string -> string)
| Slash
| InComment (star : bool).

Definition digit (c : ascii) : N := N_of_ascii c - 48.

(** A character between tokens. *)
Definition start (c : ascii) : list token * mode :=
  if is_space c then ([], Outside)
  else if is_letter c then ([], InWord (String c))
  else if is_digit c then ([], InNum (digit c))
  else if bool_decide (c = quote) then ([], InStr (fun r => r))
  else if bool_decide (c = double_quote) then ([], InQuoted (fun r => r))
  else if bool_decide (c = "/"%char) then ([], Slash)
  else ([Sym (sym_of c)], Outside).

(** The token that ends before [c], and [c] as the start of what
    follows. *)
Definition ended (t : token) (c : ascii) : list token * mode :=
  (t :: (start c).1, (start c).2).

Definition next (m : mode) (c : ascii) : list token * mode :=
  match m with
  | Outside => start c
  | InWord k =>
      if is_name_char c then ([], InWord (fun r => k (String c r)))
      else ended (word (k "")) c
  | InNum n =>
      if is_digit c then ([], InNum (10 * n + digit c)) else ended (Num n) c
  | InStr k =>
      if bool_decide (c = quote) then ([Str (k "")], Outside)
      else ([], InStr (fun r => k (String c r)))
  | InQuoted k =>
      if bool_decide (c = double_quote) then ([Quoted (k "")], Outside)
      else ([], InQuoted (fun r => k (String c r)))
  | Slash =>
      if bool_decide (c = "*"%char) then ([], InComment false)
      else ended (Sym (Other "/"%char)) c
  | InComment star =>
      if star && bool_decide (c = "/"%char) then ([], Outside)
      else ([], InComment (bool_decide (c = "*"%char)))
  end.

(** The end of the text: a literal, a quoted name or a comment that is
    still open is an error. *)
Definition flush (m : mode) : list token :=
  match m with
  | Outside => []
  | InWord k => [word (k "")]
  | InNum n => [Num n]
  | Slash => [Sym (Other "/"%char)]
  | InStr _ | InQuoted _ | InComment _ => [Bad]
  end.

(** The tokens that end in a piece of text, and the mode after it. *)
Fixpoint scan (m : mode) (s : string) : list token * mode :=
  match s with
  | EmptyString => ([], m)
  | String c s' =>
      let r := next m c in
      let r' := scan r.2 s' in
      (r.1 ++ r'.1, r'.2)%list
  end.

Definition lex_from (m : mode) (s : string) : list token :=
  ((scan m s).1 ++ flush (scan m s).2)%list.

Definition lex (s : string) : list token := lex_from Outside s.

(** ** Syntax *)

(** [ECall f distinct args] is [f(args)] or [f(distinct args)];
    [ECmp true] is [=] and [ECmp false] is [<>]; [EIsNull true e] is
    [e is null] and [EIsNull false e] is [e is not null]; [EStar] is the
    star of [count( * )]. *)
#[local] Unset Elimination Schemes.

Inductive expr : Type :=
| ENull
| ENum (z : Z)
| EStr (s : string)
| EStar
| ECol (name : string)
| ECall (f : string) (distinct : bool) (args : list expr)
| ECmp (equal : bool) (e1 e2 : expr)
| EIsNull (is_null : bool) (e : expr)
| EAnd (e1 e2 : expr).

#[local] Set Elimination Schemes.

Inductive item : Type :=
| IStar
| IExpr (e : expr) (alias : option string).

Inductive source : Type :=
| FromTable (name : string)
| FromCall (f : string) (args : list expr).

Record select : Type := Select {
  sel_items : list item;
  sel_from : option source;
  sel_where : option expr;
  sel_group : list nat;
  sel_limit : option nat
}.

Record column_def : Type := ColumnDef {
  col_name : string;
  col_type : string;
  col_pk : bool
}.

Inductive command : Type :=
| CSelect (q : select)
| CCreate (name : string) (cols : list column_def) (without_rowid : bool)
| CInsert (name : string) (cols : option (list string)) (values : list expr)
| CUpdate (name column : string) (e : expr) (cond : option expr)
| CDrop (if_exists : bool) (name : string)
| CAttach (path alias : string).

(** ** The parser

    Every function takes the tokens that are left and returns what it
    read and the tokens after it.  The functions that call each other
    go down on a number of steps, which [parse] sets from the number of
    tokens. *)

Definition parser (A : Type) : Type := list token -> option (A * list token).

(** A name: a word, or anything between double quotes. *)
Definition parse_name : parser string :=
  fun ts => match ts with
            | Word w :: ts | Quoted w :: ts => Some (w, ts)
            | _ => None
            end.

Definition expect (t : token) : parser unit :=
  fun ts => match ts with
            | t' :: ts => if decide (t' = t) then Some ((), ts) else None
            | [] => None
            end.

(** [t] if it is there. *)
Definition accept (t : token) (ts : list token) : bool * list token :=
  match ts with
  | t' :: ts' => if decide (t' = t) then (true, ts') else (false, ts)
  | [] => (false, ts)
  end.

Fixpoint parse_prim (n : nat) : parser expr :=
  fun ts =>
  match n with
  | 0 => None
  | S n =>
      match ts with
      | Num z :: ts => Some (ENum (Z.of_N z), ts)
      | Str s :: ts => Some (EStr s, ts)
      | Key K_NULL :: ts => Some (ENull, ts)
      | Sym Star :: ts => Some (EStar, ts)
      | Sym LParen :: ts =>
          '(e, ts) ← parse_expr n ts;
          match ts with
          | Sym RParen :: ts => Some (e, ts)
          | _ => None
          end
      | Quoted w :: ts => Some (ECol w, ts)
      | Word f :: Sym LParen :: ts =>
          let '(distinct, ts) := accept (Key K_DISTINCT) ts in
          match ts with
          | Sym RParen :: ts => Some (ECall f distinct [], ts)
          | _ => '(args, ts) ← parse_args n ts; Some (ECall f distinct args, ts)
          end
      | Word w :: ts => Some (ECol w, ts)
      | _ => None
      end
  end
with parse_cmp (n : nat) : parser expr :=
  fun ts =>
  match n with
  | 0 => None
  | S n =>
      '(e1, ts) ← parse_prim n ts;
      match ts with
      | Sym Equal :: ts =>
          '(e2, ts) ← parse_prim n ts; Some (ECmp true e1 e2, ts)
      | Sym Less :: Sym Greater :: ts | Sym Bang :: Sym Equal :: ts =>
          '(e2, ts) ← parse_prim n ts; Some (ECmp false e1 e2, ts)
      | Key K_IS :: Key K_NOT :: Key K_NULL :: ts => Some (EIsNull false e1, ts)
      | Key K_IS :: Key K_NULL :: ts => Some (EIsNull true e1, ts)
      | _ => Some (e1, ts)
      end
  end
with parse_expr (n : nat) : parser expr :=
  fun ts =>
  match n with
  | 0 => None
  | S n =>
      '(e1, ts) ← parse_cmp n ts;
      match ts with
      | Key K_AND :: ts => '(e2, ts) ← parse_expr n ts; Some (EAnd e1 e2, ts)
      | _ => Some (e1, ts)
      end
  end
with parse_args (n : nat) : parser (list expr) :=
  fun ts =>
  match n with
  | 0 => None
  | S n =>
      '(e, ts) ← parse_expr n ts;
      match ts with
      | Sym Comma :: ts => '(es, ts) ← parse_args n ts; Some (e :: es, ts)
      | Sym RParen :: ts => Some ([e], ts)
      | _ => None
      end
  end.

(** One result column: a star, or an expression and its alias, with
    [as] or without. *)
Definition parse_item (n : nat) : parser item :=
  fun ts =>
  match ts with
  | Sym Star :: ts => Some (IStar, ts)
  | _ =>
      '(e, ts) ← parse_expr n ts;
      match ts with
      | Key K_AS :: ts => '(a, ts) ← parse_name ts; Some (IExpr e (Some a), ts)
      | Word a :: ts => Some (IExpr e (Some a), ts)
      | _ => Some (IExpr e None, ts)
      end
  end.

(** [p] once and again after each comma. *)
Fixpoint sep_by {A} (n : nat) (p : parser A) : parser (list A) :=
  fun ts =>
  match n with
  | 0 => None
  | S n =>
      '(a, ts) ← p ts;
      match ts with
      | Sym Comma :: ts => '(l, ts) ← sep_by n p ts; Some (a :: l, ts)
      | _ => Some ([a], ts)
      end
  end.

Definition parse_source (n : nat) : parser source :=
  fun ts =>
  '(name, ts) ← parse_name ts;
  match ts with
  | Sym LParen :: Sym RParen :: ts => Some (FromCall name [], ts)
  | Sym LParen :: ts => '(args, ts) ← parse_args n ts; Some (FromCall name args, ts)
  | _ => Some (FromTable name, ts)
  end.

Definition parse_position : parser nat :=
  fun ts => match ts with
            | Num n :: ts => Some (N.to_nat n, ts)
            | _ => None
            end.

(** The tokens after the tokens [t], when [t] is what comes first. *)
Fixpoint strip_tokens (t ts : list token) : option (list token) :=
  match t, ts with
  | [], _ => Some ts
  | a :: t, b :: ts => if decide (a = b) then strip_tokens t ts else None
  | _, _ => None
  end.

(** A clause that begins with the tokens [t], when it is there. *)
Definition optional {A} (t : list token) (p : parser A) : parser (option A) :=
  fun ts =>
  match strip_tokens t ts with
  | Some ts => '(a, ts) ← p ts; Some (Some a, ts)
  | None => Some (None, ts)
  end.

(** What follows [select]. *)
Definition parse_select (n : nat) : parser select :=
  fun ts =>
  '(items, ts) ← sep_by n (parse_item n) ts;
  '(from, ts) ← optional [Key K_FROM] (parse_source n) ts;
  '(cond, ts) ← optional [Key K_WHERE] (parse_expr n) ts;
  '(group, ts) ← optional [Key K_GROUP; Key K_BY] (sep_by n parse_position) ts;
  '(limit, ts) ← optional [Key K_LIMIT] parse_position ts;
  Some (Select items from cond (default [] group) limit, ts).

(** A column of [create table]: its name, the first word of its type,
    and whether [primary key] stands among the words that follow. *)
Fixpoint parse_constraints (pk : bool) (ts : list token) : bool * list token :=
  match ts with
  | Key K_PRIMARY :: ts => parse_constraints true ts
  | Key _ :: ts | Word _ :: ts => parse_constraints pk ts
  | _ => (pk, ts)
  end.

Definition parse_column_def : parser column_def :=
  fun ts =>
  '(name, ts) ← parse_name ts;
  let type := match ts with Word t :: _ => t | _ => "" end in
  let '(pk, ts) := parse_constraints false ts in
  Some (ColumnDef name type pk, ts).

Definition parse_create (n : nat) : parser command :=
  fun ts =>
  '(name, ts) ← parse_name ts;
  '(_, ts) ← expect (Sym LParen) ts;
  '(cols, ts) ← sep_by n parse_column_def ts;
  '(_, ts) ← expect (Sym RParen) ts;
  match ts with
  | Key K_WITHOUT :: Word w :: ts =>
      if bool_decide (upper w = "ROWID") then Some (CCreate name cols true, ts)
      else None
  | _ => Some (CCreate name cols false, ts)
  end.

Definition parse_insert (n : nat) : parser command :=
  fun ts =>
  '(name, ts) ← parse_name ts;
  '(cols, ts) ← match ts with
                | Sym LParen :: ts =>
                    '(cols, ts) ← sep_by n parse_name ts;
                    '(_, ts) ← expect (Sym RParen) ts;
                    Some (Some cols, ts)
                | _ => Some (None, ts)
                end;
  '(_, ts) ← expect (Key K_VALUES) ts;
  '(_, ts) ← expect (Sym LParen) ts;
  '(values, ts) ← parse_args n ts;
  Some (CInsert name cols values, ts).

Definition parse_update (n : nat) : parser command :=
  fun ts =>
  '(name, ts) ← parse_name ts;
  '(_, ts) ← expect (Key K_SET) ts;
  '(column, ts) ← parse_name ts;
  '(_, ts) ← expect (Sym Equal) ts;
  '(e, ts) ← parse_expr n ts;
  '(cond, ts) ← optional [Key K_WHERE] (parse_expr n) ts;
  Some (CUpdate name column e cond, ts).

Definition parse_drop : parser command :=
  fun ts =>
  match strip_tokens [Key K_IF; Key K_EXISTS] ts with
  | Some ts => '(name, ts) ← parse_name ts; Some (CDrop true name, ts)
  | None => '(name, ts) ← parse_name ts; Some (CDrop false name, ts)
  end.

Definition parse_attach : parser command :=
  fun ts =>
  match ts with
  | Str path :: Key K_AS :: ts =>
      '(alias, ts) ← parse_name ts; Some (CAttach path alias, ts)
  | _ => None
  end.

Definition parse_command (n : nat) : parser command :=
  fun ts =>
  match ts with
  | Key K_SELECT :: ts => '(q, ts) ← parse_select n ts; Some (CSelect q, ts)
  | Key K_CREATE :: Key K_TABLE :: ts => parse_create n ts
  | Key K_INSERT :: Key K_INTO :: ts => parse_insert n ts
  | Key K_UPDATE :: ts => parse_update n ts
  | Key K_DROP :: Key K_TABLE :: ts => parse_drop ts
  | Key K_ATTACH :: ts => parse_attach ts
  | _ => None
  end.

(** The steps that the tokens [ts] can take: three levels of
    expression for each token. *)
Definition steps (ts : list token) : nat := 3 * length ts + 3.

(** One statement, with or without a semicolon after it. *)
Definition parse_tokens (ts : list token) : option command :=
  '(c, rest) ← parse_command (steps ts) ts;
  match rest with
  | [] | [Sym Semicolon] => Some c
  | _ => None
  end.

Definition parse (text : string) : option command := parse_tokens (lex text).

(** The statements of a script: the tokens between semicolons. *)
Fixpoint split_statements (ts : list token) : list (list token) :=
  match ts with
  | [] => [[]]
  | Sym Semicolon :: ts => [] :: split_statements ts
  | t :: ts =>
      match split_statements ts with
      | [] => [[t]]
      | l :: ls => (t :: l) :: ls
      end
  end.

Definition parse_script (text : string) : option (list command) :=
  mapM parse_tokens
       (filter (fun l => l <> []) (split_statements (lex text))).

(** ** What the statements of the class mean *)

(** A query for one value. *)
Definition scalar (e : expr) : command :=
  CSelect (Select [IExpr e None] None None [] None).

Definition query (items : list item) (table : string) (cond : option expr)
  : command :=
  CSelect (Select items (Some (FromTable table)) cond [] None).

(** The query of [getListOfColumns]. *)
Definition info_query (t : string) : select :=
  Select [ IExpr (ECol "name") (Some "tx_column_name");
           IExpr (ECol "type") (Some "cd_column_type");
           IExpr (ECol "notnull") (Some "fl_notnull_constraint");
           IExpr (ECol "dflt_value") (Some "default_value");
           IExpr (ECol "pk") (Some "fl_primary_key") ]
         (Some (FromCall "pragma_table_info" [EStr t])) None [] None.

(** The statement that each text of the class is meant to be.  The
    texts that are outside the grammar, or that hold a number or a path
    of the caller, have none here. *)
Definition meaning (st : statement) : option command :=
  match st with
  | InitSpatialMetaData =>
      Some (scalar (ECall "InitSpatialMetaData" false [ENum 1]))
  | UpdateLayerStatistics =>
      Some (scalar (ECall "UpdateLayerStatistics" false []))
  | DropDataLicenses => Some (CDrop true "data_licenses")
  | CheckShadowedRowid table =>
      Some (scalar (ECall "CheckShadowedRowid" false [EStr table]))
  | CheckWithoutRowid table =>
      Some (scalar (ECall "CheckWithoutRowid" false [EStr table]))
  | MakeValid table geometry =>
      Some (CUpdate table geometry
              (ECall "st_makeValid" false [ECol geometry])
              (Some (ECmp false (ECall "ST_IsValid" false [ECol geometry])
                          (ENum 1))))
  | CreateSpatialIndex table geometry =>
      Some (scalar (ECall "createSpatialIndex" false
                      [EStr table; EStr geometry]))
  | DropTable table =>
      Some (scalar (ECall "dropTable" false [ENull; EStr table]))
  | SelectEdges a b inputTable =>
      Some (query [IExpr (ECol a) (Some "a"); IExpr (ECol b) (Some "b")]
                  inputTable None)
  | CountOfErrors table geometry =>
      Some (query [IExpr (ECall "count" false [EStar]) None] table
                  (Some (ECmp false
                           (ECall "ST_IsValid" false [ECol geometry; ENum 1])
                           (ENum 1))))
  | MaxLength column table =>
      Some (query [IExpr (ECall "max" false
                            [ECall "length" false [ECol column]]) None]
                  table None)
  | CountDistinct column table =>
      Some (query [IExpr (ECall "count" true [ECol column]) None] table None)
  | GeometriesMetadata =>
      Some (query [ IExpr (ECol "f_table_name") None;
                    IExpr (ECol "f_geometry_column") None;
                    IExpr (ECol "geometry_type") None;
                    IExpr (ECol "coord_dimension") None;
                    IExpr (ECol "srid") None;
                    IExpr (ECol "spatial_index_enabled") None ]
                  "geometry_columns" None)
  | TableInfo table => Some (CSelect (info_query table))
  | CountOfRows table =>
      Some (query [IExpr (ECall "count" false [EStar]) None] table None)
  | Head table =>
      Some (CSelect (Select [IExpr (ECol "rowid") None; IStar]
                            (Some (FromTable table)) None [] (Some 10)))
  | InspectGeometry geometry table =>
      Some (CSelect
              (Select [ IExpr (ECall "GeometryType" false [ECol geometry])
                              (Some "geomType");
                        IExpr (ECall "Srid" false [ECol geometry])
                              (Some "srid");
                        IExpr (ECall "CoordDimension" false [ECol geometry])
                              (Some "coordDimension");
                        IExpr (ECall "count" false [EStar])
                              (Some "ms_countof_rows") ]
                      (Some (FromTable table))
                      (Some (EIsNull false (ECol geometry))) [1; 2; 3] None))
  | RecoverSpatialIndex table geometry =>
      Some (scalar (ECall "recoverSpatialIndex" false
                      [EStr table; EStr geometry]))
  | SelectAll table => Some (query [IStar] table None)
  | Attach _ _ | ListOfTables | ImportSHP _ _ _ _ | PointInPolygon _ _ _
  | RecoverGeometryColumn _ _ _ _ _ | Transform _ _ _ _ => None
  end.

(** ** Lemmas *)

Lemma scan_app m p s :
  scan m (p +:+ s) =
  ((scan m p).1 ++ (scan (scan m p).2 s).1, (scan (scan m p).2 s).2)%list.
Proof.
  revert m. induction p as [|c p IH]; intros m.
  { change ("" +:+ s) with s. simpl. by destruct (scan m s). }
  rewrite app_string_cons. simpl. rewrite IH. simpl. by rewrite app_assoc.
Qed.

(** The tokens of a text that begins with [p]: those that end in [p],
    and those of the rest, read in the mode that [p] leaves. *)
Lemma lex_from_app m p s :
  lex_from m (p +:+ s) = ((scan m p).1 ++ lex_from (scan m p).2 s)%list.
Proof. unfold lex_from. rewrite scan_app. simpl. by rewrite app_assoc. Qed.

Lemma known_keywords_keywords k key :
  assoc k known_keywords = Some key -> k ∈ keywords.
Proof.
  unfold assoc. destruct (find _ _) as [[k' key']|] eqn:Hf; [|done].
  intros _. apply find_some in Hf as [Hin Hk]. simpl in Hk.
  apply bool_decide_eq_true_1 in Hk as <-.
  assert (Forall (fun p => p.1 ∈ keywords) known_keywords) as Hall
    by (apply (bool_decide_unpack _); by vm_compute).
  by apply (proj1 (Forall_forall _ _) Hall (k', key')), list_elem_of_In.
Qed.

(** A name is a word, not a keyword. *)
Lemma word_name a : is_name a = true -> word a = Word a.
Proof.
  intros [_ Hk%bool_decide_eq_true_1]%andb_prop. unfold word.
  destruct (assoc _ _) as [key|] eqn:Ha.
  - by apply known_keywords_keywords in Ha.
  - by rewrite bool_decide_false.
Qed.

Lemma is_letter_start c : is_letter c = true -> start c = ([], InWord (String c)).
Proof. by destruct c as [[] [] [] [] [] [] [] []]. Qed.

Lemma is_name_char_quotes c :
  is_name_char c = true -> c <> quote /\ c <> double_quote.
Proof. by destruct c as [[] [] [] [] [] [] [] []]. Qed.

Lemma is_identifier_name_chars a :
  is_identifier a = true -> forallb_string is_name_char a = true.
Proof.
  destruct a as [|x a]; [done|]. intros [Hx Ha]%andb_prop.
  apply andb_true_intro. split; [|done]. unfold is_name_char. by rewrite Hx.
Qed.

Lemma scan_word k a :
  forallb_string is_name_char a = true ->
  scan (InWord k) a = ([], InWord (fun r => k (a +:+ r))).
Proof.
  revert k. induction a as [|c a IH]; intros k; [done|].
  intros [Hc Ha]%andb_prop. simpl. rewrite Hc. simpl. by rewrite IH.
Qed.

Lemma scan_name a :
  is_identifier a = true -> scan Outside a = ([], InWord (fun r => a +:+ r)).
Proof.
  destruct a as [|c a]; [done|]. intros [Hc Ha]%andb_prop. simpl.
  rewrite (is_letter_start c Hc). simpl. by rewrite scan_word.
Qed.

(** A name reads as one word: up to the character that cannot be part
    of it, and at the end of the text. *)
Lemma lex_from_name a c s :
  is_name a = true -> is_name_char c = false ->
  lex_from Outside (a +:+ String c s) = Word a :: lex_from Outside (String c s).
Proof.
  intros Ha Hc. rewrite lex_from_app, scan_name
    by (by apply andb_prop in Ha as [? _]).
  unfold lex_from. simpl. rewrite Hc. simpl.
  by rewrite app_string_nil_r, (word_name a Ha), <- app_assoc.
Qed.

Lemma lex_name a : is_name a = true -> lex_from Outside a = [Word a].
Proof.
  intros Ha. unfold lex_from.
  rewrite scan_name by (by apply andb_prop in Ha as [? _]). simpl.
  by rewrite app_string_nil_r, word_name.
Qed.

Lemma scan_inside k a :
  forallb_string is_name_char a = true ->
  scan (InStr k) a = ([], InStr (fun r => k (a +:+ r))) /\
  scan (InQuoted k) a = ([], InQuoted (fun r => k (a +:+ r))).
Proof.
  revert k. induction a as [|c a IH]; intros k; [done|].
  intros [Hc Ha]%andb_prop. simpl.
  rewrite !bool_decide_false by (by apply is_name_char_quotes). simpl.
  destruct (IH (fun r => k (String c r)) Ha) as [-> ->]. done.
Qed.

(** A name between quotes reads as one literal, and between double
    quotes as one quoted name. *)
Lemma lex_from_literal k a s :
  is_name a = true ->
  lex_from (InStr k) (a +:+ String quote s) = Str (k a) :: lex_from Outside s.
Proof.
  intros [Ha%is_identifier_name_chars _]%andb_prop.
  rewrite lex_from_app, (proj1 (scan_inside k a Ha)).
  unfold lex_from. simpl. by rewrite app_string_nil_r.
Qed.

Lemma lex_from_quoted k a s :
  is_name a = true ->
  lex_from (InQuoted k) (a +:+ String double_quote s) =
  Quoted (k a) :: lex_from Outside s.
Proof.
  intros [Ha%is_identifier_name_chars _]%andb_prop.
  rewrite lex_from_app, (proj2 (scan_inside k a Ha)).
  unfold lex_from. simpl. by rewrite app_string_nil_r.
Qed.

(** Reads the piece of text that a text begins with. *)
Ltac lex_piece :=
  match goal with
  | |- context [lex_from ?m (?p +:+ ?s)] =>
      rewrite (lex_from_app m p s);
      let r := eval vm_compute in (scan m p) in
      replace (scan m p) with r by (vm_compute; reflexivity);
      cbn [fst snd app]
  end.

(** Reads a text that is made of pieces and names: each piece as
    [lex_piece] does, each name by the lemma for the place it stands
    in, and what is left at the end by evaluation. *)
Ltac lex_name_step :=
  match goal with
  | Ha : is_name ?a = true
    |- context [lex_from Outside (?a +:+ String ?c ?s +:+ ?t)] =>
      rewrite (app_string_cons c s), (lex_from_name a c _ Ha) by reflexivity;
      rewrite <- (app_string_cons c s)
  | Ha : is_name ?a = true |- context [lex_from Outside (?a +:+ String ?c ?s)] =>
      rewrite (lex_from_name a c _ Ha) by reflexivity
  | Ha : is_name ?a = true |- context [lex_from Outside ?a] =>
      rewrite (lex_name a Ha)
  | Ha : is_name ?a = true
    |- context [lex_from (InStr ?k) (?a +:+ String ?c ?s +:+ ?t)] =>
      rewrite (app_string_cons c s), (lex_from_literal _ a _ Ha)
  | Ha : is_name ?a = true
    |- context [lex_from (InStr ?k) (?a +:+ String ?c ?s)] =>
      rewrite (lex_from_literal _ a _ Ha)
  | Ha : is_name ?a = true
    |- context [lex_from (InQuoted ?k) (?a +:+ String ?c ?s +:+ ?t)] =>
      rewrite (app_string_cons c s), (lex_from_quoted _ a _ Ha)
  | Ha : is_name ?a = true
    |- context [lex_from (InQuoted ?k) (?a +:+ String ?c ?s)] =>
      rewrite (lex_from_quoted _ a _ Ha)
  end.

Ltac lex_end :=
  match goal with
  | |- context [lex_from ?m ?s] =>
      let r := eval vm_compute in (lex_from m s) in
      replace (lex_from m s) with r by (vm_compute; reflexivity)
  end.

Ltac lex_tac :=
  unfold parse, lex, sql, dq;
  repeat first [ lex_name_step | lex_piece ];
  try lex_end.

(** The tokens of the text of a statement, its names being names, are
    read as the statement that is meant. *)
Lemma parse_sql st c :
  Forall (fun n => is_name n = true) (names st) ->
  meaning st = Some c -> parse_tokens (lex (sql st)) = Some c.
Proof.
  intros Hn Hc. destruct st; simplify_eq/=;
    repeat match goal with
           | H : Forall _ (_ :: _) |- _ => apply Forall_cons_1 in H as [? H]
           end;
    cbn beta in *; lex_tac; reflexivity.
Qed.

(** The query of [getListOfTables] is outside the grammar. *)
Lemma parse_list_of_tables : parse (sql ListOfTables) = None.
Proof. by vm_compute. Qed.

(** C12: the text that the class writes for a statement reads, by the
    lexer and the parser of the engine, as the statement that is meant,
    when the names spliced into it are identifiers: [parse] undoes
    [sql]. *)
Theorem sql_meaning st c :
  Forall (fun n => is_name n = true) (names st) ->
  meaning st = Some c -> parse (sql st) = Some c.
Proof. apply parse_sql. Qed.

(** A name that is not an identifier changes the statement: the count of
    the rows of the table [t where 1=0] is read as a count with a
    condition on the table [t]. *)
Example sql_name_injected :
  parse (sql (CountOfRows "t where 1=0")) =
  Some (query [IExpr (ECall "count" false [EStar]) None] "t"
              (Some (ECmp true (ENum 1) (ENum 0)))) /\
  meaning (CountOfRows "t where 1=0") =
  Some (query [IExpr (ECall "count" false [EStar]) None] "t where 1=0" None).
Proof. split; by vm_compute. Qed.

Lemma sql_meaning_witness :
  parse (sql (InspectGeometry "geometry" "t04_polygons")) =
  meaning (InspectGeometry "geometry" "t04_polygons").
Proof.
  apply (sql_meaning (InspectGeometry "geometry" "t04_polygons"));
    [by repeat constructor | reflexivity].
Defined.
