(* ===== verification/Store.v ===== *)
(** * Store: a small engine to run the methods on

    An instance of the interface [Engine] that can be evaluated.  It
    holds tables by name, each with the declared types of its columns,
    its primary key and whether it was created [without rowid], and it
    runs the statements that [Sql.v] reads: the statements of the class
    and those that the tests of the class send.

    - A geometry is a text, [SRID=n;] before its well-known text.  The
      store computes no geometry.  What the geometry library finds
      wrong with a text, and what it makes of it, is part of the store
      ([repairs]), as are the shape files that [ImportSHP] may read.
    - The metadata of SpatiaLite is the table [geometry_columns], made
      by [InitSpatialMetaData] and kept by [RecoverGeometryColumn],
      [CreateSpatialIndex], [ImportSHP] and [DropTable].
    - A dictionary of fixed answers ([answers]) goes before what the
      store computes, except for [select * from] a table: it is how a
      scenario says what SpatiaLite replies where the store cannot
      know.
    - The name of a table or of a column matches without regard to
      case, as in SQLite.  The groups of [group by] come in the order
      in which the rows meet them.

    The store is not a model of SQLite.  It is what the examples and
    the tests of [Tests.v] run on, and it shows that the laws of
    [Engine] can be met. *)

From Stdlib Require Import Ascii.
From stdpp Require Import base option list gmap strings pretty.
From S2P Require Import Prelude Strings Components Engine Sql.

#[local] Open Scope string_scope.

(** ** The state *)

Record relation : Type := Relation {
  rel_table : table;
  rel_types : list string;
  rel_pk : option string;
  rel_without_rowid : bool
}.

Record store : Type := Store {
  tables : gmap string relation;
  answers : gmap string table;
  disk : gset string;
  shapefiles : gmap string table;
  repairs : gmap string (option string);
  attached : list (string * string)
}.

Definition set_tables (ts : gmap string relation) (d : store) : store :=
  Store ts (answers d) (disk d) (shapefiles d) (repairs d) (attached d).

(** The declared type of a column, as [to_sql] chooses it from the
    values. *)
Definition declared_type (v : option value) : string :=
  match v with
  | Some (Int _) => "INTEGER"
  | Some (Text _) => "TEXT"
  | _ => ""
  end.

(** A table as [to_sql] creates it. *)
Definition plain (t : table) : relation :=
  Relation t
    (imap (fun i _ => declared_type (head (tuples t) ≫= (.!! i))) (columns t))
    None false.

(** A store that holds the tables [ts] as [to_sql] would have written
    them, with the fixed answers [fixed]. *)
Definition holding (ts : gmap string table) (fixed : gmap string table)
  : store :=
  Store (plain <$> ts) fixed ∅ ∅ ∅ [].

Definition reply (t : option table) : result table :=
  match t with
  | Some t => Ok t
  | None => Raise OperationalError
  end.

Definition same_name (a b : string) : bool := bool_decide (upper a = upper b).

(** The name under which the store holds the table [name]: the one
    spelt like it, or else one that differs in case only. *)
Definition find_key (name : string) (d : store) : option string :=
  match tables d !! name with
  | Some _ => Some name
  | None =>
      (fun x => x.2.1) <$>
        list_find (fun kv => upper kv.1 = upper name) (map_to_list (tables d))
  end.

Definition find_relation (name : string) (d : store) : option relation :=
  match tables d !! name with
  | Some t => Some t
  | None =>
      (fun x => x.2.2) <$>
        list_find (fun kv => upper kv.1 = upper name) (map_to_list (tables d))
  end.

Definition find_table (name : string) (d : store) : option table :=
  rel_table <$> find_relation name d.

(** The place of a column in a list of columns. *)
Definition column_index (c : string) (cols : list string) : option nat :=
  fst <$> list_find (fun c' => upper c' = upper c) cols.

(** The column that stands for the row identifier: an [INTEGER PRIMARY
    KEY]. *)
Definition rowid_alias (r : relation) : option nat :=
  pk ← rel_pk r;
  i ← column_index pk (columns (rel_table r));
  ty ← rel_types r !! i;
  if bool_decide (upper ty = "INTEGER") then Some i else None.

(** The rows with their identifiers: the value of the alias, or the
    place of the row. *)
Definition rows_of (r : relation) : list (Z * row) :=
  imap (fun i row =>
          (match rowid_alias r ≫= (row !!.) with
           | Some (Int z) => z
           | _ => Z.of_nat (S i)
           end, row))
       (tuples (rel_table r)).

(** ** Geometries *)

(** The coding of the geometry types, after SpatiaLite: the code of a
    type is its class (1 to 7) plus 1000 times its dimension model (XY,
    Z, M, ZM); line strings and polygons have a compressed variant at
    1000000 more. *)
Definition geometry_classes : list (Z * string) :=
  [ (1, "POINT"); (2, "LINESTRING"); (3, "POLYGON"); (4, "MULTIPOINT");
    (5, "MULTILINESTRING"); (6, "MULTIPOLYGON"); (7, "GEOMETRYCOLLECTION") ]%Z.

Definition dimension_models : list (Z * string) :=
  [ (0, ""); (1, " Z"); (2, " M"); (3, " ZM") ]%Z.

Definition coded_types : list (Z * string) :=
  ((d ← dimension_models; c ← geometry_classes;
    [(1000 * d.1 + c.1, c.2 +:+ d.2)]) ++
   (d ← dimension_models; c ← take 2 (drop 1 geometry_classes);
    [(1000000 + 1000 * d.1 + c.1, "COMPRESSED " +:+ c.2 +:+ d.2)]))%Z%list.

Fixpoint digits (s : string) (acc : N) : option N :=
  match s with
  | EmptyString => Some acc
  | String x s' =>
      match Ascii.is_nat x with
      | Some n => digits s' (10 * acc + N.of_nat n)%N
      | None => None
      end
  end.

Definition geometry (srid : Z) (wkt : string) : value :=
  Text ("SRID=" +:+ str_Z srid +:+ ";" +:+ wkt).

Definition as_geometry (v : value) : option (Z * string) :=
  match v with
  | Text s =>
      rest ← strip_prefix "SRID=" s;
      '(n, wkt) ← split_at ";" rest;
      z ← digits n 0;
      Some (Z.of_N z, wkt)
  | _ => None
  end.

(** The type that a well-known text names: what stands before its
    first parenthesis. *)
Definition wkt_type (wkt : string) : string :=
  match split_at "(" wkt with
  | Some (name, _) => upper (rstrip name)
  | None => upper (rstrip wkt)
  end.

(** The coordinates of a type, as [CoordDimension] names them. *)
Definition type_dimension (type : string) : string :=
  match split_at " " type with
  | Some (_, "Z") => "XYZ"
  | Some (_, "M") => "XYM"
  | Some (_, "ZM") => "XYZM"
  | _ => "XY"
  end.

(** [ST_IsValid]: -1 for what is no geometry. *)
Definition is_valid (d : store) (v : value) : Z :=
  match as_geometry v with
  | Some (_, wkt) => if bool_decide (is_Some (repairs d !! wkt)) then 0 else 1
  | None => -1
  end.

(** [ST_MakeValid]: the repaired geometry, [NULL] when there is no
    repair. *)
Definition make_valid (d : store) (v : value) : value :=
  match as_geometry v with
  | Some (srid, wkt) =>
      match repairs d !! wkt with
      | Some (Some wkt') => geometry srid wkt'
      | Some None => Null
      | None => v
      end
  | None => Null
  end.

(** ** Functions *)

Inductive function : Type :=
| F_GeomFromText | F_AsText | F_IsValid | F_MakeValid | F_GeometryType
| F_Srid | F_CoordDimension | F_Length | F_CheckShadowedRowid
| F_CheckWithoutRowid | F_UpdateLayerStatistics | F_RecoverSpatialIndex
| F_Count | F_Max
| F_InitSpatialMetaData | F_RecoverGeometryColumn | F_CreateSpatialIndex
| F_DropTable | F_ImportSHP.

#[export] Instance function_eq_dec : EqDecision function.
Proof. solve_decision. Defined.

Definition functions : list (string * function) :=
  [ ("GEOMFROMTEXT", F_GeomFromText); ("ST_GEOMFROMTEXT", F_GeomFromText);
    ("ASTEXT", F_AsText); ("ST_ASTEXT", F_AsText);
    ("ISVALID", F_IsValid); ("ST_ISVALID", F_IsValid);
    ("MAKEVALID", F_MakeValid); ("ST_MAKEVALID", F_MakeValid);
    ("GEOMETRYTYPE", F_GeometryType); ("ST_GEOMETRYTYPE", F_GeometryType);
    ("SRID", F_Srid); ("ST_SRID", F_Srid);
    ("COORDDIMENSION", F_CoordDimension); ("LENGTH", F_Length);
    ("CHECKSHADOWEDROWID", F_CheckShadowedRowid);
    ("CHECKWITHOUTROWID", F_CheckWithoutRowid);
    ("UPDATELAYERSTATISTICS", F_UpdateLayerStatistics);
    ("RECOVERSPATIALINDEX", F_RecoverSpatialIndex);
    ("COUNT", F_Count); ("MAX", F_Max);
    ("INITSPATIALMETADATA", F_InitSpatialMetaData);
    ("RECOVERGEOMETRYCOLUMN", F_RecoverGeometryColumn);
    ("CREATESPATIALINDEX", F_CreateSpatialIndex);
    ("DROPTABLE", F_DropTable); ("IMPORTSHP", F_ImportSHP) ].

Definition function_of (f : string) : option function :=
  assoc (upper f) functions.

(** The functions that change the database. *)
Definition writing (f : function) : bool :=
  match f with
  | F_InitSpatialMetaData | F_RecoverGeometryColumn | F_CreateSpatialIndex
  | F_DropTable | F_ImportSHP => true
  | _ => false
  end.

Definition aggregate (f : function) : bool :=
  match f with F_Count | F_Max => true | _ => false end.

(** ** The metadata *)

Definition geometry_columns : string := "geometry_columns".

Definition meta_columns : list string :=
  [ "f_table_name"; "f_geometry_column"; "geometry_type"; "coord_dimension";
    "srid"; "spatial_index_enabled" ].

Definition meta_rows (d : store) : list row :=
  match tables d !! geometry_columns with
  | Some r => tuples (rel_table r)
  | None => []
  end.

(** The row of the metadata for a column of a table. *)
Definition is_meta (table column : string) (r : row) : bool :=
  bool_decide (r !! 0 = Some (Text (lower table))) &&
  bool_decide (r !! 1 = Some (Text (lower column))).

Definition indexed (table column : string) (d : store) : bool :=
  bool_decide (Exists (fun r => is_meta table column r = true /\
                                r !! 5 = Some (Int 1)) (meta_rows d)).

(** A table has a shadowed row identifier when it has a column named
    [rowid] that is not its [INTEGER PRIMARY KEY]. *)
Definition shadowed (r : relation) : bool :=
  match column_index "rowid" (columns (rel_table r)) with
  | Some i => bool_decide (rowid_alias r <> Some i)
  | None => false
  end.

Definition sql_bool (b : bool) : value := Int (if b then 1 else 0).

(** A function that reads: its value for the values of its
    arguments. *)
Definition call (d : store) (f : function) (vs : list value) : result value :=
  match f, vs with
  | F_GeomFromText, [Text wkt; Int srid] => Ok (geometry srid wkt)
  | F_GeomFromText, [Text wkt] => Ok (geometry 0 wkt)
  | F_AsText, [v] =>
      Ok (match as_geometry v with Some (_, wkt) => Text wkt | None => Null end)
  | F_IsValid, [v] | F_IsValid, [v; _] => Ok (Int (is_valid d v))
  | F_MakeValid, [v] => Ok (make_valid d v)
  | F_GeometryType, [v] =>
      Ok (match as_geometry v with
          | Some (_, wkt) => Text (wkt_type wkt)
          | None => Null
          end)
  | F_Srid, [v] =>
      Ok (match as_geometry v with Some (srid, _) => Int srid | None => Null end)
  | F_CoordDimension, [v] =>
      Ok (match as_geometry v with
          | Some (_, wkt) => Text (type_dimension (wkt_type wkt))
          | None => Null
          end)
  | F_Length, [Null] => Ok Null
  | F_Length, [v] => Ok (Int (Z.of_nat (String.length (str v))))
  | F_CheckShadowedRowid, [Text t] =>
      match find_relation t d with
      | Some r => Ok (sql_bool (shadowed r))
      | None => Raise OperationalError
      end
  | F_CheckWithoutRowid, [Text t] =>
      match find_relation t d with
      | Some r => Ok (sql_bool (rel_without_rowid r))
      | None => Raise OperationalError
      end
  | F_UpdateLayerStatistics, [] => Ok (Int 1)
  | F_RecoverSpatialIndex, [Text t; Text g] => Ok (sql_bool (indexed t g d))
  | _, _ => Raise OperationalError
  end.

(** ** Expressions *)

Definition compare_values (equal : bool) (v1 v2 : value) : value :=
  match v1, v2 with
  | Null, _ | _, Null => Null
  | _, _ => sql_bool (if equal then bool_decide (v1 = v2)
                      else bool_decide (v1 <> v2))
  end.

Definition and_values (v1 v2 : value) : value :=
  match v1, v2 with
  | Int 0, _ | _, Int 0 => Int 0
  | Int _, Int _ => Int 1
  | _, _ => Null
  end.

(** The value of an expression in a row: [cols] are the names of the
    columns, [rowid] is the identifier of the row. *)
Fixpoint eval (d : store) (cols : list string) (rowid : Z) (r : row)
    (e : expr) : result value :=
  match e with
  | ENull => Ok Null
  | ENum z => Ok (Int z)
  | EStr s => Ok (Text s)
  | EStar => Raise OperationalError
  | ECol c =>
      match column_index c cols with
      | Some i => getitem r i
      | None => if same_name c "rowid" then Ok (Int rowid)
                else Raise OperationalError
      end
  | ECall f _ args =>
      match function_of f with
      | Some f =>
          if writing f || aggregate f then Raise OperationalError
          else vs ← mapM (eval d cols rowid r) args; call d f vs
      | None => Raise OperationalError
      end
  | ECmp equal e1 e2 =>
      v1 ← eval d cols rowid r e1;
      v2 ← eval d cols rowid r e2;
      Ok (compare_values equal v1 v2)
  | EIsNull is_null e =>
      v ← eval d cols rowid r e;
      Ok (sql_bool (if is_null then bool_decide (v = Null)
                    else bool_decide (v <> Null)))
  | EAnd e1 e2 =>
      v1 ← eval d cols rowid r e1;
      v2 ← eval d cols rowid r e2;
      Ok (and_values v1 v2)
  end.

(** A condition holds when its value is a number other than 0. *)
Definition holds (v : value) : bool :=
  match v with Int z => bool_decide (z <> 0%Z) | _ => false end.

(** The text of an expression, which names a result column that has no
    alias. *)
Fixpoint show (e : expr) : string :=
  match e with
  | ENull => "NULL"
  | ENum z => str_Z z
  | EStr s => "'" +:+ s +:+ "'"
  | EStar => "*"
  | ECol c => c
  | ECall f distinct args =>
      f +:+ "(" +:+ (if distinct then "distinct " else "")
        +:+ join "," (show <$> args) +:+ ")"
  | ECmp equal e1 e2 =>
      show e1 +:+ (if equal then "=" else "<>") +:+ show e2
  | EIsNull is_null e =>
      show e +:+ (if is_null then " is null" else " is not null")
  | EAnd e1 e2 => show e1 +:+ " and " +:+ show e2
  end.

(** ** Queries *)

(** The table [sqlite_master], as far as the tables go. *)
Definition sqlite_master (d : store) : table :=
  Table ["type"; "name"; "tbl_name"; "rootpage"; "sql"]
        ((fun kv => [Text "table"; Text kv.1; Text kv.1; Int 0; Null])
           <$> map_to_list (tables d)).

(** What [pragma_table_info] says of a table; no row when there is no
    such table. *)
Definition pragma_table_info (r : option relation) : table :=
  Table ["cid"; "name"; "type"; "notnull"; "dflt_value"; "pk"]
        match r with
        | Some r =>
            imap (fun i c =>
                    [ Int (Z.of_nat i); Text c;
                      Text (default "" (rel_types r !! i)); Int 0; Null;
                      sql_bool (bool_decide (rel_pk r = Some c)) ])
                 (columns (rel_table r))
        | None => []
        end.

(** The rows, with their identifiers, of what stands after [from]; one
    empty row when nothing does. *)
(** What a query reads from: the names of the columns, the name under
    which the row identifier comes out, and the rows with their
    identifiers. *)
Record rows_source : Type := Source {
  src_columns : list string;
  src_rowid : string;
  src_rows : list (Z * row)
}.

(** SQLite names the row identifier after the column that stands for
    it. *)
Definition rowid_name (r : relation) : string :=
  default "rowid" (i ← rowid_alias r; columns (rel_table r) !! i).

Definition source_relation (r : relation) : rows_source :=
  Source (columns (rel_table r)) (rowid_name r) (rows_of r).

Definition source_info (r : option relation) : rows_source :=
  source_relation (plain (pragma_table_info r)).

Definition source_of (d : store) (from : option source) : result rows_source :=
  match from with
  | None => Ok (Source [] "rowid" [(0%Z, [])])
  | Some (FromTable name) =>
      if same_name name "sqlite_master"
      then Ok (source_relation (plain (sqlite_master d)))
      else match find_relation name d with
           | Some r => Ok (source_relation r)
           | None => Raise OperationalError
           end
  | Some (FromCall f [EStr t]) =>
      if same_name f "pragma_table_info"
      then Ok (source_info (find_relation t d))
      else Raise OperationalError
  | _ => Raise OperationalError
  end.

Definition aggregate_item (it : item) : bool :=
  match it with
  | IExpr (ECall f _ _) _ =>
      match function_of f with Some f => aggregate f | None => false end
  | _ => false
  end.

(** The names of the result columns: the alias, the name of the column
    as the table has it, or the text of the expression. *)
Definition item_names (src : rows_source) (it : item) : list string :=
  match it with
  | IStar => src_columns src
  | IExpr _ (Some a) => [a]
  | IExpr (ECol c) None =>
      [ match column_index c (src_columns src) ≫= (src_columns src !!.) with
        | Some name => name
        | None => if same_name c "rowid" then src_rowid src else c
        end ]
  | IExpr e None => [show e]
  end.

(** The values of a result column in a row. *)
Definition item_values (d : store) (cols : list string) (r : Z * row)
    (it : item) : result (list value) :=
  match it with
  | IStar => Ok r.2
  | IExpr e _ => v ← eval d cols r.1 r.2 e; Ok [v]
  end.

Definition greatest (vs : list value) : result value :=
  foldr (fun v acc =>
           acc ← acc;
           match v, acc with
           | Null, _ => Ok acc
           | Int z, Null => Ok (Int z)
           | Int z, Int z' => Ok (Int (z `max` z'))
           | _, _ => Raise OperationalError
           end)
        (Ok Null) vs.

(** The value of a result column for a group of rows: the count or the
    greatest value over the group, or the value in its first row. *)
Definition group_value (d : store) (cols : list string)
    (rows : list (Z * row)) (it : item) : result value :=
  match it with
  | IStar => Raise OperationalError
  | IExpr e _ =>
      let plain_value :=
        match rows with
        | [] => Ok Null
        | r :: _ => eval d cols r.1 r.2 e
        end in
      match e with
      | ECall f distinct [arg] =>
          match function_of f, arg with
          | Some F_Count, EStar => Ok (Int (Z.of_nat (length rows)))
          | Some F_Count, _ =>
              vs ← mapM (fun r => eval d cols r.1 r.2 arg) rows;
              let vs := filter (fun v => v <> Null) vs in
              Ok (Int (Z.of_nat (length (if distinct : bool
                                         then remove_dups vs else vs))))
          | Some F_Max, _ =>
              vs ← mapM (fun r => eval d cols r.1 r.2 arg) rows;
              greatest vs
          | _, _ => plain_value
          end
      | _ => plain_value
      end
  end.

(** The rows by the value of a key, each group under the key of its
    first row, in the order of the first rows. *)
Fixpoint group_by {A K} `{EqDecision K} (l : list (K * A))
  : list (K * list A) :=
  match l with
  | [] => []
  | (k, a) :: l =>
      (k, a :: (filter (fun x => x.1 = k) l).*2)
        :: filter (fun g => g.1 <> k) (group_by l)
  end.

(** The rows that a query returns: one for each row of the source, or
    one for each group when the query groups or counts. *)
Definition select_rows (d : store) (q : select) (cols : list string)
    (rows : list (Z * row)) : result (list row) :=
  if bool_decide (sel_group q = []) && negb (existsb aggregate_item (sel_items q))
  then mapM (fun r => vs ← mapM (item_values d cols r) (sel_items q);
                   Ok (concat vs)) rows
  else
    groups ←
      (if bool_decide (sel_group q = []) then Ok [rows]
       else
         keyed ← mapM (fun r : Z * row =>
                         key ← mapM (fun n =>
                                       match sel_items q !! pred n with
                                       | Some (IExpr e _) =>
                                           eval d cols r.1 r.2 e
                                       | _ => Raise OperationalError
                                       end)
                                    (sel_group q);
                         Ok (key, r))
                      rows;
         Ok (group_by keyed).*2);
    mapM (fun g => mapM (group_value d cols g) (sel_items q)) groups.

(** The table that a query makes of the rows of its source. *)
Definition eval_select_on (d : store) (q : select) (src : rows_source)
  : result table :=
  let cols := src_columns src in
  rows ← match sel_where q with
         | None => Ok (src_rows src)
         | Some c =>
             keep ← mapM (fun r => holds <$> eval d cols r.1 r.2 c)
                         (src_rows src);
             Ok (filter (fun rk => rk.2 = true) (zip (src_rows src) keep)).*1
         end;
  out ← select_rows d q cols rows;
  Ok (Table (sel_items q ≫= item_names src)
            (match sel_limit q with Some n => take n out | None => out end)).

Definition eval_select (d : store) (q : select) : result table :=
  src ← source_of d (sel_from q); eval_select_on d q src.

(** The tables that [getListOfTables] is to see: not those of SQLite
    and SpatiaLite, and none whose name is [sqlite] or [idx] and one
    more character at least, [_] in [like] standing for any
    character. *)
Definition like_prefix (p name : string) : bool :=
  match strip_prefix p (upper name) with
  | Some (String _ _) => true
  | _ => false
  end.

Definition hidden (name : string) : bool :=
  bool_decide (name ∈ system_tables) || like_prefix "SQLITE" name
  || like_prefix "IDX" name.

Definition list_of_tables (d : store) : table :=
  Table ["type"; "f_table_name"; "ms_countOf_geometries";
         "ms_countOf_spatial_indexes"]
        ((fun kv =>
            let meta :=
              filter (fun r => r !! 0 = Some (Text (lower kv.1))) (meta_rows d) in
            [ Text "table"; Text kv.1;
              Int (Z.of_nat (length (remove_dups ((.!! 1) <$> meta))));
              Int (Z.of_nat (length (filter (fun r => r !! 5 = Some (Int 1))
                                            meta))) ])
           <$> filter (fun kv => hidden kv.1 = false) (map_to_list (tables d))).

(** ** Statements that write *)

Definition done (d : store) : result table * store := (Ok (Table [] []), d).

Definition refused (d : store) : result table * store :=
  (Raise OperationalError, d).

Definition returned (v : value) (d : store) : result table * store :=
  (Ok (Table ["value"] [[v]]), d).

Definition put (name : string) (r : relation) (d : store) : store :=
  set_tables (<[name := r]> (tables d)) d.

Definition set_rows (rows : list row) (r : relation) : relation :=
  Relation (Table (columns (rel_table r)) rows) (rel_types r) (rel_pk r)
           (rel_without_rowid r).

Definition create (name : string) (cols : list column_def)
    (without_rowid : bool) (d : store) : result table * store :=
  let pk := col_name <$> head (filter (fun c => col_pk c = true) cols) in
  if bool_decide (is_Some (find_key name d))
     || bool_decide (¬ NoDup (upper ∘ col_name <$> cols))
     || without_rowid && bool_decide (pk = None)
  then refused d
  else done (put name (Relation (Table (col_name <$> cols) [])
                                (col_type <$> cols) pk without_rowid) d).

(** The identifier of the next row: one more than the greatest. *)
Definition next_rowid (r : relation) : Z :=
  (foldr Z.max 0 (fst <$> rows_of r) + 1)%Z.

(** The row that [insert] makes of values for some of the columns: the
    others are [NULL], but the alias of the row identifier, which gets
    the next one. *)
Definition new_row (r : relation) (given : list (string * value)) : row :=
  imap (fun i c =>
          match snd <$> find (fun cv => same_name cv.1 c) given with
          | Some v =>
              if bool_decide (v = Null) && bool_decide (rowid_alias r = Some i)
              then Int (next_rowid r) else v
          | None =>
              if bool_decide (rowid_alias r = Some i) then Int (next_rowid r)
              else Null
          end)
       (columns (rel_table r)).

(** The value of the key in a row. *)
Definition key_of (r : relation) (row : row) : option value :=
  rowid_alias r ≫= (row !!.).

Definition insert (name : string) (cols : option (list string))
    (values : list expr) (d : store) : result table * store :=
  match find_key name d, find_relation name d,
        mapM (eval d [] 0%Z []) values with
  | Some key, Some r, Ok vs =>
      let cols := default (columns (rel_table r)) cols in
      let row := new_row r (zip cols vs) in
      if bool_decide (length cols <> length vs)
         || negb (forallb (fun c => bool_decide
                             (is_Some (column_index c (columns (rel_table r)))))
                          cols)
         || bool_decide (is_Some (rowid_alias r))
            && bool_decide (key_of r row ∈ key_of r <$> tuples (rel_table r))
      then refused d
      else done (put key (set_rows (tuples (rel_table r) ++ [row]) r) d)
  | _, _, _ => refused d
  end.

Definition update (name column : string) (e : expr) (cond : option expr)
    (d : store) : result table * store :=
  match find_key name d, find_relation name d with
  | Some key, Some r =>
      let cols := columns (rel_table r) in
      match column_index column cols with
      | Some i =>
          match mapM (fun ir : Z * row =>
                        hit ← match cond with
                              | None => Ok true
                              | Some c => holds <$> eval d cols ir.1 ir.2 c
                              end;
                        if hit : bool
                        then v ← eval d cols ir.1 ir.2 e; Ok (<[i := v]> ir.2)
                        else Ok ir.2)
                     (rows_of r) with
          | Ok rows => done (put key (set_rows rows r) d)
          | Raise _ => refused d
          end
      | None => refused d
      end
  | _, _ => refused d
  end.

Definition drop (if_exists : bool) (name : string) (d : store)
  : result table * store :=
  match find_key name d with
  | Some key => done (set_tables (delete key (tables d)) d)
  | None => if if_exists then done d else refused d
  end.

Definition attach_database (path alias : string) (d : store)
  : result table * store :=
  if bool_decide (alias ∈ (attached d).*2) then refused d
  else done (Store (tables d) (answers d) ({[path]} ∪ disk d) (shapefiles d)
                   (repairs d) (attached d ++ [(path, alias)])).

(** *** The functions of SpatiaLite that write *)

Definition init_spatial_metadata (d : store) : result table * store :=
  if bool_decide (is_Some (tables d !! geometry_columns)) then returned (Int 0) d
  else returned (Int 1)
         (put geometry_columns
              (Relation (Table meta_columns [])
                 ["TEXT"; "TEXT"; "INTEGER"; "INTEGER"; "INTEGER"; "INTEGER"]
                 None false)
              (put "spatial_ref_sys"
                   (Relation (Table ["srid"; "auth_name"; "auth_srid";
                                     "ref_sys_name"; "proj4text"; "srtext"] [])
                      ["INTEGER"; "TEXT"; "INTEGER"; "TEXT"; "TEXT"; "TEXT"]
                      (Some "srid") false)
                   d)).

(** The metadata with the rows [rows] in place of those it has for the
    column [column] of [table]; nothing without the table of the
    metadata. *)
Definition set_meta (table column : string) (rows : list row) (d : store)
  : store :=
  match tables d !! geometry_columns with
  | Some r =>
      put geometry_columns
          (set_rows (filter (fun row => is_meta table column row = false)
                            (tuples (rel_table r)) ++ rows) r) d
  | None => d
  end.

Definition dimension_code (dimension : string) : option Z :=
  assoc (upper dimension)
        [("XY", 2%Z); ("XYZ", 3%Z); ("XYM", 3%Z); ("XYZM", 4%Z)].

Definition type_code (type : string) : option Z :=
  fst <$> find (fun ct => bool_decide (remove_char " " ct.2 =
                                       remove_char " " (upper type)))
               coded_types.

(** A value agrees with a declaration when it is [NULL] or a geometry
    of that reference system, type and dimension. *)
Definition agrees (srid : Z) (type dimension : string) (v : value) : bool :=
  match v, as_geometry v with
  | Null, _ => true
  | _, Some (s, wkt) =>
      bool_decide (s = srid) &&
      bool_decide (remove_char " " (wkt_type wkt) =
                   remove_char " " (upper type)) &&
      bool_decide (type_dimension (wkt_type wkt) = upper dimension)
  | _, None => false
  end.

Definition recover_geometry_column (tbl column : string) (srid : Z)
    (type dimension : string) (d : store) : result table * store :=
  match find_relation tbl d, type_code type, dimension_code dimension with
  | Some r, Some code, Some dim =>
      match Engine.column column (rel_table r),
            tables d !! geometry_columns with
      | Ok vs, Some _ =>
          if forallb (agrees srid type dimension) vs
          then returned (Int 1)
                 (set_meta tbl column
                    [[ Text (lower tbl); Text (lower column); Int code;
                       Int dim; Int srid; Int 0 ]] d)
          else returned (Int 0) d
      | _, _ => returned (Int 0) d
      end
  | _, _, _ => returned (Int 0) d
  end.

Definition create_spatial_index (tbl column : string) (d : store)
  : result table * store :=
  match filter (fun r => is_meta tbl column r = true) (meta_rows d) with
  | [r] =>
      if bool_decide (r !! 5 = Some (Int 0))
      then returned (Int 1) (set_meta tbl column [<[5 := Int 1]> r] d)
      else returned (Int 0) d
  | _ => returned (Int 0) d
  end.

(** [DropTable]: the table goes, and with it what the metadata says of
    its columns. *)
Definition drop_table (tbl : string) (d : store) : result table * store :=
  match find_key tbl d with
  | Some key =>
      let d := set_tables (delete key (tables d)) d in
      returned (Int 1)
        match tables d !! geometry_columns with
        | Some r =>
            put geometry_columns
                (set_rows (filter (fun row =>
                                     row !! 0 <> Some (Text (lower tbl)))
                                  (tuples (rel_table r))) r) d
        | None => d
        end
  | None => returned (Int 0) d
  end.

(** The well-known text in a value of a shape file. *)
Definition shape_type (v : value) : option string :=
  match v with Text s => Some (wkt_type s) | _ => None end.

(** [ImportSHP]: a new table with a key [pk_uid], the attributes of the
    shape file and its geometries, registered in the metadata; the
    number of rows, or [NULL] when nothing was read. *)
Definition import_shp (file tbl : string) (srid : Z) (d : store)
  : result table * store :=
  match shapefiles d !! (file +:+ ".shp"), find_key tbl d with
  | Some shp, None =>
      let geom := column_index "geometry" (columns shp) in
      let attributes {A} (l : list A) : list A :=
        match geom with Some j => delete j l | None => l end in
      let stamp r :=
        match geom ≫= (r !!.) with
        | Some (Text wkt) => [geometry srid wkt]
        | Some _ => [Null]
        | None => []
        end in
      let rows :=
        imap (fun i r => Int (Z.of_nat (S i)) :: attributes r ++ stamp r)
             (tuples shp) in
      let type :=
        default "" (head (omap (fun r : row =>
                                  i ← geom; v ← r !! i; shape_type v)
                               (tuples shp))) in
      returned (Int (Z.of_nat (length rows)))
        (set_meta tbl "geometry"
           [[ Text (lower tbl); Text "geometry";
              Int (default 0%Z (type_code type));
              Int (default 2%Z (dimension_code (type_dimension type)));
              Int srid; Int 0 ]]
           (put tbl
                (Relation (Table ("pk_uid" :: attributes (columns shp)
                                    ++ match geom with
                                       | Some _ => ["geometry"]
                                       | None => []
                                       end) rows)
                          ("INTEGER" :: attributes (rel_types (plain shp))
                             ++ match geom with
                                | Some _ => [type]
                                | None => []
                                end)
                          (Some "pk_uid") false)
                d))
  | _, _ => returned Null d
  end.

(** A call of a function that writes, with the values of its
    arguments. *)
Definition write_call (f : function) (vs : list value) (d : store)
  : result table * store :=
  match f, vs with
  | F_InitSpatialMetaData, [] | F_InitSpatialMetaData, [_] =>
      init_spatial_metadata d
  | F_RecoverGeometryColumn, [Text t; Text g; Int srid; Text type; Text dims] =>
      recover_geometry_column t g srid type dims d
  | F_CreateSpatialIndex, [Text t; Text g] => create_spatial_index t g d
  | F_DropTable, [_; Text t] => drop_table t d
  | F_ImportSHP, [Text file; Text t; _; Int srid] => import_shp file t srid d
  | _, _ => refused d
  end.

(** ** Running a statement *)

(** A query that is one call of a function that writes. *)
Definition writer (q : select) : option (function * list expr) :=
  match sel_items q, sel_from q with
  | [IExpr (ECall f _ args) _], None =>
      f ← function_of f;
      if writing f then Some (f, args) else None
  | _, _ => None
  end.

Definition run (c : command) (d : store) : result table * store :=
  match c with
  | CSelect q =>
      match writer q with
      | Some (f, args) =>
          match mapM (eval d [] 0%Z []) args with
          | Ok vs => write_call f vs d
          | Raise _ => refused d
          end
      | None => (eval_select d q, d)
      end
  | CCreate name cols without_rowid => create name cols without_rowid d
  | CInsert name cols values => insert name cols values d
  | CUpdate name column e cond => update name column e cond d
  | CDrop if_exists name => drop if_exists name d
  | CAttach path alias => attach_database path alias d
  end.

(** Whether the tokens of a text begin as a query does: with [select],
    and not with the call of a function that writes. *)
Definition is_query (ts : list token) : bool :=
  match ts with
  | Key K_SELECT :: Word f :: Sym LParen :: _ =>
      match function_of f with Some f => negb (writing f) | None => true end
  | Key K_SELECT :: _ => true
  | _ => false
  end.

(** The table that [select * from] names. *)
Definition select_all (ts : list token) : option string :=
  match ts with
  | [Key K_SELECT; Sym Star; Key K_FROM; Word name] => Some name
  | _ => None
  end.

(** The answer to a query.  It is computed from the store, and leaves
    the store as it is. *)
Definition store_answer (text : string) (ts : list token) (d : store)
  : result table :=
  match select_all ts with
  | Some name => reply (find_table name d)
  | None =>
  match answers d !! text with
  | Some t => Ok t
  | None =>
  if decide (text = sql ListOfTables) then Ok (list_of_tables d) else
  match parse_tokens ts with
  | Some (CSelect q) =>
      match writer q with
      | Some _ => Raise OperationalError
      | None => eval_select d q
      end
  | _ => Raise OperationalError
  end end end.

Definition store_write (text : string) (ts : list token) (d : store)
  : result table * store :=
  match answers d !! text with
  | Some t => (Ok t, d)
  | None =>
      match parse_tokens ts with
      | Some c => run c d
      | None => refused d
      end
  end.

Definition store_execute (text : string) (d : store) : result table * store :=
  let ts := lex text in
  if is_query ts then (store_answer text ts d, d) else store_write text ts d.

(** The statements of a script, one after the other, up to the first
    that fails. *)
Definition store_executescript (text : string) (d : store)
  : result unit * store :=
  match parse_script text with
  | Some cs =>
      foldl (fun (acc : result unit * store) c =>
               match acc with
               | (Ok _, d) => let '(r, d) := run c d in (r ≫= fun _ => Ok (), d)
               | _ => acc
               end)
            (Ok (), d) cs
  | None => (Raise OperationalError, d)
  end.

Definition store_to_sql (name : string) (t : table) (mode : if_exists)
    (d : store) : result unit * store :=
  let others :=
    filter (fun kv => upper kv.1 <> upper name) (tables d) in
  let write t := (Ok (), set_tables (<[name := plain t]> others) d) in
  match find_table name d, mode with
  | Some _, fail => (Raise ValueError, d)
  | Some old, append =>
      if decide (columns old = columns t)
      then write (Table (columns old) (tuples old ++ tuples t)%list)
      else (Raise OperationalError, d)
  | _, _ => write t
  end.

(** [sqlite3.connect]: the database at a path that holds none is
    empty, and the path holds it from then on unless it is the name of
    the memory. *)
Definition store_connect (path : string) (d : store) : result unit * store :=
  if decide (path ∈ disk d) then (Ok (), d)
  else (Ok (), Store ∅ (answers d)
                 (if decide (path = ":memory:") then disk d
                  else {[path]} ∪ disk d)
                 (shapefiles d) (repairs d) []).

Definition store_remove (path : string) (d : store) : store :=
  Store ∅ (answers d) (disk d ∖ {[path]}) (shapefiles d) (repairs d) [].

(** ** Reading a csv text

    The reader of the store, after the reader of pandas: lines are
    separated by a line feed, a line of nothing but white space is
    skipped, the first line that is left names the columns, and a field
    that spells a natural number, white space before it or not, is an
    integer and any other a text.  The separator is the parameter
    [sep], a comma when it is not given. *)

Definition newline : ascii := ascii_of_N 10.

Fixpoint lstrip (s : string) : string :=
  match s with
  | String c s' => if is_space c then lstrip s' else s
  | EmptyString => EmptyString
  end.

Definition read_field (s : string) : value :=
  match lstrip s with
  | EmptyString => if bool_decide (s = "") then Null else Text s
  | s' => match digits (rstrip s') 0 with
          | Some n => Int (Z.of_N n)
          | None => Text s
          end
  end.

Definition separator (parameters : list (string * string)) : ascii :=
  match list_find (fun p => p.1 = "sep") parameters with
  | Some (_, (_, String c EmptyString)) => c
  | _ => ","%char
  end.

Definition store_read_csv (text : string) (parameters : list (string * string))
  : result table :=
  let sep := separator parameters in
  match filter (fun l => lstrip l <> EmptyString) (split_on newline text) with
  | [] => Raise ValueError
  | header :: lines =>
      Ok (Table (split_on sep header)
                ((fun l => read_field <$> split_on sep l) <$> lines))
  end.

Definition store_create (path : string) (d : store) : store :=
  Store (tables d) (answers d) ({[path]} ∪ disk d) (shapefiles d) (repairs d)
        (attached d).

Definition store_to_file (path : string) (t : table) (d : store) : store :=
  Store (tables d) (answers d) (disk d) (<[path := t]> (shapefiles d))
        (repairs d) (attached d).

Definition below (directory path : string) : bool :=
  bool_decide (is_Some (strip_prefix (directory +:+ "/") path)).

Definition store_rmtree (directory : string) (d : store) : store :=
  Store (tables d) (answers d)
        (filter (fun path => below directory path = false) (disk d))
        (filter (fun kv => below directory kv.1 = false) (shapefiles d))
        (repairs d) (attached d).

(** ** A tidy store *)

(** The text of that query up to the name of the table. *)
Definition info_prefix : string :=
  "select name as tx_column_name, type as cd_column_type, "
    +:+ dq +:+ "notnull" +:+ dq +:+ " as fl_notnull_constraint, "
    +:+ "dflt_value as default_value, pk as fl_primary_key "
    +:+ "from pragma_table_info('".

Definition names_listed (c : string) (r : result table) : bool :=
  match r with
  | Ok t => match column c t with
            | Ok index => forallb (fun v => is_name (str v)) index
            | Raise _ => true
            end
  | Raise _ => true
  end.

(** The check that a store is tidy: what it lists as its tables and as
    the columns of each are names, and no fixed answer stands in for
    the lists. *)
Definition tidyb (d : store) : bool :=
  bool_decide (answers d !! sql ListOfTables = None)
  && forallb (fun kv => bool_decide (strip_prefix info_prefix kv.1 = None))
             (map_to_list (answers d))
  && names_listed "f_table_name" (Ok (list_of_tables d))
  && forallb (fun r => names_listed "tx_column_name"
                         (eval_select_on d (info_query "") (source_info r)))
             (None :: (Some <$> (map_to_list (tables d)).*2)).

(** ** The instance *)

(** The text of a query of the class, its names being names, begins as
    a query does. *)
Lemma is_query_reads_only st :
  reads_only st = true -> is_query (lex (sql st)) = true.
Proof.
  intros [Hr Hn]%andb_prop.
  destruct st; try discriminate Hr; clear Hr; unfold lex, sql;
    try (lex_piece; reflexivity).
  simpl in Hn. apply andb_prop in Hn as [Ha _].
  lex_piece. rewrite (app_string_cons " "), (lex_from_name a) by done.
  reflexivity.
Qed.

Lemma lex_select_all name :
  is_name name = true ->
  lex (sql (SelectAll name)) = [Key K_SELECT; Sym Star; Key K_FROM; Word name].
Proof.
  intros Hn. unfold lex, sql. lex_piece. by rewrite (lex_name name Hn).
Qed.

Lemma store_execute_select_all name d :
  is_name name = true ->
  store_execute (sql (SelectAll name)) d = (reply (find_table name d), d).
Proof. intros Hn. unfold store_execute. by rewrite lex_select_all. Qed.

Lemma store_reads_only st d :
  reads_only st = true -> (store_execute (sql st) d).2 = d.
Proof.
  intros Hst. unfold store_execute. by rewrite is_query_reads_only.
Qed.

Lemma store_to_sql_replace name t d d' :
  is_name name = true ->
  store_to_sql name t replace d = (Ok (), d') ->
  store_execute (sql (SelectAll name)) d' = (Ok t, d').
Proof.
  intros Hn. unfold store_to_sql. rewrite store_execute_select_all by done.
  destruct (find_table name d); intros [= <-];
    unfold find_table, find_relation; simpl; by rewrite lookup_insert_eq.
Qed.

#[export] Instance store_engine : Engine store := {|
  db_execute := store_execute;
  db_executescript := store_executescript;
  db_to_sql := store_to_sql;
  pd_read_csv := store_read_csv;
  db_exists := fun path d => bool_decide (path ∈ disk d);
  db_remove := store_remove;
  db_connect := store_connect;
  db_load_extension := fun _ d => (Ok (), d);
  db_commit := fun d => d;
  db_close := fun d => d;
  db_create := store_create;
  gpd_to_file := store_to_file;
  db_rmtree := store_rmtree;
  db_reads_only := store_reads_only;
  db_to_sql_replace := store_to_sql_replace
|}.

(** ** The store and the tidy databases *)

Lemma names_listed_lists c r : names_listed c r = true -> lists_names c r.
Proof.
  intros Hc t index -> Hi. simpl in Hc. rewrite Hi in Hc.
  apply Forall_forall. intros v Hv%list_elem_of_In.
  by apply (proj1 (forallb_forall _ _) Hc).
Qed.

Lemma find_relation_elem name d :
  find_relation name d ∈ None :: (Some <$> (map_to_list (tables d)).*2).
Proof.
  unfold find_relation. destruct (tables d !! name) as [r|] eqn:Hr.
  - apply list_elem_of_further, list_elem_of_fmap_2, list_elem_of_fmap.
    exists (name, r). by rewrite elem_of_map_to_list.
  - destruct (list_find _ _) as [[i [k r]]|] eqn:Hf; simpl; [|left].
    apply list_find_Some in Hf as (Hi & _ & _).
    apply list_elem_of_further, list_elem_of_fmap_2, list_elem_of_fmap.
    exists (k, r). split; [done|]. by eapply list_elem_of_lookup_2.
Qed.

Lemma sql_table_info table :
  sql (TableInfo table) = info_prefix +:+ table +:+ "')".
Proof. unfold sql, info_prefix. by rewrite !app_string_assoc. Qed.

Lemma lex_table_info table :
  is_name table = true ->
  parse_tokens (lex (sql (TableInfo table))) = Some (CSelect (info_query table)).
Proof.
  intros Hn. unfold lex, sql. do 7 lex_piece.
  rewrite (lex_from_literal _ table ")") by done. reflexivity.
Qed.

Lemma store_execute_table_info table d :
  is_name table = true ->
  answers d !! sql (TableInfo table) = None ->
  store_execute (sql (TableInfo table)) d =
  (eval_select_on d (info_query "") (source_info (find_relation table d)), d).
Proof.
  intros Hn Ha. unfold store_execute.
  rewrite (is_query_reads_only (TableInfo table))
    by (by apply reads_only_intro; [|repeat constructor]).
  unfold store_answer. rewrite Ha.
  pose proof (lex_table_info table Hn) as Hp.
  destruct (select_all _) as [name|] eqn:Hs.
  { unfold select_all in Hs. repeat case_match; simplify_eq. }
  rewrite decide_False.
  2:{ intros Heq. apply (f_equal (strip_prefix "select n")) in Heq.
      by vm_compute in Heq. }
  by rewrite Hp.
Qed.

Lemma store_execute_list_of_tables d :
  answers d !! sql ListOfTables = None ->
  store_execute (sql ListOfTables) d = (Ok (list_of_tables d), d).
Proof.
  intros Ha. unfold store_execute, store_answer.
  assert (is_query (lex (sql ListOfTables)) = true) as ->
    by (vm_compute; reflexivity).
  assert (select_all (lex (sql ListOfTables)) = None) as ->
    by (vm_compute; reflexivity).
  by rewrite Ha, decide_True.
Qed.

(** The tokens of [select * from] a table are read as that query. *)
Lemma select_all_parse ts name :
  select_all ts = Some name ->
  parse_tokens ts = Some (query [IStar] name None).
Proof.
  unfold select_all. intros Hs. repeat case_match; simplify_eq. reflexivity.
Qed.

(** The store answers a query of the class, when it holds no fixed
    answer for its text, by evaluating the statement that the text is
    meant to be: from the f-string through the lexer and the parser to
    the rows. *)
Lemma store_execute_meaning st q d :
  reads_only st = true -> meaning st = Some (CSelect q) ->
  sel_items q <> [IStar] -> writer q = None ->
  answers d !! sql st = None ->
  store_execute (sql st) d = (eval_select d q, d).
Proof.
  intros Hst Hq Hstar Hw Ha. unfold store_execute.
  rewrite (is_query_reads_only st Hst). unfold store_answer.
  assert (parse_tokens (lex (sql st)) = Some (CSelect q)) as Hp.
  { apply parse_sql; [|done]. apply andb_prop in Hst as [_ Hn].
    apply Forall_forall. intros n Hin%list_elem_of_In.
    by apply (proj1 (forallb_forall _ _) Hn). }
  destruct (select_all _) as [name|] eqn:Hs.
  { apply select_all_parse in Hs. rewrite Hs in Hp. unfold query in Hp. by simplify_eq/=. }
  rewrite Ha, decide_False, Hp, Hw; [done|].
  intros Heq. rewrite Heq in Hp. fold (parse (sql ListOfTables)) in Hp.
  by rewrite parse_list_of_tables in Hp.
Qed.

(** A store that passes the check is tidy. *)
Lemma store_tidy d : tidyb d = true -> tidy d.
Proof.
  unfold tidyb. rewrite !andb_true_iff.
  intros [[[Hl%bool_decide_eq_true_1 Ha] Ht] Hi]. split.
  - apply names_listed_lists.
    change (db_execute (sql ListOfTables) d)
      with (store_execute (sql ListOfTables) d).
    by rewrite store_execute_list_of_tables.
  - intros table Hn. apply names_listed_lists.
    change (db_execute (sql (TableInfo table)) d)
      with (store_execute (sql (TableInfo table)) d).
    rewrite store_execute_table_info; [|done|].
    + apply (proj1 (forallb_forall _ _) Hi), list_elem_of_In, find_relation_elem.
    + destruct (answers d !! sql (TableInfo table)) as [t|] eqn:Hk; [|done].
      apply elem_of_map_to_list, list_elem_of_In in Hk.
      apply (proj1 (forallb_forall _ _) Ha) in Hk.
      apply bool_decide_eq_true_1 in Hk. unfold fst in Hk.
      by rewrite sql_table_info, strip_prefix_app in Hk.
Qed.
