(* ===== verification/Geodatabase.v ===== *)
(** * Geodatabase: the methods of the class [Geodatabase]

    One definition for each method of [src/geodatabase.py], in the order
    of the source and under the name it has there (the constructor is
    [Geodatabase__init__], the name [__init__] being the labeller's).
    [self.database] is the [database] of the [world] the method runs in;
    [self.srid] is the field of the record [Geodatabase].  A keyword
    argument with a default is an ordinary argument here: the caller
    writes the default out.

    The texts of log records and exceptions are those of the source,
    with a run of white space inside a multi-line literal written as one
    space.

    The theorems say what each method returns or raises as a function
    of what the engine answers, which part of the world it leaves
    alone, and, for [findConnectedComponents], that the table it writes
    is a labelling of the graph it read.  They hold for every engine
    that meets the laws of [Engine]; the examples run on the store of
    [Store.v].

    The exports [toCsv] and [toSas] are in [Export.v]. *)

From Stdlib Require Import Ascii.
From stdpp Require Import base option list gmap strings pretty.
From S2P Require Import Prelude Strings Components Engine Store.

#[local] Open Scope string_scope.

(** ** The table of geometry types *)

(** The dictionary [geom_types]: the codes of SpatiaLite and their
    names, in the order of the source. *)
Definition geom_types : list (Z * string) :=
  [ (1, "POINT"); (2, "LINESTRING"); (3, "POLYGON"); (4, "MULTIPOINT");
    (5, "MULTILINESTRING"); (6, "MULTIPOLYGON"); (7, "GEOMETRYCOLLECTION");
    (1001, "POINT Z"); (1002, "LINESTRING Z"); (1003, "POLYGON Z");
    (1004, "MULTIPOINT Z"); (1005, "MULTILINESTRING Z");
    (1006, "MULTIPOLYGON Z"); (1007, "GEOMETRYCOLLECTION Z");
    (2001, "POINT M"); (2002, "LINESTRING M"); (2003, "POLYGON M");
    (2004, "MULTIPOINT M"); (2005, "MULTILINESTRING M");
    (2006, "MULTIPOLYGON M"); (2007, "GEOMETRYCOLLECTION M");
    (3001, "POINT ZM"); (3002, "LINESTRING ZM"); (3003, "POLYGON ZM");
    (3004, "MULTIPOINT ZM"); (3005, "MULTILINESTRING ZM");
    (3006, "MULTIPOLYGON ZM"); (3007, "GEOMETRYCOLLECTION ZM");
    (1000002, "COMPRESSED LINESTRING"); (1000003, "COMPRESSED POLYGON");
    (1001002, "COMPRESSED LINESTRING Z"); (1001003, "COMPRESSED POLYGON Z");
    (1002002, "COMPRESSED LINESTRING M"); (1002003, "COMPRESSED POLYGON M");
    (1003002, "COMPRESSED LINESTRING ZM");
    (1003003, "COMPRESSED POLYGON ZM") ]%Z.

(** The instance: [self.srid].  The connection is part of the world. *)
Record Geodatabase : Type := mkGeodatabase { srid : Z }.

(** [v > 0] and [v <= 0] for a value read from the database: comparing
    [None] or a string with a number raises [TypeError]. *)
Definition as_int (v : value) : result Z :=
  match v with Int z => Ok z | _ => Raise TypeError end.

(** [s.replace(' ', '')] for a value: [None] has no such method. *)
Definition replace_spaces (v : value) : result string :=
  match v with
  | Text s => Ok (remove_char " " s)
  | _ => Raise AttributeError
  end.

(** [a, b, c, d = r] *)
Definition unpack4 (r : row) : result (value * value * value * value) :=
  match r with
  | [a; b; c; d] => Ok (a, b, c, d)
  | _ => Raise ValueError
  end.

(** [not s] for an optional string argument: [None] and [''] alike. *)
Definition not_given (s : option string) : bool :=
  match s with None => true | Some s => bool_decide (s = "") end.

Definition or_default (s : option string) (d : string) : string :=
  if not_given s then d else default d s.

(** The messages of the two exceptions of [checksForTable].  The source
    writes them as f-strings over several lines; each run of white space
    is one space here, as in the texts of the statements. *)
Definition shadowed_message (table : string) : string :=
  " Table " +:+ table +:+ " has a physical column named " +:+ dq +:+ "rowid"
    +:+ dq +:+ " (caseless) shadowing the real ROWID.".

Definition without_rowid_message (table : string) : string :=
  " Table " +:+ table
    +:+ " was created by specifying a WITHOUT ROWID clause.".

Section geodatabase.
Context `{Engine DB} `{!PySet value}.

#[local] Notation "'method'" := (prog (world DB)).

(** ** Construction and connection *)

Definition Geodatabase__init__ (db : string) (srid : Z) (recreate : bool)
  : method Geodatabase :=
  dbExists ← on_database (fun d => (Ok (db_exists db d), d));
  (if dbExists && recreate
   then on_database (fun d => (Ok (), db_remove db d))
   else mret ());;
  on_database (db_connect db);;
  on_database (db_load_extension "mod_spatialite");;
  (if negb dbExists || recreate
   then database_execute (sql InitSpatialMetaData);;
        database_execute (sql UpdateLayerStatistics);;
        mret ()
   else mret ());;
  on_database (fun d => (Ok (), db_commit d));;
  database_execute (sql DropDataLicenses);;
  mret (mkGeodatabase srid).

Definition attach (path alias : string) : method unit :=
  database_execute (sql (Attach path alias));;
  logging_info (alias +:+ ":attach:path=" +:+ path).

Definition close : method unit :=
  database_execute (sql UpdateLayerStatistics);;
  on_database (fun d => (Ok (), db_close d)).

(** ** Checks *)

Definition checksForTable (table : string) : method bool :=
  ShadowedRowid ← scalar_fetchall (CheckShadowedRowid table);
  (if truthy ShadowedRowid
   then logging_error (table +:+ ":CheckShadowedRowid");;
        raise (Exception (shadowed_message table))
   else logging_info (table +:+ ":CheckShadowedRowid"));;
  WithoutRowid ← scalar_fetchall (CheckWithoutRowid table);
  (if truthy WithoutRowid
   then logging_error (table +:+ ":CheckWithoutRowid");;
        raise (Exception (without_rowid_message table))
   else logging_info (table +:+ ":CheckWithoutRowid"));;
  mret true.

Definition geometryCountOfErrors (table geometry : string) : method value :=
  scalar_subscript (CountOfErrors table geometry).

(** The second half of [correctGeometry]: the errors are counted again
    and the outcome is logged; errors that remain are a warning, not an
    exception. *)
Definition countOfErrors_after (table geometry : string) : method unit :=
  after ← geometryCountOfErrors table geometry;
  logging_info (table +:+ "." +:+ geometry +:+ ":countOfErrors:" +:+ str after);;
  n ← lift_result (as_int after);
  if bool_decide (0 < n)%Z
  then logging_warning
         (table +:+ "." +:+ geometry
            +:+ ":countOfErrors still >0 after correction")
  else logging_info
         (table +:+ "." +:+ geometry +:+ ":countOfErrors=0 after correction!").

Definition correctGeometry (table geometry : string) : method unit :=
  before ← geometryCountOfErrors table geometry;
  n ← lift_result (as_int before);
  (if bool_decide (0 < n)%Z
   then logging_info
          (table +:+ "." +:+ geometry +:+ ":countOfErrors:" +:+ str before);;
        logging_info
          (table +:+ "." +:+ geometry
             +:+ ":countOfErrors:trying to correct geometries");;
        database_execute (sql (MakeValid table geometry));;
        mret ()
   else mret ());;
  countOfErrors_after table geometry.

Definition createSpatialIndex (table geometry : string) : method unit :=
  logging_info (table +:+ "." +:+ geometry +:+ ":createSpatialIndex:start");;
  SpatialIndex ← scalar_fetchone (CreateSpatialIndex table geometry);
  if truthy SpatialIndex
  then logging_info (table +:+ "." +:+ geometry +:+ ":createSpatialIndex:end")
  else logging_error
         (table +:+ "." +:+ geometry +:+ ":createSpatialIndex error.");;
       raise (Exception ("Creation of spatial index for " +:+ table +:+ "."
                           +:+ geometry +:+ " failed")).

(** ** Statements of the caller *)

Definition execute (query : string) (queryParameters : list (string * string))
  : method table :=
  logging_info "query:start";;
  q ← lift_result (str_format query queryParameters);
  r ← database_execute q;
  logging_info "query:end";;
  mret r.

Definition dropTable (table : string) : method unit :=
  execute (sql (DropTable table)) [];;
  mret ().

Definition executeScript (query : string)
    (queryParameters : list (string * string)) : method unit :=
  logging_info (query +:+ ":query:start");;
  f ← on_system (read_file ("../sql/" +:+ query +:+ ".sql"));
  q ← lift_result (str_format f queryParameters);
  on_database (db_executescript q);;
  logging_info (query +:+ ":query:end").

(** ** Connected components *)

(** [depth] is the number of frames that the recursive method of the
    labeller may use (see [Labeler.v]). *)
Definition findConnectedComponents (depth : nat) (inputTable : string)
    (edgesColumnNames : list string) (outputTable : string)
  : method (DataFrame value) :=
  logging_info (inputTable +:+ ":findConnectedComponents:outputTable="
                  +:+ outputTable +:+ ":start");;
  a ← lift_result (getitem edgesColumnNames 0);
  b ← lift_result (getitem edgesColumnNames 1);
  edges ← database_execute (sql (SelectEdges a b inputTable));
  edges ← lift_result (frame_edges edges);
  connectedComponents ← on_attrs (connectedComponents depth edges);
  on_database (db_to_sql outputTable (frame_of connectedComponents) replace);;
  logging_info (inputTable +:+ ":findConnectedComponents:outputTable="
                  +:+ outputTable +:+ ":end");;
  mret connectedComponents.

(** ** Descriptions of the database *)

Definition getColumnMaxLength (table column : string) : method value :=
  scalar_subscript (MaxLength column table).

Definition getColumnCountOfDistinctValues (table column : string)
  : method value :=
  scalar_subscript (CountDistinct column table).

Definition getGeometriesMetadata : method indexed_frame :=
  frame ← database_execute (sql GeometriesMetadata);
  lift_result (set_index "f_table_name" frame).

Definition getTableCountOfRows (table : string) : method value :=
  scalar_subscript (CountOfRows table).

Definition getTableHead (table : string) : method indexed_frame :=
  frame ← database_execute (sql (Head table));
  lift_result (set_index "rowid" frame).

(** The frame is indexed by [f_table_name].  The method and its callers
    read the index and the columns by name only, and the index is kept
    here as the column of that name: [column "f_table_name"] is
    [frame.index]. *)
Definition getListOfTables : method table :=
  listOfTables ← database_execute (sql ListOfTables);
  index ← lift_result (column "f_table_name" listOfTables);
  counts ← for_collect index (fun name => getTableCountOfRows (str name));
  let listOfTables := set_column "ms_countOf_rows" counts listOfTables in
  if bool_decide (0 < length (tuples listOfTables))
  then lift_result
         (t ← astype_int "ms_countOf_geometries" listOfTables;
          t ← astype_int "ms_countOf_spatial_indexes" t;
          astype_int "ms_countOf_rows" t)
  else mret listOfTables.

Definition tableExists (table : string) : method bool :=
  listOfTables ← getListOfTables;
  index ← lift_result (column "f_table_name" listOfTables);
  if bool_decide (Text table ∈ index) then mret true else mret false.

(** One column computed row by row and then cast, as both options of
    [getListOfColumns] do. *)
Definition measure_columns (name : string) (measure : string -> method value)
    (listOfColumns : table) : method table :=
  index ← lift_result (column "tx_column_name" listOfColumns);
  vs ← for_collect index (fun c => measure (str c));
  lift_result (astype_int name (set_column name vs listOfColumns)).

(** [None] stands for the empty tuple that the method returns for a name
    that is no table. *)
Definition getListOfColumns (table : string) (withLengths withDistincts : bool)
  : method (option Engine.table) :=
  listOfTables ← getListOfTables;
  index ← lift_result (column "f_table_name" listOfTables);
  if bool_decide (upper table ∉ (upper ∘ str <$> index))
  then on_system (print (table +:+ " is not a table"));;
       mret None
  else
    listOfColumns ← database_execute (sql (TableInfo table));
    listOfColumns ← lift_result
      (t ← astype_int "fl_notnull_constraint" listOfColumns;
       astype_int "fl_primary_key" t);
    listOfColumns ←
      (if withLengths
       then measure_columns "ms_max_length" (getColumnMaxLength table)
              listOfColumns
       else mret listOfColumns);
    listOfColumns ←
      (if withDistincts
       then measure_columns "ms_countOf_distinct"
              (getColumnCountOfDistinctValues table) listOfColumns
       else mret listOfColumns);
    mret (Some listOfColumns).

Definition inspectGeometry (table geometry : string) : method (list row) :=
  res ← database_execute (sql (InspectGeometry geometry table));
  mret (tuples res).

(** ** Loading *)

Definition loadCsv (csvFile table : string) (if_exists : if_exists)
    (readParameters : list (string * string)) : method unit :=
  logging_info (table +:+ ":loadCsv:csvFile=" +:+ csvFile +:+ ":start");;
  text ← on_system (read_file csvFile);
  frame ← lift_result (pd_read_csv text readParameters);
  on_database (db_to_sql table frame if_exists);;
  logging_info (table +:+ ":loadCsv:csvFile=" +:+ csvFile +:+ ":end").

Definition loadDataFrame (DataFrame : Engine.table) (table : string)
    (if_exists : if_exists) (readParameters : list (string * string))
  : method unit :=
  mret ().

Definition loadEmbeddedCsv (file table : string) (if_exists : if_exists)
    (readParameters : list (string * string)) : method unit :=
  logging_info (table +:+ ":loadEmbeddedCsv:start");;
  frame ← lift_result (pd_read_csv file readParameters);
  on_database (db_to_sql table frame if_exists);;
  logging_info (table +:+ ":loadEmbeddedCsv:end").

(** [srid] is [None] or an integer; [if not srid] also takes 0 for
    missing. *)
Definition loadShp (self : Geodatabase) (shapeFile table encoding : string)
    (srid : option Z) : method unit :=
  logging_info (table +:+ ":loadShp:shapeFile=" +:+ shapeFile +:+ ":start");;
  let srid := match srid with
              | Some z => if bool_decide (z = 0%Z) then self.(Geodatabase.srid) else z
              | None => self.(Geodatabase.srid)
              end in
  database_execute (sql (ImportSHP shapeFile table encoding srid));;
  logging_info (table +:+ ":loadShp:shapeFile=" +:+ shapeFile +:+ ":end").

Definition loadShpZip : method unit := mret ().

Definition pointInPolygon (points polygons outputTable : string)
  : method unit :=
  logging_info (outputTable +:+ ":pointInPolygon:points=" +:+ points
                  +:+ ":polygons=" +:+ polygons +:+ ":start");;
  database_execute (sql (PointInPolygon outputTable points polygons));;
  logging_info (outputTable +:+ ":pointInPolygon:points=" +:+ points
                  +:+ ":polygons=" +:+ polygons +:+ ":end").

(** ** Registration of a geometry *)

Definition recoverGeometry (self : Geodatabase) (table geometry : string)
  : method unit :=
  inspection ← inspectGeometry table geometry;
  (if bool_decide (1 < length inspection)
   then logging_error (table +:+ "." +:+ geometry
          +:+ ":recoverGeometryColumn failed:More than 1 geometry type");;
        raise (Exception ("Recovery of " +:+ table +:+ "." +:+ geometry
                            +:+ " failed:More than 1 geometry type"))
   else mret ());;
  first ← lift_result (getitem inspection 0);
  '(geomType, srid, coordDimension, ms_countof_rows) ←
    lift_result (unpack4 first);
  (if bool_decide (geomType ∉ (Text <$> geom_types.*2))
   then logging_error (table +:+ "." +:+ geometry
          +:+ ":recoverGeometryColumn failed:Not a geometry");;
        raise (Exception ("Recovery of " +:+ table +:+ "." +:+ geometry
                            +:+ " failed:Not a geometry"))
   else mret ());;
  n ← lift_result (as_int srid);
  srid ← (if bool_decide (n <= 0)%Z
          then logging_warning (table +:+ "." +:+ geometry
                 +:+ ":recoverGeometryColumn failed:Srid unknown-Choosing "
                 +:+ str_Z self.(Geodatabase.srid));;
               mret self.(Geodatabase.srid)
          else mret n);
  geomType ← lift_result (replace_spaces geomType);
  coordDimension ← lift_result (replace_spaces coordDimension);
  RecoverGeometry ← scalar_fetchone
    (RecoverGeometryColumn table geometry srid geomType coordDimension);
  if truthy RecoverGeometry
  then logging_info (table +:+ "." +:+ geometry
         +:+ ":recoverGeometryColumn:geometry has been recovered")
  else logging_error (table +:+ "." +:+ geometry +:+ ":recoverGeometryColumn");;
       raise (Exception ("Recovery of " +:+ table +:+ "." +:+ geometry
                           +:+ " failed")).

Definition recoverSpatialIndex (table geometry : string) : method unit :=
  RecoveredSpatialIndex ← scalar_fetchall (RecoverSpatialIndex table geometry);
  if truthy RecoveredSpatialIndex
  then logging_info (table +:+ "." +:+ geometry
         +:+ ":recoverSpatialIndex:Spatial index is consistent")
  else logging_error (table +:+ "." +:+ geometry +:+ ":recoverSpatialIndex");;
       raise (Exception ("Spatial index " +:+ table +:+ "." +:+ geometry
                           +:+ " is inconsistent")).

(** ** Reprojection *)

(** [if_exists] is compared with ['fail'] and ['replace'] as a string:
    any other text passes both tests.  When [getListOfColumns] returns
    the empty tuple, [list(().index)] is asked to iterate over a method
    of the tuple and raises [TypeError]. *)
Definition reproject (self : Geodatabase) (inputTable : string) (srid : Z)
    (outputTable : option string) (if_exists : string) : method unit :=
  let outputTable :=
    or_default outputTable (inputTable +:+ "_" +:+ str_Z srid) in
  logging_info (inputTable +:+ ":reproject:srid=" +:+ str_Z srid
                  +:+ ":outputTable=" +:+ outputTable +:+ ":start");;
  exists_ ← tableExists outputTable;
  (if exists_ : bool
   then (if bool_decide (if_exists = "fail")
         then logging_error (inputTable +:+ ":reproject:" +:+ outputTable
                               +:+ " already exists !");;
              raise (Exception (outputTable +:+ " already exists !"))
         else mret ());;
        (if bool_decide (if_exists = "replace")
         then dropTable outputTable;;
              logging_warning (inputTable +:+ ":reproject:" +:+ outputTable
                                 +:+ " dropped before reproject takes place")
         else mret ())
   else mret ());;
  listOfColumns ← getListOfColumns inputTable false false;
  l ← match listOfColumns with
      | None => raise TypeError
      | Some t => lift_result (texts <$> column "tx_column_name" t)
      end;
  l ← lift_result (list_remove "geometry" l);
  database_execute (sql (Transform outputTable l srid inputTable));;
  logging_info (inputTable +:+ ":reproject:srid=" +:+ str_Z srid
                  +:+ ":outputTable=" +:+ outputTable +:+ ":end");;
  recoverGeometry self outputTable "geometry";;
  createSpatialIndex outputTable "geometry".

Definition toSpatialite (db table : string) : method unit := mret ().

End geodatabase.

(** ** Worlds for the examples *)

(** The answer of a statement that returns one value. *)
Definition answer (v : value) : table := Table ["value"] [[v]].

Definition world_of (d : store) : world store :=
  World d (OS ∅ ∅ [] []) (ClassAttrs ∅ ∅).

Definition empty_store : store := holding ∅ ∅.

(** A table with one geometry that is invalid and stays so. *)
Definition invalid_world : world store :=
  world_of (holding ∅
    {[ sql (CountOfErrors "test_geometry" "geometry") := answer (Int 1);
       sql (MakeValid "test_geometry" "geometry") := Table [] [] ]}).

(** A geometry column that holds points and polygons. *)
Definition mixed_world : world store :=
  world_of (holding ∅
    {[ sql (InspectGeometry "geometry" "t") :=
         Table ["geomType"; "srid"; "coordDimension"; "ms_countof_rows"]
               [ [Text "POINT"; Int 31370; Text "XY"; Int 2];
                 [Text "POLYGON"; Int 31370; Text "XY"; Int 1] ] ]}).

(** A geometry column of polygons with a height and no SRID, which
    SpatiaLite agrees to register. *)
Definition polygons_world : world store :=
  world_of (holding ∅
    {[ sql (InspectGeometry "geometry" "t") :=
         Table ["geomType"; "srid"; "coordDimension"; "ms_countof_rows"]
               [ [Text "POLYGON Z"; Int 0; Text "XYZ"; Int 3] ];
       sql (RecoverGeometryColumn "t" "geometry" 31370 "POLYGONZ" "XYZ") :=
         answer (Int 1) ]}).

(** The edges of [test_findConnectedComponents]. *)
Definition df_edges : table :=
  Table ["a"; "b"]
        [ [Text "A"; Text "B"]; [Text "A"; Text "D"]; [Text "B"; Text "C"];
          [Text "B"; Text "E"]; [Text "F"; Text "G"] ].

Definition edges_world : world store :=
  world_of (holding {[ "t01_edges" := df_edges ]} ∅).


(** What the engine says of the columns of that table. *)
Definition edges_columns : table :=
  Table ["tx_column_name"; "cd_column_type"; "fl_notnull_constraint";
         "default_value"; "fl_primary_key"]
        [ [Text "a"; Text "TEXT"; Int 0; Null; Int 0];
          [Text "b"; Text "TEXT"; Int 0; Null; Int 0] ].

(** A table with a key, as the tests create it, and one row. *)
Definition names_world : world store :=
  world_of (Store {[ "test_table" :=
                       Relation (Table ["id"; "name"] [[Int 1; Text "test"]])
                                ["INTEGER"; "TEXT"] (Some "id") false ]}
                  ∅ ∅ ∅ ∅ []).

(** A csv file, separated by bars, and the frame that it holds. *)
Definition t_sex_csv : string :=
  "cd_sex|tx_sex" +:+ line_feed +:+ "1|male" +:+ line_feed
    +:+ "2|female" +:+ line_feed.

Definition t_sex : table :=
  Table ["cd_sex"; "tx_sex"] [[Int 1; Text "male"]; [Int 2; Text "female"]].

Definition csv_world : world store :=
  World empty_store (OS {[ "data/t_sex.csv" := Plain t_sex_csv ]} ∅ [] [])
        (ClassAttrs ∅ ∅).

(** ** What the methods that describe the database change: nothing *)

Section unchanged.
Context `{Engine DB} `{!PySet value}.
Implicit Types w : world DB.

Lemma geometryCountOfErrors_unchanged table geometry :
  is_name table = true -> is_name geometry = true ->
  unchanged (geometryCountOfErrors (DB:=DB) table geometry).
Proof. unfold geometryCountOfErrors. preserves_tac. Qed.

Lemma getColumnMaxLength_unchanged table column :
  is_name table = true -> is_name column = true ->
  unchanged (getColumnMaxLength (DB:=DB) table column).
Proof. unfold getColumnMaxLength. preserves_tac. Qed.

Lemma getColumnCountOfDistinctValues_unchanged table column :
  is_name table = true -> is_name column = true ->
  unchanged (getColumnCountOfDistinctValues (DB:=DB) table column).
Proof. unfold getColumnCountOfDistinctValues. preserves_tac. Qed.

Lemma getGeometriesMetadata_unchanged :
  unchanged (getGeometriesMetadata (DB:=DB)).
Proof. unfold getGeometriesMetadata. preserves_tac. Qed.

Lemma getTableCountOfRows_unchanged table :
  is_name table = true -> unchanged (getTableCountOfRows (DB:=DB) table).
Proof. unfold getTableCountOfRows. preserves_tac. Qed.

Lemma getTableHead_unchanged table :
  is_name table = true -> unchanged (getTableHead (DB:=DB) table).
Proof. unfold getTableHead. preserves_tac. Qed.

Lemma inspectGeometry_unchanged table geometry :
  is_name table = true -> is_name geometry = true ->
  unchanged (inspectGeometry (DB:=DB) table geometry).
Proof. unfold inspectGeometry. preserves_tac. Qed.

Lemma checksForTable_database table :
  is_name table = true -> preserves database (checksForTable (DB:=DB) table).
Proof. unfold checksForTable. preserves_tac. Qed.

Hint Resolve getTableCountOfRows_unchanged getColumnMaxLength_unchanged
  getColumnCountOfDistinctValues_unchanged : py.

(** The methods that go through the tables or the columns of the
    database send a query for each name that the engine lists: they
    change nothing in a database that is tidy. *)

(** One query for each name of a list of names. *)
Lemma for_collect_names (index : list value)
    (measure : string -> prog (world DB) value) :
  (forall c, is_name c = true -> unchanged (measure c)) ->
  Forall (fun v => is_name (str v) = true) index ->
  keeps (fun w => tidy (database w)) (fun w => w)
    (for_collect index (fun c => measure (str c))).
Proof.
  intros Hm Hi. apply keeps_for_collect. eapply Forall_impl; [exact Hi|].
  intros v Hv. by apply keeps_preserves, Hm.
Qed.

Lemma getListOfTables_unchanged :
  keeps (fun w => tidy (database w)) (fun w => w) (getListOfTables (DB:=DB)).
Proof.
  unfold getListOfTables.
  apply (keeps_bind_with _ _ (fun t => lists_names "f_table_name" (Ok t)));
    [by preserves_tac | |].
  { intros w t [Ht _] Hrun. by rewrite <- Hrun, database_execute_db. }
  intros t Ht.
  apply (keeps_bind_with _ _ (fun index => column "f_table_name" t = Ok index));
    [by preserves_tac | by intros w index _ | ].
  intros index Hi.
  apply keeps_bind; [|by preserves_tac].
  apply for_collect_names; [auto with py|]. by apply (Ht t).
Qed.

Lemma tableExists_unchanged table :
  keeps (fun w => tidy (database w)) (fun w => w) (tableExists (DB:=DB) table).
Proof.
  unfold tableExists. apply keeps_bind; [apply getListOfTables_unchanged|].
  by preserves_tac.
Qed.

Lemma measure_columns_database name measure t :
  (forall c, is_name c = true -> unchanged (measure c)) ->
  lists_names "tx_column_name" (Ok t) ->
  keeps tidy database (measure_columns (DB:=DB) name measure t).
Proof.
  intros Hm Ht. unfold measure_columns. apply keeps_whole.
  apply (keeps_bind_with _ _
           (fun index => column "tx_column_name" t = Ok index));
    [by preserves_tac | by intros w index _ |].
  intros index Hi. apply keeps_bind; [|by preserves_tac].
  apply for_collect_names; [done|]. by apply (Ht t).
Qed.

(** The frame that [measure_columns] returns lists the names that the
    frame it was given lists. *)
Lemma measure_columns_lists name measure t w t' :
  "tx_column_name" <> name ->
  lists_names "tx_column_name" (Ok t) ->
  (measure_columns (DB:=DB) name measure t w).1 = Ok t' ->
  lists_names "tx_column_name" (Ok t').
Proof.
  intros Hname Ht. unfold measure_columns. autorewrite with py.
  destruct (column "tx_column_name" t) as [index|] eqn:Hi; [|done].
  run_bind Hvs; [|done]. unfold lift_result. simpl.
  intros Hcast. apply (lists_names_astype_int _ _ _ _ Hname Hcast).
  by eapply lists_names_set_column; [| |apply (Ht t)].
Qed.

Lemma getListOfColumns_database table withLengths withDistincts :
  is_name table = true ->
  keeps tidy database
    (getListOfColumns (DB:=DB) table withLengths withDistincts).
Proof.
  intros Hn. unfold getListOfColumns.
  apply keeps_bind; [apply keeps_whole, getListOfTables_unchanged|].
  intros listOfTables. apply keeps_bind; [by preserves_tac|]. intros index.
  apply keeps_if; [by preserves_tac|].
  apply (keeps_bind_with _ _
           (fun t => lists_names "tx_column_name" (Ok t)));
    [by preserves_tac | |].
  { intros w t [_ Ht] Hrun. rewrite <- Hrun, database_execute_db. by apply Ht. }
  intros t Ht.
  apply (keeps_bind_with _ _
           (fun t => lists_names "tx_column_name" (Ok t)));
    [by preserves_tac | |].
  { intros w t1 _. unfold lift_result. simpl.
    destruct (astype_int _ t) as [t0|] eqn:H0; simpl; [|done]. intros H1.
    eapply lists_names_astype_int; [|exact H1|]; [done|].
    by eapply lists_names_astype_int; [|exact H0|]. }
  clear t Ht. intros t Ht.
  apply (keeps_bind_with _ _
           (fun t => lists_names "tx_column_name" (Ok t))).
  { destruct withLengths; [|by preserves_tac].
    apply measure_columns_database; auto with py. }
  { intros w t1 _. destruct withLengths; [|by intros [= <-]].
    by apply measure_columns_lists. }
  clear t Ht. intros t Ht. apply keeps_bind; [|by preserves_tac].
  destruct withDistincts; [|by preserves_tac].
  apply measure_columns_database; auto with py.
Qed.

(** What they return depends on the database only. *)

Lemma geometryCountOfErrors_reads table geometry :
  reads database (geometryCountOfErrors (DB:=DB) table geometry).
Proof. unfold geometryCountOfErrors. preserves_tac. Qed.

Lemma getColumnMaxLength_reads table column :
  reads database (getColumnMaxLength (DB:=DB) table column).
Proof. unfold getColumnMaxLength. preserves_tac. Qed.

Lemma getColumnCountOfDistinctValues_reads table column :
  reads database (getColumnCountOfDistinctValues (DB:=DB) table column).
Proof. unfold getColumnCountOfDistinctValues. preserves_tac. Qed.

Lemma getTableCountOfRows_reads table :
  reads database (getTableCountOfRows (DB:=DB) table).
Proof. unfold getTableCountOfRows. preserves_tac. Qed.

Hint Resolve getTableCountOfRows_reads getColumnMaxLength_reads
  getColumnCountOfDistinctValues_reads : py.

Lemma getListOfTables_reads : reads database (getListOfTables (DB:=DB)).
Proof. unfold getListOfTables. preserves_tac. Qed.

Hint Resolve getListOfTables_reads : py.

Lemma tableExists_reads table : reads database (tableExists (DB:=DB) table).
Proof. unfold tableExists. preserves_tac. Qed.

Lemma inspectGeometry_reads table geometry :
  reads database (inspectGeometry (DB:=DB) table geometry).
Proof. unfold inspectGeometry. preserves_tac. Qed.

Lemma measure_columns_reads name measure t :
  (forall c, reads database (measure c)) ->
  reads database (measure_columns (DB:=DB) name measure t).
Proof. intros Hm. unfold measure_columns. preserves_tac. Qed.

Lemma getListOfColumns_reads table withLengths withDistincts :
  reads database (getListOfColumns (DB:=DB) table withLengths withDistincts).
Proof.
  unfold getListOfColumns.
  preserves_tac; apply measure_columns_reads; auto with py.
Qed.

(** None of them writes a file. *)

Lemma getListOfTables_file_system :
  preserves file_system (getListOfTables (DB:=DB)).
Proof.
  unfold getListOfTables, getTableCountOfRows. preserves_tac.
Qed.

Lemma getListOfColumns_file_system table withLengths withDistincts :
  preserves file_system
    (getListOfColumns (DB:=DB) table withLengths withDistincts).
Proof.
  unfold getListOfColumns, measure_columns, getColumnMaxLength,
    getColumnCountOfDistinctValues.
  preserves_tac; apply getListOfTables_file_system.
Qed.

(** A run that keeps a tidy database: the form in which the tactics
    use [keeps]. *)
Lemma tidy_run {A} (m : prog (world DB) A) w :
  keeps (fun w => tidy (database w)) (fun w => w) m ->
  tidy (database w) -> (m w).2 = w.
Proof. intros Hk Ht. by apply Hk. Qed.

End unchanged.

#[export] Hint Resolve geometryCountOfErrors_unchanged
  getColumnMaxLength_unchanged getColumnCountOfDistinctValues_unchanged
  getGeometriesMetadata_unchanged getTableCountOfRows_unchanged
  getTableHead_unchanged getListOfTables_unchanged tableExists_unchanged
  inspectGeometry_unchanged getListOfColumns_database checksForTable_database
  geometryCountOfErrors_reads getColumnMaxLength_reads
  getColumnCountOfDistinctValues_reads getTableCountOfRows_reads
  getListOfTables_reads tableExists_reads inspectGeometry_reads
  getListOfColumns_reads : py.

(** ** What the methods return *)

#[local] Arguments bool_decide : simpl never.
#[local] Opaque geom_types.

(** Runs the steps of a method that do not depend on the engine. *)
Ltac run := repeat (autorewrite with py; simpl).

(** Runs a query whose answer in a world with the same database is the
    hypothesis [H].  That the query changes nothing follows from the
    hypotheses that its names are names, or that the database is
    tidy. *)
Ltac query_run m s' :=
  first
    [ exact ((ltac:(solve [eauto with py]) : unchanged m) s')
    | apply (tidy_run m s'); [solve [eauto with py] | simpl; assumption] ].

Ltac query H :=
  match type of H with
  | (?m ?s).1 = ?r =>
      match goal with
      | |- context [(m ≫= ?f) ?s'] =>
          let K := fresh "K" in
          assert ((m s').2 = s') as K by query_run m s';
          rewrite (query_bind_at database m f s s' r K
                     ltac:(eauto with py) ltac:(simpl; congruence) H);
          clear K
      end
  end.

Section behaviour.
Context `{Engine DB} `{!PySet value}.
Implicit Types w : world DB.

Lemma createSpatialIndex_result table geometry w :
  (createSpatialIndex table geometry w).1 =
  (v ← (scalar_fetchone (CreateSpatialIndex table geometry) w).1;
   if truthy v then Ok ()
   else Raise (Exception ("Creation of spatial index for " +:+ table +:+ "."
                            +:+ geometry +:+ " failed"))).
Proof.
  unfold createSpatialIndex. autorewrite with py.
  set (w2 := World _ _ _). rewrite (scalar_fetchone_same _ w w2) by done.
  run_bind Hv; [simpl | done].
  destruct (truthy _); by autorewrite with py.
Qed.

Lemma recoverSpatialIndex_result table geometry w :
  (recoverSpatialIndex table geometry w).1 =
  (v ← (scalar_fetchall (RecoverSpatialIndex table geometry) w).1;
   if truthy v then Ok ()
   else Raise (Exception ("Spatial index " +:+ table +:+ "." +:+ geometry
                            +:+ " is inconsistent"))).
Proof.
  unfold recoverSpatialIndex.
  run_bind Hv; [simpl | done].
  destruct (truthy _); by autorewrite with py.
Qed.

Lemma geometryCountOfErrors_same table geometry w w' :
  database w = database w' ->
  (geometryCountOfErrors table geometry w).1 =
  (geometryCountOfErrors table geometry w').1.
Proof. apply scalar_subscript_same. Qed.

Lemma countOfErrors_after_run table geometry w n :
  is_name table = true -> is_name geometry = true ->
  (geometryCountOfErrors table geometry w).1 = Ok (Int n) ->
  exists w', countOfErrors_after table geometry w = (Ok (), w') /\
    database w' = database w /\
    fst <$> last (logged (system w')) =
      Some (if bool_decide (0 < n)%Z then WARNING else INFO).
Proof.
  intros Htable Hgeometry Hn. unfold countOfErrors_after. query Hn. run.
  case_bool_decide; run; eexists; split_and!; try done;
    simpl; by rewrite last_snoc.
Qed.

Lemma or_default_Some s d : s <> "" -> or_default (Some s) d = s.
Proof. intros Hs. unfold or_default, not_given. by rewrite bool_decide_false. Qed.

(** C19: the methods that describe the database ask and change nothing,
    when the names they are given are names and the database is tidy:
    counting errors, rows, distinct values and lengths, listing the
    tables, the columns and the geometries, inspecting a geometry and
    testing whether a table exists leave the world as it was; listing
    the columns and checking the row identifier leave the database as
    it was (they print or log). *)
Theorem queries_change_nothing w table column geometry :
  is_name table = true -> is_name column = true ->
  is_name geometry = true -> tidy (database w) ->
  (geometryCountOfErrors table geometry w).2 = w /\
  (getColumnMaxLength table column w).2 = w /\
  (getColumnCountOfDistinctValues table column w).2 = w /\
  (getGeometriesMetadata w).2 = w /\
  (getTableCountOfRows table w).2 = w /\
  (getTableHead table w).2 = w /\
  (getListOfTables w).2 = w /\
  (tableExists table w).2 = w /\
  (inspectGeometry table geometry w).2 = w /\
  (forall withLengths withDistincts,
     database (getListOfColumns table withLengths withDistincts w).2
     = database w) /\
  database (checksForTable table w).2 = database w.
Proof.
  intros Htable Hcolumn Hgeometry Htidy.
  split_and!; intros;
    match goal with
    | |- (getListOfTables w).2 = w => by apply getListOfTables_unchanged
    | |- (tableExists _ w).2 = w => by apply tableExists_unchanged
    | |- database (getListOfColumns _ _ _ w).2 = _ =>
        by apply getListOfColumns_database
    | |- (?m w).2 = w => exact ((ltac:(eauto with py) : unchanged m) w)
    | |- database (?m w).2 = _ =>
        exact ((ltac:(eauto with py) : preserves database m) w)
    end.
Qed.

(** C20: [checksForTable] returns [True] exactly when the engine denies
    both that the row identifier is shadowed and that the table was
    created without one; it raises the exception of the first check
    that the engine affirms, and it never returns [False].  The second
    check is judged by what the engine answers before the first. *)
Theorem checksForTable_correct table w :
  is_name table = true ->
  (checksForTable table w).1 =
  (v1 ← (scalar_fetchall (CheckShadowedRowid table) w).1;
   if truthy v1 then Raise (Exception (shadowed_message table))
   else v2 ← (scalar_fetchall (CheckWithoutRowid table) w).1;
        if truthy v2 then Raise (Exception (without_rowid_message table))
        else Ok true).
Proof.
  intros Htable. unfold checksForTable.
  pose proof (scalar_fetchall_unchanged (CheckShadowedRowid table)
                ltac:(reads_only_tac) w) as Hw.
  run_bind H1; simpl in *; [subst|done].
  destruct (truthy _); autorewrite with py; [done|].
  set (w2 := World _ _ _). rewrite (scalar_fetchall_same _ w w2) by done.
  run_bind H2; simpl; [|done].
  destruct (truthy _); by autorewrite with py.
Qed.

(** C39: [createSpatialIndex] and [recoverSpatialIndex] return when the
    engine answers a true value and raise their exception when it
    answers zero or NULL. *)
Theorem spatial_index_correct table geometry w :
  (createSpatialIndex table geometry w).1 =
    (v ← (scalar_fetchone (CreateSpatialIndex table geometry) w).1;
     if truthy v then Ok ()
     else Raise (Exception ("Creation of spatial index for " +:+ table
                              +:+ "." +:+ geometry +:+ " failed"))) /\
  (recoverSpatialIndex table geometry w).1 =
    (v ← (scalar_fetchall (RecoverSpatialIndex table geometry) w).1;
     if truthy v then Ok ()
     else Raise (Exception ("Spatial index " +:+ table +:+ "." +:+ geometry
                              +:+ " is inconsistent"))).
Proof.
  split; [apply createSpatialIndex_result | apply recoverSpatialIndex_result].
Qed.

(** C10: [correctGeometry] sends the repair exactly when the count of
    invalid geometries is positive, counts again, and returns in either
    case: geometries that are still invalid are reported by a warning,
    the last record of the log, not by an exception. *)
Theorem correctGeometry_correct table geometry w n n' :
  let w1 := if bool_decide (0 < n)%Z
            then (database_execute (sql (MakeValid table geometry)) w).2
            else w in
  is_name table = true -> is_name geometry = true ->
  (geometryCountOfErrors table geometry w).1 = Ok (Int n) ->
  ((0 < n)%Z -> is_Ok (database_execute (sql (MakeValid table geometry)) w).1) ->
  (geometryCountOfErrors table geometry w1).1 = Ok (Int n') ->
  exists w', correctGeometry table geometry w = (Ok (), w') /\
    database w' = database w1 /\
    fst <$> last (logged (system w')) =
      Some (if bool_decide (0 < n')%Z then WARNING else INFO).
Proof.
  intros w1 Htable Hgeometry Hbefore Hfix Hafter. unfold correctGeometry.
  query Hbefore. run. subst w1.
  case_bool_decide as Hn; run.
  - destruct (Hfix Hn) as [t Ht].
    run_bind Hx;
      match type of Hx with database_execute ?q ?w2 = _ =>
        destruct (database_execute_same q w w2 eq_refl) as [Hr Hd];
        rewrite Hx, Ht in Hr; rewrite Hx in Hd
      end; simplify_eq/=.
    run. rewrite Hd in *.
    rewrite (geometryCountOfErrors_same _ _ _ w0) in Hafter by done.
    by apply countOfErrors_after_run.
  - by apply countOfErrors_after_run.
Qed.

(** C15: the guards of [recoverGeometry]: a column with more than one
    kind of geometry and a kind that is no geometry type are refused
    with the exception of the method; a column without any geometry
    makes [inspection[0]] raise [IndexError]. *)
Theorem recoverGeometry_rejects self table geometry w rows :
  is_name table = true -> is_name geometry = true ->
  (inspectGeometry table geometry w).1 = Ok rows ->
  let failed reason :=
    Raise (Exception ("Recovery of " +:+ table +:+ "." +:+ geometry
                        +:+ " failed:" +:+ reason)) in
  (1 < length rows ->
   (recoverGeometry self table geometry w).1
   = failed "More than 1 geometry type") /\
  (rows = [] -> (recoverGeometry self table geometry w).1 = Raise IndexError) /\
  (forall ty z dim n, rows = [[ty; z; dim; n]] ->
     ty ∉ Text <$> geom_types.*2 ->
     (recoverGeometry self table geometry w).1 = failed "Not a geometry").
Proof.
  intros Htable Hgeometry Hrows failed. unfold recoverGeometry.
  query Hrows. run.
  split_and!.
  - intros Hl. rewrite bool_decide_true by done. by run.
  - intros ->. by run.
  - intros ty z dim n -> Hty. run.
    rewrite bool_decide_true by done. by run.
Qed.

(** C14: for a column with one kind of geometry, [recoverGeometry] asks
    the engine to register it under the SRID found, or under the SRID of
    the instance when none is found, with the spaces taken out of the
    names of the type and of the dimensions; it returns when the engine
    agrees and raises otherwise. *)
Theorem recoverGeometry_correct self table geometry w ty z dim n :
  is_name table = true -> is_name geometry = true ->
  (inspectGeometry table geometry w).1 = Ok [[Text ty; Int z; Text dim; n]] ->
  ty ∈ geom_types.*2 ->
  let srid := if bool_decide (z <= 0)%Z then srid self else z in
  let st := RecoverGeometryColumn table geometry srid
              (remove_char " " ty) (remove_char " " dim) in
  exists w', recoverGeometry self table geometry w =
    ((v ← (scalar_fetchone st w).1;
      if truthy v then Ok ()
      else Raise (Exception ("Recovery of " +:+ table +:+ "." +:+ geometry
                               +:+ " failed"))), w') /\
    database w' = database (scalar_fetchone st w).2.
Proof.
  intros Htable Hgeometry Hrows Hty srid st. unfold recoverGeometry.
  query Hrows. run.
  rewrite bool_decide_false.
  2:{ intros Hn. apply Hn. by apply list_elem_of_fmap_2. }
  run. subst st srid.
  case_bool_decide; run;
    match goal with |- context [(scalar_fetchone ?st ≫= _) ?w2] =>
      destruct (scalar_fetchone_reads st w w2 eq_refl) as [Hr Hd];
      try rewrite Hr; try rewrite Hd
    end;
    (run_bind Hv; simpl; [|by eexists]);
    destruct (truthy _); run; by eexists.
Qed.

(** C24: [reproject] with [if_exists='fail'] onto a table that exists
    raises before anything is written: the database is as it was. *)
Theorem reproject_exists_fail self inputTable srid outputTable w :
  tidy (database w) -> outputTable <> "" ->
  (tableExists outputTable w).1 = Ok true ->
  exists w', reproject self inputTable srid (Some outputTable) "fail" w =
    (Raise (Exception (outputTable +:+ " already exists !")), w') /\
    database w' = database w.
Proof.
  intros Htidy Hne Hex. unfold reproject. rewrite or_default_Some by done.
  run. query Hex. run. by eexists.
Qed.

Lemma dropTable_reads table : reads database (dropTable (DB:=DB) table).
Proof. unfold dropTable, execute. preserves_tac. Qed.

(** C25: [reproject] with [if_exists='replace'] drops the output table
    before it looks at the input table.  When the name of the input
    table is the name of no table, [getListOfColumns] returns the empty
    tuple, the method raises [TypeError], and the database is left as
    [dropTable] left it: the output table of an earlier run is lost to
    a call that could not have replaced it. *)
Theorem reproject_replace_drops self inputTable srid outputTable w :
  tidy (database w) -> outputTable <> "" -> is_name inputTable = true ->
  (tableExists outputTable w).1 = Ok true ->
  (dropTable outputTable w).1 = Ok () ->
  tidy (database (dropTable outputTable w).2) ->
  (getListOfColumns inputTable false false (dropTable outputTable w).2).1
  = Ok None ->
  exists w', reproject self inputTable srid (Some outputTable) "replace" w =
    (Raise TypeError, w') /\
    database w' = database (dropTable outputTable w).2.
Proof.
  intros Htidy Hne Hin Hex Hdrop Htidy1 Hcols. unfold reproject.
  rewrite or_default_Some by done. autorewrite with py. query Hex.
  cbv beta iota. rewrite (bool_decide_false ("replace" = "fail")) by discriminate.
  rewrite (bool_decide_true ("replace" = "replace")) by done.
  autorewrite with py.
  match goal with |- context [(dropTable _ ≫= _) ?w0] =>
    destruct (dropTable_reads outputTable w0 w eq_refl) as [Hr Hd];
    destruct (dropTable outputTable w0) as [r w1] eqn:Hrun
  end.
  cbn [fst snd] in Hr, Hd. rewrite Hdrop in Hr. subst r.
  step_with Hrun. autorewrite with py.
  match goal with |- context [(getListOfColumns _ _ _ ≫= _) ?w2] =>
    destruct (getListOfColumns_reads inputTable false false w2
                (dropTable outputTable w).2 Hd) as [Hr2 Hd2];
    destruct (getListOfColumns inputTable false false w2) as [r w3] eqn:Hrun2
  end.
  cbn [fst snd] in Hr2, Hd2. rewrite Hcols in Hr2. subst r.
  step_with Hrun2. autorewrite with py.
  eexists. split; [done|]. rewrite Hd2.
  by apply (getListOfColumns_database inputTable false false Hin).
Qed.

(** The index of the frame that [getListOfTables] returns is the
    column of names that the engine answered: the counts of rows and
    the casts leave it as it was. *)
Lemma getListOfTables_index w t' w' :
  getListOfTables w = (Ok t', w') ->
  exists t index,
    (database_execute (sql ListOfTables) w).1 = Ok t /\
    column "f_table_name" t = Ok index /\
    column "f_table_name" t' = Ok index.
Proof.
  unfold getListOfTables.
  intros (t & w1 & Ht & Hrun)%prog_bind_Ok.
  apply prog_bind_Ok in Hrun as (index & w2 & [Hi ->]%lift_result_inv & Hrun).
  apply prog_bind_Ok in Hrun as (counts & w3 & Hc%for_collect_length & Hrun).
  exists t, index. rewrite Ht. split_and!; [done..|].
  assert (column "f_table_name" (set_column "ms_countOf_rows" counts t)
          = Ok index) as Hset.
  { apply column_set_column_all; [done..|].
    by rewrite Hc, (column_Ok_length _ _ _ Hi). }
  case_bool_decide; [|by injection Hrun as <- _].
  apply lift_result_inv in Hrun as [Hcast _].
  apply bind_Ok in Hcast as (t1 & H1 & (t2 & H2 & H3)%bind_Ok).
  rewrite (astype_int_other "f_table_name" "ms_countOf_rows" t2 t')
    by done.
  rewrite (astype_int_other "f_table_name" "ms_countOf_spatial_indexes" t1 t2)
    by done.
  by rewrite (astype_int_other "f_table_name" "ms_countOf_geometries"
                (set_column "ms_countOf_rows" counts t) t1).
Qed.

(** C34: [tableExists] answers by the spelling of the name: when it
    returns, its answer is whether the name occurs, letter for letter,
    among the names that the engine lists.  SQLite finds a table
    whatever the case of the letters of its name, so that a table that
    a statement would find may not exist for [tableExists], and for
    [reproject], which asks it before it creates its output table. *)
Theorem tableExists_correct table w b :
  (tableExists table w).1 = Ok b ->
  exists t index,
    (database_execute (sql ListOfTables) w).1 = Ok t /\
    column "f_table_name" t = Ok index /\
    b = bool_decide (Text table ∈ index).
Proof.
  destruct (tableExists table w) as [r w'] eqn:Hrun. simpl. intros ->.
  unfold tableExists in Hrun.
  apply prog_bind_Ok in Hrun as (t' & w1 & Ht' & Hrun).
  destruct (getListOfTables_index _ _ _ Ht') as (t & index & Ht & Hi & Hi').
  exists t, index. split_and!; [done..|].
  apply prog_bind_Ok in Hrun as (index' & w2 & [Hx ->]%lift_result_inv & Hrun).
  rewrite Hi' in Hx. injection Hx as <-.
  by case_bool_decide; injection Hrun as <- _.
Qed.

(** C38: a name for which [tableExists] answers [True] is a table for
    [getListOfColumns] too.  The converse fails: [tableExists] compares
    the name as it is spelt, [getListOfColumns] without regard to
    case. *)
Theorem tableExists_getListOfColumns table w withLengths withDistincts :
  (tableExists table w).1 = Ok true ->
  (getListOfColumns table withLengths withDistincts w).1 <> Ok None.
Proof.
  intros Hex Hnone.
  destruct (tableExists table w) as [r w1] eqn:Hrun; simpl in Hex; subst r.
  destruct (getListOfColumns _ _ _ w) as [r w2] eqn:Hrun2.
  simpl in Hnone; subst r.
  unfold tableExists in Hrun. unfold getListOfColumns in Hrun2.
  apply prog_bind_Ok in Hrun as (t & w3 & Ht & Hrun).
  rewrite (prog_bind_run _ _ _ _ _ Ht) in Hrun2.
  apply prog_bind_Ok in Hrun as (index & w4 & Hi & Hrun).
  rewrite (prog_bind_run _ _ _ _ _ Hi) in Hrun2.
  destruct (decide (Text table ∈ index)) as [Hin|Hin].
  2:{ rewrite bool_decide_false in Hrun by done. by cbn in Hrun. }
  rewrite bool_decide_false in Hrun2.
  2:{ intros Hn. apply Hn. apply list_elem_of_fmap. by exists (Text table). }
  prog_inv Hrun2. by cbn in Hrun2.
Qed.

(** C5: when [findConnectedComponents] returns, the frame it returns is
    a labelling of the connected components of the edges that the query
    on the input table gave, and it is what the output table now
    holds.  The names of the tables and of the two columns are
    identifiers: the method splices them into its query as they are. *)
Theorem findConnectedComponents_correct
    depth inputTable a b outputTable w df w' :
  is_name inputTable = true -> is_name a = true -> is_name b = true ->
  is_name outputTable = true ->
  findConnectedComponents depth inputTable [a; b] outputTable w = (Ok df, w') ->
  exists t edges,
    (database_execute (sql (SelectEdges a b inputTable)) w).1 = Ok t /\
    frame_edges t = Ok edges /\
    is_labelling edges df /\
    (database_execute (sql (SelectAll outputTable)) w').1 = Ok (frame_of df).
Proof.
  intros Hi Ha Hb Ho. unfold findConnectedComponents. run. intros Hrun.
  apply prog_bind_Ok in Hrun as (t & w1 & Ht & Hrun).
  match type of Ht with database_execute _ ?w2 = _ =>
    pose proof (database_execute_reads_only (SelectEdges a b inputTable) w2
                  ltac:(reads_only_tac)) as Hw1;
    destruct (database_execute_same (sql (SelectEdges a b inputTable)) w w2
                eq_refl) as [Hr _]
  end.
  rewrite Ht in Hw1, Hr. simpl in Hw1, Hr. subst w1.
  apply prog_bind_Ok in Hrun as (edges & w2 & [He ->]%lift_result_inv & Hrun).
  apply prog_bind_Ok in Hrun as (df0 & w3 & (c & Hcc & ->)%on_attrs_inv & Hrun).
  apply prog_bind_Ok in Hrun as ([] & w4 & (d & Hsql & ->)%on_database_inv & Hrun).
  revert Hrun. run. intros [= -> <-].
  exists t, edges. split_and!; [done | done | by eapply run_is_labelling |].
  unfold database_execute, on_database. simpl in *.
  by rewrite (db_to_sql_replace _ _ _ _ Ho Hsql).
Qed.

(** C8: [findConnectedComponents] returns whenever the names in its
    query are identifiers, the query for the edges gives a frame with
    columns [a] and [b], the labeller may use as many frames as there
    are keys, and the engine accepts the output table. *)
Theorem findConnectedComponents_total
    depth inputTable a b outputTable w t edges :
  is_name inputTable = true -> is_name a = true -> is_name b = true ->
  (database_execute (sql (SelectEdges a b inputTable)) w).1 = Ok t ->
  frame_edges t = Ok edges ->
  length (keys_of edges) <= depth ->
  (forall frame d, is_Ok (db_to_sql outputTable frame replace d).1) ->
  exists df w',
    findConnectedComponents depth inputTable [a; b] outputTable w = (Ok df, w').
Proof.
  intros Hi Ha Hb Ht He Hdepth Hsql. unfold findConnectedComponents. run.
  query Ht. rewrite He. run.
  destruct (connectedComponents_returns depth edges (attrs w) Hdepth)
    as (df & c & Hcc).
  match goal with |- context [(on_attrs ?m ≫= ?f) ?w2] =>
    rewrite (prog_bind_run f (on_attrs m) w2 _ _ (on_attrs_run m w2 _ _ Hcc))
  end.
  destruct (db_to_sql outputTable (frame_of df) replace (database w))
    as [r d] eqn:Hd.
  destruct (Hsql (frame_of df) (database w)) as [[] Hr].
  rewrite Hd in Hr. simpl in Hr. subst r.
  match goal with |- context [(on_database ?g ≫= ?f) ?w2] =>
    rewrite (prog_bind_run f (on_database g) w2 _ _
               (on_database_run g w2 _ _ Hd))
  end.
  run. by eexists _, _.
Qed.


(** [loadCsv] with [if_exists='replace'] leaves in the table the
    frame that pandas read from the file: reading the table back, when
    its name is an identifier, gives that frame.  The files are as they
    were. *)
Theorem loadCsv_correct csvFile table readParameters w text frame d :
  is_name table = true ->
  files (system w) !! csvFile = Some (Plain text) ->
  pd_read_csv text readParameters = Ok frame ->
  db_to_sql table frame replace (database w) = (Ok (), d) ->
  exists w', loadCsv csvFile table replace readParameters w = (Ok (), w') /\
    database w' = d /\
    (database_execute (sql (SelectAll table)) w').1 = Ok frame /\
    files (system w') = files (system w).
Proof.
  intros Hn Hf Hcsv Hsql. unfold loadCsv. run.
  match goal with |- context [(on_system ?m ≫= ?f) ?w2] =>
    assert (on_system m w2 = (Ok text, w2)) as Hread
      by (unfold on_system, read_file; simpl; by rewrite Hf);
    rewrite (prog_bind_run f _ _ _ _ Hread)
  end.
  rewrite Hcsv. run.
  match goal with |- context [(on_database ?g ≫= ?f) ?w2] =>
    rewrite (prog_bind_run f (on_database g) w2 _ _
               (on_database_run g w2 _ _ Hsql))
  end.
  run. eexists. split_and!; [done | done | | done].
  unfold database_execute, on_database. simpl.
  by rewrite (db_to_sql_replace _ _ _ _ Hn Hsql).
Qed.

(** C32: [loadCsv] on a path that is no file raises [FileNotFoundError],
    and on a file whose text pandas rejects it raises the error of
    pandas; in both cases the engine is not reached and the database is
    as it was. *)
Theorem loadCsv_Raise csvFile table if_exists readParameters w e :
  (files (system w) !! csvFile = None /\ e = FileNotFoundError) \/
  (exists text, files (system w) !! csvFile = Some (Plain text) /\
                pd_read_csv text readParameters = Raise e) ->
  exists w', loadCsv csvFile table if_exists readParameters w = (Raise e, w') /\
    database w' = database w.
Proof.
  unfold loadCsv. run. intros [[Hf ->] | (text & Hf & Hcsv)].
  - match goal with |- context [(on_system ?m ≫= ?f) ?w2] =>
      assert (on_system m w2 = (Raise FileNotFoundError, w2)) as Hread
        by (unfold on_system, read_file; simpl; by rewrite Hf);
      rewrite (prog_bind_run_Raise f _ _ _ _ Hread)
    end.
    by eexists.
  - match goal with |- context [(on_system ?m ≫= ?f) ?w2] =>
      assert (on_system m w2 = (Ok text, w2)) as Hread
        by (unfold on_system, read_file; simpl; by rewrite Hf);
      rewrite (prog_bind_run f _ _ _ _ Hread)
    end.
    rewrite Hcsv. run. by eexists.
Qed.

(** C26: [executeScript] looks for the script under [../sql/] and
    nowhere else: when there is no such file it raises
    [FileNotFoundError] before the engine is reached, whatever the
    parameters, a parameter [path] included. *)
Theorem executeScript_missing query queryParameters w :
  files (system w) !! ("../sql/" +:+ query +:+ ".sql") = None ->
  (executeScript query queryParameters w).1 = Raise FileNotFoundError /\
  database (executeScript query queryParameters w).2 = database w.
Proof.
  intros Hf. unfold executeScript. run.
  match goal with |- context [(on_system ?m ≫= ?f) ?w2] =>
    assert (on_system m w2 = (Raise FileNotFoundError, w2)) as Hread
      by (unfold on_system, read_file; simpl; by rewrite Hf);
    rewrite (prog_bind_run_Raise f _ _ _ _ Hread)
  end.
  done.
Qed.

(** C40: [dropTable] sends its statement as it is when the name holds no
    brace; the statement goes through [str.format], which a brace in
    the name would stop. *)
Theorem dropTable_correct table w :
  brace_free table = true ->
  (dropTable table w).1 =
    ((database_execute (sql (DropTable table)) w).1 ≫= fun _ => Ok ()) /\
  database (dropTable table w).2 =
    database (database_execute (sql (DropTable table)) w).2.
Proof.
  intros Hb. unfold dropTable, execute. autorewrite with py.
  rewrite str_format_brace_free.
  2:{ unfold sql. by rewrite !brace_free_app, Hb. }
  cbv beta iota. autorewrite with py.
  match goal with |- context [(database_execute ?q ≫= _) ?w2] =>
    destruct (database_execute_same q w w2 eq_refl) as [-> ->]
  end.
  run_bind Hx; by run.
Qed.

End behaviour.

#[local] Transparent geom_types.

(** The table [geom_types] is the coding of SpatiaLite without a
    slip: class plus 1000 times the dimension model, and the compressed
    line strings and polygons; no code and no name occurs twice, and the
    names stay distinct when their spaces are taken out, as
    [recoverGeometry] does. *)
Theorem geom_types_coding :
  geom_types = coded_types /\
  NoDup geom_types.*1 /\
  NoDup (remove_char " " <$> geom_types.*2).
Proof.
  split_and!;
    [vm_compute; reflexivity | apply (bool_decide_unpack _); vm_compute; exact I ..].
Qed.

(** On a database that holds the table [t01_edges], [tableExists]
    denies the table under the name [T01_EDGES], while
    [getListOfColumns] describes it and SQLite would find it: the test
    of [reproject] for an existing output table is blind to a name that
    differs in case. *)
Example tableExists_case_sensitive :
  (tableExists "t01_edges" edges_world).1 = Ok true /\
  (tableExists "T01_EDGES" edges_world).1 = Ok false /\
  (getListOfColumns "T01_EDGES" false false edges_world).1 =
    Ok (Some edges_columns).
Proof. by vm_compute. Qed.

(** ** Examples *)

Lemma queries_change_nothing_witness :
  (getListOfTables edges_world).2 = edges_world /\
  (tableExists "t01_edges" edges_world).2 = edges_world /\
  (getColumnMaxLength "t01_edges" "a" edges_world).2 = edges_world.
Proof.
  destruct (queries_change_nothing edges_world "t01_edges" "a" "geometry")
    as (_ & Hmax & _ & _ & _ & _ & Hlist & Hexists & _);
    [reflexivity | reflexivity | reflexivity
    | apply store_tidy; vm_compute; reflexivity |].
  by split_and!.
Defined.

Lemma checksForTable_correct_witness :
  (checksForTable "t01_edges" edges_world).1 = Ok true.
Proof.
  etrans; [apply checksForTable_correct; reflexivity | by vm_compute].
Defined.

Lemma correctGeometry_correct_witness :
  exists w', correctGeometry "test_geometry" "geometry" invalid_world = (Ok (), w') /\
    database w' = database invalid_world /\
    fst <$> last (logged (system w')) = Some WARNING.
Proof.
  destruct (correctGeometry_correct "test_geometry" "geometry" invalid_world
              1 1) as (w' & Hrun & Hd & Hlog);
    [reflexivity | reflexivity | by vm_compute | intros _; by eexists
    | by vm_compute |].
  exists w'. split_and!; [done | by rewrite Hd | by rewrite Hlog].
Defined.

Lemma recoverGeometry_rejects_witness :
  (recoverGeometry (mkGeodatabase 31370) "t" "geometry" mixed_world).1 =
  Raise (Exception "Recovery of t.geometry failed:More than 1 geometry type").
Proof.
  refine (proj1 (recoverGeometry_rejects (mkGeodatabase 31370) "t" "geometry"
                   mixed_world _ _ _ _) _);
    [reflexivity | reflexivity | by vm_compute | simpl; lia].
Defined.

Lemma recoverGeometry_correct_witness :
  exists w', recoverGeometry (mkGeodatabase 31370) "t" "geometry" polygons_world
             = (Ok (), w') /\
    database w' = database polygons_world.
Proof.
  destruct (recoverGeometry_correct (mkGeodatabase 31370) "t" "geometry"
              polygons_world "POLYGON Z" 0 "XYZ" (Int 3))
    as (w' & Hrun & Hd);
    [reflexivity | reflexivity | by vm_compute | vm_compute; set_solver |].
  exists w'. split; [by rewrite Hrun | by rewrite Hd].
Defined.

Lemma reproject_exists_fail_witness :
  exists w', reproject (mkGeodatabase 31370) "zones" 4326 (Some "t01_edges")
               "fail" edges_world =
    (Raise (Exception "t01_edges already exists !"), w') /\
    database w' = database edges_world.
Proof.
  apply (reproject_exists_fail (mkGeodatabase 31370) "zones" 4326 "t01_edges"
           edges_world);
    [apply store_tidy; vm_compute; reflexivity | done | by vm_compute].
Defined.

Lemma tableExists_getListOfColumns_witness :
  (getListOfColumns "t01_edges" true true edges_world).1 <> Ok None.
Proof. apply tableExists_getListOfColumns. by vm_compute. Defined.

Lemma findConnectedComponents_correct_witness :
  exists t edges,
    (database_execute (sql (SelectEdges "a" "b" "t01_edges")) edges_world).1
    = Ok t /\
    frame_edges t = Ok edges /\
    is_labelling edges
      (mkDataFrame
         [Text "A"; Text "F"; Text "B"; Text "D"; Text "C"; Text "E"; Text "G"]
         [5; 6; 5; 5; 5; 5; 6]) /\
    (database_execute (sql (SelectAll "t02_cc"))
       (findConnectedComponents 7 "t01_edges" ["a"; "b"] "t02_cc"
          edges_world).2).1 =
    Ok (frame_of
          (mkDataFrame
             [Text "A"; Text "F"; Text "B"; Text "D"; Text "C"; Text "E";
              Text "G"]
             [5; 6; 5; 5; 5; 5; 6])).
Proof.
  apply (findConnectedComponents_correct 7 "t01_edges" "a" "b" "t02_cc"
           edges_world); [reflexivity.. |].
  by vm_compute.
Defined.

Lemma findConnectedComponents_total_witness :
  exists df w',
    findConnectedComponents 7 "t01_edges" ["a"; "b"] "t02_cc" edges_world
    = (Ok df, w').
Proof.
  apply (findConnectedComponents_total 7 "t01_edges" "a" "b" "t02_cc"
           edges_world df_edges
           [(Text "A", Text "B"); (Text "A", Text "D"); (Text "B", Text "C");
            (Text "B", Text "E"); (Text "F", Text "G")]);
    [reflexivity | reflexivity | reflexivity | by vm_compute | by vm_compute
    | vm_compute; lia |].
  intros frame d. simpl. unfold store_to_sql.
  destruct (find_table "t02_cc" d); by eexists.
Defined.

Lemma executeScript_missing_witness :
  (executeScript "test_script" [("path", "/tmp/tmpdir")] (world_of empty_store)).1
  = Raise FileNotFoundError /\
  database (executeScript "test_script" [("path", "/tmp/tmpdir")]
              (world_of empty_store)).2
  = database (world_of empty_store).
Proof. apply executeScript_missing. by vm_compute. Defined.

Lemma dropTable_correct_witness :
  (dropTable "t01_edges" edges_world).1 =
    ((database_execute (sql (DropTable "t01_edges")) edges_world).1
       ≫= fun _ => Ok ()) /\
  database (dropTable "t01_edges" edges_world).2 =
    database (database_execute (sql (DropTable "t01_edges")) edges_world).2.
Proof. apply dropTable_correct. by vm_compute. Defined.

Lemma loadCsv_correct_witness :
  exists w', loadCsv "data/t_sex.csv" "t_sex" replace [("sep", "|")] csv_world
             = (Ok (), w') /\
    (database_execute (sql (SelectAll "t_sex")) w').1 = Ok t_sex /\
    files (system w') = files (system csv_world).
Proof.
  destruct (loadCsv_correct "data/t_sex.csv" "t_sex" [("sep", "|")] csv_world
              t_sex_csv t_sex
              (db_to_sql "t_sex" t_sex replace (database csv_world)).2)
    as (w' & Hrun & _ & Hread & Hfiles); [reflexivity | by vm_compute..|].
  by exists w'.
Defined.

Lemma loadCsv_Raise_witness :
  exists w', loadCsv "data/t_age.csv" "t_age" replace [] csv_world
             = (Raise FileNotFoundError, w') /\
    database w' = database csv_world.
Proof.
  apply (loadCsv_Raise "data/t_age.csv" "t_age" replace [] csv_world). by left.
Defined.


Lemma tableExists_correct_witness :
  exists t index,
    (database_execute (sql ListOfTables) edges_world).1 = Ok t /\
    column "f_table_name" t = Ok index /\
    false = bool_decide (Text "T01_EDGES" ∈ index).
Proof. apply (tableExists_correct "T01_EDGES" edges_world). by vm_compute. Defined.

Lemma reproject_replace_drops_witness :
  exists w', reproject (mkGeodatabase 31370) "zones" 4326 (Some "t01_edges")
               "replace" edges_world = (Raise TypeError, w') /\
    database w' = database (dropTable "t01_edges" edges_world).2.
Proof.
  apply (reproject_replace_drops (mkGeodatabase 31370) "zones" 4326
           "t01_edges" edges_world);
    [apply store_tidy; vm_compute; reflexivity | done | done | by vm_compute
    | by vm_compute | apply store_tidy; vm_compute; reflexivity
    | by vm_compute].
Defined.

(** After that call the table [t01_edges] is no table of the
    database. *)
Example reproject_replace_drops_table :
  (tableExists "t01_edges" edges_world).1 = Ok true /\
  (tableExists "t01_edges"
     (reproject (mkGeodatabase 31370) "zones" 4326 (Some "t01_edges")
        "replace" edges_world).2).1 = Ok false.
Proof. by vm_compute. Qed.
