(* ===== verification/Export.v ===== *)
(** * Export: [toCsv] and [toSas]

    [toCsv] writes a table as a [|]-separated text into a zip archive;
    [toSas] writes the SAS program that reads that archive back.  The
    theorems state what each writes as a function of what the engine
    answers; the two agree on the columns when the engine lists for a
    table the columns of the frame it returns for it
    ([export_agree]).

    A dictionary whose order matters ([structure] in [toSas]) is a list
    of pairs with distinct keys; [dict_set] and [dict_del] are item
    assignment and [del]. *)

From Stdlib Require Import Ascii.
From stdpp Require Import base option list gmap strings pretty.
From S2P Require Import Prelude Strings Components Engine Store Geodatabase.

#[local] Open Scope string_scope.
#[local] Open Scope list_scope.

(** ** The csv text *)

Definition is_special (c : ascii) : bool :=
  bool_decide (c = "|"%char) || bool_decide (c = ascii_of_N 34)
  || bool_decide (c = ascii_of_N 10) || bool_decide (c = ascii_of_N 13).

Fixpoint double_quotes (s : string) : string :=
  match s with
  | EmptyString => EmptyString
  | String c s' =>
      if bool_decide (c = ascii_of_N 34)
      then String c (String c (double_quotes s'))
      else String c (double_quotes s')
  end.

(** A field as the csv writer puts it: quoted when it holds the
    separator, a quote or a line end, with its quotes doubled. *)
Definition csv_text (s : string) : string :=
  if forallb_string (fun c => negb (is_special c)) s then s
  else dq +:+ double_quotes s +:+ dq.

(** A missing value is written as nothing. *)
Definition csv_field (v : value) : string :=
  match v with Null => "" | _ => csv_text (str v) end.

Definition csv_line (fields : list string) : string :=
  join "|" fields +:+ line_feed.

(** [frame.to_csv(sep='|', index=False)] with the line end of POSIX. *)
Definition to_csv (t : table) : string :=
  csv_line (csv_text <$> columns t)
    +:+ String.concat "" ((fun r => csv_line (csv_field <$> r)) <$> tuples t).

(** ** Ordered dictionaries *)

Definition dict_set (k v : string) (d : list (string * string))
  : list (string * string) :=
  if decide (k ∈ d.*1)
  then (fun kv => if decide (kv.1 = k) then (k, v) else kv) <$> d
  else d ++ [(k, v)].

Definition dict_del (k : string) (d : list (string * string))
  : list (string * string) :=
  filter (fun kv => kv.1 <> k) d.

(** ** The SAS program *)

(** The length that [toSas] declares for a column of a type. *)
Definition sas_length (cd_column_type ms_max_length : value) : string :=
  if bool_decide (cd_column_type ∈ [Text "TEXT"; Text "BLOB"; Text ""])
  then "$" +:+ str ms_max_length
  else if bool_decide (cd_column_type ∈
            [Text "INTEGER"; Text "DOUBLE"; Text "REAL"; Text "INT"; Text "NUM"])
       then "8"
       else "Unknown".

(** [row.name] for a row of a frame. *)
Definition field (name : string) (t : table) (r : row) : result value :=
  match list_find (fun c => c = name) (columns t) with
  | None => Raise AttributeError
  | Some (i, _) => getitem r i
  end.

(** The first loop of [toSas]: one entry for each column. *)
Definition sas_structure (t : table) : result (list (string * string)) :=
  foldl (fun acc r =>
           structure ← acc;
           Index ← field "tx_column_name" t r;
           cd_column_type ← field "cd_column_type" t r;
           ms_max_length ← field "ms_max_length" t r;
           Ok (dict_set (str Index) (sas_length cd_column_type ms_max_length)
                        structure))
        (Ok []) (tuples t).

(** The second loop: the excluded columns are deleted. *)
Definition sas_exclude (columnsToExclude : list string)
    (structure : list (string * string)) : list (string * string) :=
  foldl (fun s d => dict_del d s) structure
        (filter (fun c => c ∈ columnsToExclude) structure.*1).

Definition sas_program (archive_name table : string)
    (structure : list (string * string)) : string :=
  "filename myZip ZIP '" +:+ archive_name +:+ ".zip';" +:+ line_feed
  +:+ "data " +:+ table +:+ "(compress=YES);" +:+ line_feed
  +:+ "length " +:+ line_feed
  +:+ String.concat ""
        ((fun kv => "        " +:+ ljust 40 kv.1 +:+ "    " +:+ ljust 10 kv.2
                      +:+ line_feed) <$> structure)
  +:+ "        ;" +:+ line_feed
  +:+ "infile myZip(" +:+ table
  +:+ ".csv) dsd delimiter='|' encoding='utf8' firstobs=2 missover lrecl=10000;"
  +:+ line_feed
  +:+ "input" +:+ line_feed
  +:+ String.concat ""
        ((fun kv => "        " +:+ ljust 40 kv.1 +:+ line_feed) <$> structure)
  +:+ "        ;" +:+ line_feed
  +:+ "run;" +:+ line_feed.

(** The first loop as a comprehension: one entry for each row. *)
Definition sas_entries (t : table) : result (list (string * string)) :=
  mapM (M:=result)
       (fun r => Index ← field "tx_column_name" t r;
                 cd_column_type ← field "cd_column_type" t r;
                 ms_max_length ← field "ms_max_length" t r;
                 Ok (str Index, sas_length cd_column_type ms_max_length))
       (tuples t).

(** What the two methods agree on, as a reference: the columns that are
    exported. *)
Definition exported (columnsToExclude columns : list string) : list string :=
  filter (fun c => c ∉ columnsToExclude) columns.

(** A table for the examples: the output of a point-in-polygon join,
    with a geometry. *)
Definition pip_table : table :=
  Table ["id_rec"; "name"; "geometry"]
        [ [Int 1; Text "north"; Text "POINT(0 0)"];
          [Int 2; Text "south|east"; Text "POINT(1 1)"] ].

Definition pip_world : world store :=
  world_of (holding {[ "t03_pip" := pip_table ]} ∅).

(** What [getListOfColumns] says of it, with the lengths. *)
Definition pip_listing : table :=
  Table ["tx_column_name"; "cd_column_type"; "fl_notnull_constraint";
         "default_value"; "fl_primary_key"; "ms_max_length"]
        [ [Text "id_rec"; Text "INTEGER"; Int 0; Null; Int 0; Int 1];
          [Text "name"; Text "TEXT"; Int 0; Null; Int 0; Int 10];
          [Text "geometry"; Text "TEXT"; Int 0; Null; Int 0; Int 10] ].

Definition pip_entries : list (string * string) :=
  [("id_rec", "8"); ("name", "$10"); ("geometry", "$10")].

(** The csv text of the table without its geometry: the second name
    holds the separator and is quoted. *)
Definition pip_csv : string :=
  "id_rec|name" +:+ line_feed +:+ "1|north" +:+ line_feed
    +:+ "2|" +:+ dq +:+ "south|east" +:+ dq +:+ line_feed.

Section export.
Context `{Engine DB} `{!PySet value}.

#[local] Notation "'method'" := (prog (world DB)).

Definition toCsv (table : string) (archive_name : option string)
    (mode : open_mode) (outputDirectory : string)
    (columnsToExclude : list string) : method unit :=
  logging_info (table +:+ ":toCsv:start");;
  let archive_name := or_default archive_name table in
  df ← database_execute (sql (SelectAll table));
  let columnsToExport :=
    filter (fun col => col ∉ columnsToExclude) (columns df) in
  on_system (write_zip (outputDirectory +:+ "/" +:+ archive_name +:+ ".zip")
               (table +:+ ".csv")
               (to_csv (keep_columns
                          (fun col => bool_decide (col ∈ columnsToExport)) df))
               mode);;
  logging_info (table +:+ ":toCsv:end").

Definition toSas (table : string) (archive_name : option string)
    (outputDirectory : string) (columnsToExclude : list string)
  : method unit :=
  logging_info (table +:+ ":toSas:start");;
  let archive_name := or_default archive_name table in
  listOfColumns ← getListOfColumns table true false;
  structure ← match listOfColumns with
              | None => raise AttributeError
              | Some t => lift_result (sas_structure t)
              end;
  let structure := sas_exclude columnsToExclude structure in
  on_system (write_file (outputDirectory +:+ "/" +:+ table +:+ ".sas")
               (sas_program archive_name table structure));;
  logging_info (table +:+ ":toSas:end").

End export.

(** ** Lemmas *)

Lemma foldl_dict_del ks d :
  foldl (fun s k => dict_del k s) d ks = filter (fun kv => kv.1 ∉ ks) d.
Proof.
  revert d. induction ks as [|k ks IH]; intros d; simpl.
  - induction d as [|kv d IHd]; [done|].
    rewrite filter_cons_True by apply not_elem_of_nil. by rewrite <- IHd.
  - rewrite IH. unfold dict_del. rewrite list_filter_filter.
    apply list_filter_iff. intros kv. rewrite not_elem_of_cons. tauto.
Qed.

Lemma sas_exclude_filter columnsToExclude structure :
  sas_exclude columnsToExclude structure =
  filter (fun kv => kv.1 ∉ columnsToExclude) structure.
Proof.
  unfold sas_exclude. rewrite foldl_dict_del.
  apply filter_ext_in. intros kv Hkv. rewrite list_elem_of_filter.
  split; [|tauto]. intros Hn Hex. apply Hn. split; [done|].
  apply list_elem_of_fmap. by exists kv.
Qed.

Lemma dict_set_fresh k v d : k ∉ d.*1 -> dict_set k v d = d ++ [(k, v)].
Proof. intros Hk. unfold dict_set. by rewrite decide_False. Qed.

Lemma sas_structure_entries_from t rows acc es :
  mapM (M:=result)
       (fun r => Index ← field "tx_column_name" t r;
                 cd_column_type ← field "cd_column_type" t r;
                 ms_max_length ← field "ms_max_length" t r;
                 Ok (str Index, sas_length cd_column_type ms_max_length))
       rows = Ok es ->
  NoDup (acc.*1 ++ es.*1) ->
  foldl (fun acc r =>
           structure ← acc;
           Index ← field "tx_column_name" t r;
           cd_column_type ← field "cd_column_type" t r;
           ms_max_length ← field "ms_max_length" t r;
           Ok (dict_set (str Index) (sas_length cd_column_type ms_max_length)
                        structure))
        (Ok acc) rows = Ok (acc ++ es).
Proof.
  revert acc es. induction rows as [|r rows IH]; intros acc es; simpl.
  - intros [= <-] _. by rewrite app_nil_r.
  - destruct (field "tx_column_name" t r) as [i|]; simpl; [|done].
    destruct (field "cd_column_type" t r) as [ty|]; simpl; [|done].
    destruct (field "ms_max_length" t r) as [len|]; simpl; [|done].
    destruct (mapM _ rows) as [es'|] eqn:Hes; simpl; [|done].
    intros [= <-] Hnd. simpl in Hnd.
    rewrite dict_set_fresh.
    2:{ apply NoDup_app in Hnd as (_ & Hd & _). intros Hi.
        apply (Hd _ Hi). left. }
    rewrite (IH _ es' eq_refl); [by rewrite <- app_assoc|].
    by rewrite fmap_app, <- app_assoc.
Qed.

Lemma sas_structure_entries t es :
  sas_entries t = Ok es -> NoDup es.*1 -> sas_structure t = Ok es.
Proof.
  intros Hes Hnd. unfold sas_structure.
  by rewrite (sas_structure_entries_from t (tuples t) [] es).
Qed.

Lemma columns_keep_columns keep t :
  columns (keep_columns keep t) = filter (fun c => keep c = true) (columns t).
Proof. done. Qed.

Lemma keep_columns_ext keep keep' t :
  (forall c, c ∈ columns t -> keep c = keep' c) ->
  keep_columns keep t = keep_columns keep' t.
Proof.
  intros Hk. unfold keep_columns.
  assert (keep <$> columns t = keep' <$> columns t) as ->.
  { apply list_fmap_ext. intros i c Hc. apply Hk. by eapply list_elem_of_lookup_2. }
  f_equal. apply filter_ext_in. intros c Hc. by rewrite (Hk c Hc).
Qed.

Lemma fmap_fst_filter (ex : list string) (d : list (string * string)) :
  (filter (fun kv => kv.1 ∉ ex) d).*1 = filter (fun c => c ∉ ex) d.*1.
Proof.
  induction d as [|kv d IH]; [done|].
  rewrite fmap_cons, !filter_cons.
  case_decide; [rewrite fmap_cons|]; by rewrite IH.
Qed.

#[local] Arguments bool_decide : simpl never.
#[local] Arguments decide : simpl never.

Section export_theorems.
Context `{Engine DB} `{!PySet value}.
Implicit Types w : world DB.

(** C29: the dictionary that [toSas] builds in two loops is the
    comprehension one expects: one entry for each column that is not
    excluded, in the order of the table, with the length that the type
    of the column calls for. *)
Theorem toSas_structure t es columnsToExclude :
  sas_entries t = Ok es -> NoDup es.*1 ->
  sas_exclude columnsToExclude <$> sas_structure t =
  Ok (filter (fun kv => kv.1 ∉ columnsToExclude) es).
Proof.
  intros Hes Hnd. rewrite (sas_structure_entries t es Hes Hnd). simpl.
  by rewrite sas_exclude_filter.
Qed.

(** C9: [toCsv] reads the table once and writes one member, named after
    the table, into the archive named after [archive_name]: the text of
    the columns that are not excluded.  With mode ['a'] the member is
    added to those of the archive.  The database is not changed.  The
    name of the table is an identifier. *)
Theorem toCsv_correct
    table archive_name mode outputDirectory columnsToExclude w df :
  let path :=
    outputDirectory +:+ "/" +:+ or_default archive_name table +:+ ".zip" in
  is_name table = true ->
  (database_execute (sql (SelectAll table)) w).1 = Ok df ->
  path ∉ read_only (system w) ->
  (forall text, files (system w) !! path = Some (Plain text) -> mode = mode_w) ->
  exists w',
    toCsv table archive_name mode outputDirectory columnsToExclude w
    = (Ok (), w') /\
    database w' = database w /\
    files (system w') !! path =
      Some (Zip (members_before mode (files (system w) !! path)
                 ++ [(table +:+ ".csv",
                      to_csv (keep_columns
                                (fun c => bool_decide (c ∉ columnsToExclude))
                                df))])).
Proof.
  intros path Hn Hdf Hro Hplain. unfold toCsv. run. query Hdf. run.
  fold path.
  rewrite (keep_columns_ext _ (fun c => bool_decide (c ∉ columnsToExclude))).
  2:{ intros c Hc. apply bool_decide_ext. rewrite list_elem_of_filter. tauto. }
  match goal with |- context [(on_system ?m ≫= ?f) ?w2] =>
    rewrite (prog_bind_run f (on_system m) w2 _ _
               (on_system_run m w2 _ _
                  (write_zip_run _ _ _ _ (system w2) Hro Hplain)))
  end.
  run. eexists; split_and!; [done | done | simpl; by rewrite lookup_insert_eq].
Qed.

(** C18: [toSas] writes its program to the file named after the table,
    and the program names the archive and the member that [toCsv]
    writes and declares the columns that are not excluded.  The
    database, whose tables and columns have names that are identifiers,
    is not changed. *)
Theorem toSas_correct
    table archive_name outputDirectory columnsToExclude w t es :
  let path := outputDirectory +:+ "/" +:+ table +:+ ".sas" in
  is_name table = true -> tidy (database w) ->
  (getListOfColumns table true false w).1 = Ok (Some t) ->
  sas_entries t = Ok es -> NoDup es.*1 ->
  path ∉ read_only (system w) ->
  exists w',
    toSas table archive_name outputDirectory columnsToExclude w = (Ok (), w') /\
    database w' = database w /\
    files (system w') !! path =
      Some (Plain (sas_program (or_default archive_name table) table
                     (filter (fun kv => kv.1 ∉ columnsToExclude) es))).
Proof.
  intros path Hn Htidy Ht Hes Hnd Hro. unfold toSas. run.
  match goal with |- context [(getListOfColumns ?a ?b ?c ≫= _) ?w2] =>
    destruct (getListOfColumns_reads a b c w w2 eq_refl) as [Hr _];
    pose proof (getListOfColumns_database a b c Hn w2 Htidy) as Hd;
    injection (getListOfColumns_file_system a b c w2) as Hf Hp
  end.
  run_bind Hx; rewrite Ht in Hr; simplify_eq/=.
  run. rewrite (sas_structure_entries t es Hes Hnd). run.
  rewrite sas_exclude_filter. fold path.
  assert (path ∉ read_only (system w0)) as Hro' by (by rewrite Hp).
  match goal with |- context [(on_system ?m ≫= ?f) ?w2] =>
    rewrite (prog_bind_run f (on_system m) w2 _ _
               (on_system_run m w2 _ _ (write_file_run _ _ (system w2) Hro')))
  end.
  run. eexists; split_and!; [done | done | simpl; by rewrite lookup_insert_eq].
Qed.

(** The two exports agree on the columns: a structure that names the
    columns of a frame names, once the excluded columns are dropped,
    the columns of the frame that [toCsv] writes, in the same order. *)
Lemma export_agree df structure columnsToExclude :
  structure.*1 = columns df ->
  (sas_exclude columnsToExclude structure).*1 =
  columns (keep_columns (fun c => bool_decide (c ∉ columnsToExclude)) df).
Proof.
  intros Hcols. rewrite sas_exclude_filter, columns_keep_columns, <- Hcols.
  rewrite fmap_fst_filter.
  apply list_filter_iff. intros c. by rewrite bool_decide_eq_true.
Qed.

End export_theorems.

(** ** Examples *)

Lemma toSas_structure_witness :
  sas_exclude ["geometry"] <$> sas_structure pip_listing =
  Ok [("id_rec", "8"); ("name", "$10")].
Proof.
  rewrite (toSas_structure pip_listing pip_entries ["geometry"]);
    [by vm_compute | by vm_compute |].
  apply (bool_decide_unpack _). by vm_compute.
Defined.

Lemma toCsv_correct_witness :
  exists w', toCsv "t03_pip" (Some "export") mode_w "out" ["geometry"] pip_world
             = (Ok (), w') /\
    database w' = database pip_world /\
    files (system w') !! "out/export.zip" = Some (Zip [("t03_pip.csv", pip_csv)]).
Proof.
  destruct (toCsv_correct "t03_pip" (Some "export") mode_w "out" ["geometry"]
              pip_world pip_table) as (w' & Hrun & Hd & Hf);
    [reflexivity | by vm_compute | vm_compute; set_solver | done |].
  exists w'. split_and!; [done | done |]. etrans; [exact Hf | by vm_compute].
Defined.

Lemma toSas_correct_witness :
  exists w', toSas "t03_pip" (Some "export") "out" ["geometry"] pip_world
             = (Ok (), w') /\
    database w' = database pip_world /\
    files (system w') !! "out/t03_pip.sas" =
      Some (Plain (sas_program "export" "t03_pip"
                     [("id_rec", "8"); ("name", "$10")])).
Proof.
  destruct (toSas_correct "t03_pip" (Some "export") "out" ["geometry"]
              pip_world pip_listing pip_entries) as (w' & Hrun & Hd & Hf);
    [reflexivity | apply store_tidy; vm_compute; reflexivity
    | by vm_compute | by vm_compute
    | apply (bool_decide_unpack _); by vm_compute
    | vm_compute; set_solver |].
  exists w'. split_and!; [done | done |]. etrans; [exact Hf | by vm_compute].
Defined.
