(* ===== verification/Functions.v ===== *)
(** * Functions: [download] and [unzip] of [src/functions.py]

    The two functions work on the files of the operating system; the
    state is the [os] of [Engine.v].  The network is a function from a
    URL to what [requests.get] returns or raises, a parameter of
    [download].

    [download] checks that the destination can be written by opening it
    for writing, which creates it or cuts it to nothing, and only then
    asks the network.  The theorems follow what that does to the file in
    every outcome of the request.  [unzip] is two calls of the library
    [zipfile], whose operations are in [Engine.v]. *)

From Stdlib Require Import Ascii.
From stdpp Require Import base option list gmap strings pretty.
From S2P Require Import Prelude Strings Components Engine.

#[local] Open Scope string_scope.
#[local] Open Scope list_scope.

(** What [requests.get] returns. *)
Record response : Type := Response {
  status_code : Z;
  content : string
}.

(** [try: body except IOError: handler]: the errors of the file system
    are caught, any other passes. *)
Definition is_IOError (e : error) : bool :=
  match e with
  | FileNotFoundError | PermissionError => true
  | _ => false
  end.

Definition try_except_IOError {S A} (body : prog S A) (handler : prog S A)
  : prog S A :=
  fun s => match body s with
           | (Raise e, s') => if is_IOError e then handler s' else (Raise e, s')
           | r => r
           end.

(** What a block that may [return] leaves to the rest of the function:
    nothing, or the value to return. *)
Inductive outcome (A : Type) : Type :=
| Continue
| Return (a : A).
Arguments Continue {A}.
Arguments Return {A} a.

Section functions.
Context (requests_get : string -> option string -> result response).

(** The check of write access: [with open(destination, 'w') as f: pass]
    under [try], with the handler that logs and returns [False]. *)
Definition check_write_access (destination : string) : prog os (outcome bool) :=
  try_except_IOError
    (write_file destination "";; mret Continue)
    (logging ERROR ("Impossible to create " +:+ destination);;
     mret (Return false)).

Definition download (url destination if_exists : string)
    (proxies : option string) : prog os bool :=
  exists_ ← os_path_exists destination;
  if exists_ && bool_decide (if_exists = "exit")
  then logging WARNING
         ("Request aborted: " +:+ destination +:+ " already exists.");;
       mret false
  else
    checked ← check_write_access destination;
    match checked with
    | Return b => mret b
    | Continue =>
        logging INFO ("Download of " +:+ url +:+ " starts");;
        r ← lift_result (requests_get url proxies);
        if bool_decide (status_code r <> 200%Z)
        then logging ERROR ("Request failed with status code "
                              +:+ str_Z (status_code r) +:+ ".");;
             mret false
        else write_file destination (content r);;
             logging INFO ("Download of " +:+ url +:+ "->" +:+ destination
                             +:+ " completed successfully.");;
             mret true
    end.

End functions.

(** The guard of [download]: the request is made unless the file exists
    and [if_exists] is ['exit']. *)
Definition proceeds (destination if_exists : string) (o : os) : Prop :=
  files o !! destination = None \/ if_exists <> "exit".

(** The state of a download when the request leaves: the destination is
    an empty file and the start is on record. *)
Definition started (url destination : string) (o : os) : os :=
  log_record INFO ("Download of " +:+ url +:+ " starts")
    (OS (<[destination := Plain ""]> (files o)) (read_only o) (logged o)
        (stdout o)).

(** [unzip]: the archive is opened for reading and all its members are
    extracted below the directory.  Nothing is caught: an archive that
    is missing, a file that is no archive and a member that cannot be
    written raise what the library raises. *)
Definition unzip (zipped unzipped : string) : prog os unit :=
  myzip ← zipfile_ZipFile zipped;
  extractall unzipped myzip.

(** ** Examples: a server that has the file, and one that has not *)

Definition server_ok (url : string) (proxies : option string)
  : result response := Ok (Response 200 "zip-bytes").

Definition server_404 (url : string) (proxies : option string)
  : result response := Ok (Response 404 "not found").

Definition disk_with_old_file : os :=
  OS {[ "data/zones.zip" := Plain "old-bytes" ]} ∅ [] [].

Definition empty_disk : os := OS ∅ ∅ [] [].

(** An archive with a directory, a member below it, a member that names
    a place outside the directory it is extracted to, and one more. *)
Definition archive : list (string * string) :=
  [("shp/", ""); ("shp/zones.dbf", "dbf"); ("../zones.prj", "prj");
   ("zones.shp", "shp")].

(** ** Lemmas *)

#[local] Arguments bool_decide : simpl never.

Lemma proceeds_guard destination if_exists o :
  proceeds destination if_exists o ->
  bool_decide (is_Some (files o !! destination))
    && bool_decide (if_exists = "exit") = false.
Proof.
  intros [Hnone | Hne].
  - rewrite Hnone. rewrite bool_decide_false; [done|]. by intros [? ?].
  - rewrite (bool_decide_false (if_exists = "exit")) by done.
    by rewrite andb_false_r.
Qed.

Lemma logging_run l msg o : logging l msg o = (Ok (), log_record l msg o).
Proof. done. Qed.

Section download.
Context (requests_get : string -> option string -> result response).

Lemma check_write_access_run destination o :
  destination ∉ read_only o ->
  check_write_access destination o =
  (Ok Continue, OS (<[destination := Plain ""]> (files o)) (read_only o)
                   (logged o) (stdout o)).
Proof.
  intros Hro. unfold check_write_access, try_except_IOError.
  unfold mbind at 1, prog_bind. by rewrite write_file_run.
Qed.

Lemma check_write_access_denied destination o :
  destination ∈ read_only o ->
  check_write_access destination o =
  (Ok (Return false),
   log_record ERROR ("Impossible to create " +:+ destination) o).
Proof.
  intros Hro. unfold check_write_access, try_except_IOError, write_file.
  unfold mbind at 1, prog_bind. by rewrite decide_True.
Qed.

(** A download that reaches the network: what is left to run once the
    response is there. *)
Lemma download_run url destination if_exists proxies o r :
  proceeds destination if_exists o ->
  destination ∉ read_only o ->
  requests_get url proxies = Ok r ->
  download requests_get url destination if_exists proxies o =
  (if bool_decide (status_code r <> 200%Z)
   then logging ERROR ("Request failed with status code "
                         +:+ str_Z (status_code r) +:+ ".");;
        mret false
   else write_file destination (content r);;
        logging INFO ("Download of " +:+ url +:+ "->" +:+ destination
                        +:+ " completed successfully.");;
        mret true) (started url destination o).
Proof.
  intros Hgo Hro Hget. unfold download, os_path_exists.
  unfold mbind at 1, prog_bind. rewrite proceeds_guard by done.
  rewrite (prog_bind_run _ _ _ _ _ (check_write_access_run _ _ Hro)).
  rewrite (prog_bind_run _ _ _ _ _ (logging_run _ _ _)), Hget.
  by autorewrite with py.
Qed.

(** C16: a download that succeeds returns [True] and leaves the content
    of the response in the destination; no other file is touched. *)
Theorem download_correct url destination if_exists proxies o r :
  proceeds destination if_exists o ->
  destination ∉ read_only o ->
  requests_get url proxies = Ok r -> status_code r = 200%Z ->
  exists o', download requests_get url destination if_exists proxies o
             = (Ok true, o') /\
    files o' = <[destination := Plain (content r)]> (files o).
Proof.
  intros Hgo Hro Hget Hst. rewrite (download_run _ _ _ _ _ r) by done.
  rewrite bool_decide_false by (intros Hn; by apply Hn).
  rewrite (prog_bind_run _ _ _ _ _
             (write_file_run destination _ (started url destination o) Hro)).
  eexists. split; [done|]. simpl. by rewrite insert_insert_eq.
Qed.

(** C17: a download that the server refuses returns [False], and the
    destination is then an empty file: the file that was there before,
    if any, has lost its content to the check of write access. *)
Theorem download_refused_truncates url destination if_exists proxies o r :
  proceeds destination if_exists o ->
  destination ∉ read_only o ->
  requests_get url proxies = Ok r -> status_code r <> 200%Z ->
  exists o', download requests_get url destination if_exists proxies o
             = (Ok false, o') /\
    files o' = <[destination := Plain ""]> (files o).
Proof.
  intros Hgo Hro Hget Hst. rewrite (download_run _ _ _ _ _ r) by done.
  rewrite bool_decide_true by done. by eexists.
Qed.

(** C37: with [if_exists='exit'] a destination that exists stops the
    download before the network is asked: [False] is returned, no file
    is changed, and a warning is logged.  After a refused download the
    destination exists, so the next attempt stops here. *)
Theorem download_exit url destination proxies o :
  is_Some (files o !! destination) ->
  download requests_get url destination "exit" proxies o =
  (Ok false,
   log_record WARNING
     ("Request aborted: " +:+ destination +:+ " already exists.") o).
Proof.
  intros Hex. unfold download, os_path_exists.
  unfold mbind at 1, prog_bind. by rewrite !bool_decide_true.
Qed.

End download.

(** ** Examples *)

Lemma download_correct_witness :
  exists o', download server_ok "http://host/zones.zip" "data/zones.zip"
               "replace" None disk_with_old_file = (Ok true, o') /\
    files o' = <[ "data/zones.zip" := Plain "zip-bytes" ]>
                 (files disk_with_old_file).
Proof.
  apply (download_correct server_ok "http://host/zones.zip" "data/zones.zip"
           "replace" None disk_with_old_file (Response 200 "zip-bytes"));
    [by right | set_solver | done | done].
Defined.

Lemma download_refused_truncates_witness :
  exists o', download server_404 "http://host/zones.zip" "data/zones.zip"
               "replace" None disk_with_old_file = (Ok false, o') /\
    files o' = <[ "data/zones.zip" := Plain "" ]> (files disk_with_old_file).
Proof.
  apply (download_refused_truncates server_404 "http://host/zones.zip"
           "data/zones.zip" "replace" None disk_with_old_file
           (Response 404 "not found")); [by right | set_solver | done | done].
Defined.

Lemma download_exit_witness :
  download server_ok "http://host/zones.zip" "data/zones.zip" "exit" None
    (download server_404 "http://host/zones.zip" "data/zones.zip" "exit" None
       empty_disk).2
  = (Ok false,
     log_record WARNING "Request aborted: data/zones.zip already exists."
       (download server_404 "http://host/zones.zip" "data/zones.zip" "exit"
          None empty_disk).2).
Proof.
  apply (download_exit server_ok "http://host/zones.zip" "data/zones.zip" None).
  eexists. by vm_compute.
Defined.

(** Of the members of [archive] the directory is no file, the third
    stays below the directory [in], and the last, whose place cannot be
    written, raises after the others are extracted. *)
Example unzip_members :
  let o := OS {[ "export.zip" := Zip archive ]} {[ "in/zones.shp" ]} [] [] in
  let r := unzip "export.zip" "in" o in
  r.1 = Raise PermissionError /\
  map_to_list (files r.2) =
  map_to_list (M:=gmap string Engine.content)
    {[ "export.zip" := Zip archive; "in/shp/zones.dbf" := Plain "dbf";
       "in/zones.prj" := Plain "prj" ]}.
Proof. by vm_compute. Qed.
