(* ===== verification/Logger.v ===== *)
(** * Logger: [getLogger] of [src/functions.py]

    [getLogger] configures the root logger of the [logging] library: it
    sets its level and adds two handlers, one that writes to the
    standard output and one that writes to a file named after the
    argument and the date of the day.

    The state is the root logger (its level and its list of handlers)
    beside the operating system of [Engine.v].  [handle] is what the
    library does with a record once handlers are configured: a record
    below the level of the logger is dropped, and each handler whose
    level admits the record writes one formatted line.  The time stamp
    of a record and the date of the day are arguments.

    The theorems say what one call configures, what a record then
    becomes, and that every further call adds two handlers more, so
    that each record is written once for every call made. *)

From Stdlib Require Import Ascii.
From stdpp Require Import base option list gmap strings.
From S2P Require Import Prelude Strings Components Engine.

#[local] Open Scope string_scope.
#[local] Open Scope list_scope.

(** ** The library *)

(** The numeric value of a level; [NOTSET] is the level of a handler
    that admits every record. *)
Definition levelno (l : level) : Z :=
  match l with
  | DEBUG => 10 | INFO => 20 | WARNING => 30 | ERROR => 40 | CRITICAL => 50
  end.

Definition levelname (l : level) : string :=
  match l with
  | DEBUG => "DEBUG" | INFO => "INFO" | WARNING => "WARNING"
  | ERROR => "ERROR" | CRITICAL => "CRITICAL"
  end.

(** The records that pass a logger or a handler set to [INFO]: all but
    those of [logging.debug]. *)
Definition admitted (l : level) : bool :=
  bool_decide (levelno INFO <= levelno l)%Z.

Definition NOTSET : Z := 0.

(** Where a handler writes. *)
Inductive stream : Type :=
| sys_stdout
| file_stream (path : string).

Record Handler : Type := mkHandler {
  handler_stream : stream;
  handler_level : Z;
  handler_formatter : option string
}.

(** The root logger.  A process starts with [root_logger]: level
    [WARNING] and no handler. *)
Record Logger : Type := mkLogger {
  logger_level : Z;
  handlers : list Handler
}.

Definition root_logger : Logger := mkLogger (levelno WARNING) [].

Record process : Type := Process {
  root : Logger;
  machine : os
}.

#[export] Instance stream_eq_dec : EqDecision stream.
Proof. solve_decision. Defined.

#[export] Instance Handler_eq_dec : EqDecision Handler.
Proof. solve_decision. Defined.

Definition on_machine {A} (m : prog os A) : prog process A :=
  fun p => let '(r, o) := m (machine p) in (r, Process (root p) o).

Definition on_root (f : Logger -> Logger) : prog process unit :=
  modify_state (fun p => Process (f (root p)) (machine p)).

(** [root.setLevel(l)] *)
Definition setLevel (l : level) : prog process unit :=
  on_root (fun r => mkLogger (levelno l) (handlers r)).

(** [root.addHandler(h)] for a handler that has just been made: it is
    not yet among the handlers, so it is appended. *)
Definition addHandler (h : Handler) : prog process unit :=
  on_root (fun r => mkLogger (logger_level r) (handlers r ++ [h])).

(** [logging.StreamHandler(sys.stdout)] *)
Definition StreamHandler : Handler := mkHandler sys_stdout NOTSET None.

(** [logging.FileHandler(filename)]: the file is opened for appending
    when the handler is made, which creates it when there is none. *)
Definition FileHandler (filename : string) : prog os Handler :=
  fun o =>
    if decide (filename ∈ read_only o) then (Raise PermissionError, o)
    else (Ok (mkHandler (file_stream filename) NOTSET None),
          OS (match files o !! filename with
              | None => <[filename := Plain ""]> (files o)
              | Some _ => files o
              end) (read_only o) (logged o) (stdout o)).

(** [h.setLevel(l)] and [h.setFormatter(logging.Formatter(fmt))] *)
Definition Handler_setLevel (l : level) (h : Handler) : Handler :=
  mkHandler (handler_stream h) (levelno l) (handler_formatter h).

Definition setFormatter (fmt : string) (h : Handler) : Handler :=
  mkHandler (handler_stream h) (handler_level h) (Some fmt).

(** [fmt % fields] for a format that holds fields [%(name)s] only, as
    the format of [getLogger] does; [%%] is a percent sign. *)
Fixpoint percent_go (fields : list (string * string)) (name : option string)
    (s : string) : result string :=
  match name, s with
  | None, EmptyString => Ok EmptyString
  | None, String "%" (String "(" s') => percent_go fields (Some EmptyString) s'
  | None, String "%" (String "%" s') =>
      String "%"%char <$> percent_go fields None s'
  | None, String "%" _ => Raise ValueError
  | None, String c s' => String c <$> percent_go fields None s'
  | Some _, EmptyString => Raise ValueError
  | Some name, String ")" (String "s" s') =>
      match list_find (fun p => p.1 = name) fields with
      | Some (_, (_, v)) => String.append v <$> percent_go fields None s'
      | None => Raise KeyError
      end
  | Some name, String ")" _ => Raise ValueError
  | Some name, String c s' =>
      percent_go fields (Some (name +:+ String c EmptyString)) s'
  end.

(** The line of a record under a formatter; a handler without formatter
    writes the message alone. *)
Definition format (fmt : option string) (asctime : string) (l : level)
    (msg : string) : result string :=
  match fmt with
  | None => Ok msg
  | Some fmt =>
      percent_go [("asctime", asctime); ("levelname", levelname l);
                  ("message", msg)] None fmt
  end.

(** Writing a line to a stream.  The file of a handler is open since
    the handler was made. *)
Definition write_line (s : stream) (line : string) (o : os) : os :=
  match s with
  | sys_stdout => OS (files o) (read_only o) (logged o) (stdout o ++ [line])
  | file_stream path =>
      match files o !! path with
      | Some (Zip _) => o
      | c => OS (<[path := Plain (match c with
                                  | Some (Plain t) => t
                                  | _ => EmptyString
                                  end +:+ line +:+ line_feed)]>
                   (files o))
                (read_only o) (logged o) (stdout o)
      end
  end.

(** One handler and one record: the handler writes when its level
    admits the record.  An error in formatting is kept inside the
    library and nothing is written. *)
Definition emit (asctime : string) (l : level) (msg : string) (h : Handler)
    (o : os) : os :=
  if bool_decide (handler_level h <= levelno l)%Z
  then match format (handler_formatter h) asctime l msg with
       | Ok line => write_line (handler_stream h) line o
       | Raise _ => o
       end
  else o.

(** [logging.info(msg)] and its siblings in a process whose root logger
    has handlers: the record goes to every handler when the level of
    the root admits it. *)
Definition handle (asctime : string) (l : level) (msg : string)
  : prog process unit :=
  on_machine (logging l msg);;
  r ← (fun p => (Ok (root p), p));
  if bool_decide (logger_level r <= levelno l)%Z
  then on_machine (modify_state (fun o => foldl (fun o h => emit asctime l msg h o)
                                            o (handlers r)))
  else mret ().

(** ** [getLogger] *)

(** [today] is [date.today().isoformat()].  The function returns the
    module [logging], which carries no state of its own: the result is
    the configuration it leaves. *)
Definition getLogger (today logFile : string) : prog process unit :=
  setLevel INFO;;
  let formatter := "%(asctime)s|%(levelname)s|%(message)s" in
  let standardOutputHandler := StreamHandler in
  let standardOutputHandler := Handler_setLevel INFO standardOutputHandler in
  let standardOutputHandler := setFormatter formatter standardOutputHandler in
  fileHandler ← on_machine (FileHandler (logFile +:+ "-" +:+ today +:+ ".log"));
  let fileHandler := Handler_setLevel INFO fileHandler in
  let fileHandler := setFormatter formatter fileHandler in
  addHandler standardOutputHandler;;
  addHandler fileHandler.

(** ** What the theorems speak of *)

(** The two handlers of a call. *)
Definition the_formatter : string := "%(asctime)s|%(levelname)s|%(message)s".

Definition stdout_handler : Handler :=
  mkHandler sys_stdout (levelno INFO) (Some the_formatter).

Definition file_handler (today logFile : string) : Handler :=
  mkHandler (file_stream (logFile +:+ "-" +:+ today +:+ ".log"))
            (levelno INFO) (Some the_formatter).

(** The line of a record. *)
Definition line_of (asctime : string) (l : level) (msg : string) : string :=
  asctime +:+ "|" +:+ levelname l +:+ "|" +:+ msg.

(** [n] calls of [getLogger], one after the other. *)
Fixpoint getLogger_times (n : nat) (today logFile : string) : prog process unit :=
  match n with
  | 0 => mret ()
  | S n' => getLogger today logFile;; getLogger_times n' today logFile
  end.

(** The text of a file, empty when there is none. *)
Definition text_of (o : os) (path : string) : string :=
  match files o !! path with
  | Some (Plain t) => t
  | _ => EmptyString
  end.

(** A path that holds no archive. *)
Definition no_archive (o : os) (path : string) : Prop :=
  forall ms, files o !! path <> Some (Zip ms).

(** The operating system once [FileHandler] has opened a file. *)
Definition opened (path : string) (o : os) : os :=
  OS (match files o !! path with
      | None => <[path := Plain ""]> (files o)
      | Some _ => files o
      end) (read_only o) (logged o) (stdout o).

Definition log_path (today logFile : string) : string :=
  logFile +:+ "-" +:+ today +:+ ".log".

(** What a record leaves when every handler of a list has seen it. *)
Definition emit_all (asctime : string) (l : level) (msg : string)
    (hs : list Handler) (o : os) : os :=
  foldl (fun o h => emit asctime l msg h o) o hs.

(** ** Examples *)

Definition fresh_process : process := Process root_logger (OS ∅ ∅ [] []).

(** ** Lemmas *)

#[local] Arguments bool_decide : simpl never.

Lemma format_the_formatter asctime l msg :
  format (Some the_formatter) asctime l msg = Ok (line_of asctime l msg).
Proof.
  transitivity (Ok (A:=string) (line_of asctime l (msg +:+ EmptyString)));
    [by vm_compute | by rewrite app_string_nil_r].
Qed.

Lemma admitted_levelno l : admitted l = true -> (levelno INFO <= levelno l)%Z.
Proof. apply bool_decide_eq_true_1. Qed.

Lemma not_admitted l : admitted l = false -> l = DEBUG.
Proof. by destruct l. Qed.

Lemma emit_stdout_handler asctime l msg o :
  admitted l = true ->
  emit asctime l msg stdout_handler o =
  write_line sys_stdout (line_of asctime l msg) o.
Proof.
  intros Hl%admitted_levelno. unfold emit, stdout_handler.
  cbn [handler_level handler_formatter handler_stream].
  by rewrite bool_decide_true, format_the_formatter.
Qed.

Lemma emit_file_handler asctime l msg today logFile o :
  admitted l = true ->
  emit asctime l msg (file_handler today logFile) o =
  write_line (file_stream (log_path today logFile)) (line_of asctime l msg) o.
Proof.
  intros Hl%admitted_levelno. unfold emit, file_handler.
  cbn [handler_level handler_formatter handler_stream].
  by rewrite bool_decide_true, format_the_formatter.
Qed.

Lemma stdout_write_file path line o :
  stdout (write_line (file_stream path) line o) = stdout o.
Proof. simpl. by repeat case_match. Qed.

Lemma text_of_write_file path line o :
  no_archive o path ->
  text_of (write_line (file_stream path) line o) path =
  text_of o path +:+ line +:+ line_feed.
Proof.
  intros Hno. unfold text_of. simpl.
  destruct (files o !! path) as [[t|ms]|] eqn:Hf; simpl;
    [by rewrite lookup_insert_eq | by destruct (Hno ms) | by rewrite lookup_insert_eq].
Qed.

Lemma text_of_write_stdout path line o :
  text_of (write_line sys_stdout line o) path = text_of o path.
Proof. done. Qed.

Lemma no_archive_write_line s line o path :
  no_archive o path -> no_archive (write_line s line o) path.
Proof.
  intros Hno ms. destruct s as [|path']; simpl; [apply Hno|].
  repeat case_match; simpl; try apply Hno;
    (destruct (decide (path' = path)) as [->|];
       [by rewrite lookup_insert_eq | rewrite lookup_insert_ne by done; apply Hno]).
Qed.

(** One call of [getLogger]. *)
Lemma getLogger_run today logFile p :
  log_path today logFile ∉ read_only (machine p) ->
  getLogger today logFile p =
  (Ok (),
   Process (mkLogger (levelno INFO)
              (handlers (root p)
                 ++ [stdout_handler; file_handler today logFile]))
           (opened (log_path today logFile) (machine p))).
Proof.
  intros Hro. unfold getLogger, setLevel, addHandler, on_root, on_machine,
    FileHandler, modify_state, mbind, prog_bind. simpl.
  rewrite decide_False by done. simpl. by rewrite <- app_assoc.
Qed.

(** A path that is read only makes the second handler fail: the level
    of the root is set, and no handler is added. *)
Lemma getLogger_denied today logFile p :
  log_path today logFile ∈ read_only (machine p) ->
  getLogger today logFile p =
  (Raise PermissionError,
   Process (mkLogger (levelno INFO) (handlers (root p))) (machine p)).
Proof.
  intros Hro. unfold getLogger, setLevel, addHandler, on_root, on_machine,
    FileHandler, modify_state, mbind, prog_bind. simpl.
  by rewrite decide_True.
Qed.

Lemma handle_run asctime l msg p :
  (logger_level (root p) <= levelno l)%Z ->
  handle asctime l msg p =
  (Ok (), Process (root p)
            (emit_all asctime l msg (handlers (root p))
               (log_record l msg (machine p)))).
Proof.
  intros Hl. unfold handle, on_machine, mbind, prog_bind. simpl.
  by rewrite bool_decide_true.
Qed.

(** A record below the level of the root logger is handed to no
    handler. *)
Lemma handle_dropped asctime l msg p :
  (levelno l < logger_level (root p))%Z ->
  handle asctime l msg p =
  (Ok (), Process (root p) (log_record l msg (machine p))).
Proof.
  intros Hl. unfold handle, on_machine, mbind, prog_bind. simpl.
  by rewrite bool_decide_false by lia.
Qed.

(** [n] calls leave the handlers of [n] calls. *)
Lemma getLogger_times_run n today logFile p :
  log_path today logFile ∉ read_only (machine p) ->
  exists p', getLogger_times n today logFile p = (Ok (), p') /\
    handlers (root p') =
      handlers (root p) ++ mjoin (replicate n [stdout_handler;
                                               file_handler today logFile]) /\
    (0 < n -> logger_level (root p') = levelno INFO) /\
    stdout (machine p') = stdout (machine p) /\
    logged (machine p') = logged (machine p).
Proof.
  revert p. induction n as [|n IH]; intros p Hro; simpl.
  { exists p. split_and!; [done | by rewrite app_nil_r | lia | done | done]. }
  rewrite (prog_bind_run _ _ _ _ _ (getLogger_run today logFile p Hro)).
  destruct (IH (Process (mkLogger (levelno INFO)
                           (handlers (root p)
                              ++ [stdout_handler; file_handler today logFile]))
                        (opened (log_path today logFile) (machine p))))
    as (p' & Hrun & Hh & Hl & Hs & Hlog); [done|].
  exists p'. split_and!; [done | | | done | done].
  - rewrite Hh. simpl. by rewrite <- app_assoc.
  - intros _. destruct n; [|apply Hl; lia].
    simpl in Hrun. by injection Hrun as <-.
Qed.

(** The standard output after the handlers of [n] calls have seen a
    record: [n] lines more. *)
Lemma stdout_emit_all asctime l msg today logFile n o :
  admitted l = true ->
  stdout (emit_all asctime l msg
            (mjoin (replicate n [stdout_handler; file_handler today logFile])) o)
  = stdout o ++ replicate n (line_of asctime l msg).
Proof.
  intros Hl. revert o.
  induction n as [|n IH]; intros o; simpl; [by rewrite app_nil_r|].
  unfold emit_all in *. simpl. rewrite IH.
  rewrite emit_stdout_handler, emit_file_handler, stdout_write_file by done.
  simpl.
  by rewrite <- app_assoc.
Qed.

(** ** Theorems *)

(** C27: after one call of [getLogger] in a process whose root logger had
    no handler, the root logger is at level INFO and has the two
    handlers of the call, and a record is written once to the standard
    output and once at the end of the log file, as the line
    time|LEVEL|message, when its level is INFO or above; a record of
    [logging.debug] is written nowhere. *)
Theorem getLogger_correct today logFile asctime l msg p :
  handlers (root p) = [] ->
  log_path today logFile ∉ read_only (machine p) ->
  no_archive (machine p) (log_path today logFile) ->
  exists p',
    (getLogger today logFile;; handle asctime l msg) p = (Ok (), p') /\
    root p' = mkLogger (levelno INFO)
                [stdout_handler; file_handler today logFile] /\
    stdout (machine p') =
      stdout (machine p)
        ++ (if admitted l then [line_of asctime l msg] else []) /\
    text_of (machine p') (log_path today logFile) =
      text_of (machine p) (log_path today logFile)
        +:+ (if admitted l then line_of asctime l msg +:+ line_feed else "").
Proof.
  intros Hh Hro Hno.
  rewrite (prog_bind_run _ _ _ _ _ (getLogger_run today logFile p Hro)), Hh.
  assert (text_of (opened (log_path today logFile) (machine p))
            (log_path today logFile)
          = text_of (machine p) (log_path today logFile)) as Htext.
  { unfold text_of, opened. simpl. by repeat case_match; simplify_map_eq. }
  destruct (admitted l) eqn:Hl.
  - rewrite handle_run by (by apply admitted_levelno).
    eexists. split; [done|].
    unfold emit_all. simpl. rewrite emit_stdout_handler, emit_file_handler by done.
    split_and!; [done | by rewrite stdout_write_file |].
    rewrite text_of_write_file; [by rewrite <- Htext |].
    intros ms. simpl. unfold opened. simpl. case_match; [apply Hno|].
    by rewrite lookup_insert_eq.
  - rewrite (not_admitted l Hl), handle_dropped by (simpl; lia).
    eexists. split; [done|]. simpl.
    by rewrite app_nil_r, app_string_nil_r, <- Htext.
Qed.

(** C28: every call of [getLogger] adds its two handlers to those of the
    calls before: after [n] calls the root logger has [2 n] handlers,
    and one record of level INFO or above is written [n] times to the
    standard output. *)
Theorem getLogger_repeated n today logFile asctime l msg p :
  handlers (root p) = [] ->
  log_path today logFile ∉ read_only (machine p) ->
  exists p',
    (getLogger_times n today logFile;; handle asctime l msg) p = (Ok (), p') /\
    length (handlers (root p')) = 2 * n /\
    stdout (machine p') =
      stdout (machine p)
        ++ replicate (if admitted l then n else 0) (line_of asctime l msg).
Proof.
  intros Hh Hro.
  destruct (getLogger_times_run n today logFile p Hro)
    as (p1 & Hrun & Hh1 & Hl1 & Hs1 & _).
  rewrite (prog_bind_run _ _ _ _ _ Hrun). rewrite Hh in Hh1. simpl in Hh1.
  assert (length (handlers (root p1)) = 2 * n) as Hlen.
  { rewrite Hh1, length_join, fmap_replicate, sum_list_replicate. simpl. lia. }
  destruct n as [|n].
  - simpl in *. injection Hrun as <-. unfold handle, on_machine, mbind, prog_bind.
    simpl. rewrite Hh.
    case_bool_decide; eexists; (split; [reflexivity|]); simpl; rewrite Hh;
      by destruct (admitted l); rewrite app_nil_r.
  - destruct (admitted l) eqn:Hl.
    + rewrite handle_run by (rewrite Hl1 by lia; by apply admitted_levelno).
      eexists. split; [done|]. split; [done|]. simpl.
      by rewrite Hh1, stdout_emit_all, <- Hs1.
    + rewrite (not_admitted l Hl), handle_dropped by (rewrite Hl1; simpl; lia).
      eexists. split; [done|]. split; [done|]. simpl.
      by rewrite app_nil_r, Hs1.
Qed.

(** ** Examples *)

Lemma getLogger_correct_witness :
  exists p',
    (getLogger "2024-05-01" "log/run";; handle "12:00" WARNING "disk full")
      fresh_process = (Ok (), p') /\
    stdout (machine p') = ["12:00|WARNING|disk full"] /\
    files (machine p') !! "log/run-2024-05-01.log" =
      Some (Plain ("12:00|WARNING|disk full" +:+ line_feed)).
Proof.
  destruct (getLogger_correct "2024-05-01" "log/run" "12:00" WARNING "disk full"
              fresh_process) as (p' & Hrun & _);
    [done | set_solver | by intros ms |].
  exists p'. split; [done|]. injection Hrun as <-. by vm_compute.
Defined.

Lemma getLogger_repeated_witness :
  exists p',
    (getLogger_times 3 "2024-05-01" "log/run";; handle "12:00" INFO "start")
      fresh_process = (Ok (), p') /\
    length (handlers (root p')) = 6 /\
    stdout (machine p') = ["12:00|INFO|start"; "12:00|INFO|start";
                           "12:00|INFO|start"].
Proof.
  destruct (getLogger_repeated 3 "2024-05-01" "log/run" "12:00" INFO "start"
              fresh_process) as (p' & Hrun & Hlen & Hout);
    [done | set_solver |].
  exists p'. split_and!; [done | done |]. etrans; [exact Hout | by vm_compute].
Defined.
