(* ===== verification/Tests.v ===== *)
(** * Tests: the unit tests of the class

    [src/testGeodatabase.py] holds one [unittest.TestCase] with a test
    for each method of [Geodatabase].  This file holds the same tests,
    each under its name, as programs over the world of [Engine.v]:

    - the assertions of [unittest] raise [AssertionError];
      [assertRaises] turns the exception of its block into success and
      the absence of one into [AssertionError];
    - the fixture ([TestGeodatabase]) is the instance of the class and
      the temporary directory; [setUp] makes both, [tearDown] closes
      the one and removes the other;
    - [run_test] is what the runner does with one test ([setUp], the
      test, [tearDown] even after a failure) and [unittest_main] runs
      the tests in the order of their names, each on a new connection;
      the files, the log and the attributes of the labeller class are
      those that the tests before left.

    The texts of the statements are those of the source with each run
    of white space written as one space; the text of the csv files is
    kept to the character, white space being what the reader of csv
    decides on.  A call with a default argument writes the default
    out.  [tempfile.mkdtemp] returns the directory [tmp], and [depth]
    is the number of frames that the interpreter leaves to the
    labeller.

    The theorem says which test cannot pass on any engine.  The
    examples evaluate the tests on the store of [Store.v]: which of
    them pass there, and what a test that passes does not check. *)

From Stdlib Require Import Ascii.
From stdpp Require Import base option list gmap strings pretty.
From S2P Require Import Prelude Strings Components Scenarios.
From S2P Require Import Engine Sql Store Geodatabase.

#[local] Open Scope string_scope.

(** ** Frames as the tests read them *)

(** [frame.loc[key, name]] and [frame.loc[key][name]] for a frame
    whose index holds [keys]: the value of the column in the one row
    with that key; [KeyError] when there is none.  With several such
    rows the result is a series, which [assertEqual] cannot compare
    with a number: [ValueError]. *)
Definition loc (keys : list value) (key : value) (name : string) (t : table)
  : result value :=
  vs ← column name t;
  match filter (fun kv => kv.1 = key) (zip keys vs) with
  | [] => Raise KeyError
  | [kv] => Ok kv.2
  | _ => Raise ValueError
  end.

(** [columns.index] for what [getListOfColumns] returned: the empty
    tuple has a method of that name, which [assertIn] cannot search. *)
Definition columns_index (listOfColumns : option table) : result (list value) :=
  match listOfColumns with
  | Some t => column "tx_column_name" t
  | None => Raise TypeError
  end.

(** The text of the two csv tests: the lines are indented as the source
    is, and the last line is the indentation alone. *)
Definition csv_content : string :=
  line_feed +:+ "        id,name" +:+ line_feed
    +:+ "        1,test1" +:+ line_feed
    +:+ "        2,test2" +:+ line_feed +:+ "        ".

(** The script of [test_executeScript]. *)
Definition script_content : string :=
  line_feed
    +:+ "            CREATE TABLE test_table_script (id INTEGER PRIMARY KEY, name TEXT);"
    +:+ line_feed
    +:+ "            INSERT INTO test_table_script (name) VALUES ('test1');"
    +:+ line_feed
    +:+ "            INSERT INTO test_table_script (name) VALUES ('test2');"
    +:+ line_feed +:+ "        ".

(** The features of [test_loadShp] as [GeoDataFrame.from_features]
    reads them: the geometry, then the properties. *)
Definition gdf : table :=
  Table ["geometry"; "id"; "name"]
        [ [Text "POINT (0 0)"; Int 1; Text "test1"];
          [Text "POINT (1 1)"; Int 2; Text "test2"] ].

(** The fixture: [self.db] and [self.temp_dir]. *)
Record TestGeodatabase : Type := mkTestGeodatabase {
  db : Geodatabase;
  temp_dir : string
}.

(** What the runner reports of a test. *)
Inductive outcome : Type :=
| ok
| FAIL
| ERROR (e : error).

#[export] Instance outcome_eq_dec : EqDecision outcome.
Proof. solve_decision. Defined.

Definition outcome_of {A} (r : result A) : outcome :=
  match r with
  | Ok _ => ok
  | Raise AssertionError => FAIL
  | Raise e => ERROR e
  end.

(** The statement of the last block of [test_checksForTable]: a table
    [without rowid] that has no primary key. *)
Definition create_without_rowid : string :=
  "CREATE TABLE test_table_without_rowid (id INTEGER, name TEXT) WITHOUT ROWID".

Section tests.
Context `{Engine DB} `{!PySet value}.
Variable depth : nat.
Variable tmp : string.

#[local] Notation "'method'" := (prog (world DB)).

(** ** The assertions of [unittest] *)

Definition assertEqual {A} `{EqDecision A} (first second : A) : method unit :=
  if decide (first = second) then mret () else raise AssertionError.

Definition assertTrue (expr : bool) : method unit :=
  if expr then mret () else raise AssertionError.

Definition assertIn {A} `{EqDecision A} (member : A) (container : list A)
  : method unit :=
  if decide (member ∈ container) then mret () else raise AssertionError.

Definition assertIsNotNone {A} (obj : option A) : method unit :=
  match obj with Some _ => mret () | None => raise AssertionError end.

(** [with self.assertRaises(Exception): block]: every exception of the
    model is an [Exception]. *)
Definition assertRaises {A} (block : method A) : method unit :=
  fun w => match block w with
           | (Raise _, w') => (Ok (), w')
           | (Ok _, w') => (Raise AssertionError, w')
           end.

(** [self.db.database]: the connection, which the constructor has
    opened. *)
Definition connection : method (option DB) :=
  fun w => (Ok (Some (database w)), w).

(** [statement.fetchone()[0]] for a statement sent through the
    connection or through [execute]. *)
Definition first_value (t : table) : method value :=
  lift_result (subscript_0 (fetchone t)).

(** ** The fixture *)

Definition setUp : method TestGeodatabase :=
  db ← Geodatabase__init__ ":memory:" 31370 false;
  mret (mkTestGeodatabase db tmp).

Definition tearDown (self : TestGeodatabase) : method unit :=
  close;;
  on_system (rmtree (temp_dir self));;
  on_database (fun d => (Ok (), db_rmtree (temp_dir self) d)).

(** ** The tests *)

Definition test_initialization (self : TestGeodatabase) : method unit :=
  database ← connection;
  assertIsNotNone database;;
  assertEqual (srid (db self)) 31370%Z.

Definition test_attach (self : TestGeodatabase) : method unit :=
  let temp_db_path := os_path_join (temp_dir self) "temp.sqlite" in
  on_database (fun d => (Ok (), db_create temp_db_path d));;
  attach temp_db_path "temp_alias";;
  cursor ← database_execute
    "SELECT name FROM sqlite_master WHERE type='table' AND name='geometry_columns'";
  assertIsNotNone (fetchone cursor).

Definition test_checksForTable (self : TestGeodatabase) : method unit :=
  database_execute
    "CREATE TABLE test_table (id INTEGER PRIMARY KEY, name TEXT)";;
  checked ← checksForTable "test_table";
  assertTrue checked;;
  assertRaises
    (database_execute
       "CREATE TABLE test_table_shadowed (rowid INTEGER, name TEXT)";;
     checksForTable "test_table_shadowed");;
  assertRaises
    (database_execute create_without_rowid;;
     checksForTable "test_table_without_rowid").

Definition test_close (self : TestGeodatabase) : method unit := mret ().

(** The statement that inserts a geometry into [test_geometry], with
    its comment. *)
Definition insert_geometry (comment : string) (id : Z) (wkt : string)
    (srid : Z) : string :=
  " /* " +:+ comment +:+ " */ INSERT INTO test_geometry(id, geometry) "
    +:+ "VALUES (" +:+ str_Z id +:+ ", GeomFromText('" +:+ wkt +:+ "', "
    +:+ str_Z srid +:+ ")) ".

Definition test_correctGeometry (self : TestGeodatabase) : method unit :=
  execute " CREATE TABLE test_geometry (id INTEGER, geometry GEOMETRY) " [];;
  execute (insert_geometry "there is no error in this geometry" 1
             "POLYGON((0 0, 1 0, 1 1, 0 1, 0 0))" (srid (db self))) [];;
  execute (insert_geometry
             "there is an error in this geometry : polygon is not closed" 2
             "POLYGON((0 0, 1 0, 1 1, 0 1))" (srid (db self))) [];;
  recoverGeometry (db self) "test_geometry" "geometry";;
  ms_countOf_errors ← geometryCountOfErrors "test_geometry" "geometry";
  assertEqual ms_countOf_errors (Int 1);;
  correctGeometry "test_geometry" "geometry";;
  ms_countOf_errors ← geometryCountOfErrors "test_geometry" "geometry";
  assertEqual ms_countOf_errors (Int 0);;
  cursor ← database_execute
    "select st_asText(geometry) from test_geometry where id=2";
  correctedGeometry ← first_value cursor;
  assertEqual correctedGeometry (Text "POLYGON((0 0, 1 0, 1 1, 0 1, 0 0))");;
  dropTable "test_geometry".

(** The two statements with which three tests begin: a table with a
    geometry, and a point in it. *)
Definition create_test_table (type : string) : string :=
  " CREATE TABLE test_table (id INTEGER PRIMARY KEY, geometry " +:+ type
    +:+ ") ".

Definition insert_point (srid : Z) : string :=
  " INSERT INTO test_table(geometry) VALUES (GeomFromText('POINT(0 0)', "
    +:+ str_Z srid +:+ ")) ".

Definition test_createSpatialIndex (self : TestGeodatabase) : method unit :=
  execute (create_test_table "GEOMETRY") [];;
  execute (insert_point (srid (db self))) [];;
  recoverGeometry (db self) "test_table" "geometry";;
  createSpatialIndex "test_table" "geometry";;
  cursor ← execute
    " select spatial_index_enabled from geometry_columns where f_table_name='test_table' "
    [];
  fl_spatial_index_enabled ← first_value cursor;
  assertEqual fl_spatial_index_enabled (Int 1);;
  dropTable "test_table".

Definition count_of_tables : string :=
  " SELECT count(*) FROM geometry_columns WHERE f_table_name='test_table' ".

Definition test_dropTable (self : TestGeodatabase) : method unit :=
  execute (create_test_table "GEOMETRY") [];;
  execute (insert_point (srid (db self))) [];;
  recoverGeometry (db self) "test_table" "geometry";;
  cursor ← execute count_of_tables [];
  ms_countOf_tables ← first_value cursor;
  assertEqual ms_countOf_tables (Int 1);;
  dropTable "test_table";;
  cursor ← execute count_of_tables [];
  ms_countOf_tables ← first_value cursor;
  assertEqual ms_countOf_tables (Int 0).

Definition create_names : string :=
  "CREATE TABLE test_table (id INTEGER PRIMARY KEY, name TEXT)".

Definition insert_name (name : string) : string :=
  "INSERT INTO test_table (name) VALUES ('" +:+ name +:+ "')".

Definition test_execute (self : TestGeodatabase) : method unit :=
  execute create_names [];;
  execute (insert_name "test") [];;
  cursor ← execute "SELECT name FROM test_table" [];
  assertEqual (tuples cursor) [[Text "test"]].

Definition test_executeScript (self : TestGeodatabase) : method unit :=
  let script_path := os_path_join (temp_dir self) "test_script.sql" in
  on_system (write_file script_path script_content);;
  executeScript "test_script" [("path", temp_dir self)];;
  cursor ← execute "SELECT COUNT(*) FROM test_table_script" [];
  result ← first_value cursor;
  assertEqual result (Int 2);;
  dropTable "test_table_script".

Definition test_findConnectedComponents (self : TestGeodatabase)
  : method unit :=
  on_database (db_to_sql "t01_edges" df_edges replace);;
  findConnectedComponents depth "t01_edges" ["a"; "b"] "t02_cc";;
  cursor ← execute "SELECT COUNT(*) FROM t02_cc" [];
  ms_countOf_nodes ← first_value cursor;
  assertEqual ms_countOf_nodes (Int 7);;
  cursor ← execute "SELECT COUNT(DISTINCT cc) FROM t02_cc" [];
  ms_countOf_connectedComponents ← first_value cursor;
  assertEqual ms_countOf_connectedComponents (Int 2);;
  dropTable "t01_edges";;
  dropTable "t02_cc".

Definition insert_polygon (table wkt : string) (srid : Z) : string :=
  "INSERT INTO " +:+ table +:+ "(geometry) VALUES (GeomFromText('" +:+ wkt
    +:+ "', " +:+ str_Z srid +:+ "))".

Definition test_geometryCountOfErrors (self : TestGeodatabase) : method unit :=
  execute "CREATE TABLE test_geometry (id INTEGER PRIMARY KEY, geometry BLOB)"
    [];;
  execute (insert_polygon "test_geometry" "POLYGON((0 0, 1 0, 0 1, 0 0))"
             (srid (db self))) [];;
  execute (insert_polygon "test_geometry" "POLYGON((0 0, 1 0, 1 1, 0 1))"
             (srid (db self))) [];;
  execute
    "SELECT RecoverGeometryColumn('test_geometry','geometry',31370,'POLYGON','XY')"
    [];;
  ms_countOf_errors ← geometryCountOfErrors "test_geometry" "geometry";
  assertEqual ms_countOf_errors (Int 1).

Definition test_getColumnMaxLength (self : TestGeodatabase) : method unit :=
  execute create_names [];;
  execute (insert_name "test") [];;
  execute (insert_name "longer_test") [];;
  max_length ← getColumnMaxLength "test_table" "name";
  assertEqual max_length (Int 11).

Definition test_getColumnCountOfDistinctValues (self : TestGeodatabase)
  : method unit :=
  execute create_names [];;
  execute (insert_name "test") [];;
  execute (insert_name "test") [];;
  execute (insert_name "other") [];;
  count ← getColumnCountOfDistinctValues "test_table" "name";
  assertEqual count (Int 2).

Definition create_blob : string :=
  "CREATE TABLE test_table (id INTEGER PRIMARY KEY, geometry BLOB)".

Definition test_getGeometriesMetadata (self : TestGeodatabase) : method unit :=
  execute create_blob [];;
  execute (insert_polygon "test_table" "POINT(0 0)" (srid (db self))) [];;
  recoverGeometry (db self) "test_table" "geometry";;
  createSpatialIndex "test_table" "geometry";;
  metadata ← getGeometriesMetadata;
  assertIn (Text "test_table") (frame_index metadata);;
  assertIn "geometry_type" (columns (frame metadata));;
  geometry_type ← lift_result
    (loc (frame_index metadata) (Text "test_table") "geometry_type"
       (frame metadata));
  assertEqual geometry_type (Int 1);;
  srid_found ← lift_result
    (loc (frame_index metadata) (Text "test_table") "srid" (frame metadata));
  assertEqual srid_found (Int (srid (db self)));;
  spatial_index_enabled ← lift_result
    (loc (frame_index metadata) (Text "test_table") "spatial_index_enabled"
       (frame metadata));
  assertEqual spatial_index_enabled (Int 1);;
  dropTable "test_table".

Definition test_getListOfColumns (self : TestGeodatabase) : method unit :=
  execute create_names [];;
  columns ← getListOfColumns "test_table" false false;
  index ← lift_result (columns_index columns);
  assertIn (Text "id") index;;
  index ← lift_result (columns_index columns);
  assertIn (Text "name") index;;
  dropTable "test_table".

Definition test_getListOfTables (self : TestGeodatabase) : method unit :=
  execute create_names [];;
  tables ← getListOfTables;
  index ← lift_result (column "f_table_name" tables);
  assertIn (Text "test_table") index;;
  ms_countOf_rows ← lift_result
    (loc index (Text "test_table") "ms_countOf_rows" tables);
  assertEqual ms_countOf_rows (Int 0);;
  dropTable "test_table".

Definition test_getTableCountOfRows (self : TestGeodatabase) : method unit :=
  execute create_names [];;
  execute (insert_name "test") [];;
  count ← getTableCountOfRows "test_table";
  assertEqual count (Int 1).

Definition test_getTableHead (self : TestGeodatabase) : method unit :=
  execute create_names [];;
  execute (insert_name "test") [];;
  head ← getTableHead "test_table";
  assertIn "name" (columns (frame head)).

Definition test_inspectGeometry (self : TestGeodatabase) : method unit :=
  execute create_blob [];;
  execute (insert_polygon "test_table" "POLYGON((0 0, 1 0, 1 1, 0 1, 0 0))"
             (srid (db self))) [];;
  execute
    "SELECT RecoverGeometryColumn('test_table','geometry',31370,'POLYGON','XY')"
    [];;
  result ← inspectGeometry "test_table" "geometry";
  assertEqual (length result) 1;;
  first ← lift_result (getitem result 0);
  geomType ← lift_result (getitem first 0);
  assertEqual geomType (Text "POLYGON").

Definition test_loadCsv (self : TestGeodatabase) : method unit :=
  let temp_csv_path := os_path_join (temp_dir self) "test.csv" in
  on_system (write_file temp_csv_path csv_content);;
  loadCsv temp_csv_path "test_csv" replace [("sep", ",")];;
  count ← getTableCountOfRows "test_csv";
  assertEqual count (Int 2);;
  dropTable "test_csv".

Definition test_loadEmbeddedCsv (self : TestGeodatabase) : method unit :=
  loadEmbeddedCsv csv_content "test_embedded_csv" replace [("sep", ",")];;
  count ← getTableCountOfRows "test_embedded_csv";
  assertEqual count (Int 2);;
  dropTable "test_embedded_csv".

Definition test_loadShp (self : TestGeodatabase) : method unit :=
  let shapefile_path_without_extension :=
    os_path_join (temp_dir self) "test_shp" in
  let shapefile_path := shapefile_path_without_extension +:+ ".shp" in
  on_database (fun d => (Ok (), gpd_to_file shapefile_path gdf d));;
  loadShp (db self) shapefile_path_without_extension "test_shp" "CP1252" None;;
  found ← tableExists "test_shp";
  assertTrue found;;
  count ← getTableCountOfRows "test_shp";
  assertEqual count (Int 2).

(** ** The runner *)

(** One test: the fixture is set up, the test runs, and the fixture is
    torn down whether the test returned or raised.  A failure of
    [setUp] is an error of the test, which then does not run. *)
Definition run_test (test : TestGeodatabase -> method unit) : method outcome :=
  fun w =>
    match setUp w with
    | (Raise e, w) => (Ok (outcome_of (Raise (A:=unit) e)), w)
    | (Ok self, w) =>
        let '(r, w) := test self w in
        let '(r', w) := tearDown self w in
        (Ok (match r with Ok _ => outcome_of r' | Raise _ => outcome_of r end),
         w)
    end.

(** The tests by name, in the order in which the runner takes them. *)
Definition tests : list (string * (TestGeodatabase -> method unit)) :=
  [ ("test_attach", test_attach);
    ("test_checksForTable", test_checksForTable);
    ("test_close", test_close);
    ("test_correctGeometry", test_correctGeometry);
    ("test_createSpatialIndex", test_createSpatialIndex);
    ("test_dropTable", test_dropTable);
    ("test_execute", test_execute);
    ("test_executeScript", test_executeScript);
    ("test_findConnectedComponents", test_findConnectedComponents);
    ("test_geometryCountOfErrors", test_geometryCountOfErrors);
    ("test_getColumnCountOfDistinctValues",
     test_getColumnCountOfDistinctValues);
    ("test_getColumnMaxLength", test_getColumnMaxLength);
    ("test_getGeometriesMetadata", test_getGeometriesMetadata);
    ("test_getListOfColumns", test_getListOfColumns);
    ("test_getListOfTables", test_getListOfTables);
    ("test_getTableCountOfRows", test_getTableCountOfRows);
    ("test_getTableHead", test_getTableHead);
    ("test_initialization", test_initialization);
    ("test_inspectGeometry", test_inspectGeometry);
    ("test_loadCsv", test_loadCsv);
    ("test_loadEmbeddedCsv", test_loadEmbeddedCsv);
    ("test_loadShp", test_loadShp) ].

(** [unittest.main()]: every test, and what became of it. *)
Definition unittest_main : method (list (string * outcome)) :=
  for_collect tests (fun t => o ← run_test t.2; mret (t.1, o)).

End tests.

(** ** The world of the examples *)

(** What the geometry library knows: the polygon of the tests that is
    not closed, and the closed polygon that it makes of it. *)
Definition test_store : store :=
  Store ∅ ∅ ∅ ∅
        {[ "POLYGON((0 0, 1 0, 1 1, 0 1))" :=
             Some "POLYGON((0 0, 1 0, 1 1, 0 1, 0 0))" ]} [].

Definition test_world : world store := world_of test_store.

Definition test_tmp : string := "/tmp/tmpdir".

(** A table that was made [without rowid], as SQLite accepts it: with a
    primary key. *)
Definition without_rowid_table : string :=
  "CREATE TABLE test_table_without_rowid (id INTEGER PRIMARY KEY, name TEXT) WITHOUT ROWID".

(** The instance that [setUp] makes, and the world it leaves. *)
Definition test_self : TestGeodatabase :=
  mkTestGeodatabase (mkGeodatabase 31370) test_tmp.

Definition fresh_world : world store := (setUp test_tmp test_world).2.

(** A database with a table whose name is two words, as [to_sql]
    makes one, and a database with a table whose name begins with
    [idx]. *)
Definition two_words_world : world store :=
  world_of (holding {[ "my table" := Table ["a"] [[Int 1]] ]} ∅).

Definition idx_world : world store :=
  world_of (holding {[ "idxa" := Table ["a"] [[Int 1]] ]} ∅).

(** ** What the tests establish *)

Section test_theorems.
Context `{Engine DB} `{!PySet value}.
Implicit Types w : world DB.

(** A block whose first statement raises satisfies [assertRaises],
    whatever follows the statement.  The last block of
    [test_checksForTable] is such a block when the engine refuses to
    create a table [without rowid] that has no primary key, as SQLite
    does: the method that the block is to test is not reached. *)
Lemma assertRaises_first {A B} (m : prog (world DB) A)
    (f : A -> prog (world DB) B) w e :
  (m w).1 = Raise e -> assertRaises (m ≫= f) w = (Ok (), (m w).2).
Proof.
  intros Hm. unfold assertRaises.
  destruct (m w) as [r w1] eqn:Hrun. simpl in Hm. subst r.
  by rewrite (prog_bind_run_Raise f m w e w1 Hrun).
Qed.

(** C21: [test_executeScript] ends with [FileNotFoundError] on every
    engine: it writes its script into the temporary directory and hands
    the directory to [executeScript] as a parameter of the text, while
    the method reads [../sql/test_script.sql], which the test has not
    written.  The database is not reached. *)
Theorem test_executeScript_error (self : TestGeodatabase) w :
  temp_dir self <> "../sql" ->
  os_path_join (temp_dir self) "test_script.sql" ∉ read_only (system w) ->
  files (system w) !! "../sql/test_script.sql" = None ->
  exists w', test_executeScript self w = (Raise FileNotFoundError, w') /\
    database w' = database w.
Proof.
  intros Hdir Hro Hf. unfold test_executeScript, executeScript.
  step_with (write_file_step _ script_content w Hro). run.
  match goal with |- context [(on_system (read_file ?p) ≫= _) ?w2] =>
    assert (files (system w2) !! p = None) as Hf2
  end.
  { simpl. rewrite lookup_insert_ne; [done|]. unfold os_path_join.
    intros Heq. apply Hdir.
    by apply (app_string_inv_r _ "../sql" "/test_script.sql"). }
  step_with (read_file_missing _ _ Hf2). by eexists.
Qed.

End test_theorems.

(** On the store, with the directory [/tmp/tmpdir] and the
    recursion limit of Python, the runner reports twenty tests that
    pass and two that end with an error: [test_executeScript], whose
    script is not where [executeScript] reads, and [test_getTableHead],
    whose table has an [INTEGER PRIMARY KEY], after which SQLite names
    the row identifier, so that [getTableHead] finds no column
    [rowid]. *)
Theorem unittest_main_outcomes :
  (unittest_main default_recursion_limit test_tmp test_world).1 =
  Ok [ ("test_attach", ok); ("test_checksForTable", ok); ("test_close", ok);
       ("test_correctGeometry", ok); ("test_createSpatialIndex", ok);
       ("test_dropTable", ok); ("test_execute", ok);
       ("test_executeScript", ERROR FileNotFoundError);
       ("test_findConnectedComponents", ok);
       ("test_geometryCountOfErrors", ok);
       ("test_getColumnCountOfDistinctValues", ok);
       ("test_getColumnMaxLength", ok); ("test_getGeometriesMetadata", ok);
       ("test_getListOfColumns", ok); ("test_getListOfTables", ok);
       ("test_getTableCountOfRows", ok); ("test_getTableHead", ERROR KeyError);
       ("test_initialization", ok); ("test_inspectGeometry", ok);
       ("test_loadCsv", ok); ("test_loadEmbeddedCsv", ok);
       ("test_loadShp", ok) ].
Proof. by vm_compute. Qed.

(** ** Examples *)

(** A table that is [without rowid] is what [checksForTable] raises
    for: the method does what the last block of its test does not
    reach. *)
Example checksForTable_without_rowid :
  ((database_execute without_rowid_table;;
    checksForTable "test_table_without_rowid") fresh_world).1 =
  Raise (Exception (without_rowid_message "test_table_without_rowid")).
Proof. by vm_compute. Qed.

(** The tearing down leaves no file of the test behind. *)
Example test_loadCsv_leaves_nothing :
  files (system (run_test test_tmp (test_loadCsv (DB:=store)) test_world).2)
  = ∅.
Proof. by vm_compute. Qed.

(** The table that the two tests of csv load has a column whose name
    begins with eight spaces: the text of the tests is indented, and the
    reader keeps the white space before the first name of the header. *)
Example test_loadEmbeddedCsv_columns :
  ((loadEmbeddedCsv csv_content "test_embedded_csv" replace [("sep", ",")];;
    columns ← getListOfColumns "test_embedded_csv" false false;
    lift_result (columns_index columns)) fresh_world).1 =
  Ok [Text "        id"; Text "name"].
Proof. by vm_compute. Qed.

(** One table whose name is not an identifier is enough for the listing
    to fail, and with it the test whether any table exists: the count
    of its rows is asked for with the name as it is. *)
Example getListOfTables_two_words :
  (getListOfTables two_words_world).1 = Raise OperationalError /\
  (tableExists "other" two_words_world).1 = Raise OperationalError.
Proof. by vm_compute. Qed.

(** A table whose name is [idx] and one more character is left out of
    the list, the underscore of [LIKE 'idx_%'] standing for any
    character: the table holds a row and does not exist for
    [tableExists]. *)
Example tableExists_idx_hidden :
  (getTableCountOfRows "idxa" idx_world).1 = Ok (Int 1) /\
  (tableExists "idxa" idx_world).1 = Ok false.
Proof. by vm_compute. Qed.

Lemma test_executeScript_error_witness :
  exists w', test_executeScript test_self fresh_world
             = (Raise FileNotFoundError, w') /\
    database w' = database fresh_world.
Proof.
  apply (test_executeScript_error test_self fresh_world);
    [done | vm_compute; set_solver | by vm_compute].
Defined.
